(* ===== verification/_CoqProject ===== *)
-Q . S2P
Prelude.v
JsString.v
Regex.v
Isbn.v
Cost.v
JsValue.v
Dom.v
Modal.v
Query.v
Render.v
Search.v
Url.v
Encoding.v
Utf8.v
Decode.v
JsonLex.v
Json.v
JsonGrammar.v
Body.v
Async.v
Wire.v
Wiring.v
App.v
Loop.v
Equiv.v
Invariants.v
Machine.v
Form.v
Dispatch.v
