(* ===== verification/Prelude.v ===== *)
(** * FreeTextBookFinder: a verification development for [src/script.js]

    The program is one script of 203 lines that runs in a web page.  It
    has two parts that share the page and nothing else.  The modal
    controller (lines 5 to 36) shows and hides an about dialog and locks
    the scrolling of the body while the dialog is shown.  The search
    controller (lines 39 to 204) validates the ISBN field as the user
    types, empties the results on reset and, on submission, builds a
    query from the form, sends it to a search API and renders the
    answer, or an error message, into the results region.

    ** The files and what they model

    - [Prelude] (this file): the monad of the listeners.  A listener is
      a function from the state to an [outcome]: a value or an exception,
      each with the state left behind, so that a [catch] block sees the
      writes made before the [throw].  Also the lemmas on lists shared
      by the components ([drop_while], [strip], [filter], [forallb])
      and the tactics for tests on numbers ([tests]) and for division
      by constants ([divide]).
    - [JsString]: strings as lists of UTF-16 code units; the classes
      [\d] and [\s] of regular expressions, [trim] (lines 46, 73 to 75),
      truthiness (lines 47, 79, 86, 90, 96) and [!==] (line 98).
    - [Regex]: the two regular expression literals of lines 119 and 122
      are values of [regex]; [rmatch] is the backtracking matcher of
      the language definition, written with continuations as there;
      [regex_test] is [test], [replace_global] is [replace] with a
      global pattern.  [re_lang] is the language of a pattern and
      [rmatch_lang] shows that the matcher decides it.
    - [Isbn]: [isValidISBN] (lines 117 to 123), the composition of the
      two, with its characterisation and a reference implementation.
    - [Cost]: the matcher once more, with a counter of the atoms and
      assertions it evaluates ([rcost], [exec_counted],
      [replace_counted], [isValidISBN_counted]); the counter changes no
      result, and [attempt_bound] bounds it by the pattern alone.
    - [JsValue]: the values [response.json()] may give and what lines
      157, 176 and 192 to 196 do to them: property access [get] (which
      throws on [undefined] and [null]), [truthy], [is_zero], [js_or],
      and [to_string], the conversion a template literal applies.  A
      number is carried by its decimal image, the only thing the script
      observes of it.
    - [Dom]: [Page], the fields of the document the script reads and
      writes: class list of the dialog, overflow of the body, validity
      message of the ISBN field, presence of the search container, the
      results region ([None] when the page has no such element) and a
      log of the [effect]s on the outside (alert, console, fetch, ...).
      The [innerHTML] setter, getter and [+=], [appendChild] and the
      creation of the region (lines 135 to 141) are the operations.
      The classes [SearchSide] and, in [Modal], [ModalSide] state what
      a listener of one controller promises the other one: which side
      of the page it leaves alone and that its outcome depends on its
      own side only.
    - [Modal]: the four listeners as [aboutLink_click], [closeBtn_click],
      [window_click], [document_keydown]; [click] runs the listeners a
      click reaches (the one of its target, then the one of the window,
      to which it bubbles); [modal_handle] is the controller.
      [modal_step] is the two-state machine of the specification.
    - [Query]: lines 73 to 100 as [searchQuery], a function of the four
      field values to the query, or [None] when the query is empty.
    - [Render]: [displayResults] (lines 168 to 204) with the callback of
      [forEach] as [render_item]; [rendering] is what the specification
      asks for, on items that are well formed ([represents]).
    - [Search]: [searchForTextbook] (lines 127 to 164) and the listeners
      of lines 45 to 113.  An [async] function is two definitions, the
      part that runs until the request is sent ([_start]) and the part
      that runs when the answer is there ([_resume]); the answer is a
      [response]: the request failed, the body is not JSON, or the
      parsed value.  The configuration is the class [Env].
    - [Url]: the URL of line 148 as its receiver reads it: the part
      before [#], the query string after [?], cut at every [&] and
      each piece at its first [=] ([query_params]).
    - [Async]: the two [async] functions in one piece each
      ([searchForTextbook], [form_submit]), over a [task]: a computation
      that has ended or is suspended at an [await] with the rest of the
      function, which is given the page as it is when the promise is
      settled.  [task_eq] compares tasks up to how their continuations
      are written; [finish] runs a task to its end on the pages it
      finds; [split] is the function made of the two parts of
      [Search].
    - [Encoding]: UTF-8 of a string of code units ([utf8]),
      percent-encoding ([percent_encode]), [encodeURIComponent] and the
      decoding of a query string ([form_decode]).
    - [Utf8]: the way back from bytes: the decoder of UTF-8
      ([utf8_decode]), the code units of what it reads ([text_of]) and
      [toWellFormed], the string that arrives for a string sent.
    - [Decode]: the UTF-8 decoder of the platform, which reads every
      sequence of bytes: a state machine ([dec_state], [dec_step]) that
      gives U+FFFD for what is no UTF-8 ([utf8_lossy], [text_lossy]).
    - [JsonLex], [Json]: [JSON.parse], which [response.json()] runs on
      the body (line 154).  [lex] is the lexer, a state machine over
      the code units of the text ([lex_state], [lex_step]); [parse] is
      a pushdown automaton over the tokens ([parse_state], [parse_step],
      with the containers that wait for a value on its stack);
      [json_parse] is the two in a row.  [json_print] writes a value as
      [JSON.stringify] does, [json_text] are the texts of a value with
      white space added.
    - [JsonGrammar]: what [JSON.parse] promises, as a grammar: [chars]
      are the ways to write a string, [lexes] derives the tokens of a
      text, [reads] the value of a sequence of tokens, [denotes] the
      value of a text.
    - [Body]: the body of the response: [body_text] is the text of
      its bytes, [body_response] the [response] of [Search] for a
      text, [bytes_response] the same for the bytes, [body_arrives]
      the handler of the response run on them.
    - [Wire]: the request on the wire: what the URL parser behind
      [fetch] does to the query ([url_input], [request_query]) and what
      the receiver reads from a query string ([form_params]);
      [wire_params] is what the search API receives for a URL, as
      bytes, [wire_text] as text.
    - [Wiring]: the callback of [DOMContentLoaded] (lines 3 to 114) as
      far as it looks up elements and registers listeners:
      [DOMContentLoaded] is a computation over the list of listeners
      registered so far, for a document [Doc] that has or lacks each of
      the six elements the script looks up.
    - [App]: the event loop.  A state [App] is the page, the requests
      in flight and the exceptions that no listener caught; [app_step]
      runs the listener of one [event]; [Deliver i r] ends the i-th
      request in flight with response [r], so answers arrive in any
      order.  [step] and [steps] are the transition relation and its
      traces; [run] executes a list of events; [delivery] is the step
      the page takes without the user.
    - [Loop]: the event loop that keeps the suspended listeners
      themselves ([Loop], [loop_step]) and settles one promise at a
      time, so that events are handled between the arrival of a
      response and the reading of its body; [app_of] and [app_event]
      relate it to [App], [loop_trace] relates [App] to it;
      [loop_weight] counts the promises still to settle.
    - [Equiv]: states up to the log ([app_equiv]) and the [Proper]
      instances of the operations of [App].
    - [Invariants]: the invariants of every trace that concern the
      search: the accounting of requests, the views of the results
      region ([region_wf]), the validity message.
    - [Machine]: the state machine of the specification for the whole
      page ([machine_step]: dialog, flag of the ISBN field, view of the
      results region, number of unanswered searches) and the
      abstraction [abs] of a state of [App].
    - [Form]: the form as the user meets it.  The values of the four
      named controls are state ([Visit]); [fields_of] is lines 73 to
      76, the reads that throw when a control is missing;
      [user_step] gives, for an action of the user, the event a browser
      fires and the change of the controls.  Whether the browser
      validates the form and the default values of the controls are
      parameters, since the markup is not under [src/].
    - [Dispatch]: [dispatch], the step of a page on which only some
      listeners were registered (those [Wiring] computes).

    ** What the theorems show

    - ISBN validation: [isValidISBN] accepts exactly the strings whose
      characters other than hyphens and white space are ten or thirteen
      digits; it equals the reference test; trimming first changes
      nothing.  The matcher is proved correct for every pattern, not
      only for the two of the script.  It evaluates at most [2n + 27]
      atoms on an input of [n] code units ([isValidISBN_linear]), a
      bound that one input of every length meets.
    - Modal controller: the listeners never throw; scroll lock equals
      visibility after every event of every trace ([modal_consistent]);
      the listeners refine [modal_step]; the three dismissals agree;
      the class list never holds a token twice; the search controller's
      fields are left alone.
    - Query construction: the query on each branch, and that there is
      none exactly when the three text fields are blank.
    - Rendering: the outcome of [displayResults] on every value: absent,
      falsy or empty gives the message; an array of well-formed items
      gives [rendering]; anything else throws a [TypeError], after the
      heading was written.  The markup of an item is not injective;
      it is on text without [<] and links without a double quote,
      which [read_block] reads back from the block.
    - Search: every response leads to one of three contents of the
      results region (results, nothing found, error) and nothing is
      thrown once the request is sent; the shape of the URL, and that a
      [#] in the query cuts it; the two guards of the submission; the
      one path on which an exception escapes (no region and no search
      container).  Read by its delimiters, the URL of a query without
      [#] and [&] has the three parameters the script meant; an [&] in
      the query ends the [q] parameter ([api_url_ampersand]).
    - The request on the wire: for a query without [#], [&] and
      percent escape the search API receives the UTF-8 of the query
      with every [+] read as a space ([wire_params_api_url]); with
      [encodeURIComponent], which the comment of line 147 names, it
      would receive the query itself ([wire_params_encoded]); the two
      agree on the queries without [+], tab and line break that are
      well formed ([api_url_as_commented]).  An [&] makes a parameter
      of what follows it, a [#] ends the request before the key
      ([wire_params_ampersand], [wire_params_fragment]).  From the
      form to the API: fields without [#], [%], [&] and [+] arrive as
      the query built from them ([search_arrives]), and so does every
      search for an ISBN that passed the test
      ([isbn_search_arrives]).  Decoding
      undoes encoding for every set of characters kept that holds the
      hexadecimal digits ([form_decode_encode]).  As text the API
      reads the query itself, in whatever script it is written, with
      U+FFFD for a surrogate that has no partner
      ([query_text_arrives], [query_text_as_built]).
    - UTF-8: the decoder accepts the encoding of scalar values and
      nothing else, and the two are inverse ([utf8_encode_decode],
      [utf8_decode_encode]); it is injective; the bytes of a string
      are read as [toWellFormed] of the string ([text_of_utf8]).
      The decoder of the platform reads what the strict decoder reads
      where that succeeds ([utf8_lossy_decode]); on every input it
      gives scalar values ([utf8_lossy_scalar], by an invariant of
      its states), so that the text of a body never holds a surrogate
      without its partner ([text_lossy_sendable]).
    - The response body: the lexer reads a sequence of tokens, written
      with any white space around them, as these tokens
      ([lex_layout]); the parser reads the tokens of a value as the
      value ([parse_tokens]); so every text of a JSON value is parsed
      as the value ([json_parse_text], [json_parse_print]).  What the
      parser returns holds no [undefined], no function and no key
      twice ([json_parse_parsed], an invariant of the automaton).
      The lexer and the parser implement the grammar of
      [JsonGrammar], both ways ([lex_lexes], [parse_reads]):
      [json_parse] returns [v] exactly for the texts that denote [v]
      and throws for every other text ([json_parse_denotes],
      [json_parse_throws]); a text denotes one value at most.
      Composed with the handler of the response: a body whose text
      is a JSON text of an object with well-formed results puts the
      rendering of the results on the page ([served_rendered];
      [answer_rendered] starts from the results and their bytes); a
      body whose text is no JSON text shows the error message
      ([body_not_json_fails]); whatever the bytes, the handler
      returns ([body_shown]); the error object of the service shows
      that nothing was found ([body_api_error]).
    - Asynchronous functions: each function in one piece equals, as a
      task, the function made of its two parts ([form_submit_parts],
      [searchForTextbook_parts]); so it runs as its first part until it
      is suspended and ends as its second part on the page it finds
      last ([form_submit_split]), it waits at most twice, and what it
      does after the wait does not depend on the fields submitted.
      The loop that settles the response and its body separately is
      simulated by [App] ([loop_refines_app]): the invariants of [App]
      hold for it ([loop_no_uncaught], [loop_modal_consistent]), and it
      implements the machine of the specification
      ([loop_refines_machine]).  Conversely every trace of [App] is
      the image of a trace of the loop ([app_refines_loop]), so the two
      reach the same pages ([loop_app_same_pages]).  The settlements
      of promises form a well-founded relation
      ([settlements_terminate]) and are at most two for each submission
      ([settlements_bounded]).
    - Start-up: the callback returns, with the seven listeners
      registered, exactly when the page has the dialog, its link, its
      close control, the form and the ISBN field; otherwise it throws
      and an initial part of the listeners is registered.  The form
      comes last, so the search needs the elements of the dialog.
    - The page as a whole: the modal invariant (on a page with any
      set of registered listeners), the absence of uncaught exceptions
      and the well-formedness of the results region ([region_wf]: no
      half-finished rendering) hold along every trace; a delivery shows its
      response whatever was shown before, so the response that arrives
      last wins, also when it answers the older query; requests in
      flight can always end; a reset cancels nothing and leaves the
      validity message of the ISBN field in place; every request
      sent is in flight or was answered once ([requests_accounted]);
      [dispatch] with all listeners is [app_step].  States are compared
      up to the log ([page_equiv], [app_equiv], with [Proper] instances
      for every operation): the log is never read, and an event of the
      modal controller commutes with an event of the search controller.
      Responses alone cannot keep the page busy: the relation
      [delivery] is well founded ([deliveries_terminate]), and the
      requests sent never exceed the submissions ([requests_bounded]).
    - The specification as a machine: [app_step] followed by [abs]
      is [abs] followed by [machine_step], on every state that has a
      place for results ([app_refines_machine]); the machine leaves
      out the log, which [App] keeps.
    - The form: the actions of a user are a trace of [App]
      ([user_refines]) and a run of the machine
      ([visit_refines_machine]), so the invariants above hold along
      every visit.  The validity message is right about the value of the
      ISBN field whenever it is empty ([validity_tracks_value]); on a
      form the browser validates the alert of line 80 is therefore
      never raised ([submit_alert_unreachable]).  The message a reset
      leaves behind blocks every search until the ISBN field is edited
      ([reset_blocks_search]); a form without one of the named
      controls makes the submit listener throw
      ([search_without_control]).  A visit is also a run of the loop
      of [Loop] ([visit_refines_loop]).

    ** Assumptions and bounds

    - No definition takes fuel: [rmatch] recurses on the pattern and,
      for [{n}], on the count; [replace_walk] on the string; the event
      loop on the list of events.  Every theorem holds for strings and
      responses of any size.  Termination is a theorem where it is not
      by construction: for the responses of the event loop, by the
      number of requests in flight; for the settlements of [Loop], by
      the number of promises the listeners that wait have still to see
      settled.
    - The cost of a match is the number of atoms ([\d], a class) and
      assertions ([^], [$]) the matcher evaluates; the bookkeeping of
      an engine between them is not counted.
    - Markup assigned through [innerHTML] is kept as text ([Markup]);
      the HTML parser of the browser is not modelled.  Reading
      [innerHTML] back gives the text that was assigned; this is used
      once, for [+=] on line 177, where the text is the fixed heading.
    - In [Search] and [App] the two [await]s of lines 152 and 154 are
      one suspension; [Async] and [Loop] have both, and prove that the
      function does nothing between them that the page can observe.
    - The script runs as the bundler built it: [import.meta.env] is an
      object, and each of its two variables is a string or [undefined]
      (class [Env]).  Served as it stands, line 130 would throw before
      the [try] block on every search.
    - A promise is rejected with the exception the platform gives:
      [fetch] with a [TypeError], [json()] with a [SyntaxError].
    - In [App] a listener receives the values of the form fields with
      its event ([Input value], [Submit fields]) and a submission is
      possible at any time.  [Form] keeps the values as state and
      allows the submissions a browser allows; it assumes a page on
      which the start-up registered every listener, that the ISBN
      field found by [#isbn] is the control named [isbn], and that the
      custom validity message is the only constraint of the form.
    - [Url] reads a URL by its delimiters, as text.  [Wire] follows
      the URL standard for a URL whose scheme is special: the parser
      strips controls and spaces at both ends, removes tabs and line
      breaks, cuts the fragment and percent-encodes, in the query, the
      UTF-8 bytes of controls, space, the double quote, [#], the
      apostrophe, [<], [>] and everything above [~].  The receiver
      reads a query string as a form does: pieces between [&], empty
      ones skipped, cut at the first [=], [+] for a space, escapes
      decoded; [wire_params] gives the bytes it obtains, [wire_text]
      their text, where they are UTF-8.  The values of the build are
      assumed to hold characters that pass unchanged ([verbatim]).
    - The decoder of [Utf8] is strict, as a receiver of a query may
      be; the body of the response is read by the decoder of [Decode],
      which follows the Encoding Standard: a byte that cannot go on a
      character ends it with U+FFFD and is read again as the start of
      the next.  Strings that go through UTF-8 hold code units,
      numbers below 65536 ([code_units]); bytes are numbers, and a
      number above 255 is read as a byte that starts nothing.
    - [JSON.parse] turns a number literal into a double, of which the
      script can observe the decimal image only.  The conversion is
      the parameter [number_image] of the class [Numbers], with one
      law: an integer of at most fifteen digits, written without a
      leading zero, has itself as image.  The theorems hold for every
      conversion with this law; the examples use [as_written] and
      hold integers only.
    - Neither the lexer nor the parser takes fuel: the first recurses
      on the text, the second on the tokens, with the open containers
      on a stack, so that nesting of any depth is read.  The lexer
      takes the longest run of characters of numbers as one literal:
      in the grammar of tokens what follows a number is no such
      character, which every JSON text satisfies.
    - The source of a built-in function as text (reached when an item
      of the response is a string, through [String.prototype.link])
      depends on the engine; it is the parameter [native_source] of the
      class [Host].

    ** Not modelled

    The HTML document and the style sheet (not under [src/]): which
    elements exist and what values the controls start with are
    parameters ([Doc], [defaults], [validated]).  The search API, whose
    answer is universally quantified, and what it does with the
    parameters it receives; the transport, the status and the headers
    of the response, which the script does not read; the arithmetic
    of doubles.  The HTML
    parser: markup is text.  Constraints of the markup other than the custom
    validity message ([required], [pattern]).  The user interface of
    [alert] and of the validation bubble: both are entries of the log.
    Regular expression constructs the two patterns do not use. *)

From Stdlib Require Export List Bool Arith NArith Lia ZifyBool.
From stdpp Require Export prelude.
Export ListNotations.

Set Default Proof Using "Type".

(** ** Outcomes of a computation that may throw *)

(** A JavaScript computation over a mutable store either returns a value
    or throws; in both cases the store it leaves behind is observable
    (a [catch] handler runs on the store as it was when the exception
    was raised). *)
Inductive outcome (S E A : Type) : Type :=
| Returns (a : A) (s : S)
| Throws (e : E) (s : S).
Arguments Returns {S E A} a s.
Arguments Throws {S E A} e s.

Definition final_state {S E A} (o : outcome S E A) : S :=
  match o with Returns _ s | Throws _ s => s end.

Definition returned {S E A} (o : outcome S E A) : option A :=
  match o with Returns a _ => Some a | Throws _ _ => None end.

Definition thrown {S E A} (o : outcome S E A) : option E :=
  match o with Returns _ _ => None | Throws e _ => Some e end.

(** ** The state-and-exception monad of the handlers *)

Definition M (S E A : Type) : Type := S -> outcome S E A.

Section monad.
Context {S E : Type}.

Definition ret {A} (a : A) : M S E A := fun s => Returns a s.

Definition bind {A B} (c : M S E A) (k : A -> M S E B) : M S E B :=
  fun s => match c s with
           | Returns a s' => k a s'
           | Throws e s' => Throws e s'
           end.

Definition throw {A} (e : E) : M S E A := fun s => Throws e s.

(** [try { c } catch (e) { h e }] *)
Definition try_catch {A} (c : M S E A) (h : E -> M S E A) : M S E A :=
  fun s => match c s with
           | Returns a s' => Returns a s'
           | Throws e s' => h e s'
           end.

Definition gets {A} (f : S -> A) : M S E A := fun s => Returns (f s) s.
Definition modify (f : S -> S) : M S E unit := fun s => Returns tt (f s).

(** [a && b], where [b] reads the state: [b] runs only if [a] holds. *)
Definition and_then (a : bool) (b : M S E bool) : M S E bool :=
  if a then b else ret false.

End monad.

Declare Scope js_scope.
Delimit Scope js_scope with js.
Notation "x <- c ;; k" := (bind c (fun x => k))
  (at level 100, c at next level, k at level 200, right associativity) : js_scope.
Notation "c ;; k" := (bind c (fun _ => k))
  (at level 100, k at level 200, right associativity) : js_scope.

(** Unfolding the operations of the monad in a goal. *)
Ltac unfold_monad :=
  unfold bind, ret, throw, gets, modify, try_catch, and_then;
  cbn beta iota.

(** The monad laws, for runs. *)
Section monad_laws.
Context {S E A B C : Type}.

Lemma bind_ret_l (a : A) (k : A -> M S E B) s : bind (ret a) k s = k a s.
Proof. reflexivity. Qed.

Lemma bind_ret_r (c : M S E A) s : bind c ret s = c s.
Proof. unfold bind. by destruct (c s). Qed.

Lemma bind_assoc (c : M S E A) (k : A -> M S E B) (h : B -> M S E C) s :
  bind (bind c k) h s = bind c (fun a => bind (k a) h) s.
Proof. unfold bind. by destruct (c s). Qed.

Lemma bind_throw (e : E) (k : A -> M S E B) s : bind (throw e) k s = Throws e s.
Proof. reflexivity. Qed.

Lemma try_catch_ret (a : A) (h : E -> M S E A) s : try_catch (ret a) h s = Returns a s.
Proof. reflexivity. Qed.

Lemma try_catch_throw (e : E) (h : E -> M S E A) s : try_catch (throw e) h s = h e s.
Proof. reflexivity. Qed.

End monad_laws.

(** ** Options as booleans *)

Definition is_some {A} (o : option A) : bool :=
  match o with Some _ => true | None => false end.

Lemma is_some_true {A} (o : option A) : is_some o = true <-> is_Some o.
Proof. destruct o; simpl; split; try done; by inversion 1. Qed.

Lemma is_some_false {A} (o : option A) : is_some o = false <-> o = None.
Proof. by destruct o. Qed.

Lemma forallb_cons {A} (p : A -> bool) x l : forallb p (x :: l) = p x && forallb p l.
Proof. done. Qed.

Lemma forallb_cons_true {A} (p : A -> bool) x l :
  p x = true -> forallb p l = true -> forallb p (x :: l) = true.
Proof. intros Hx Hl. by rewrite forallb_cons, Hx. Qed.

(** A test of every character of a string made of pieces. *)
Ltac pieces :=
  rewrite ?forallb_app;
  repeat match goal with |- _ && _ = true => apply andb_true_iff; split end.

(** A test of each element of a list that is written out. *)
Ltac each :=
  lazymatch goal with
  | |- forallb _ (_ :: _) = true => apply forallb_cons_true; [|each]
  | |- forallb _ [] = true => reflexivity
  end.

Lemma forallb_always {A} (p : A -> bool) l : (forall x, p x = true) -> forallb p l = true.
Proof. intros H. apply forallb_forall. auto. Qed.

Lemma forallb_filter_keep {A} (p f : A -> bool) l :
  forallb p l = true -> forallb p (List.filter f l) = true.
Proof.
  rewrite !forallb_forall. intros H x [Hx _]%List.filter_In. auto.
Qed.

(** What holds of the elements a filter keeps holds, or the filter's
    test fails, of every element. *)
Lemma forallb_filtered {A} (p f : A -> bool) l :
  forallb p (List.filter f l) = true -> forallb (fun x => negb (f x) || p x) l = true.
Proof.
  rewrite !forallb_forall. intros H x Hx. destruct (f x) eqn:E; [|done].
  apply H, List.filter_In. by split.
Qed.

Lemma forallb_weaken {A} (p q : A -> bool) l :
  (forall x, p x = true -> q x = true) -> forallb p l = true -> forallb q l = true.
Proof. rewrite !forallb_forall. auto. Qed.

(** ** Arithmetic with division by constants *)

(** Goals on [N] with [/] and [mod] by constants. *)
Ltac divide := zify; Z.div_mod_to_equations; Z.quot_rem_to_equations; lia.

(** Comparisons on [N] that the context decides. *)
Ltac tests :=
  repeat match goal with
  | |- context [(?a <? ?b)%N] =>
      first [rewrite (proj2 (N.ltb_lt a b)) by lia | rewrite (proj2 (N.ltb_ge a b)) by lia]
  | |- context [(?a <=? ?b)%N] =>
      first [rewrite (proj2 (N.leb_le a b)) by lia | rewrite (proj2 (N.leb_gt a b)) by lia]
  | |- context [(?a =? ?b)%N] =>
      first [rewrite (proj2 (N.eqb_eq a b)) by lia | rewrite (proj2 (N.eqb_neq a b)) by lia]
  end.

(** ** Induction for functions that read one or two elements at a time *)

Lemma list_pair_ind {A} (P : list A -> Prop) :
  P [] -> (forall x, P [x]) ->
  (forall x y l, P l -> P (y :: l) -> P (x :: y :: l)) ->
  forall l, P l.
Proof.
  intros Hnil Hone Hstep l.
  cut (P l /\ forall x, P (x :: l)); [tauto|].
  induction l as [|y l [IH1 IH2]]; [by split|]. split; [apply IH2|].
  intros x. by apply Hstep.
Qed.

(** Induction on the length, for functions that read several elements
    at a time. *)
Lemma list_length_ind {A} (P : list A -> Prop) :
  (forall l, (forall l', length l' < length l -> P l') -> P l) -> forall l, P l.
Proof.
  intros H l. remember (length l) as n eqn:E. revert l E.
  induction n as [n IH] using lt_wf_ind. intros l ->. apply H. intros l' Hl'. by apply (IH _ Hl').
Qed.

(** ** Lists updated by index, and the sum of a measure over them *)

Lemma delete_insert_same {A} i (x : A) (l : list A) : delete i (<[i := x]> l) = delete i l.
Proof. revert i. induction l as [|y l IH]; intros [|i]; simpl; [done..|]. by rewrite IH. Qed.

Lemma sum_list_with_delete {A} (f : A -> nat) i x (l : list A) :
  l !! i = Some x -> sum_list_with f (delete i l) + f x = sum_list_with f l.
Proof.
  revert i. induction l as [|y l IH]; intros [|i] H; simplify_eq/=; [lia|].
  specialize (IH i H). lia.
Qed.

Lemma sum_list_with_insert {A} (f : A -> nat) i x y (l : list A) :
  l !! i = Some x -> sum_list_with f (<[i := y]> l) + f x = sum_list_with f l + f y.
Proof.
  revert i. induction l as [|z l IH]; intros [|i] H; simplify_eq/=; [lia|].
  specialize (IH i H). lia.
Qed.

(** ** Dropping and taking while a boolean test holds *)

Section while_ops.
Context {A : Type} (p : A -> bool).

Fixpoint drop_while (l : list A) : list A :=
  match l with
  | [] => []
  | x :: l' => if p x then drop_while l' else l
  end.

Fixpoint take_while (l : list A) : list A :=
  match l with
  | [] => []
  | x :: l' => if p x then x :: take_while l' else []
  end.

(** Dropping from the right end, as [trimEnd] does. *)
Definition drop_while_end (l : list A) : list A := rev (drop_while (rev l)).

Lemma take_drop_while l : take_while l ++ drop_while l = l.
Proof. induction l as [|x l IH]; simpl; [done|]. destruct (p x); simpl; congruence. Qed.

Lemma take_while_all l : forallb p (take_while l) = true.
Proof. induction l as [|x l IH]; simpl; [done|]. destruct (p x) eqn:Hx; simpl; [|done]. by rewrite Hx. Qed.

Lemma take_while_app_stop l x l' :
  forallb p l = true -> p x = false -> take_while (l ++ x :: l') = l.
Proof.
  intros Hl Hx. induction l as [|y l IH]; simpl in *; [by rewrite Hx|].
  apply andb_true_iff in Hl as [-> Hl]. by rewrite IH.
Qed.

Lemma take_while_id l : forallb p l = true -> take_while l = l.
Proof.
  intros Hl. induction l as [|y l IH]; simpl in *; [done|].
  apply andb_true_iff in Hl as [-> Hl]. by rewrite IH.
Qed.

Lemma drop_while_head l x l' : drop_while l = x :: l' -> p x = false.
Proof.
  induction l as [|y l IH]; simpl; [done|].
  destruct (p y) eqn:Hy; [done|]. intros [= <- <-]. done.
Qed.

Lemma drop_while_nil l : drop_while l = [] <-> forallb p l = true.
Proof.
  induction l as [|x l IH]; simpl; [done|].
  destruct (p x); simpl; [done|]. split; done.
Qed.

Lemma drop_while_id l x : p x = false -> drop_while (x :: l) = x :: l.
Proof. simpl. by intros ->. Qed.

Lemma drop_while_idemp l : drop_while (drop_while l) = drop_while l.
Proof.
  destruct (drop_while l) as [|x l'] eqn:E; [done|].
  apply drop_while_id. eapply drop_while_head, E.
Qed.

Lemma drop_while_app_stop l x l' :
  p x = false -> drop_while (l ++ x :: l') = drop_while l ++ x :: l'.
Proof.
  intros Hx. induction l as [|y l IH]; simpl; [by rewrite Hx|].
  by destruct (p y).
Qed.

Lemma drop_while_suffix l : exists pre, l = pre ++ drop_while l /\ forallb p pre = true.
Proof. exists (take_while l). split; [by rewrite take_drop_while | apply take_while_all]. Qed.

Lemma filter_drop_while (q : A -> bool) l :
  (forall x, p x = true -> q x = false) ->
  List.filter q (drop_while l) = List.filter q l.
Proof.
  intros Hpq. induction l as [|x l IH]; simpl; [done|].
  destruct (p x) eqn:Hx; [|done]. by rewrite (Hpq x Hx).
Qed.

Lemma filter_drop_while_end (q : A -> bool) l :
  (forall x, p x = true -> q x = false) ->
  List.filter q (drop_while_end l) = List.filter q l.
Proof.
  intros Hpq. unfold drop_while_end.
  rewrite filter_rev, filter_drop_while, <- filter_rev, rev_involutive; done.
Qed.

Lemma forallb_rev l : forallb p (rev l) = forallb p l.
Proof.
  induction l as [|x l IH]; simpl; [done|].
  rewrite forallb_app, IH. simpl. rewrite andb_true_r. apply andb_comm.
Qed.

Lemma drop_while_end_nil l : drop_while_end l = [] <-> forallb p l = true.
Proof.
  unfold drop_while_end. rewrite <- (forallb_rev l), <- drop_while_nil.
  split; [|by intros ->].
  intros H. apply (f_equal (@rev A)) in H. by rewrite rev_involutive in H.
Qed.

Lemma drop_while_end_cons x l :
  p x = false -> drop_while_end (x :: l) = x :: drop_while_end l.
Proof.
  intros Hx. unfold drop_while_end. simpl.
  by rewrite drop_while_app_stop, rev_app_distr.
Qed.

Lemma drop_while_end_snoc l x : p x = false -> drop_while_end (l ++ [x]) = l ++ [x].
Proof.
  intros Hx. unfold drop_while_end. rewrite rev_unit. simpl. rewrite Hx.
  simpl. by rewrite rev_involutive.
Qed.

(** Nothing is dropped from a list that ends with elements the test
    refuses. *)
Lemma drop_while_end_app_keep l t :
  t <> [] -> forallb (fun x => negb (p x)) t = true ->
  drop_while_end (l ++ t) = l ++ t.
Proof.
  intros Ht Hp. destruct (exists_last Ht) as (t' & x & ->).
  rewrite forallb_app in Hp. apply andb_true_iff in Hp as [_ Hx]. simpl in Hx.
  rewrite app_assoc. apply drop_while_end_snoc.
  by destruct (p x).
Qed.

Lemma drop_while_end_last l x l' : drop_while_end l = l' ++ [x] -> p x = false.
Proof.
  unfold drop_while_end. intros H.
  apply (f_equal (@rev A)) in H. rewrite rev_involutive, rev_unit in H.
  eapply drop_while_head, H.
Qed.

Lemma drop_while_end_idemp l : drop_while_end (drop_while_end l) = drop_while_end l.
Proof. unfold drop_while_end. by rewrite rev_involutive, drop_while_idemp. Qed.

Lemma drop_while_end_prefix l :
  exists post, l = drop_while_end l ++ post /\ forallb p post = true.
Proof.
  destruct (drop_while_suffix (rev l)) as (pre & E & Hpre).
  exists (rev pre). split; [|by rewrite forallb_rev].
  unfold drop_while_end. rewrite <- rev_app_distr, <- E. by rewrite rev_involutive.
Qed.

(** Trimming both ends: the result is a fixed point, and neither of its
    ends satisfies the test. *)
Definition strip (l : list A) : list A := drop_while_end (drop_while l).

Lemma strip_between x l t :
  p x = false -> t <> [] -> forallb (fun y => negb (p y)) t = true ->
  strip (x :: l ++ t) = x :: l ++ t.
Proof.
  intros Hx Ht Hp. unfold strip. rewrite drop_while_id by done.
  by apply (drop_while_end_app_keep (x :: l) t).
Qed.

Lemma strip_head l x l' : strip l = x :: l' -> p x = false.
Proof.
  unfold strip. destruct (drop_while l) as [|y t] eqn:E.
  - done.
  - pose proof (drop_while_head _ _ _ E) as Hy.
    rewrite drop_while_end_cons by done. by intros [= <- _].
Qed.

Lemma strip_last l x l' : strip l = l' ++ [x] -> p x = false.
Proof. apply drop_while_end_last. Qed.

Lemma strip_nil l : strip l = [] <-> forallb p l = true.
Proof. unfold strip. by rewrite drop_while_end_nil, <- !drop_while_nil, drop_while_idemp. Qed.

Lemma strip_idemp l : strip (strip l) = strip l.
Proof.
  unfold strip at 1. destruct (strip l) as [|x t] eqn:E.
  - done.
  - rewrite (drop_while_id _ _ (strip_head _ _ _ E)).
    rewrite <- E. apply drop_while_end_idemp.
Qed.

Lemma strip_decompose l :
  exists pre post, l = pre ++ strip l ++ post /\
    forallb p pre = true /\ forallb p post = true.
Proof.
  destruct (drop_while_suffix l) as (pre & E1 & Hpre).
  destruct (drop_while_end_prefix (drop_while l)) as (post & E2 & Hpost).
  exists pre, post. split; [|done]. unfold strip. by rewrite <- E2.
Qed.

Lemma forallb_strip (q : A -> bool) l : forallb q l = true -> forallb q (strip l) = true.
Proof.
  destruct (strip_decompose l) as (pre & post & E & _). rewrite E at 1.
  rewrite !forallb_app. by intros [_ [? _]%andb_true_iff]%andb_true_iff.
Qed.

Lemma filter_strip (q : A -> bool) l :
  (forall x, p x = true -> q x = false) ->
  List.filter q (strip l) = List.filter q l.
Proof.
  intros Hpq. unfold strip.
  by rewrite filter_drop_while_end, filter_drop_while.
Qed.

End while_ops.
