(* ===== verification/JsString.v ===== *)
(** * JavaScript strings

    A JavaScript string is a sequence of UTF-16 code units.  This file
    holds the string operations [src/script.js] relies on: literals, the
    character classes [\d] and [\s], [String.prototype.trim], truthiness
    of a string and strict equality of strings. *)

From Stdlib Require Import String Ascii.
From S2P Require Import Prelude.

(** A code unit is a number below 65536; the operations below never
    depend on that bound, so the type is plain [N]. *)
Definition code_unit : Type := N.
Bind Scope N_scope with code_unit.
Definition jsstring : Type := list code_unit.

(** An ASCII literal of the source, as a JavaScript string. *)
Definition lit (s : string) : jsstring :=
  map N_of_ascii (list_ascii_of_string s).

#[global] Arguments lit : simpl never.

(** The double quote, which the template literal of the ISBN query
    contains. *)
Definition dquote : jsstring := [34%N].

(** ** Character classes *)

Definition in_range (lo hi c : code_unit) : bool :=
  (lo <=? c)%N && (c <=? hi)%N.

(** [\d]: the ten ASCII digits (the patterns of the source have no
    [u] or [v] flag). *)
Definition is_digit (c : code_unit) : bool := in_range 48 57 c.

(** ECMAScript [WhiteSpace]: TAB, VT, FF, ZWNBSP and the Unicode space
    separators. *)
Definition is_white_space (c : code_unit) : bool :=
  (c =? 9)%N || (c =? 11)%N || (c =? 12)%N || (c =? 32)%N || (c =? 160)%N
  || (c =? 5760)%N || in_range 8192 8202 c || (c =? 8239)%N
  || (c =? 8287)%N || (c =? 12288)%N || (c =? 65279)%N.

(** ECMAScript [LineTerminator]: LF, CR, LS, PS. *)
Definition is_line_terminator (c : code_unit) : bool :=
  (c =? 10)%N || (c =? 13)%N || (c =? 8232)%N || (c =? 8233)%N.

(** [\s], and what [trim] strips: white space and line terminators. *)
Definition is_space (c : code_unit) : bool :=
  is_white_space c || is_line_terminator c.

(** The code units other than [c]. *)
Definition is_not (c : code_unit) (x : code_unit) : bool := negb (x =? c)%N.

(** ** String operations *)

(** [s.trim()] *)
Definition trim (s : jsstring) : jsstring := strip is_space s.

(** [ToBoolean] of a string: the empty string is the only falsy one. *)
Definition str_truthy (s : jsstring) : bool :=
  match s with [] => false | _ :: _ => true end.

(** [a === b] on strings. *)
Definition str_eqb (a b : jsstring) : bool := bool_decide (a = b).

(** ** Facts *)

Lemma is_digit_not_space c : is_digit c = true -> is_space c = false.
Proof.
  unfold is_digit, is_space, is_white_space, is_line_terminator, in_range.
  lia.
Qed.

Lemma str_truthy_false s : str_truthy s = false <-> s = [].
Proof. by destruct s. Qed.

Lemma str_truthy_true s : str_truthy s = true <-> s <> [].
Proof. by destruct s. Qed.

Lemma str_eqb_eq a b : str_eqb a b = true <-> a = b.
Proof. unfold str_eqb. apply bool_decide_eq_true. Qed.

Lemma str_eqb_neq a b : str_eqb a b = false <-> a <> b.
Proof. unfold str_eqb. apply bool_decide_eq_false. Qed.

(** *** [trim] *)

Lemma trim_idemp s : trim (trim s) = trim s.
Proof. apply strip_idemp. Qed.

Lemma trim_head s c s' : trim s = c :: s' -> is_space c = false.
Proof. apply strip_head. Qed.

Lemma trim_last s c s' : trim s = s' ++ [c] -> is_space c = false.
Proof. apply strip_last. Qed.

Lemma trim_nil s : trim s = [] <-> forallb is_space s = true.
Proof. apply strip_nil. Qed.

Lemma trim_decompose s :
  exists pre post, s = pre ++ trim s ++ post /\
    forallb is_space pre = true /\ forallb is_space post = true.
Proof. apply strip_decompose. Qed.

Lemma trim_falsy_iff_blank s :
  str_truthy (trim s) = false <-> forallb is_space s = true.
Proof. by rewrite str_truthy_false, trim_nil. Qed.

Lemma trim_fixed s :
  (forall c s', s = c :: s' -> is_space c = false) ->
  (forall c s', s = s' ++ [c] -> is_space c = false) ->
  trim s = s.
Proof.
  intros Hh Hl. unfold trim, strip.
  destruct s as [|c s]; [done|].
  rewrite (drop_while_id _ _ _ (Hh _ _ eq_refl)).
  unfold drop_while_end.
  destruct (rev (c :: s)) as [|d t] eqn:E.
  { apply (f_equal (@rev _)) in E. by rewrite rev_involutive in E. }
  assert (c :: s = rev t ++ [d]) as E'
    by (apply (f_equal (@rev _)) in E; by rewrite rev_involutive in E).
  rewrite (drop_while_id _ _ _ (Hl _ _ E')). simpl. by rewrite E'.
Qed.

(** ** Theorems *)

(** [trim] removes white space and line terminators from both ends
    and nothing else: the string is the trimmed string between two runs
    of such characters, the trimmed string neither starts nor ends with
    one, and trimming again changes nothing. *)
Theorem trim_spec s :
  (exists pre post, s = pre ++ trim s ++ post /\
     forallb is_space pre = true /\ forallb is_space post = true) /\
  (forall c s', trim s = c :: s' -> is_space c = false) /\
  (forall c s', trim s = s' ++ [c] -> is_space c = false) /\
  trim (trim s) = trim s.
Proof.
  split_and!; [apply trim_decompose|apply trim_head|apply trim_last|apply trim_idemp].
Qed.
