(* ===== verification/Regex.v ===== *)
(** * Regular expressions, as the script uses them

    The two patterns of [isValidISBN] are built from character classes,
    the anchors [^] and [$], alternation, grouping and the counted
    quantifier [{n}].  [rmatch] is the backtracking matcher of the
    ECMAScript specification (each pattern is a function of a match
    state and a continuation), [regex_test] is [RegExp.prototype.test]
    for a pattern without flags, [replace_global] is
    [String.prototype.replace] with a pattern that has the [g] flag and
    a replacement string without [$] patterns.  [re_lang] is the language
    a pattern denotes; [rmatch_lang] states that the matcher decides
    it. *)

From Stdlib Require Import String.
From S2P Require Import Prelude JsString.

(** ** Patterns *)

Inductive regex : Type :=
| Chr (cls : code_unit -> bool)   (* a class atom: [\d], [[-\s]], a character *)
| Bol                             (* [^], without the multiline flag *)
| Eol                             (* [$], without the multiline flag *)
| Seq (r1 r2 : regex)             (* r1 followed by r2 *)
| Alt (r1 r2 : regex)             (* r1|r2 *)
| Group (r : regex)               (* (r) *)
| Rep (r : regex) (n : nat).      (* r{n} *)

(** A match state: how many code units of the input lie before the
    current position, and the input from the current position on. *)
Record mstate : Type := MState { endIndex : nat; remaining : jsstring }.

Definition cont : Type := mstate -> option mstate.

(** ** The matcher *)

Fixpoint rmatch (r : regex) (x : mstate) (c : cont) : option mstate :=
  match r with
  | Chr cls =>
      match remaining x with
      | ch :: s' => if cls ch then c (MState (S (endIndex x)) s') else None
      | [] => None
      end
  | Bol => if (endIndex x =? 0)%nat then c x else None
  | Eol => match remaining x with [] => c x | _ :: _ => None end
  | Seq r1 r2 => rmatch r1 x (fun y => rmatch r2 y c)
  | Alt r1 r2 =>
      match rmatch r1 x c with
      | Some y => Some y
      | None => rmatch r2 x c
      end
  | Group r1 => rmatch r1 x c
  | Rep r1 n =>
      (fix rep (n : nat) (x : mstate) : option mstate :=
         match n with
         | O => c x
         | S n' => rmatch r1 x (rep n')
         end) n x
  end.

(** [RegExpBuiltinExec] without the [g] and [y] flags: try the pattern
    at index 0, 1, ... up to the length of the input; the result is the
    index of the first match and the state at its end. *)
Fixpoint exec_from (r : regex) (pos : nat) (s : jsstring) : option (nat * mstate) :=
  match rmatch r (MState pos s) Some with
  | Some y => Some (pos, y)
  | None =>
      match s with
      | [] => None
      | _ :: s' => exec_from r (S pos) s'
      end
  end.

(** [r.test(s)] *)
Definition regex_test (r : regex) (s : jsstring) : bool :=
  is_some (exec_from r 0 s).

(** [s.replace(r, repl)] for a pattern with the [g] flag: every match,
    found left to right from the end of the previous one, is replaced by
    [repl]; after an empty match the search resumes one code unit
    further.  [skip] counts the code units of the current match still to
    be dropped. *)
Fixpoint replace_walk (r : regex) (repl : jsstring) (pos skip : nat)
    (s : jsstring) : jsstring :=
  match skip with
  | S k =>
      match s with
      | [] => []
      | _ :: s' => replace_walk r repl (S pos) k s'
      end
  | O =>
      match rmatch r (MState pos s) Some with
      | Some y =>
          repl ++
          match s with
          | [] => []
          | ch :: s' =>
              if (endIndex y =? pos)%nat
              then ch :: replace_walk r repl (S pos) 0 s'
              else replace_walk r repl (S pos) (endIndex y - pos - 1) s'
          end
      | None =>
          match s with
          | [] => []
          | ch :: s' => ch :: replace_walk r repl (S pos) 0 s'
          end
      end
  end.

Definition replace_global (r : regex) (repl s : jsstring) : jsstring :=
  replace_walk r repl 0 0 s.

(** ** The language of a pattern *)

(** [re_lang r pos w rest]: the pattern [r] matches the word [w], when
    [pos] code units precede [w] in the input and [rest] follows it. *)
Inductive re_lang : regex -> nat -> jsstring -> jsstring -> Prop :=
| L_Chr cls ch pos rest :
    cls ch = true -> re_lang (Chr cls) pos [ch] rest
| L_Bol rest : re_lang Bol 0 [] rest
| L_Eol pos : re_lang Eol pos [] []
| L_Seq r1 r2 pos w1 w2 rest :
    re_lang r1 pos w1 (w2 ++ rest) ->
    re_lang r2 (pos + length w1) w2 rest ->
    re_lang (Seq r1 r2) pos (w1 ++ w2) rest
| L_Alt_l r1 r2 pos w rest : re_lang r1 pos w rest -> re_lang (Alt r1 r2) pos w rest
| L_Alt_r r1 r2 pos w rest : re_lang r2 pos w rest -> re_lang (Alt r1 r2) pos w rest
| L_Group r pos w rest : re_lang r pos w rest -> re_lang (Group r) pos w rest
| L_Rep_O r pos rest : re_lang (Rep r 0) pos [] rest
| L_Rep_S r n pos w1 w2 rest :
    re_lang r pos w1 (w2 ++ rest) ->
    re_lang (Rep r n) (pos + length w1) w2 rest ->
    re_lang (Rep r (S n)) pos (w1 ++ w2) rest.

#[export] Hint Constructors re_lang : core.

(** [accepts r x P]: some word of the language of [r], read from the
    state [x], leads to a state that satisfies [P]. *)
Definition accepts (r : regex) (x : mstate) (P : mstate -> Prop) : Prop :=
  exists w rest,
    remaining x = w ++ rest /\
    re_lang r (endIndex x) w rest /\
    P (MState (endIndex x + length w) rest).

(** ** [accepts], constructor by constructor *)

#[export] Instance accepts_proper r x :
  Proper (pointwise_relation mstate iff ==> iff) (accepts r x).
Proof.
  intros P Q HPQ. unfold accepts.
  split; intros (w & rest & ? & ? & ?); exists w, rest; split_and!; try done;
    by apply HPQ.
Qed.

Lemma accepts_Chr cls x P :
  accepts (Chr cls) x P <->
  exists ch s', remaining x = ch :: s' /\ cls ch = true /\
                P (MState (S (endIndex x)) s').
Proof.
  unfold accepts. split.
  - intros (w & rest & Hs & HL & HP). inversion HL; subst.
    rewrite Nat.add_1_r in HP. by exists ch, rest.
  - intros (ch & s' & Hs & Hc & HP). exists [ch], s'.
    rewrite Nat.add_1_r. by split_and!; [|constructor|].
Qed.

Lemma accepts_nil_word r x P :
  re_lang r (endIndex x) [] (remaining x) -> P x -> accepts r x P.
Proof.
  intros HL HP. exists [], (remaining x). rewrite Nat.add_0_r.
  by destruct x.
Qed.

Lemma accepts_Bol x P : accepts Bol x P <-> endIndex x = 0 /\ P x.
Proof.
  split.
  - intros (w & rest & Hs & HL & HP). inversion HL; subst.
    destruct x as [pos s]; simpl in *. by subst.
  - intros [H0 HP]. apply accepts_nil_word; [|done]. rewrite H0. constructor.
Qed.

Lemma accepts_Eol x P : accepts Eol x P <-> remaining x = [] /\ P x.
Proof.
  split.
  - intros (w & rest & Hs & HL & HP). inversion HL; subst.
    destruct x as [pos s]; simpl in *. subst. by rewrite Nat.add_0_r in HP.
  - intros [H0 HP]. apply accepts_nil_word; [|done]. rewrite H0. constructor.
Qed.

Lemma accepts_Alt r1 r2 x P :
  accepts (Alt r1 r2) x P <-> accepts r1 x P \/ accepts r2 x P.
Proof.
  unfold accepts. split.
  - intros (w & rest & Hs & HL & HP). inversion HL; subst; [left|right];
      by exists w, rest.
  - intros [(w & rest & ? & ? & ?)|(w & rest & ? & ? & ?)];
      exists w, rest; split_and!; auto.
Qed.

Lemma accepts_Group r x P : accepts (Group r) x P <-> accepts r x P.
Proof.
  unfold accepts. split; intros (w & rest & Hs & HL & HP); exists w, rest;
    split_and!; auto. by inversion HL.
Qed.

(** Reading a word of [r1] then a word of [r2]: the shape shared by
    sequences and by the successor case of the counted quantifier. *)
Lemma accepts_then r1 r2 x P :
  accepts r1 x (fun y => accepts r2 y P) <->
  exists w1 w2 rest,
    remaining x = (w1 ++ w2) ++ rest /\
    re_lang r1 (endIndex x) w1 (w2 ++ rest) /\
    re_lang r2 (endIndex x + length w1) w2 rest /\
    P (MState (endIndex x + length (w1 ++ w2)) rest).
Proof.
  unfold accepts. simpl. split.
  - intros (w1 & rest1 & Hs & HL1 & w2 & rest & -> & HL2 & HP).
    exists w1, w2, rest. rewrite length_app, Nat.add_assoc, <- app_assoc. done.
  - intros (w1 & w2 & rest & Hs & HL1 & HL2 & HP).
    rewrite length_app, Nat.add_assoc, <- app_assoc in *.
    exists w1, (w2 ++ rest). split_and!; try done. by exists w2, rest.
Qed.

Lemma accepts_Seq r1 r2 x P :
  accepts (Seq r1 r2) x P <-> accepts r1 x (fun y => accepts r2 y P).
Proof.
  rewrite accepts_then. unfold accepts. split.
  - intros (w & rest & Hs & HL & HP). inversion HL; subst.
    by exists w1, w2, rest.
  - intros (w1 & w2 & rest & Hs & HL1 & HL2 & HP).
    exists (w1 ++ w2), rest. split_and!; try done. by constructor.
Qed.

Lemma accepts_Rep_O r x P : accepts (Rep r 0) x P <-> P x.
Proof.
  split.
  - intros (w & rest & Hs & HL & HP). inversion HL; subst.
    destruct x as [pos s]; simpl in *. subst. by rewrite Nat.add_0_r in HP.
  - intros HP. apply accepts_nil_word; [constructor|done].
Qed.

Lemma accepts_Rep_S r n x P :
  accepts (Rep r (S n)) x P <-> accepts r x (fun y => accepts (Rep r n) y P).
Proof.
  rewrite accepts_then. unfold accepts. split.
  - intros (w & rest & Hs & HL & HP). inversion HL; subst.
    by exists w1, w2, rest.
  - intros (w1 & w2 & rest & Hs & HL1 & HL2 & HP).
    exists (w1 ++ w2), rest. split_and!; try done. by constructor.
Qed.

(** ** The matcher decides the language *)

Lemma rmatch_Rep_S r n x c :
  rmatch (Rep r (S n)) x c = rmatch r x (fun y => rmatch (Rep r n) y c).
Proof. reflexivity. Qed.

Lemma is_Some_orelse {A} (a b : option A) :
  is_Some (match a with Some y => Some y | None => b end) <->
  is_Some a \/ is_Some b.
Proof.
  destruct a; split; eauto. intros [[? ?]|?]; [done|auto].
Qed.

Lemma rmatch_lang r x c :
  is_Some (rmatch r x c) <-> accepts r x (fun y => is_Some (c y)).
Proof.
  revert x c. induction r as [cls| | |r1 IH1 r2 IH2|r1 IH1 r2 IH2|r IH|r IH n];
    intros x c.
  - rewrite accepts_Chr. simpl. destruct (remaining x) as [|ch s'].
    + split; [by intros [? ?]|by intros (? & ? & ? & _)].
    + destruct (cls ch) eqn:E.
      * split; [by exists ch, s'|by intros (? & ? & [= <- <-] & _ & ?)].
      * split; [by intros [? ?]|intros (? & ? & [= <- <-] & ? & _); congruence].
  - rewrite accepts_Bol. simpl. destruct (Nat.eqb_spec (endIndex x) 0).
    + tauto.
    + split; [by intros [? ?]|tauto].
  - rewrite accepts_Eol. simpl. destruct (remaining x).
    + tauto.
    + split; [by intros [? ?]|by intros [? _]].
  - rewrite accepts_Seq. simpl. rewrite IH1. by setoid_rewrite IH2.
  - rewrite accepts_Alt. simpl. by rewrite is_Some_orelse, IH1, IH2.
  - rewrite accepts_Group. apply IH.
  - revert x. induction n as [|n IHn]; intros x.
    + by rewrite accepts_Rep_O.
    + rewrite rmatch_Rep_S, accepts_Rep_S, IH. by setoid_rewrite IHn.
Qed.

(** ** [test] *)

Lemma exec_from_is_Some r pos s :
  is_Some (exec_from r pos s) <->
  exists pre suf, s = pre ++ suf /\
    is_Some (rmatch r (MState (pos + length pre) suf) Some).
Proof.
  revert pos. induction s as [|ch s IH]; intros pos; simpl.
  - destruct (rmatch r (MState pos []) Some) as [y|] eqn:E.
    + split; [intros _|by eauto]. exists [], []. simpl. by rewrite Nat.add_0_r, E.
    + split; [by intros [? ?]|]. intros ([|??] & [|??] & [=] & H).
      simpl in H. by rewrite Nat.add_0_r, E in H.
  - destruct (rmatch r (MState pos (ch :: s)) Some) as [y|] eqn:E.
    + split; [intros _|by eauto]. exists [], (ch :: s). simpl.
      by rewrite Nat.add_0_r, E.
    + rewrite IH. split.
      * intros (pre & suf & -> & H). exists (ch :: pre), suf. simpl.
        by rewrite Nat.add_succ_r.
      * intros ([|c pre] & suf & Hs & H); simpl in *.
        { subst suf. by rewrite Nat.add_0_r, E in H. }
        injection Hs as <- ->. exists pre, suf. by rewrite Nat.add_succ_r in H.
Qed.

(** [r.test(s)] holds exactly when some infix of [s] is a word of [r]
    in its context. *)
Lemma regex_test_lang r s :
  regex_test r s = true <->
  exists pre w rest, s = pre ++ w ++ rest /\ re_lang r (length pre) w rest.
Proof.
  unfold regex_test. rewrite is_some_true, exec_from_is_Some. simpl. split.
  - intros (pre & suf & -> & H). apply rmatch_lang in H as (w & rest & Hs & HL & _).
    simpl in *. subst suf. by exists pre, w, rest.
  - intros (pre & w & rest & -> & HL). exists pre, (w ++ rest). split; [done|].
    apply rmatch_lang. by exists w, rest.
Qed.

(** A pattern anchored at both ends tests the whole string. *)
Lemma regex_test_anchored r s :
  regex_test (Seq Bol (Seq r Eol)) s = true <-> re_lang r 0 s [].
Proof.
  rewrite regex_test_lang. split.
  - intros (pre & w & rest & -> & HL).
    inversion HL as [| | |? ? ? w1 w2 ? HB HS| | | | |]; subst.
    inversion HB; subst. destruct pre; [|done]. simpl in *.
    inversion HS as [| | |? ? ? w3 w4 ? Hr HE| | | | |]; subst.
    inversion HE; subst. by rewrite !app_nil_r in *.
  - intros HL. exists [], s, []. split; [by rewrite app_nil_r|].
    apply (L_Seq Bol (Seq r Eol) 0 [] s []); [constructor|].
    rewrite <- (app_nil_r s). apply (L_Seq r Eol _ s [] []); [done|constructor].
Qed.

Lemma re_lang_Group r pos w rest :
  re_lang (Group r) pos w rest <-> re_lang r pos w rest.
Proof. split; [by inversion 1|by constructor]. Qed.

Lemma re_lang_Alt r1 r2 pos w rest :
  re_lang (Alt r1 r2) pos w rest <->
  re_lang r1 pos w rest \/ re_lang r2 pos w rest.
Proof. split; [inversion 1; auto|intros [?|?]; auto]. Qed.

(** The language of a counted class: [n] code units of the class. *)
Lemma re_lang_Rep_Chr cls n pos w rest :
  re_lang (Rep (Chr cls) n) pos w rest <->
  length w = n /\ forallb cls w = true.
Proof.
  revert pos w. induction n as [|n IH]; intros pos w.
  - split.
    + by inversion 1.
    + intros [Hl _]. destruct w; [constructor|done].
  - split.
    + inversion 1 as [| | | | | | | |? ? ? w1 w2 ? H1 H2]; subst.
      inversion H1; subst. apply IH in H2 as [<- Hw]. simpl.
      by rewrite Hw, andb_true_r.
    + intros [Hl Hw]. destruct w as [|ch w]; [done|]. simpl in *.
      apply andb_true_iff in Hw as [Hc Hw]. injection Hl as Hl.
      change (ch :: w) with ([ch] ++ w). constructor; [by constructor|].
      apply IH. done.
Qed.

(** ** [replace] with the [g] flag *)

(** With a single class as the pattern, every code unit of the class is
    replaced and the others are kept. *)
Lemma replace_walk_Chr cls repl pos s :
  replace_walk (Chr cls) repl pos 0 s =
  flat_map (fun ch => if cls ch then repl else [ch]) s.
Proof.
  revert pos. induction s as [|ch s IH]; intros pos; [done|].
  cbn [replace_walk rmatch remaining endIndex flat_map].
  destruct (cls ch); cbn [endIndex app]; [|by rewrite IH].
  rewrite (proj2 (Nat.eqb_neq (S pos) pos)) by lia.
  replace (S pos - pos - 1) with 0 by lia. by rewrite IH.
Qed.

Lemma replace_global_Chr_nil cls s :
  replace_global (Chr cls) [] s = List.filter (fun ch => negb (cls ch)) s.
Proof.
  unfold replace_global. rewrite replace_walk_Chr.
  induction s as [|ch s IH]; simpl; [done|].
  destruct (cls ch); simpl; by rewrite IH.
Qed.

(** Where the pattern matches nowhere, nothing is replaced. *)
Lemma replace_walk_no_match r repl pos s :
  exec_from r pos s = None -> replace_walk r repl pos 0 s = s.
Proof.
  revert pos. induction s as [|ch s IH]; intros pos; simpl.
  - by destruct (rmatch r (MState pos []) Some).
  - destruct (rmatch r (MState pos (ch :: s)) Some); [done|].
    intros H. by rewrite IH.
Qed.

Lemma replace_global_no_match r repl s :
  regex_test r s = false -> replace_global r repl s = s.
Proof.
  unfold regex_test. rewrite is_some_false. apply replace_walk_no_match.
Qed.

(** ** Theorems *)

(** The backtracking matcher decides the language of a pattern:
    [r.test(s)] holds exactly when some part of [s] is a word of [r] in
    its context, and for a pattern anchored at both ends exactly when
    the whole of [s] is. *)
Theorem regex_test_decides r s :
  (regex_test r s = true <->
   exists pre w rest, s = pre ++ w ++ rest /\ re_lang r (length pre) w rest) /\
  (regex_test (Seq Bol (Seq r Eol)) s = true <-> re_lang r 0 s []).
Proof. split; [apply regex_test_lang|apply regex_test_anchored]. Qed.

(** A global replacement whose pattern is one character class
    replaces every code unit of the class and keeps the others, in
    order; with the empty replacement it filters the class out. *)
Theorem replace_global_class cls repl s :
  replace_global (Chr cls) repl s =
    flat_map (fun ch => if cls ch then repl else [ch]) s /\
  replace_global (Chr cls) [] s = List.filter (fun ch => negb (cls ch)) s.
Proof. split; [apply replace_walk_Chr|apply replace_global_Chr_nil]. Qed.

(** A global replacement changes nothing in a string the pattern
    does not match anywhere. *)
Theorem replace_global_untouched r repl s :
  regex_test r s = false -> replace_global r repl s = s.
Proof. apply replace_global_no_match. Qed.

Lemma replace_global_untouched_witness :
  replace_global (Chr is_digit) (lit "#") (lit "no digits") = lit "no digits".
Proof. apply replace_global_untouched. reflexivity. Defined.
