(* ===== verification/Isbn.v ===== *)
(** * ISBN validation: [isValidISBN] of [src/script.js]

    The function strips hyphens and white space with the pattern
    [/[-\s]/g] and tests the result against [/^(\d{10}|\d{13})$/].  The
    theorems characterise the strings it accepts, relate it to a
    reference test that uses no regular expression, and show that it is
    insensitive to what the callers do to the input first ([trim]). *)

From Stdlib Require Import String.
From S2P Require Import Prelude JsString Regex.

(** ** The function *)

(** The class [[-\s]]. *)
Definition hyphen_or_space (c : code_unit) : bool := (c =? 45)%N || is_space c.

(** [/[-\s]/g] *)
Definition strip_re : regex := Chr hyphen_or_space.

(** [/^(\d{10}|\d{13})$/] *)
Definition isbn_re : regex :=
  Seq Bol (Seq (Group (Alt (Rep (Chr is_digit) 10) (Rep (Chr is_digit) 13))) Eol).

(** [const cleanISBN = isbn.replace(/[-\s]/g, '')] *)
Definition cleanISBN (isbn : jsstring) : jsstring :=
  replace_global strip_re [] isbn.

Definition isValidISBN (isbn : jsstring) : bool :=
  regex_test isbn_re (cleanISBN isbn).

(** ** A reference without regular expressions *)

(** The code units of the input that are neither hyphens nor white
    space. *)
Definition isbn_payload (isbn : jsstring) : jsstring :=
  List.filter (fun c => negb (hyphen_or_space c)) isbn.

Definition isbn_ok (isbn : jsstring) : bool :=
  let d := isbn_payload isbn in
  ((length d =? 10)%nat || (length d =? 13)%nat) && forallb is_digit d.

(** ** Theorems *)

Lemma cleanISBN_payload isbn : cleanISBN isbn = isbn_payload isbn.
Proof. apply replace_global_Chr_nil. Qed.

Lemma isbn_re_lang d :
  regex_test isbn_re d = true <->
  (length d = 10 \/ length d = 13) /\ forallb is_digit d = true.
Proof.
  unfold isbn_re. rewrite regex_test_anchored, re_lang_Group, re_lang_Alt,
    !re_lang_Rep_Chr. tauto.
Qed.

Lemma isValidISBN_unfold isbn :
  isValidISBN isbn = regex_test isbn_re (isbn_payload isbn).
Proof. unfold isValidISBN. by rewrite cleanISBN_payload. Qed.

Lemma isbn_ok_true isbn :
  isbn_ok isbn = true <->
  (length (isbn_payload isbn) = 10 \/ length (isbn_payload isbn) = 13) /\
  forallb is_digit (isbn_payload isbn) = true.
Proof. unfold isbn_ok. cbv zeta. lia. Qed.

Lemma isValidISBN_isbn_ok isbn : isValidISBN isbn = isbn_ok isbn.
Proof.
  apply eq_true_iff_eq. by rewrite isValidISBN_unfold, isbn_re_lang, isbn_ok_true.
Qed.

(** What is stripped before the test is invisible to it. *)
Lemma isbn_payload_trim isbn : isbn_payload (trim isbn) = isbn_payload isbn.
Proof.
  apply filter_strip. intros c Hc. unfold hyphen_or_space. by rewrite Hc, orb_true_r.
Qed.

Lemma isbn_payload_app a b : isbn_payload (a ++ b) = isbn_payload a ++ isbn_payload b.
Proof. apply List.filter_app. Qed.

Lemma isbn_payload_digits isbn :
  forallb is_digit isbn = true -> isbn_payload isbn = isbn.
Proof.
  intros H. apply forallb_filter_id. rewrite forallb_forall in *.
  intros c Hc. specialize (H c Hc). unfold hyphen_or_space.
  rewrite (is_digit_not_space c H). unfold is_digit, in_range in H. lia.
Qed.

(** C1. [isValidISBN] accepts a string exactly when, hyphens and white
    space apart, it consists of ten or of thirteen ASCII digits. *)
Theorem isValidISBN_spec isbn :
  isValidISBN isbn = true <->
  (length (isbn_payload isbn) = 10 \/ length (isbn_payload isbn) = 13) /\
  forallb is_digit (isbn_payload isbn) = true.
Proof. by rewrite isValidISBN_unfold, isbn_re_lang. Qed.

(** The two regular expressions compute the reference test [isbn_ok]. *)
Theorem isValidISBN_reference isbn : isValidISBN isbn = isbn_ok isbn.
Proof. apply isValidISBN_isbn_ok. Qed.

(** The callers trim the field before they validate it; that changes
    nothing, since the validator strips white space itself. *)
Theorem isValidISBN_trim isbn : isValidISBN (trim isbn) = isValidISBN isbn.
Proof. by rewrite !isValidISBN_unfold, isbn_payload_trim. Qed.

(** Hyphens and white space may stand anywhere in the input. *)
Theorem isValidISBN_separator a c b :
  hyphen_or_space c = true ->
  isValidISBN (a ++ c :: b) = isValidISBN (a ++ b).
Proof.
  intros Hc. rewrite !isValidISBN_unfold, !isbn_payload_app.
  unfold isbn_payload at 2. simpl. by rewrite Hc.
Qed.

Lemma isValidISBN_separator_witness :
  isValidISBN (lit "0-13" ++ 45%N :: lit "468599-7") =
  isValidISBN (lit "0-13" ++ lit "468599-7").
Proof. apply (isValidISBN_separator (lit "0-13") 45%N (lit "468599-7")). reflexivity. Defined.

(** On a string of digits the test is a test of the length. *)
Theorem isValidISBN_digits isbn :
  forallb is_digit isbn = true ->
  isValidISBN isbn = ((length isbn =? 10)%nat || (length isbn =? 13)%nat).
Proof.
  intros H. rewrite isValidISBN_isbn_ok. unfold isbn_ok. cbv zeta.
  rewrite (isbn_payload_digits isbn H), H. apply andb_true_r.
Qed.

Lemma isValidISBN_digits_witness :
  isValidISBN (lit "9780134685991") = true.
Proof. apply (isValidISBN_digits (lit "9780134685991")). reflexivity. Defined.

(** A string with no payload is rejected: the empty string and strings
    of separators only. *)
Theorem isValidISBN_blank isbn :
  forallb hyphen_or_space isbn = true -> isValidISBN isbn = false.
Proof.
  intros H. rewrite isValidISBN_isbn_ok. unfold isbn_ok. cbv zeta.
  replace (isbn_payload isbn) with (@nil code_unit); [done|].
  symmetry. unfold isbn_payload. induction isbn as [|c s IH]; [done|].
  simpl in *. apply andb_true_iff in H as [-> H]. simpl. auto.
Qed.

Lemma isValidISBN_blank_witness : isValidISBN (lit " - - ") = false.
Proof. apply (isValidISBN_blank (lit " - - ")). reflexivity. Defined.

(** ** The examples of the specification, and two more *)

Example isValidISBN_hyphenated : isValidISBN (lit "0-13-468599-7") = true.
Proof. reflexivity. Qed.

Example isValidISBN_isbn13 : isValidISBN (lit "978-0-13-468599-1") = true.
Proof. reflexivity. Qed.

Example isValidISBN_short : isValidISBN (lit "12345") = false.
Proof. reflexivity. Qed.

Example isValidISBN_letters : isValidISBN (lit "abcdefghij") = false.
Proof. reflexivity. Qed.

Example isValidISBN_eleven : isValidISBN (lit "12345678901") = false.
Proof. reflexivity. Qed.

(** An ISBN-10 whose check character is X is a valid ISBN, and the
    validator rejects it: the pattern admits digits only. *)
Example isValidISBN_rejects_check_X : isValidISBN (lit "0-8044-2957-X") = false.
Proof. reflexivity. Qed.

(** No check digit is verified: ten equal digits pass. *)
Example isValidISBN_no_checksum : isValidISBN (lit "1111111111") = true.
Proof. reflexivity. Qed.
