(* ===== verification/Cost.v ===== *)
(** * The cost of validating an ISBN

    A backtracking matcher can take time exponential in its input.  The
    two patterns of [isValidISBN] cannot: they have no unbounded
    quantifier, and the test pattern is anchored at the start.  [rcost]
    is the matcher of [Regex] with a counter: it returns the result of
    [rmatch] and the number of atoms and assertions it evaluated.  An
    attempt at one position then costs at most [attempt_bound], a number
    that depends on the pattern alone, and [isValidISBN] evaluates at
    most two atoms per code unit of its input and 27 more. *)

From Stdlib Require Import String.
From S2P Require Import Prelude JsString Regex Isbn.

(** ** The matcher, counting *)

(** A continuation that reports what it spent. *)
Definition ccont : Type := mstate -> option mstate * nat.

(** One more atom or assertion evaluated. *)
Definition tick (o : option mstate * nat) : option mstate * nat := (o.1, S o.2).

(** The first alternative, and the second if the first fails; both are
    paid for then. *)
Definition orelse (o1 : option mstate * nat) (o2 : option mstate * nat)
    : option mstate * nat :=
  match o1.1 with
  | Some y => o1
  | None => (o2.1, o1.2 + o2.2)
  end.

Fixpoint rcost (r : regex) (x : mstate) (c : ccont) : option mstate * nat :=
  match r with
  | Chr cls =>
      match remaining x with
      | ch :: s' => if cls ch then tick (c (MState (S (endIndex x)) s')) else (None, 1)
      | [] => (None, 1)
      end
  | Bol => if (endIndex x =? 0)%nat then tick (c x) else (None, 1)
  | Eol => match remaining x with [] => tick (c x) | _ :: _ => (None, 1) end
  | Seq r1 r2 => rcost r1 x (fun y => rcost r2 y c)
  | Alt r1 r2 => orelse (rcost r1 x c) (rcost r2 x c)
  | Group r1 => rcost r1 x c
  | Rep r1 n =>
      (fix rep (n : nat) (x : mstate) : option mstate * nat :=
         match n with
         | O => c x
         | S n' => rcost r1 x (rep n')
         end) n x
  end.

(** The continuation of a whole match: it accepts, at no cost. *)
Definition accept : ccont := fun y => (Some y, 0).

(** [exec_from], counting: the attempts up to the first that
    succeeds. *)
Fixpoint exec_counted (r : regex) (pos : nat) (s : jsstring)
    : option (nat * mstate) * nat :=
  let o := rcost r (MState pos s) accept in
  match o.1 with
  | Some y => (Some (pos, y), o.2)
  | None =>
      match s with
      | [] => (None, o.2)
      | _ :: s' => let o' := exec_counted r (S pos) s' in (o'.1, o.2 + o'.2)
      end
  end.

(** [replace_walk], counting: one attempt at every position that is
    not inside a match. *)
Fixpoint replace_counted (r : regex) (repl : jsstring) (pos skip : nat)
    (s : jsstring) : jsstring * nat :=
  match skip with
  | S k =>
      match s with
      | [] => ([], 0)
      | _ :: s' => replace_counted r repl (S pos) k s'
      end
  | O =>
      let o := rcost r (MState pos s) accept in
      match o.1 with
      | Some y =>
          let w :=
            match s with
            | [] => ([], 0)
            | ch :: s' =>
                if (endIndex y =? pos)%nat
                then let w := replace_counted r repl (S pos) 0 s' in (ch :: w.1, w.2)
                else replace_counted r repl (S pos) (endIndex y - pos - 1) s'
            end in
          (repl ++ w.1, o.2 + w.2)
      | None =>
          match s with
          | [] => ([], o.2)
          | ch :: s' =>
              let w := replace_counted r repl (S pos) 0 s' in (ch :: w.1, o.2 + w.2)
          end
      end
  end.

(** [isValidISBN], counting: the replacement, then the test of what
    is left. *)
Definition isValidISBN_counted (isbn : jsstring) : bool * nat :=
  let clean := replace_counted strip_re [] 0 0 isbn in
  let found := exec_counted isbn_re 0 clean.1 in
  (is_some found.1, clean.2 + found.2).

(** ** A bound that depends on the pattern alone *)

(** The cost of one attempt, when what follows costs at most [k]. *)
Fixpoint attempt_bound (r : regex) (k : nat) : nat :=
  match r with
  | Chr _ | Bol | Eol => S k
  | Seq r1 r2 => attempt_bound r1 (attempt_bound r2 k)
  | Alt r1 r2 => attempt_bound r1 k + attempt_bound r2 k
  | Group r1 => attempt_bound r1 k
  | Rep r1 n => Nat.iter n (attempt_bound r1) k
  end.

(** ** The counter changes no result *)

Lemma rcost_erase r x (c : ccont) (c' : cont) :
  (forall y, (c y).1 = c' y) -> (rcost r x c).1 = rmatch r x c'.
Proof.
  revert x c c'. induction r as [cls| | |r1 IH1 r2 IH2|r1 IH1 r2 IH2|r IH|r IH n];
    intros x c c' Hc; simpl.
  - destruct (remaining x) as [|ch s']; [done|]. destruct (cls ch); [apply Hc|done].
  - destruct (endIndex x =? 0)%nat; [apply Hc|done].
  - destruct (remaining x); [apply Hc|done].
  - apply IH1. intros y. by apply IH2.
  - unfold orelse. rewrite <- (IH1 x c c' Hc), <- (IH2 x c c' Hc).
    by destruct (rcost r1 x c) as [[y|] n].
  - by apply IH.
  - revert x. induction n as [|n IHn]; intros x; [apply Hc|]. apply IH, IHn.
Qed.

Lemma rcost_accept r x : (rcost r x accept).1 = rmatch r x Some.
Proof. by apply rcost_erase. Qed.

Lemma exec_counted_erase r pos s : (exec_counted r pos s).1 = exec_from r pos s.
Proof.
  revert pos. induction s as [|ch s IH]; intros pos; simpl; rewrite rcost_accept;
    destruct (rmatch r _ Some); try done. apply IH.
Qed.

Lemma replace_counted_erase r repl pos skip s :
  (replace_counted r repl pos skip s).1 = replace_walk r repl pos skip s.
Proof.
  revert pos skip. induction s as [|ch s IH]; intros pos [|k]; simpl;
    rewrite ?rcost_accept; try done.
  - by destruct (rmatch r _ Some).
  - destruct (rmatch r _ Some) as [y|]; simpl; [|by rewrite IH].
    destruct (endIndex y =? pos)%nat; simpl; by rewrite IH.
Qed.

Lemma isValidISBN_counted_erase isbn : (isValidISBN_counted isbn).1 = isValidISBN isbn.
Proof.
  unfold isValidISBN_counted, isValidISBN, cleanISBN, replace_global, regex_test.
  cbv zeta. simpl. by rewrite exec_counted_erase, replace_counted_erase.
Qed.

(** ** What an attempt costs *)

Lemma rcost_bound r x (c : ccont) k :
  (forall y, (c y).2 <= k) -> (rcost r x c).2 <= attempt_bound r k.
Proof.
  revert x c k. induction r as [cls| | |r1 IH1 r2 IH2|r1 IH1 r2 IH2|r IH|r IH n];
    intros x c k Hc; simpl.
  - destruct (remaining x) as [|ch s']; [simpl; lia|].
    destruct (cls ch); simpl; [apply le_n_S, Hc|lia].
  - destruct (endIndex x =? 0)%nat; simpl; [apply le_n_S, Hc|lia].
  - destruct (remaining x); simpl; [apply le_n_S, Hc|lia].
  - apply IH1. intros y. by apply IH2.
  - specialize (IH1 x c k Hc). specialize (IH2 x c k Hc). unfold orelse.
    destruct (rcost r1 x c) as [[y|] n]; simpl in *; lia.
  - by apply IH.
  - revert x. induction n as [|n IHn]; intros x; [apply Hc|]. apply IH, IHn.
Qed.

Lemma attempt_cost r x : (rcost r x accept).2 <= attempt_bound r 0.
Proof. by apply rcost_bound. Qed.

(** A pattern that starts with [^] fails at once anywhere but at the
    start of the input. *)
Lemma rcost_Bol_late r pos s c : rcost (Seq Bol r) (MState (S pos) s) c = (None, 1).
Proof. reflexivity. Qed.

Lemma exec_counted_late r pos s :
  exec_counted (Seq Bol r) (S pos) s = (None, S (length s)).
Proof.
  revert pos. induction s as [|ch s IH]; intros pos; [done|].
  cbn [exec_counted]. rewrite rcost_Bol_late. cbv zeta. by rewrite IH.
Qed.

(** ** What a search costs *)

(** Without a quantifier that is not bounded, the attempts at all
    positions together are linear in the input. *)
Lemma exec_counted_bound r pos s :
  (exec_counted r pos s).2 <= S (length s) * attempt_bound r 0.
Proof.
  revert pos. induction s as [|ch s IH]; intros pos; cbn [exec_counted]; cbv zeta.
  - pose proof (attempt_cost r (MState pos [])).
    destruct (rcost r (MState pos []) accept) as [[y|] n]; simpl in *; lia.
  - pose proof (attempt_cost r (MState pos (ch :: s))). specialize (IH (S pos)).
    destruct (rcost r (MState pos (ch :: s)) accept) as [[y|] n]; simpl in *; lia.
Qed.

(** Anchored at the start, a pattern is tried in earnest once. *)
Lemma exec_counted_anchored r s :
  (exec_counted (Seq Bol r) 0 s).2 <= attempt_bound (Seq Bol r) 0 + length s.
Proof.
  pose proof (attempt_cost (Seq Bol r) (MState 0 s)) as H.
  destruct s as [|ch s]; cbn [exec_counted]; cbv zeta; rewrite ?exec_counted_late;
    destruct (rcost (Seq Bol r) _ accept) as [[y|] n]; simpl in *; lia.
Qed.

(** A class as the pattern of a global replacement is tried once at
    every position, the end of the input included. *)
Lemma replace_counted_Chr cls repl pos s :
  (replace_counted (Chr cls) repl pos 0 s).2 = S (length s).
Proof.
  revert pos. induction s as [|ch s IH]; intros pos; [done|].
  cbn [replace_counted rcost remaining endIndex]. cbv zeta.
  destruct (cls ch); cbn [tick accept fst snd endIndex]; [|by rewrite IH].
  rewrite (proj2 (Nat.eqb_neq (S pos) pos)) by lia.
  replace (S pos - pos - 1) with 0 by lia. by rewrite IH.
Qed.

(** ** Theorems *)

(** The counted matcher is the matcher: the counter changes no
    result, for any pattern and any continuation. *)
Theorem rcost_result r x :
  fst (rcost r x accept) = rmatch r x Some /\
  snd (rcost r x accept) <= attempt_bound r 0.
Proof. split; [apply rcost_accept|apply attempt_cost]. Qed.

(** C28. [isValidISBN] runs in time linear in its input: it evaluates an
    atom of its patterns at most twice per code unit and 27 times
    more, whatever the input.  There is no input on which the matcher
    backtracks more than once. *)
Theorem isValidISBN_linear isbn :
  fst (isValidISBN_counted isbn) = isValidISBN isbn /\
  snd (isValidISBN_counted isbn) <= 2 * length isbn + 27.
Proof.
  split; [apply isValidISBN_counted_erase|].
  unfold isValidISBN_counted. cbv zeta. cbn [snd].
  rewrite replace_counted_erase. fold (replace_global strip_re [] isbn).
  fold (cleanISBN isbn). unfold strip_re at 1. rewrite replace_counted_Chr.
  pose proof (exec_counted_anchored
    (Seq (Group (Alt (Rep (Chr is_digit) 10) (Rep (Chr is_digit) 13))) Eol)
    (cleanISBN isbn)) as H.
  fold isbn_re in H. rewrite cleanISBN_payload in *.
  pose proof (List.filter_length_le (fun c => negb (hyphen_or_space c)) isbn).
  unfold isbn_payload in *. change (attempt_bound isbn_re 0) with 26 in H. lia.
Qed.

(** The bound is met: thirteen digits and a letter cost fifteen steps
    for the replacement, one for [^], eleven for the first alternative,
    fourteen for the second and one for each later position. *)
Example isValidISBN_cost_worst :
  isValidISBN_counted (lit "9780134685991x") = (false, 2 * 14 + 27).
Proof. reflexivity. Qed.

Example isValidISBN_cost_isbn13 :
  isValidISBN_counted (lit "978-0-13-468599-1") = (true, 18 + 26).
Proof. reflexivity. Qed.
