(* ===== verification/JsValue.v ===== *)
(** * JavaScript values, as far as the script handles them

    The values that reach [searchForTextbook] and [displayResults] are
    what [response.json()] produces (JSON values), [undefined] (an
    absent property) and, in one corner, a built-in function reached
    through a prototype ([String.prototype.link], when an item of the
    response is a string).  This file models the four things the script
    does with such values: reading one of five properties ([get]),
    [ToBoolean] ([truthy]), comparing with the number 0 ([is_zero]) and
    [ToString] in a template literal ([to_string]). *)

From Stdlib Require Import String Ascii DecimalString DecimalNat.
From S2P Require Import Prelude JsString.

(** ** Errors and results *)

(** The exceptions that can arise: a [TypeError] (a property of [null]
    or [undefined], a call of a non-function, a failed conversion, a
    failed fetch) and a [SyntaxError] (a body that is not JSON). *)
Inductive exn : Type := TypeError | SyntaxError.

#[export] Instance exn_eq_dec : EqDecision exn.
Proof. solve_decision. Defined.

(** A pure computation that may throw. *)
Inductive result (A : Type) : Type :=
| Ok (a : A)
| Raise (e : exn).
Arguments Ok {A} a.
Arguments Raise {A} e.

Definition rbind {A B} (r : result A) (k : A -> result B) : result B :=
  match r with Ok a => k a | Raise e => Raise e end.

Declare Scope res_scope.
Delimit Scope res_scope with res.
Notation "x <- c ;; k" := (rbind c (fun x => k))
  (at level 100, c at next level, k at level 200, right associativity) : res_scope.

(** Running a pure computation inside a handler. *)
Definition lift {S A} (r : result A) : M S exn A :=
  match r with Ok a => ret a | Raise e => throw e end.

(** ** Values *)

#[local] Unset Elimination Schemes.
Inductive jsval : Type :=
| JUndefined
| JNull
| JBool (b : bool)
| JNum (image : jsstring)     (* a number, carried by its [Number::toString] image *)
| JStr (s : jsstring)
| JArr (items : list jsval)
| JObj (props : list (jsstring * jsval))   (* the own properties of a parsed object *)
| JBuiltin (name : jsstring) (arity : nat).  (* a built-in function object *)
#[local] Set Elimination Schemes.

(** Induction over values, with the hypothesis for every element of an
    array and every property value of an object. *)
Section jsval_ind.
Variable P : jsval -> Prop.
Hypothesis Hundef : P JUndefined.
Hypothesis Hnull : P JNull.
Hypothesis Hbool : forall b, P (JBool b).
Hypothesis Hnum : forall image, P (JNum image).
Hypothesis Hstr : forall s, P (JStr s).
Hypothesis Harr : forall items, Forall P items -> P (JArr items).
Hypothesis Hobj : forall props, Forall (fun kv => P (snd kv)) props -> P (JObj props).
Hypothesis Hbuiltin : forall name arity, P (JBuiltin name arity).

Fixpoint jsval_ind (v : jsval) : P v :=
  match v with
  | JUndefined => Hundef
  | JNull => Hnull
  | JBool b => Hbool b
  | JNum image => Hnum image
  | JStr s => Hstr s
  | JArr items =>
      Harr items
        ((fix all (l : list jsval) : Forall P l :=
            match l with
            | [] => @List.Forall_nil _ P
            | x :: l' => @List.Forall_cons _ P x l' (jsval_ind x) (all l')
            end) items)
  | JObj props =>
      Hobj props
        ((fix all (l : list (jsstring * jsval)) : Forall (fun kv => P (snd kv)) l :=
            match l with
            | [] => @List.Forall_nil _ _
            | kv :: l' => @List.Forall_cons _ (fun kv => P (snd kv)) kv l' (jsval_ind (snd kv)) (all l')
            end) props)
  | JBuiltin name arity => Hbuiltin name arity
  end.

End jsval_ind.

(** What the engine and the build provide: the source text
    [Function.prototype.toString] gives for a built-in function, which
    the language leaves to the implementation. *)
Class Host : Type := { native_source : jsstring -> jsstring }.

(** The form V8 and JavaScriptCore print. *)
Definition v8_host : Host :=
  {| native_source name := lit "function " ++ name ++ lit "() { [native code] }" |}.

(** The number [n] of a length, by its decimal image. *)
Definition num_of_nat (n : nat) : jsval :=
  JNum (lit (NilZero.string_of_uint (Nat.to_uint n))).

#[global] Arguments num_of_nat : simpl never.

(** The own property [k] of an object. *)
Fixpoint own (props : list (jsstring * jsval)) (k : jsstring) : option jsval :=
  match props with
  | [] => None
  | (k', v) :: props' => if str_eqb k' k then Some v else own props' k
  end.

(** ** Reading a property *)

(** The property names the script reads. *)
Inductive field : Type := Items | Length | Title | Snippet | Link.

Definition field_name (f : field) : jsstring :=
  match f with
  | Items => lit "items"
  | Length => lit "length"
  | Title => lit "title"
  | Snippet => lit "snippet"
  | Link => lit "link"
  end.

(** [v.f], for [f] one of the five names.  [null] and [undefined] have
    no properties; an object has its own ones (none of the five names is
    on [Object.prototype]); arrays and strings have [length]; a string
    inherits [link] from [String.prototype]; a function has [length];
    nothing else carries one of these names. *)
Definition get (v : jsval) (f : field) : result jsval :=
  match v with
  | JUndefined | JNull => Raise TypeError
  | JBool _ | JNum _ => Ok JUndefined
  | JStr s =>
      match f with
      | Length => Ok (num_of_nat (length s))
      | Link => Ok (JBuiltin (lit "link") 1)
      | _ => Ok JUndefined
      end
  | JArr items =>
      match f with
      | Length => Ok (num_of_nat (length items))
      | _ => Ok JUndefined
      end
  | JObj props =>
      match own props (field_name f) with
      | Some x => Ok x
      | None => Ok JUndefined
      end
  | JBuiltin _ arity =>
      match f with
      | Length => Ok (num_of_nat arity)
      | _ => Ok JUndefined
      end
  end.

(** ** [ToBoolean] *)

Definition truthy (v : jsval) : bool :=
  match v with
  | JUndefined | JNull => false
  | JBool b => b
  | JNum image => negb (str_eqb image (lit "0")) && negb (str_eqb image (lit "NaN"))
  | JStr s => str_truthy s
  | JArr _ | JObj _ | JBuiltin _ _ => true
  end.

(** [a || b] *)
Definition js_or (a b : jsval) : jsval := if truthy a then a else b.

(** [v === 0]: a number whose image is that of zero (both zeros print
    as 0). *)
Definition is_zero (v : jsval) : bool :=
  match v with
  | JNum image => str_eqb image (lit "0")
  | _ => false
  end.

(** ** [ToString] *)

(** [Array.prototype.join] with the default separator, over the
    conversion [f] of an element: [null] and [undefined] give the empty
    string; [first] tells whether the element is the first one. *)
Definition join_elems (f : jsval -> result jsstring)
    : list jsval -> bool -> result jsstring :=
  fix join (l : list jsval) (first : bool) : result jsstring :=
    match l with
    | [] => Ok []
    | x :: l' =>
        rbind (match x with
               | JUndefined | JNull => Ok []
               | _ => f x
               end)
          (fun sx => rbind (join l' false)
             (fun rest => Ok ((if first then [] else lit ",") ++ sx ++ rest)))
    end.

Section to_string.
Context {host : Host}.

(** An object converts through [Object.prototype.toString] unless it
    has an own [toString] property, which parsed data cannot make
    callable: the conversion then finds no primitive and throws.  An
    array converts through [join]. *)
Fixpoint to_string (v : jsval) : result jsstring :=
  match v with
  | JUndefined => Ok (lit "undefined")
  | JNull => Ok (lit "null")
  | JBool true => Ok (lit "true")
  | JBool false => Ok (lit "false")
  | JNum image => Ok image
  | JStr s => Ok s
  | JArr items => join_elems to_string items true
  | JObj props =>
      match own props (lit "toString") with
      | Some _ => Raise TypeError
      | None => Ok (lit "[object Object]")
      end
  | JBuiltin name _ => Ok (native_source name)
  end.

End to_string.

(** ** Facts *)

Lemma rbind_inv {A B} (r : result A) (k : A -> result B) b :
  rbind r k = Ok b <-> exists a, r = Ok a /\ k a = Ok b.
Proof. destruct r; simpl; split; [eauto|by intros (? & [= <-] & ?)|done|by intros (? & ? & ?)]. Qed.

Lemma lift_Ok {S A} (a : A) (s : S) : lift (Ok a) s = Returns a s.
Proof. reflexivity. Qed.

(** The decimal image of a length is that of zero only for zero. *)
Lemma num_of_nat_zero n : is_zero (num_of_nat n) = (n =? 0)%nat.
Proof.
  destruct n as [|n]; [done|]. simpl. apply str_eqb_neq. intros H.
  assert (NilZero.string_of_uint (Nat.to_uint (S n)) = "0"%string) as H0.
  { revert H. unfold lit.
    generalize (NilZero.string_of_uint (Nat.to_uint (S n))). intros s.
    destruct s as [|a [|b s]]; try done. simpl. intros [= H].
    apply (f_equal ascii_of_N) in H. rewrite ascii_N_embedding in H. by subst. }
  assert (NilZero.uint_of_string (NilZero.string_of_uint (Nat.to_uint (S n)))
          = Some (Nat.to_uint 0)) as H1 by (by rewrite H0).
  rewrite NilZero.usu in H1.
  - injection H1 as H1. by apply Unsigned.to_uint_inj in H1.
  - intros Hnil. apply (f_equal Nat.of_uint) in Hnil.
    by rewrite Unsigned.of_to in Hnil.
Qed.

(** [get] throws only on [null] and [undefined], which are falsy. *)
Lemma get_truthy v f : truthy v = true -> exists x, get v f = Ok x.
Proof.
  destruct v; simpl; try done; intros _; try (destruct f; by eexists).
  destruct (own props (field_name f)); by eexists.
Qed.

Lemma get_raises v f e : get v f = Raise e -> e = TypeError.
Proof.
  destruct v; simpl; try done; try (by intros [= <-]); try (by destruct f).
  by destruct (own props (field_name f)).
Qed.

(** *** [ToString] *)

(** A value converts to a string unless it is, or holds in nested
    arrays, an object with an own [toString] property. *)
Fixpoint convertible (v : jsval) : bool :=
  match v with
  | JObj props => negb (is_some (own props (lit "toString")))
  | JArr items => forallb convertible items
  | _ => true
  end.

Section to_string_facts.
Context {host : Host}.

Lemma join_elems_raises f l first e :
  Forall (fun x => forall e, f x = Raise e -> e = TypeError) l ->
  join_elems f l first = Raise e -> e = TypeError.
Proof.
  intros Hl. revert first. induction Hl as [|x l Hx Hl IH]; intros first; [done|].
  simpl. destruct (match x with JUndefined | JNull => Ok [] | _ => f x end)
    as [sx|e'] eqn:E; simpl.
  - destruct (join_elems f l false) eqn:E'; simpl; [done|].
    intros [= <-]. by eapply IH.
  - intros [= <-]. destruct x; try done; by apply Hx.
Qed.

Lemma to_string_raises v e : to_string v = Raise e -> e = TypeError.
Proof.
  revert e. induction v as [| |b|image|s|items IH|props _|name arity]
    using jsval_ind; intros e; simpl; try done.
  - by destruct b.
  - by apply join_elems_raises.
  - destruct (own props (lit "toString")); [by intros [= <-]|done].
Qed.

Lemma join_elems_convertible l first :
  Forall (fun x => convertible x = true <-> exists s, to_string x = Ok s) l ->
  forallb convertible l = true <-> exists s, join_elems to_string l first = Ok s.
Proof.
  intros Hl. revert first. induction Hl as [|x l Hx Hl IH]; intros first; simpl.
  - split; [by eexists|done].
  - rewrite andb_true_iff, Hx, (IH false). split.
    + intros [[sx Hsx] [rest Hrest]]. rewrite Hrest.
      destruct x; simpl in *; try rewrite Hsx; simpl; by eexists.
    + intros [s Hs]. apply rbind_inv in Hs as (sx & Hsx & Hs).
      apply rbind_inv in Hs as (rest & Hrest & _). split; [|by eexists].
      destruct x; simpl in *; by eexists.
Qed.

(** [ToString] of a value returns exactly when the value is
    [convertible]. *)
Lemma to_string_convertible v :
  convertible v = true <-> exists s, to_string v = Ok s.
Proof.
  induction v as [| |b|image|s|items IH|props _|name arity] using jsval_ind;
    simpl; try (split; [by eexists|done]).
  - split; [destruct b; by eexists|done].
  - by apply join_elems_convertible.
  - destruct (own props (lit "toString")); simpl; split; try done;
      [by intros [? ?]|by eexists].
Qed.

Lemma to_string_not_convertible v :
  convertible v = false -> to_string v = Raise TypeError.
Proof.
  intros H. destruct (to_string v) as [s|e] eqn:E.
  - assert (convertible v = true) by (apply to_string_convertible; eauto).
    congruence.
  - by rewrite (to_string_raises v e E).
Qed.

(** [ToString] of a value, as a template literal applies it,
    returns exactly when the value is not, and does not hold in nested
    arrays, an object with an own [toString] property; otherwise it
    throws a [TypeError]. *)
Theorem to_string_outcome v :
  if convertible v then exists s, to_string v = Ok s
  else to_string v = Raise TypeError.
Proof.
  destruct (convertible v) eqn:E; [by apply to_string_convertible|].
  by apply to_string_not_convertible.
Qed.

End to_string_facts.
