(* ===== verification/Dom.v ===== *)
(** * The page: the part of the document the script reads and writes

    [Page] is the state the handlers of [src/script.js] share: the class
    list of the modal, the inline [overflow] style of the body, the
    custom validity message of the ISBN field, the results region and
    whether the search container exists.  What a handler does to the
    outside (alerts, console output, scrolling, [preventDefault]) is
    appended to the page's log.  A handler is a computation [D A] over
    the page that may throw.  The file ends with what the two
    controllers see of each other: the two sides of the page, pages up
    to the log ([page_equiv]) and the interface [SearchSide]. *)

From Stdlib Require Import String.
From S2P Require Import Prelude JsString JsValue.

(** ** Content of the results region *)

(** A child of an element is either what the parser made of a markup
    string assigned through [innerHTML] (kept as the markup assigned),
    or an element built with [createElement], with its class name and
    its children. *)
#[local] Unset Elimination Schemes.
Inductive node : Type :=
| Markup (html : jsstring)
| Element (tag className : jsstring) (children : list node).
#[local] Set Elimination Schemes.

(** ** Effects on the outside *)

Inductive effect : Type :=
| PreventDefault                            (* e.preventDefault() *)
| Alert (msg : jsstring)                    (* alert(msg) *)
| ConsoleLog (msg : jsstring)               (* console.log(msg) *)
| ConsoleError (msg : jsstring) (e : exn)   (* console.error(msg, e) *)
| ReportValidity                            (* isbnInput.reportValidity() *)
| ScrollIntoView                            (* resultsDiv.scrollIntoView(...) *)
| Fetch (url : jsstring).                   (* fetch(url) *)

(** ** The page *)

Record Page : Type := mkPage {
  modal_classList : list jsstring;   (* modal.classList *)
  body_overflow : jsstring;          (* document.body.style.overflow *)
  isbn_validity : jsstring;          (* the custom validity message of #isbn *)
  search_container : bool;           (* does .search-container exist? *)
  results : option (list node);      (* the children of #results, if it exists *)
  log : list effect                  (* the effects so far, oldest first *)
}.

Definition set_modal_classList (v : list jsstring) (p : Page) : Page :=
  mkPage v (body_overflow p) (isbn_validity p) (search_container p) (results p) (log p).
Definition set_body_overflow (v : jsstring) (p : Page) : Page :=
  mkPage (modal_classList p) v (isbn_validity p) (search_container p) (results p) (log p).
Definition set_isbn_validity (v : jsstring) (p : Page) : Page :=
  mkPage (modal_classList p) (body_overflow p) v (search_container p) (results p) (log p).
Definition set_results (v : option (list node)) (p : Page) : Page :=
  mkPage (modal_classList p) (body_overflow p) (isbn_validity p) (search_container p) v (log p).
Definition set_log (v : list effect) (p : Page) : Page :=
  mkPage (modal_classList p) (body_overflow p) (isbn_validity p) (search_container p) (results p) v.

(** A page as the script may find it when the document is loaded: the
    dialog hidden, no inline overflow style, no validity message, a
    search container and no results region yet, nothing logged. *)
Definition blank_page : Page := mkPage [] [] [] true None [].

(** The handlers' monad. *)
Definition D (A : Type) : Type := M Page exn A.

(** ** Primitive operations *)

Definition emit (e : effect) : D unit :=
  modify (fun p => set_log (log p ++ [e]) p).

(** *** [classList], a [DOMTokenList]: an ordered set of tokens *)

Definition classList_contains (tok : jsstring) (l : list jsstring) : bool :=
  existsb (str_eqb tok) l.

Definition classList_add (tok : jsstring) (l : list jsstring) : list jsstring :=
  if classList_contains tok l then l else l ++ [tok].

Definition classList_remove (tok : jsstring) (l : list jsstring) : list jsstring :=
  List.filter (fun t => negb (str_eqb tok t)) l.

(** *** The results region *)

(** [document.getElementById('results')], as a test for [null]. *)
Definition results_exists : D bool := gets (fun p => is_some (results p)).

(** The children a markup string is parsed into: none for the empty
    string. *)
Definition parse_markup (html : jsstring) : list node :=
  match html with
  | [] => []
  | _ :: _ => [Markup html]
  end.

(** [resultsDiv.innerHTML = html]; a [TypeError] if there is no such
    element. *)
Definition set_results_innerHTML (html : jsstring) : D unit :=
  fun p => match results p with
           | Some _ => Returns tt (set_results (Some (parse_markup html)) p)
           | None => Throws TypeError p
           end.

(** [resultsDiv.innerHTML = html] through the variable [resultsDiv] of
    [searchForTextbook], which holds the results element since line
    141: the assignment cannot throw.  Were the element no longer part
    of the page, the write would go to a detached element and the page
    would not change. *)
Definition set_resultsDiv_innerHTML (html : jsstring) : D unit :=
  modify (fun p =>
    if is_some (results p) then set_results (Some (parse_markup html)) p else p).

(** The markup of a list of children.  For a [Markup] child this is
    the markup that was assigned, which is what the serializer returns
    when that markup was already in serialized form. *)
Fixpoint serialize (n : node) : jsstring :=
  match n with
  | Markup html => html
  | Element tag className children =>
      lit "<" ++ tag ++ lit " class=" ++ dquote ++ className ++ dquote ++ lit ">"
      ++ flat_map serialize children
      ++ lit "</" ++ tag ++ lit ">"
  end.

Definition serialize_all (l : list node) : jsstring := flat_map serialize l.

(** [resultsDiv.innerHTML += html] *)
Definition append_results_innerHTML (html : jsstring) : D unit :=
  fun p => match results p with
           | Some children =>
               Returns tt
                 (set_results (Some (parse_markup (serialize_all children ++ html))) p)
           | None => Throws TypeError p
           end.

(** [resultsDiv.appendChild(n)] *)
Definition results_appendChild (n : node) : D unit :=
  fun p => match results p with
           | Some children => Returns tt (set_results (Some (children ++ [n])) p)
           | None => Throws TypeError p
           end.

(** Creating the results region and attaching it to the search
    container; a [TypeError] if the page has no search container (the
    new element is then attached nowhere). *)
Definition create_results : D unit :=
  fun p => if search_container p
           then Returns tt (set_results (Some []) p)
           else Throws TypeError p.

(** ** Facts about the primitives *)

Section classList.
Implicit Types (tok t : jsstring) (l : list jsstring).

Lemma classList_contains_In tok l : classList_contains tok l = true <-> In tok l.
Proof.
  unfold classList_contains. rewrite existsb_exists. split.
  - intros (t & Ht & E). apply str_eqb_eq in E. by subst.
  - intros H. exists tok. split; [done|]. by apply str_eqb_eq.
Qed.

Lemma classList_contains_add tok l :
  classList_contains tok (classList_add tok l) = true.
Proof.
  unfold classList_add. destruct (classList_contains tok l) eqn:E; [done|].
  apply classList_contains_In, in_or_app. right. by left.
Qed.

Lemma classList_contains_remove tok l :
  classList_contains tok (classList_remove tok l) = false.
Proof.
  apply not_true_is_false. rewrite classList_contains_In.
  unfold classList_remove. rewrite filter_In. intros [_ H].
  apply negb_true_iff, str_eqb_neq in H. done.
Qed.

Lemma classList_contains_add_ne tok t l :
  tok <> t -> classList_contains t (classList_add tok l) = classList_contains t l.
Proof.
  intros Hne. unfold classList_add. destruct (classList_contains tok l); [done|].
  unfold classList_contains. rewrite existsb_app. simpl.
  rewrite (proj2 (str_eqb_neq t tok)) by done. by rewrite !orb_false_r.
Qed.

Lemma classList_contains_remove_ne tok t l :
  tok <> t -> classList_contains t (classList_remove tok l) = classList_contains t l.
Proof.
  intros Hne. apply eq_true_iff_eq. rewrite !classList_contains_In.
  unfold classList_remove. rewrite filter_In, negb_true_iff, str_eqb_neq. tauto.
Qed.

(** Adding a token that is there, or removing one that is not, changes
    nothing. *)
Lemma classList_add_present tok l :
  classList_contains tok l = true -> classList_add tok l = l.
Proof. unfold classList_add. by intros ->. Qed.

Lemma classList_add_idemp tok l :
  classList_add tok (classList_add tok l) = classList_add tok l.
Proof. apply classList_add_present, classList_contains_add. Qed.

Lemma classList_remove_absent tok l :
  classList_contains tok l = false -> classList_remove tok l = l.
Proof.
  intros H. unfold classList_remove. apply forallb_filter_id, forallb_forall.
  intros t Ht. apply negb_true_iff, str_eqb_neq. intros ->.
  apply classList_contains_In in Ht. congruence.
Qed.

(** A token list has no duplicates, and the operations keep it so. *)
Lemma classList_add_NoDup tok l : NoDup l -> NoDup (classList_add tok l).
Proof.
  intros Hl. unfold classList_add.
  destruct (classList_contains tok l) eqn:E; [done|].
  apply NoDup_app. split_and!; [done| |apply NoDup_singleton].
  intros t Ht [->|[]]%list_elem_of_In. apply list_elem_of_In in Ht.
  apply classList_contains_In in Ht. congruence.
Qed.

Lemma classList_remove_NoDup tok l : NoDup l -> NoDup (classList_remove tok l).
Proof.
  intros Hl. unfold classList_remove.
  by apply NoDup_ListNoDup, List.NoDup_filter, NoDup_ListNoDup.
Qed.

End classList.

(** *** Setters and fields *)

Lemma set_results_twice v w p : set_results v (set_results w p) = set_results v p.
Proof. reflexivity. Qed.

Lemma set_results_same p : set_results (results p) p = p.
Proof. by destruct p. Qed.

Lemma set_results_restore v p : set_results (results p) (set_results v p) = p.
Proof. by destruct p. Qed.

Lemma results_set_results v p : results (set_results v p) = v.
Proof. reflexivity. Qed.

Lemma set_log_twice v w p : set_log v (set_log w p) = set_log v p.
Proof. reflexivity. Qed.

Create Rewrite HintDb page.
#[export] Hint Rewrite set_results_twice set_results_same results_set_results
  set_log_twice : page.

(** *** Requests in the log *)

(** How many requests the log records as sent, and how many times the
    page scrolled to the results (which a submit listener does once,
    when the request it awaited has ended). *)
Definition is_fetch (e : effect) : bool :=
  match e with Fetch _ => true | _ => false end.

Definition is_scroll (e : effect) : bool :=
  match e with ScrollIntoView => true | _ => false end.

Definition sent (l : list effect) : nat := length (List.filter is_fetch l).
Definition answered (l : list effect) : nat := length (List.filter is_scroll l).

Lemma sent_app l l' : sent (l ++ l') = sent l + sent l'.
Proof. unfold sent. by rewrite List.filter_app, length_app. Qed.

Lemma answered_app l l' : answered (l ++ l') = answered l + answered l'.
Proof. unfold answered. by rewrite List.filter_app, length_app. Qed.

Create Rewrite HintDb traffic.
#[export] Hint Rewrite sent_app answered_app : traffic.

(** Counting the requests and the scrolls of a log that is an explicit
    extension of another. *)
Ltac count_traffic :=
  cbn [log set_log set_results set_isbn_validity set_modal_classList
       set_body_overflow];
  autorewrite with traffic; unfold sent, answered in *; simpl; lia.

(** *** Runs of the primitives *)

Lemma set_resultsDiv_innerHTML_run html p :
  set_resultsDiv_innerHTML html p =
  Returns tt (if is_some (results p) then set_results (Some (parse_markup html)) p else p).
Proof. reflexivity. Qed.

Lemma set_results_innerHTML_run html p :
  set_results_innerHTML html p =
  if is_some (results p)
  then Returns tt (set_results (Some (parse_markup html)) p)
  else Throws TypeError p.
Proof. unfold set_results_innerHTML. by destruct (results p). Qed.

Lemma serialize_all_parse html : serialize_all (parse_markup html) = html.
Proof. destruct html; [done|]. apply app_nil_r. Qed.

(** Assigning markup and appending more markup is assigning the
    concatenation. *)
Lemma append_after_set html html' p q :
  set_results_innerHTML html p = Returns tt q ->
  append_results_innerHTML html' q =
  Returns tt (set_results (Some (parse_markup (html ++ html'))) p).
Proof.
  unfold set_results_innerHTML, append_results_innerHTML.
  destruct (results p); [|done]. intros [= <-].
  cbn [results set_results]. by rewrite serialize_all_parse.
Qed.

Lemma appendChild_after_set html n p q :
  set_results_innerHTML html p = Returns tt q ->
  results_appendChild n q =
  Returns tt (set_results (Some (parse_markup html ++ [n])) p).
Proof.
  unfold set_results_innerHTML, results_appendChild.
  destruct (results p); [|done]. by intros [= <-].
Qed.

(** ** The two sides of the page *)

(** The modal controller owns the class list of the dialog and the
    overflow style of the body; the search controller owns the validity
    message, the search container and the results region.  Both write
    the log. *)
Definition modal_view (p : Page) : list jsstring * jsstring :=
  (modal_classList p, body_overflow p).

Definition search_view (p : Page) : jsstring * bool * option (list node) :=
  (isbn_validity p, search_container p, results p).

(** Two pages are equivalent when they differ in the log only: the
    log records what the script did and is never read by it. *)
Definition page_equiv (p q : Page) : Prop :=
  modal_view p = modal_view q /\ search_view p = search_view q.

#[export] Instance page_equiv_equivalence : Equivalence page_equiv.
Proof.
  split; [by intros p|by intros p q []|].
  intros p q r [H1 H2] [H3 H4]. split; congruence.
Qed.

#[export] Instance results_proper : Proper (page_equiv ==> eq) results.
Proof. intros p q [_ H]. by injection H. Qed.

#[export] Instance search_container_proper : Proper (page_equiv ==> eq) search_container.
Proof. intros p q [_ H]. by injection H. Qed.

#[export] Instance set_log_proper l : Proper (page_equiv ==> page_equiv) (set_log l).
Proof. by intros p q []. Qed.

Lemma set_log_equiv l p : page_equiv (set_log l p) p.
Proof. done. Qed.

(** A computation respects the equivalence when, on equivalent pages,
    it ends the same way (the same value, or the same exception) in
    equivalent pages. *)
Class PageProper {A} (c : D A) : Prop :=
  page_proper p q :
    page_equiv p q ->
    page_equiv (final_state (c p)) (final_state (c q)) /\
    returned (c p) = returned (c q) /\ thrown (c p) = thrown (c q).

(** What the rest of the program may assume of a computation of the
    search controller: it leaves the modal controller's side alone,
    never removes the results region or the search container, only
    adds to the log, and what it does depends on its own side of the
    page only. *)
Class SearchSide {A} (c : D A) : Prop := {
  search_side_frame p : modal_view (final_state (c p)) = modal_view p;
  search_side_region p :
    is_some (results p) = true -> is_some (results (final_state (c p))) = true;
  search_side_container p :
    search_container (final_state (c p)) = search_container p;
  search_side_log p : exists l, log (final_state (c p)) = log p ++ l;
  search_side_local p q :
    search_view p = search_view q ->
    search_view (final_state (c p)) = search_view (final_state (c q)) /\
    returned (c p) = returned (c q) /\ thrown (c p) = thrown (c q)
}.

#[export] Instance search_side_proper {A} (c : D A) : SearchSide c -> PageProper c.
Proof.
  intros Hc p q [Hm Hs]. destruct (search_side_local p q Hs) as (Hv & Hr & Ht).
  split_and!; [split; [|done]|done|done].
  by rewrite !search_side_frame.
Qed.

Lemma log_extends_refl p : exists l, log p = log p ++ l.
Proof. exists []. by rewrite app_nil_r. Qed.

#[export] Hint Resolve log_extends_refl : core.

(** Closing a goal that says a field is unchanged or the log was
    extended, once the final page is explicit. *)
Ltac solve_side :=
  first [ done
        | by eexists
        | by (exists []; rewrite app_nil_r)
        | by (rewrite <- ?app_assoc; eexists) ].
