(* ===== verification/Modal.v ===== *)
(** * The modal controller

    The four listeners of [src/script.js] that show and hide the about
    dialog (lines 5 to 36), the dispatch of a click or a key press to
    them, the two-state machine the specification describes, and the
    theorems that relate them: the listeners never throw, keep the
    scroll lock equal to the visibility of the dialog, implement the
    two-state machine, and touch nothing but the dialog's class list,
    the body's overflow style and the log. *)

From Stdlib Require Import String.
From S2P Require Import Prelude JsString JsValue Dom.
Local Open Scope js_scope.

(** ** The listeners *)

Definition show : jsstring := lit "show".
Definition hidden : jsstring := lit "hidden".
Definition Escape : jsstring := lit "Escape".

(** [modal.classList.add(tok)], [.remove(tok)], [.contains(tok)] *)
Definition modal_classList_add (tok : jsstring) : D unit :=
  modify (fun p => set_modal_classList (classList_add tok (modal_classList p)) p).
Definition modal_classList_remove (tok : jsstring) : D unit :=
  modify (fun p => set_modal_classList (classList_remove tok (modal_classList p)) p).
Definition modal_classList_contains (tok : jsstring) : D bool :=
  gets (fun p => classList_contains tok (modal_classList p)).

(** [document.body.style.overflow = v] *)
Definition set_overflow (v : jsstring) : D unit := modify (set_body_overflow v).

(** Where a click lands: on the about link, on the close control, on
    the modal element itself (its backdrop), or anywhere else (the
    content of the dialog included). *)
Inductive target : Type := AboutLink | CloseBtn | TheModal | Elsewhere.

#[export] Instance target_eq_dec : EqDecision target.
Proof. solve_decision. Defined.

(** The click listener of the about link. *)
Definition aboutLink_click : D unit :=
  emit PreventDefault ;;
  modal_classList_add show ;;
  set_overflow hidden.

(** The click listener of the close control. *)
Definition closeBtn_click : D unit :=
  modal_classList_remove show ;;
  set_overflow [].

(** The click listener of the window: [e.target === modal]. *)
Definition window_click (e_target : target) : D unit :=
  if bool_decide (e_target = TheModal)
  then modal_classList_remove show ;; set_overflow []
  else ret tt.

(** The keydown listener of the document. *)
Definition document_keydown (e_key : jsstring) : D unit :=
  cond <- and_then (str_eqb e_key Escape) (modal_classList_contains show) ;;
  if cond
  then modal_classList_remove show ;; set_overflow []
  else ret tt.

(** ** Dispatch *)

(** A click runs the listener of the element it lands on, then, as the
    event bubbles, the listener of the window. *)
Definition click (t : target) : D unit :=
  match t with
  | AboutLink => aboutLink_click
  | CloseBtn => closeBtn_click
  | TheModal | Elsewhere => ret tt
  end ;;
  window_click t.

Inductive modal_event : Type :=
| Click (t : target)
| KeyDown (key : jsstring).

Definition modal_handle (ev : modal_event) : D unit :=
  match ev with
  | Click t => click t
  | KeyDown key => document_keydown key
  end.

(** The pages after each event of a sequence, in order. *)
Fixpoint modal_trace (evs : list modal_event) (p : Page) : list Page :=
  match evs with
  | [] => []
  | ev :: evs' =>
      let p' := final_state (modal_handle ev p) in
      p' :: modal_trace evs' p'
  end.

(** ** The specification's state machine *)

Inductive modal_state : Type := HIDDEN | SHOWN.

#[export] Instance modal_state_eq_dec : EqDecision modal_state.
Proof. solve_decision. Defined.

(** The triggers of the specification. *)
Inductive trigger : Type := Open | Dismiss | NoTrigger.

Definition modal_step (t : trigger) (s : modal_state) : modal_state :=
  match t with
  | Open => SHOWN
  | Dismiss => HIDDEN
  | NoTrigger => s
  end.

(** Which trigger an event is: the about link opens; the close control,
    the backdrop and the Escape key dismiss. *)
Definition trigger_of (ev : modal_event) : trigger :=
  match ev with
  | Click AboutLink => Open
  | Click CloseBtn | Click TheModal => Dismiss
  | Click Elsewhere => NoTrigger
  | KeyDown key => if str_eqb key Escape then Dismiss else NoTrigger
  end.

(** ** Observations of a page *)

Definition shown (p : Page) : bool := classList_contains show (modal_classList p).
Definition scroll_locked (p : Page) : bool := str_eqb (body_overflow p) hidden.

Definition modal_abs (p : Page) : modal_state := if shown p then SHOWN else HIDDEN.

(** The invariant of the specification: the scroll is locked if and
    only if the dialog is shown. *)
Definition modal_consistent (p : Page) : Prop := scroll_locked p = shown p.

#[export] Instance modal_consistent_dec p : Decision (modal_consistent p).
Proof. unfold modal_consistent. apply _. Defined.


(** ** What each event does *)

(** The page after the dialog was opened, and after it was dismissed. *)
Definition opened (p : Page) : Page :=
  set_body_overflow hidden
    (set_modal_classList (classList_add show (modal_classList p)) p).

Definition closed (p : Page) : Page :=
  set_body_overflow []
    (set_modal_classList (classList_remove show (modal_classList p)) p).

Definition modal_effect (ev : modal_event) (p : Page) : Page :=
  match ev with
  | Click AboutLink => opened (set_log (log p ++ [PreventDefault]) p)
  | Click CloseBtn | Click TheModal => closed p
  | Click Elsewhere => p
  | KeyDown key => if str_eqb key Escape && shown p then closed p else p
  end.

(** Every listener returns, with the page [modal_effect] describes. *)
Lemma modal_handle_run ev p : modal_handle ev p = Returns tt (modal_effect ev p).
Proof.
  destruct ev as [[]|key]; try reflexivity.
  unfold modal_handle, document_keydown, modal_effect, shown, bind, and_then.
  destruct (str_eqb key Escape); [|done]. simpl.
  by destruct (classList_contains show (modal_classList p)).
Qed.

Lemma shown_opened p : shown (opened p) = true.
Proof. apply classList_contains_add. Qed.

Lemma scroll_locked_opened p : scroll_locked (opened p) = true.
Proof. reflexivity. Qed.

Lemma shown_closed p : shown (closed p) = false.
Proof. apply classList_contains_remove. Qed.

Lemma scroll_locked_closed p : scroll_locked (closed p) = false.
Proof. reflexivity. Qed.

Lemma modal_consistent_opened p : modal_consistent (opened p).
Proof. unfold modal_consistent. by rewrite shown_opened. Qed.

Lemma modal_consistent_closed p : modal_consistent (closed p).
Proof. unfold modal_consistent. by rewrite shown_closed. Qed.

Create Rewrite HintDb modal.
#[export] Hint Resolve modal_consistent_opened modal_consistent_closed : core.
#[export] Hint Rewrite shown_opened shown_closed scroll_locked_opened
  scroll_locked_closed : modal.

Lemma modal_effect_consistent ev p :
  modal_consistent p -> modal_consistent (modal_effect ev p).
Proof.
  intros Hp. destruct ev as [[]|key]; simpl; auto.
  by destruct (str_eqb key Escape && shown p).
Qed.

Lemma modal_effect_abs ev p :
  modal_abs (modal_effect ev p) = modal_step (trigger_of ev) (modal_abs p).
Proof.
  unfold modal_abs. destruct ev as [[]|key]; simpl;
    autorewrite with modal; try done.
  destruct (str_eqb key Escape); simpl; [|done].
  destruct (shown p) eqn:E; [by rewrite shown_closed|by rewrite E].
Qed.

Lemma modal_effect_search_view ev p :
  search_view (modal_effect ev p) = search_view p.
Proof.
  destruct ev as [[]|key]; simpl; try done.
  by destruct (str_eqb key Escape && shown p).
Qed.

Lemma modal_effect_NoDup ev p :
  NoDup (modal_classList p) -> NoDup (modal_classList (modal_effect ev p)).
Proof.
  intros Hp. destruct ev as [[]|key]; simpl;
    auto using classList_add_NoDup, classList_remove_NoDup.
  destruct (str_eqb key Escape && shown p); simpl;
    auto using classList_remove_NoDup.
Qed.

Lemma modal_trace_effect evs p :
  modal_trace evs p =
  match evs with
  | [] => []
  | ev :: evs' => modal_effect ev p :: modal_trace evs' (modal_effect ev p)
  end.
Proof. destruct evs as [|ev evs]; simpl; [done|]. by rewrite modal_handle_run. Qed.

(** ** Theorems *)

(** No listener of the modal controller throws: every click and
    every key press is handled to completion. *)
Theorem modal_handle_returns ev p : returned (modal_handle ev p) = Some tt.
Proof. by rewrite modal_handle_run. Qed.

(** Every listener keeps the invariant of the specification: the
    scroll is locked if and only if the dialog is shown. *)
Theorem modal_handle_consistent ev p :
  modal_consistent p -> modal_consistent (final_state (modal_handle ev p)).
Proof. rewrite modal_handle_run. apply modal_effect_consistent. Qed.

Lemma modal_handle_consistent_witness :
  modal_consistent (final_state (modal_handle (Click AboutLink) blank_page)).
Proof. apply (modal_handle_consistent (Click AboutLink) blank_page). reflexivity. Defined.

(** C2. Along every sequence of clicks and key presses, from a page
    where lock and visibility agree, they agree after each event. *)
Theorem modal_trace_consistent evs p :
  modal_consistent p -> Forall modal_consistent (modal_trace evs p).
Proof.
  revert p. induction evs as [|ev evs IH]; intros p Hp;
    rewrite modal_trace_effect; [done|].
  apply Forall_cons. split; [|apply IH]; by apply modal_effect_consistent.
Qed.

Lemma modal_trace_consistent_witness :
  Forall modal_consistent
    (modal_trace [Click AboutLink; Click Elsewhere; KeyDown Escape;
                  Click AboutLink; Click AboutLink; Click TheModal;
                  KeyDown Escape; Click CloseBtn] blank_page).
Proof. apply modal_trace_consistent. reflexivity. Defined.

(** C19. The listeners implement the two-state machine of the
    specification: the visibility after an event is the machine's state
    after the trigger the event stands for. *)
Theorem modal_handle_refines ev p :
  modal_abs (final_state (modal_handle ev p)) =
  modal_step (trigger_of ev) (modal_abs p).
Proof. rewrite modal_handle_run. apply modal_effect_abs. Qed.

(** The modal controller leaves the search controller's part of
    the page alone: the validity message, the search container and the
    results region are as before. *)
Theorem modal_handle_frame ev p :
  search_view (final_state (modal_handle ev p)) = search_view p.
Proof. rewrite modal_handle_run. apply modal_effect_search_view. Qed.

(** The three ways to dismiss the dialog lead to the same page:
    the close control, a click on the backdrop, and the Escape key while
    the dialog is shown. *)
Theorem dismissals_agree p :
  final_state (modal_handle (Click CloseBtn) p) =
    final_state (modal_handle (Click TheModal) p) /\
  (shown p = true ->
   final_state (modal_handle (KeyDown Escape) p) =
     final_state (modal_handle (Click CloseBtn) p)).
Proof.
  rewrite !modal_handle_run. split; [done|]. simpl. by intros ->.
Qed.

(** Opening is idempotent: the about link activated while the
    dialog is shown changes neither the class list nor the overflow
    style. *)
Theorem open_idempotent p :
  let p1 := final_state (modal_handle (Click AboutLink) p) in
  let p2 := final_state (modal_handle (Click AboutLink) p1) in
  modal_classList p2 = modal_classList p1 /\ body_overflow p2 = body_overflow p1.
Proof.
  cbv zeta. rewrite !modal_handle_run. simpl. split; [|done].
  apply classList_add_idemp.
Qed.

(** The Escape key does nothing while the dialog is hidden, and no
    other key does anything at all. *)
Theorem keydown_noop key p :
  str_eqb key Escape && shown p = false ->
  final_state (modal_handle (KeyDown key) p) = p.
Proof. rewrite modal_handle_run. simpl. by intros ->. Qed.

Lemma keydown_noop_witness :
  final_state (modal_handle (KeyDown Escape) blank_page) = blank_page.
Proof. apply (keydown_noop Escape blank_page). reflexivity. Defined.

(** The class list of the dialog stays free of duplicates. *)
Theorem modal_handle_NoDup ev p :
  NoDup (modal_classList p) ->
  NoDup (modal_classList (final_state (modal_handle ev p))).
Proof. rewrite modal_handle_run. apply modal_effect_NoDup. Qed.

Lemma modal_handle_NoDup_witness :
  NoDup (modal_classList (final_state (modal_handle (Click AboutLink) blank_page))).
Proof. apply (modal_handle_NoDup (Click AboutLink) blank_page). constructor. Defined.

(** ** The controller as the rest of the program sees it *)

(** What the rest of the program may assume of a computation of the
    modal controller: it returns, it keeps lock and visibility in
    agreement, it leaves the search controller's side of the page
    alone, only adds to the log, and what it does depends on its own
    side of the page only. *)
Class ModalSide {A} (c : D A) : Prop := {
  modal_side_returns p : thrown (c p) = None;
  modal_side_consistent p :
    modal_consistent p -> modal_consistent (final_state (c p));
  modal_side_frame p : search_view (final_state (c p)) = search_view p;
  modal_side_log p : exists l, log (final_state (c p)) = log p ++ l;
  modal_side_local p q :
    modal_view p = modal_view q ->
    modal_view (final_state (c p)) = modal_view (final_state (c q))
}.

#[export] Instance modal_side_proper (c : D unit) : ModalSide c -> PageProper c.
Proof.
  intros Hc p q [Hm Hs]. pose proof (modal_side_returns (c:=c) p) as Hp.
  pose proof (modal_side_returns (c:=c) q) as Hq.
  split_and!; [split; [by apply modal_side_local|by rewrite !modal_side_frame]| |congruence].
  destruct (c p) as [[] ?|], (c q) as [[] ?|]; done.
Qed.

Lemma modal_effect_local ev p q :
  modal_view p = modal_view q ->
  modal_view (modal_effect ev p) = modal_view (modal_effect ev q).
Proof.
  unfold modal_view. intros [= Hc Ho].
  destruct ev as [[]|key]; simpl; unfold shown; rewrite ?Hc, ?Ho; try done.
  destruct (str_eqb key Escape && _); simpl; by rewrite ?Hc, ?Ho.
Qed.

Lemma modal_effect_log ev p : exists l, log (modal_effect ev p) = log p ++ l.
Proof.
  destruct ev as [[]|key]; simpl; auto; [by eexists|].
  destruct (str_eqb key Escape && shown p); simpl; auto.
Qed.

#[export] Instance modal_handle_side ev : ModalSide (modal_handle ev).
Proof.
  split; intros p; rewrite modal_handle_run; simpl.
  - done.
  - apply modal_effect_consistent.
  - apply modal_effect_search_view.
  - apply modal_effect_log.
  - intros q. rewrite modal_handle_run. apply modal_effect_local.
Qed.

(** Whether lock and visibility agree depends on the modal side of the
    page only. *)
Lemma modal_consistent_view p q :
  modal_view p = modal_view q -> modal_consistent p -> modal_consistent q.
Proof.
  unfold modal_view, modal_consistent, scroll_locked, shown.
  by intros [= -> ->].
Qed.
