(* ===== verification/Query.v ===== *)
(** * Query construction

    The part of the submit listener of [src/script.js] (lines 72 to
    100) that turns the four form fields into the search query: the
    fields are trimmed, an ISBN takes precedence over title and author,
    and a language other than english is appended. *)

From Stdlib Require Import String.
From S2P Require Import Prelude JsString.

(** ** The form fields *)

(** The values of [form.isbn], [form.title], [form.author] and
    [form.language] when the form is submitted. *)
Record Fields : Type := mkFields {
  f_isbn : jsstring;
  f_title : jsstring;
  f_author : jsstring;
  f_language : jsstring
}.

Definition english : jsstring := lit "english".
Definition textbook_pdf : jsstring := lit " textbook pdf".

(** ** The query *)

(** Lines 85 to 93: the query before the language is considered, from
    the trimmed fields.  The empty string means: nothing to search
    for. *)
Definition base_query (isbn title author : jsstring) : jsstring :=
  if str_truthy isbn then
    dquote ++ isbn ++ dquote ++ textbook_pdf
  else if str_truthy title || str_truthy author then
    title ++ lit " " ++ author ++ textbook_pdf
  else
    [].

(** Lines 98 to 100. *)
Definition add_language (searchQuery language : jsstring) : jsstring :=
  if negb (str_eqb language english)
  then searchQuery ++ lit " " ++ language
  else searchQuery.

(** The query the submit listener searches for, if any: lines 73 to
    100 without the validation of the ISBN. *)
Definition searchQuery (f : Fields) : option jsstring :=
  let isbn := trim (f_isbn f) in
  let title := trim (f_title f) in
  let author := trim (f_author f) in
  let language := f_language f in
  let q := base_query isbn title author in
  if str_truthy q then Some (add_language q language) else None.

(** ** What the specification asks for *)

(** What the language adds to a query: nothing for english, a space
    and the value of the field for any other value. *)
Definition language_suffix (language : jsstring) : jsstring :=
  if bool_decide (language = english) then [] else lit " " ++ language.

(** ** Theorems *)

Lemma textbook_pdf_truthy s : str_truthy (s ++ textbook_pdf) = true.
Proof. by destruct s. Qed.

Lemma base_query_isbn isbn title author :
  isbn <> [] -> base_query isbn title author = dquote ++ isbn ++ dquote ++ textbook_pdf.
Proof. unfold base_query. by intros ->%str_truthy_true. Qed.

Lemma base_query_no_isbn title author :
  title <> [] \/ author <> [] ->
  base_query [] title author = title ++ lit " " ++ author ++ textbook_pdf.
Proof.
  unfold base_query. simpl. rewrite <- !str_truthy_true.
  by intros [-> | ->]; rewrite ?orb_true_r.
Qed.

Lemma base_query_empty isbn title author :
  base_query isbn title author = [] <-> isbn = [] /\ title = [] /\ author = [].
Proof.
  unfold base_query. destruct isbn as [|c isbn]; simpl; [|by split; [|intros [? _]]].
  destruct title as [|c title]; simpl; [|by split; [|intros (_ & ? & _)]].
  destruct author as [|c author]; simpl; [done|by split; [|intros (_ & _ & ?)]].
Qed.

Lemma add_language_suffix q language :
  add_language q language = q ++ language_suffix language.
Proof.
  unfold add_language, language_suffix, str_eqb.
  case_bool_decide; simpl; [by rewrite app_nil_r|done].
Qed.

Lemma searchQuery_None f :
  searchQuery f = None <->
  trim (f_isbn f) = [] /\ trim (f_title f) = [] /\ trim (f_author f) = [].
Proof.
  unfold searchQuery. cbv zeta. rewrite <- base_query_empty.
  destruct (base_query _ _ _); simpl; by split.
Qed.

(** C5. With an ISBN, the query is the quoted ISBN followed by
    [textbook pdf] and, unless it is english, a space and the language;
    title and author play no part. *)
Theorem searchQuery_isbn f :
  trim (f_isbn f) <> [] ->
  searchQuery f =
  Some (dquote ++ trim (f_isbn f) ++ dquote ++ lit " textbook pdf" ++
        language_suffix (f_language f)).
Proof.
  intros H. unfold searchQuery. cbv zeta. rewrite base_query_isbn by done.
  rewrite add_language_suffix, (app_assoc dquote), (app_assoc (dquote ++ _)).
  rewrite textbook_pdf_truthy. by rewrite <- !app_assoc.
Qed.

Lemma searchQuery_isbn_witness :
  searchQuery (mkFields (lit "9780134685991") (lit "ignored") [] english) =
  Some (dquote ++ lit "9780134685991" ++ dquote ++ lit " textbook pdf").
Proof.
  apply (searchQuery_isbn (mkFields (lit "9780134685991") (lit "ignored") [] english)).
  vm_compute. discriminate.
Defined.

(** C6. Without an ISBN but with a title or an author, the query is
    title, space, author, [textbook pdf] and, unless it is english, a
    space and the language: the two fields are joined by one space even
    when one of them is empty. *)
Theorem searchQuery_title_author f :
  trim (f_isbn f) = [] ->
  trim (f_title f) <> [] \/ trim (f_author f) <> [] ->
  searchQuery f =
  Some (trim (f_title f) ++ lit " " ++ trim (f_author f) ++ lit " textbook pdf" ++
        language_suffix (f_language f)).
Proof.
  intros Hi Hta. unfold searchQuery. cbv zeta. rewrite Hi, base_query_no_isbn by done.
  rewrite add_language_suffix, (app_assoc (trim _)), (app_assoc (_ ++ lit " ")).
  rewrite textbook_pdf_truthy. by rewrite <- !app_assoc.
Qed.

Lemma searchQuery_title_author_witness :
  searchQuery (mkFields [] (lit "Effective") (lit "Bloch") (lit "spanish")) =
  Some (lit "Effective Bloch textbook pdf spanish").
Proof.
  apply (searchQuery_title_author
           (mkFields [] (lit "Effective") (lit "Bloch") (lit "spanish"))).
  - reflexivity.
  - left. vm_compute. discriminate.
Defined.

(** There is nothing to search for exactly when the three text
    fields are blank (empty or white space only), whatever the
    language. *)
Theorem searchQuery_nothing f :
  searchQuery f = None <->
  forallb is_space (f_isbn f) = true /\
  forallb is_space (f_title f) = true /\
  forallb is_space (f_author f) = true.
Proof. by rewrite searchQuery_None, !trim_nil. Qed.

(** A query, when there is one, is never empty, and it starts
    with the query built from the three text fields: the language is a
    suffix. *)
Theorem searchQuery_shape f q :
  searchQuery f = Some q ->
  q <> [] /\
  exists suffix,
    q = base_query (trim (f_isbn f)) (trim (f_title f)) (trim (f_author f)) ++ suffix.
Proof.
  unfold searchQuery. cbv zeta.
  destruct (base_query _ _ _) as [|c b] eqn:E; [done|]. simpl.
  intros [= <-]. rewrite add_language_suffix. split; [done|by eexists].
Qed.

Lemma searchQuery_shape_witness :
  lit "Effective Bloch textbook pdf spanish" <> [] /\
  exists suffix,
    lit "Effective Bloch textbook pdf spanish" =
    base_query (trim []) (trim (lit "Effective")) (trim (lit "Bloch")) ++ suffix.
Proof.
  apply (searchQuery_shape
           (mkFields [] (lit "Effective") (lit "Bloch") (lit "spanish"))).
  reflexivity.
Defined.

(** ** Examples *)

(** The hyphens of the ISBN stay in the query: only the validator
    strips them. *)
Example searchQuery_hyphens :
  searchQuery (mkFields (lit "  0-13-468599-7 ") [] [] english) =
  Some (dquote ++ lit "0-13-468599-7" ++ dquote ++ lit " textbook pdf").
Proof. reflexivity. Qed.

(** A missing author gives a double space, a missing title a leading
    space. *)
Example searchQuery_no_author :
  searchQuery (mkFields [] (lit "Effective") [] english) =
  Some (lit "Effective  textbook pdf").
Proof. reflexivity. Qed.

Example searchQuery_no_title :
  searchQuery (mkFields [] [] (lit "Bloch") english) =
  Some (lit " Bloch textbook pdf").
Proof. reflexivity. Qed.

(** The language is compared as it stands: an empty value is not
    english, and leaves a trailing space. *)
Example searchQuery_empty_language :
  searchQuery (mkFields [] (lit "Effective") (lit "Bloch") []) =
  Some (lit "Effective Bloch textbook pdf ").
Proof. reflexivity. Qed.

Example searchQuery_blank :
  searchQuery (mkFields (lit "  ") [] (lit " ") (lit "french")) = None.
Proof. reflexivity. Qed.
