(* ===== verification/Render.v ===== *)
(** * Result rendering: [displayResults] of [src/script.js]

    The function replaces the content of the results region by a
    heading and either a message that nothing was found or one block
    per item of the response, in order.  It is modelled on every value
    the response may hold under [items], well formed or not; the
    theorems give its outcome on each class of values and relate it to
    the rendering the specification describes for well-formed items.
    The last part is about the text of the items: it is inserted as
    markup, which makes the template ambiguous, and can be read back
    when it holds no [<] and no double quote. *)

From Stdlib Require Import String.
From S2P Require Import Prelude JsString JsValue Dom.

(** ** Markup *)

Definition heading : jsstring := lit "<h2>Search Results</h2>".
Definition no_results : jsstring :=
  lit "<p>No results found. Try a different search.</p>".

Definition nl : jsstring := [10%N].
Definition spaces (n : nat) : jsstring := repeat 32%N n.

(** The template literal of lines 192 to 196, with the three
    substitutions already converted to strings. *)
Definition item_markup (title snippet link : jsstring) : jsstring :=
  nl ++ spaces 12 ++ lit "<h3>" ++ title ++ lit "</h3>" ++
  nl ++ spaces 12 ++ lit "<p>" ++ snippet ++ lit "</p>" ++
  nl ++ spaces 12 ++ lit "<a href=" ++ dquote ++ link ++ dquote ++
    lit " target=" ++ dquote ++ lit "_blank" ++ dquote ++
    lit " class=" ++ dquote ++ lit "download-link" ++ dquote ++
    lit ">View Resource</a>" ++
  nl ++ spaces 8.

(** ** The function *)

Section render.
Context {host : Host}.
Local Open Scope res_scope.

(** The body of the callback of [forEach], lines 187 to 196: the new
    element for one item. *)
Definition render_item (item : jsval) : result node :=
  title <- get item Title ;;
  title_s <- to_string title ;;
  snippet <- get item Snippet ;;
  snippet_s <- to_string (js_or snippet (JStr [])) ;;
  link <- get item Link ;;
  link_s <- to_string link ;;
  Ok (Element (lit "div") (lit "result-item")
        [Markup (item_markup title_s snippet_s link_s)]).

(** [results.forEach(item => { ...; container.appendChild(element) })]:
    [children] are the children of the container so far.  Only an array
    has a [forEach] to call. *)
Fixpoint forEach_append (items : list jsval) (children : list node)
    : result (list node) :=
  match items with
  | [] => Ok children
  | item :: items' =>
      element <- render_item item ;;
      forEach_append items' (children ++ [element])
  end.

Definition forEach_render (results : jsval) : result (list node) :=
  match results with
  | JArr items => forEach_append items []
  | _ => Raise TypeError
  end.

(** [!results || results.length === 0] *)
Definition nothing_found (results : jsval) : result bool :=
  if negb (truthy results) then Ok true
  else len <- get results Length ;; Ok (is_zero len).

Local Open Scope js_scope.

Definition displayResults (results : jsval) : D unit :=
  set_results_innerHTML heading ;;
  nothing <- lift (nothing_found results) ;;
  if nothing then
    append_results_innerHTML no_results
  else
    children <- lift (forEach_render results) ;;
    results_appendChild (Element (lit "div") (lit "results-container") children).

End render.

(** ** The rendering of the specification *)

(** A result item as the specification has it. *)
Record ResultItem : Type := mkItem {
  ri_title : jsstring;
  ri_snippet : option jsstring;
  ri_link : jsstring
}.

(** The block of one item. *)
Definition block (r : ResultItem) : node :=
  Element (lit "div") (lit "result-item")
    [Markup (item_markup (ri_title r) (default [] (ri_snippet r)) (ri_link r))].

(** The content of the results region for a sequence of items. *)
Definition rendering (rs : list ResultItem) : list node :=
  match rs with
  | [] => [Markup (heading ++ no_results)]
  | _ :: _ => [Markup heading; Element (lit "div") (lit "results-container") (map block rs)]
  end.

(** A value of the response represents an item when it is an object
    whose own [title] and [link] are strings and whose own [snippet] is
    a string or absent; other properties do not matter. *)
Definition represents (v : jsval) (r : ResultItem) : Prop :=
  exists props,
    v = JObj props /\
    own props (lit "title") = Some (JStr (ri_title r)) /\
    own props (lit "link") = Some (JStr (ri_link r)) /\
    own props (lit "snippet") = JStr <$> ri_snippet r.

(** The object the API sends for an item. *)
Definition item_json (r : ResultItem) : jsval :=
  JObj ([(lit "title", JStr (ri_title r))] ++
        match ri_snippet r with
        | Some s => [(lit "snippet", JStr s)]
        | None => []
        end ++
        [(lit "link", JStr (ri_link r))]).

(** ** What the conditions of the function test *)

(** [!results || results.length === 0], value by value: the falsy
    values, the empty array, an object whose own [length] is the number
    zero, a function without parameters. *)
Definition is_empty_result (v : jsval) : bool :=
  match v with
  | JArr items => match items with [] => true | _ :: _ => false end
  | JObj props =>
      match own props (lit "length") with
      | Some x => is_zero x
      | None => false
      end
  | JBuiltin _ arity => (arity =? 0)%nat
  | _ => negb (truthy v)
  end.

Lemma nothing_found_run v : nothing_found v = Ok (is_empty_result v).
Proof.
  unfold nothing_found. destruct v as [| |b|image|s|items|props|name arity];
    cbn -[num_of_nat is_zero]; try done.
  - by destruct b.
  - by destruct (negb _ && negb _).
  - destruct s; cbn -[num_of_nat is_zero]; [done|]. by rewrite num_of_nat_zero.
  - rewrite num_of_nat_zero. by destruct items.
  - by destruct (own props _).
  - by rewrite num_of_nat_zero.
Qed.

(** ** The loop *)

Section render_facts.
Context {host : Host}.

(** The elements for a list of items, as a map that stops at the first
    exception. *)
Fixpoint render_all (items : list jsval) : result (list node) :=
  match items with
  | [] => Ok []
  | item :: items' =>
      rbind (render_item item) (fun element =>
      rbind (render_all items') (fun elements => Ok (element :: elements)))
  end.

Lemma forEach_append_render_all items children :
  forEach_append items children =
  rbind (render_all items) (fun elements => Ok (children ++ elements)).
Proof.
  revert children. induction items as [|item items IH]; intros children; simpl.
  - by rewrite app_nil_r.
  - destruct (render_item item) as [element|e]; simpl; [|done].
    rewrite IH. destruct (render_all items); simpl; [|done].
    by rewrite <- app_assoc.
Qed.

Lemma forEach_render_arr items : forEach_render (JArr items) = render_all items.
Proof.
  simpl. rewrite forEach_append_render_all. by destruct (render_all items).
Qed.

Lemma render_all_length items elements :
  render_all items = Ok elements -> length elements = length items.
Proof.
  revert elements. induction items as [|item items IH]; intros elements; simpl.
  - by intros [= <-].
  - destruct (render_item item); simpl; [|done].
    destruct (render_all items); simpl; [|done].
    intros [= <-]. simpl. f_equal. by apply IH.
Qed.

(** ** The function, outcome by outcome *)

Definition results_container (children : list node) : node :=
  Element (lit "div") (lit "results-container") children.

Lemma displayResults_run v p :
  displayResults v p =
  if is_some (results p) then
    if is_empty_result v then
      Returns tt (set_results (Some [Markup (heading ++ no_results)]) p)
    else
      match forEach_render v with
      | Ok children =>
          Returns tt (set_results (Some [Markup heading; results_container children]) p)
      | Raise e => Throws e (set_results (Some [Markup heading]) p)
      end
  else Throws TypeError p.
Proof.
  unfold displayResults, bind. rewrite set_results_innerHTML_run.
  destruct (results p) as [old|] eqn:E; simpl; [|done].
  rewrite nothing_found_run, lift_Ok.
  destruct (is_empty_result v).
  - by rewrite (append_after_set heading no_results p);
      [|rewrite set_results_innerHTML_run, E].
  - destruct (forEach_render v) as [children|e]; [|done]. rewrite lift_Ok.
    by rewrite (appendChild_after_set heading _ p);
      [|rewrite set_results_innerHTML_run, E].
Qed.

(** ** Well-formed items *)

Lemma render_item_represents v r : represents v r -> render_item v = Ok (block r).
Proof.
  intros (props & -> & Ht & Hl & Hs). unfold render_item, block. simpl.
  change (field_name Title) with (lit "title").
  change (field_name Link) with (lit "link").
  change (field_name Snippet) with (lit "snippet").
  rewrite Ht, Hl, Hs. simpl.
  destruct (ri_snippet r) as [[|c s]|]; done.
Qed.

Lemma render_all_represents items rs :
  Forall2 represents items rs -> render_all items = Ok (map block rs).
Proof.
  induction 1 as [|v r items rs Hv _ IH]; simpl; [done|].
  by rewrite (render_item_represents v r Hv), IH.
Qed.

Lemma item_json_represents r : represents (item_json r) r.
Proof.
  eexists. split; [done|]. by destruct r as [t [s|] l].
Qed.

End render_facts.

(** ** Theorems *)

Section render_theorems.
Context {host : Host}.

Lemma render_item_raises item e : render_item item = Raise e -> e = TypeError.
Proof.
  unfold render_item. intros H.
  repeat match type of H with
  | rbind ?r _ = Raise _ =>
      let E := fresh "E" in
      destruct r eqn:E; simpl in H;
        [|injection H as <-;
          first [by eapply get_raises|by eapply to_string_raises]]
  end. done.
Qed.

Lemma render_all_raises items e : render_all items = Raise e -> e = TypeError.
Proof.
  induction items as [|item items IH]; simpl; [done|].
  destruct (render_item item) eqn:E; simpl; [|intros [= <-]; by eapply render_item_raises].
  destruct (render_all items); simpl; [done|]. intros [= <-]. by apply IH.
Qed.

Lemma forEach_render_raises v e : forEach_render v = Raise e -> e = TypeError.
Proof.
  destruct v; try (by intros [= <-]).
  rewrite forEach_render_arr. apply render_all_raises.
Qed.

(** C8. When the response holds no items (the property is absent, or
    an empty array, or any falsy value), the results region holds the
    heading and the message that nothing was found, and nothing else. *)
Theorem displayResults_nothing v p :
  is_some (results p) = true ->
  is_empty_result v = true ->
  displayResults v p = Returns tt (set_results (Some (rendering [])) p).
Proof. intros Hp Hv. by rewrite displayResults_run, Hp, Hv. Qed.

(** C3. For well-formed items the function implements the rendering of
    the specification: the heading, then one block per item in the
    order of the response, each with the item's title, its snippet (the
    empty string if absent) and its link. *)
Theorem displayResults_items items rs p :
  Forall2 represents items rs ->
  is_some (results p) = true ->
  displayResults (JArr items) p = Returns tt (set_results (Some (rendering rs)) p).
Proof.
  intros Hrs Hp. rewrite displayResults_run, Hp, forEach_render_arr.
  rewrite (render_all_represents items rs Hrs).
  destruct Hrs; done.
Qed.

(** Whatever the items are, when the function returns for a
    non-empty array the container holds exactly as many blocks as the
    response has items. *)
Theorem displayResults_count items p p' :
  items <> [] ->
  displayResults (JArr items) p = Returns tt p' ->
  exists children,
    results p' = Some [Markup heading; results_container children] /\
    length children = length items.
Proof.
  intros Hne. rewrite displayResults_run, forEach_render_arr.
  destruct (is_some (results p)); [|done].
  destruct items as [|item items]; [done|]. cbn [is_empty_result].
  destruct (render_all (item :: items)) as [children|] eqn:E; [|done].
  intros [= <-]. exists children. split; [done|]. by apply render_all_length.
Qed.

(** C40. A value under [items] that is neither empty nor an array has
    no [forEach] to call: the function throws a [TypeError], and leaves
    the heading alone in the results region. *)
Theorem displayResults_not_array v p :
  is_some (results p) = true ->
  is_empty_result v = false ->
  (forall items, v <> JArr items) ->
  displayResults v p = Throws TypeError (set_results (Some [Markup heading]) p).
Proof.
  intros Hp Hv Hna. rewrite displayResults_run, Hp, Hv.
  destruct v; try done. by destruct (Hna items).
Qed.

(** Without a results region the function throws a [TypeError]
    before it changes anything. *)
Theorem displayResults_no_region v p :
  results p = None -> displayResults v p = Throws TypeError p.
Proof. intros Hp. by rewrite displayResults_run, Hp. Qed.

(** The only exception the function can throw is a [TypeError]. *)
Theorem displayResults_throws v p :
  thrown (displayResults v p) = None \/
  thrown (displayResults v p) = Some TypeError.
Proof.
  rewrite displayResults_run. destruct (is_some (results p)); [|by right].
  destruct (is_empty_result v); [by left|].
  destruct (forEach_render v) eqn:E; [by left|right]. simpl.
  by rewrite (forEach_render_raises v e E).
Qed.

(** The function writes the results region and nothing else, and
    what it writes does not depend on what the region held: every write
    is a full replacement. *)
Theorem displayResults_replaces v p old :
  is_some (results p) = true ->
  displayResults v (set_results (Some old) p) = displayResults v p /\
  set_results (results p) (final_state (displayResults v p)) = p.
Proof.
  intros Hp. rewrite !displayResults_run, Hp. cbn [results set_results is_some].
  split.
  - destruct (is_empty_result v); [done|]. by destruct (forEach_render v).
  - destruct (is_empty_result v); [|destruct (forEach_render v)];
      apply set_results_restore.
Qed.

End render_theorems.

(** Witnesses: the theorems above at concrete responses, with the
    engine's text for built-in functions fixed. *)

Section render_witnesses.
#[local] Existing Instance v8_host.

Lemma displayResults_nothing_witness :
  displayResults JUndefined (set_results (Some []) blank_page) =
  Returns tt (set_results (Some (rendering [])) (set_results (Some []) blank_page)).
Proof. apply displayResults_nothing; reflexivity. Defined.

Lemma displayResults_items_witness :
  let rs := [mkItem (lit "Effective Java") (Some (lit "3rd edition")) (lit "https://a/b.pdf");
             mkItem (lit "Java Puzzlers") None (lit "https://c/d.pdf")] in
  let p := set_results (Some [Markup (lit "old")]) blank_page in
  displayResults (JArr (map item_json rs)) p =
  Returns tt (set_results (Some (rendering rs)) p).
Proof.
  cbv zeta. apply displayResults_items; [|reflexivity].
  repeat constructor; apply item_json_represents.
Defined.

Lemma displayResults_count_witness :
  exists children,
    results (set_results
               (Some [Markup heading;
                      results_container [block (mkItem (lit "T") None (lit "L"))]])
               (set_results (Some []) blank_page))
    = Some [Markup heading; results_container children] /\
    length children = length [item_json (mkItem (lit "T") None (lit "L"))].
Proof.
  apply (displayResults_count
           [item_json (mkItem (lit "T") None (lit "L"))]
           (set_results (Some []) blank_page)); [done|reflexivity].
Defined.

Lemma displayResults_not_array_witness :
  displayResults (JStr (lit "quota exceeded"))
    (set_results (Some []) blank_page) =
  Throws TypeError
    (set_results (Some [Markup heading]) (set_results (Some []) blank_page)).
Proof. apply displayResults_not_array; done. Defined.

Lemma displayResults_no_region_witness :
  displayResults (JArr []) blank_page = Throws TypeError blank_page.
Proof. apply displayResults_no_region. reflexivity. Defined.

Lemma displayResults_replaces_witness :
  let p := set_results (Some []) blank_page in
  displayResults JNull (set_results (Some [Markup (lit "old")]) p)
    = displayResults JNull p /\
  set_results (results p) (final_state (displayResults JNull p)) = p.
Proof.
  cbv zeta. apply (displayResults_replaces). reflexivity.
Defined.


End render_witnesses.

(** ** Text of the response is inserted as markup *)

(** The template inserts title, snippet and link as they are: two
    different items can give the same markup, so the text of an item
    decides where its own elements end. *)
Theorem item_markup_ambiguous :
  let sep := lit "</h3>" ++ nl ++ spaces 12 ++ lit "<p>" in
  let a := mkItem (lit "A" ++ sep ++ lit "B") (Some (lit "C")) (lit "L") in
  let b := mkItem (lit "A") (Some (lit "B" ++ sep ++ lit "C")) (lit "L") in
  a <> b /\ block a = block b.
Proof. cbv zeta. split; [discriminate|reflexivity]. Qed.

(** ** Text without markup characters is rendered faithfully *)

(** Reading a block back, as far as text goes: what stands between the
    fixed parts of the template, the title and the snippet up to the
    next [<], the link up to the next double quote. *)
Fixpoint strip_prefix (pre s : jsstring) : option jsstring :=
  match pre, s with
  | [], _ => Some s
  | c :: pre', d :: s' => if (c =? d)%N then strip_prefix pre' s' else None
  | _ :: _, [] => None
  end.

Definition free_of (stop : code_unit) (s : jsstring) : bool :=
  forallb (fun c => negb (c =? stop)%N) s.

Definition until (stop : code_unit) (s : jsstring) : jsstring * jsstring :=
  (take_while (fun c => negb (c =? stop)%N) s,
   drop_while (fun c => negb (c =? stop)%N) s).

(** The fixed parts of the template. *)
Definition before_title : jsstring := nl ++ spaces 12 ++ lit "<h3>".
Definition before_snippet : jsstring := lit "</h3>" ++ nl ++ spaces 12 ++ lit "<p>".
Definition before_link : jsstring :=
  lit "</p>" ++ nl ++ spaces 12 ++ lit "<a href=" ++ dquote.
Definition after_link : jsstring :=
  dquote ++ lit " target=" ++ dquote ++ lit "_blank" ++ dquote ++
  lit " class=" ++ dquote ++ lit "download-link" ++ dquote ++
  lit ">View Resource</a>" ++ nl ++ spaces 8.

Definition read_block (html : jsstring) : option (jsstring * jsstring * jsstring) :=
  match strip_prefix before_title html with
  | None => None
  | Some s1 =>
      let (title, s2) := until 60 s1 in
      match strip_prefix before_snippet s2 with
      | None => None
      | Some s3 =>
          let (snippet, s4) := until 60 s3 in
          match strip_prefix before_link s4 with
          | None => None
          | Some s5 =>
              let (link, s6) := until 34 s5 in
              match strip_prefix after_link s6 with
              | Some [] => Some (title, snippet, link)
              | _ => None
              end
          end
      end
  end.

Lemma item_markup_parts title snippet link :
  item_markup title snippet link =
  before_title ++ title ++ before_snippet ++ snippet ++ before_link ++ link ++ after_link.
Proof.
  unfold item_markup, before_title, before_snippet, before_link, after_link.
  by rewrite <- !app_assoc.
Qed.

Lemma strip_prefix_app pre s : strip_prefix pre (pre ++ s) = Some s.
Proof.
  induction pre as [|c pre IH]; simpl; [by destruct s|]. by rewrite N.eqb_refl.
Qed.

Lemma until_stop stop s rest :
  free_of stop s = true -> until stop (s ++ stop :: rest) = (s, stop :: rest).
Proof.
  intros Hs. unfold until. f_equal.
  - apply take_while_app_stop; [done|]. by rewrite N.eqb_refl.
  - rewrite drop_while_app_stop by (by rewrite N.eqb_refl).
    apply drop_while_nil in Hs. by rewrite Hs.
Qed.

Lemma until_before stop s next :
  free_of stop s = true ->
  match next with c :: _ => (c =? stop)%N | [] => false end = true ->
  until stop (s ++ next) = (s, next).
Proof.
  destruct next as [|c next]; [done|]. intros Hs ->%N.eqb_eq. by apply until_stop.
Qed.

(** C39. Text free of [<] and a link free of double quotes can be read back
    from the block: on such items the rendering loses nothing, and
    different items have different blocks. *)
Theorem read_block_item_markup title snippet link :
  free_of 60 title = true -> free_of 60 snippet = true -> free_of 34 link = true ->
  read_block (item_markup title snippet link) = Some (title, snippet, link).
Proof.
  intros Ht Hs Hl. rewrite item_markup_parts. unfold read_block.
  rewrite strip_prefix_app, (until_before 60 title) by done.
  rewrite strip_prefix_app, (until_before 60 snippet) by done.
  rewrite strip_prefix_app, (until_before 34 link) by done.
  by rewrite <- (app_nil_r after_link), strip_prefix_app.
Qed.

Lemma read_block_item_markup_witness :
  read_block (item_markup (lit "Effective Java") (lit "3rd edition") (lit "https://a/b.pdf")) =
  Some (lit "Effective Java", lit "3rd edition", lit "https://a/b.pdf").
Proof. by apply read_block_item_markup. Defined.

(** ** Items that are not objects *)

Section render_examples.
#[local] Existing Instance v8_host.

(** A number as an item renders as [undefined] twice; a string item
    links to the source text of [String.prototype.link]. *)
Example render_item_number :
  render_item (JNum (lit "7")) =
  Ok (Element (lit "div") (lit "result-item")
        [Markup (item_markup (lit "undefined") [] (lit "undefined"))]).
Proof. reflexivity. Qed.

Example render_item_string :
  render_item (JStr (lit "x")) =
  Ok (Element (lit "div") (lit "result-item")
        [Markup (item_markup (lit "undefined") []
                   (lit "function link() { [native code] }"))]).
Proof. reflexivity. Qed.

Example render_item_null : render_item JNull = Raise TypeError.
Proof. reflexivity. Qed.

Example render_item_toString :
  render_item
    (JObj [(lit "title", JObj [(lit "toString", JStr (lit "x"))])]) = Raise TypeError.
Proof. reflexivity. Qed.

End render_examples.
