(* ===== verification/Search.v ===== *)
(** * The search controller

    [searchForTextbook] and the three listeners of the form in
    [src/script.js]: the validation of the ISBN field as the user types,
    the reset of the form and its submission.  An [async] function is
    modelled by the parts between its suspension points: what runs
    until the request is sent ([_start]) and what runs when the response
    has arrived ([_resume]).  The two [await]s of [searchForTextbook]
    (the response, then its body) are one suspension: the function does
    nothing between them. *)

From Stdlib Require Import String.
From S2P Require Import Prelude JsString Regex Isbn JsValue Dom Query Render.

(** ** What the build and the network provide *)

(** [import.meta.env]: each of the two variables is a string, or
    [undefined] when the build did not define it. *)
Class Env : Type := {
  VITE_GOOGLE_API_KEY : option jsstring;
  VITE_SEARCH_ENGINE_ID : option jsstring
}.

(** How a request ends: [fetch] rejects, or the body of the response
    is not JSON, or it parses to a value. *)
Inductive response : Type :=
| NetworkError
| BadBody
| Json (data : jsval).

(** ** Texts *)

Definition loading : jsstring :=
  lit "<h2>Search Results</h2><p>Searching for textbooks...</p>".
Definition error_markup : jsstring :=
  lit "<h2>Search Results</h2><p>An error occurred while searching. Please try again.</p>".
Definition invalid_isbn_msg : jsstring :=
  lit "Please enter a valid ISBN (10 or 13 digits)".
Definition no_terms_msg : jsstring :=
  lit "Please enter either ISBN or Title/Author!".
Definition error_label : jsstring := lit "Error fetching results:".
Definition reset_label : jsstring := lit "Form reset triggered".

(** A substitution of a template literal whose value is a string or
    [undefined]. *)
Definition env_text (v : option jsstring) : jsstring :=
  default (lit "undefined") v.

Section search.
Context {host : Host} {env : Env}.
Local Open Scope js_scope.

(** ** [searchForTextbook] *)

(** The template literal of line 148. *)
Definition api_url (query : jsstring) : jsstring :=
  lit "https://www.googleapis.com/customsearch/v1?q=" ++ query ++
  lit "+filetype:pdf&key=" ++ env_text VITE_GOOGLE_API_KEY ++
  lit "&cx=" ++ env_text VITE_SEARCH_ENGINE_ID.

(** Lines 127 to 152, until the request is sent: the results region is
    found or created, the loading message is shown, the request goes
    out.  The value is the URL requested. *)
Definition searchForTextbook_start (query : jsstring) : D jsstring :=
  found <- results_exists ;;
  (if found then ret tt else create_results) ;;
  set_resultsDiv_innerHTML loading ;;
  let url := api_url query in
  emit (Fetch url) ;;
  ret url.

(** [await fetch(url)] and [await response.json()], given how the
    request ended. *)
Definition await_json (r : response) : D jsval :=
  match r with
  | NetworkError => throw TypeError
  | BadBody => throw SyntaxError
  | Json data => ret data
  end.

(** The [catch] block, lines 158 to 163. *)
Definition report_error (error : exn) : D unit :=
  emit (ConsoleError error_label error) ;;
  set_resultsDiv_innerHTML error_markup.

(** Lines 150 to 163, once the request has ended. *)
Definition searchForTextbook_resume (r : response) : D unit :=
  try_catch
    (data <- await_json r ;;
     items <- lift (get data Items) ;;
     displayResults items)
    report_error.

(** ** The listeners of the form *)

(** The input listener of the ISBN field, lines 45 to 53, with the
    value of the field. *)
Definition isbnInput_input (value : jsstring) : D unit :=
  let isbn := trim value in
  if str_truthy isbn && negb (isValidISBN isbn) then
    modify (set_isbn_validity invalid_isbn_msg) ;;
    emit ReportValidity
  else
    modify (set_isbn_validity []).

(** The reset listener, lines 56 to 63. *)
Definition form_reset : D unit :=
  emit (ConsoleLog reset_label) ;;
  found <- results_exists ;;
  if found then set_results_innerHTML [] else ret tt.

(** The submit listener, lines 67 to 102, until it is suspended or
    returns: the value is the URL of the request it waits for, if it
    sent one. *)
Definition form_submit_start (f : Fields) : D (option jsstring) :=
  emit PreventDefault ;;
  let isbn := trim (f_isbn f) in
  let title := trim (f_title f) in
  let author := trim (f_author f) in
  let language := f_language f in
  if str_truthy isbn && negb (isValidISBN isbn) then
    emit (Alert invalid_isbn_msg) ;;
    ret None
  else
    let searchQuery := base_query isbn title author in
    if str_truthy searchQuery then
      url <- searchForTextbook_start (add_language searchQuery language) ;;
      ret (Some url)
    else
      emit (Alert no_terms_msg) ;;
      ret None.

(** The submit listener from line 102 on, once the request has ended:
    the rest of [searchForTextbook], then the scroll to the results. *)
Definition form_submit_resume (r : response) : D unit :=
  searchForTextbook_resume r ;;
  found <- results_exists ;;
  if found then emit ScrollIntoView else ret tt.

End search.

(** ** What each operation does *)

Section search_facts.
Context {host : Host} {env : Env}.

(** The page while a search is in flight. *)
Definition searching (query : jsstring) (p : Page) : Page :=
  set_log (log p ++ [Fetch (api_url query)])
    (set_results (Some [Markup loading]) p).

Lemma searchForTextbook_start_run query p :
  searchForTextbook_start query p =
  if is_some (results p) || search_container p
  then Returns (api_url query) (searching query p)
  else Throws TypeError p.
Proof.
  unfold searchForTextbook_start, results_exists, create_results, emit. unfold_monad.
  destruct (results p) eqn:E; cbn [is_some orb]; cbn beta iota.
  - by rewrite set_resultsDiv_innerHTML_run, E.
  - destruct (search_container p); [|done]. by rewrite set_resultsDiv_innerHTML_run.
Qed.

(** What is under [items] in the response, if the request succeeded
    and the body is not [null]. *)
Definition response_items (r : response) : result jsval :=
  match r with
  | NetworkError => Raise TypeError
  | BadBody => Raise SyntaxError
  | Json data => get data Items
  end.

(** The page after a failed search: the error is logged and the error
    message is shown. *)
Definition failed (e : exn) (p : Page) : Page :=
  set_results (Some [Markup error_markup])
    (set_log (log p ++ [ConsoleError error_label e]) p).

(** The results region after the response was rendered. *)
Definition rendered (children : list node) (p : Page) : Page :=
  set_results (Some children) p.

Definition resume_effect (r : response) (p : Page) : Page :=
  match response_items r with
  | Raise e => failed e p
  | Ok items =>
      if is_empty_result items then rendered (rendering []) p
      else match forEach_render items with
           | Ok children => rendered [Markup heading; results_container children] p
           | Raise e => failed e p
           end
  end.

Lemma report_error_run e p :
  report_error e p =
  Returns tt (if is_some (results p) then failed e p
              else set_log (log p ++ [ConsoleError error_label e]) p).
Proof.
  unfold report_error, emit. unfold_monad. rewrite set_resultsDiv_innerHTML_run.
  cbn [results set_log]. by destruct (results p).
Qed.

(** The body of the [try] block. *)
Lemma try_block_run r p :
  (data <- await_json r ;; items <- lift (get data Items) ;; displayResults items)%js p =
  match response_items r with
  | Raise e => Throws e p
  | Ok items => displayResults items p
  end.
Proof.
  unfold_monad. destruct r as [| |data]; try done. simpl.
  by destruct (get data Items).
Qed.

Lemma searchForTextbook_resume_run r p :
  is_some (results p) = true ->
  searchForTextbook_resume r p = Returns tt (resume_effect r p).
Proof.
  intros Hp. unfold searchForTextbook_resume, try_catch, resume_effect.
  rewrite try_block_run. destruct (response_items r) as [items|e].
  - rewrite displayResults_run, Hp. destruct (is_empty_result items); [done|].
    destruct (forEach_render items); [done|].
    rewrite report_error_run. cbn [results set_results is_some]. done.
  - by rewrite report_error_run, Hp.
Qed.

(** Were the results region gone when the request ends, rendering
    would throw, or the request has failed: either way the error is
    logged, the message goes to the element the function still holds,
    and the page does not change. *)
Lemma searchForTextbook_resume_no_region r p :
  results p = None ->
  exists e, searchForTextbook_resume r p =
            Returns tt (set_log (log p ++ [ConsoleError error_label e]) p).
Proof.
  intros Hp. unfold searchForTextbook_resume, try_catch.
  rewrite try_block_run. destruct (response_items r) as [items|e].
  - rewrite displayResults_run, Hp. cbn [is_some].
    exists TypeError. by rewrite report_error_run, Hp.
  - exists e. by rewrite report_error_run, Hp.
Qed.

(** The listeners of the form. *)

Definition isbn_rejected (value : jsstring) : bool :=
  str_truthy (trim value) && negb (isValidISBN (trim value)).

Lemma isbnInput_input_run value p :
  isbnInput_input value p =
  Returns tt
    (if isbn_rejected value
     then set_log (log p ++ [ReportValidity]) (set_isbn_validity invalid_isbn_msg p)
     else set_isbn_validity [] p).
Proof.
  unfold isbnInput_input, isbn_rejected. cbv zeta.
  by destruct (str_truthy (trim value) && negb (isValidISBN (trim value))).
Qed.

Lemma form_reset_run p :
  form_reset p =
  Returns tt
    (let p' := set_log (log p ++ [ConsoleLog reset_label]) p in
     if is_some (results p) then set_results (Some []) p' else p').
Proof.
  unfold form_reset, bind, emit, modify, results_exists, gets. cbn [results set_log].
  destruct (results p) eqn:E; cbn [is_some]; [|done].
  rewrite set_results_innerHTML_run. cbn [results set_log]. by rewrite E.
Qed.

(** What a submission does before it is suspended: it alerts, or it
    starts a search, or (without a place for the results) it throws. *)
Definition submit_effect (f : Fields) (p : Page) : outcome Page exn (option jsstring) :=
  let p' := set_log (log p ++ [PreventDefault]) p in
  if isbn_rejected (f_isbn f) then
    Returns None (set_log (log p' ++ [Alert invalid_isbn_msg]) p')
  else
    match searchQuery f with
    | None => Returns None (set_log (log p' ++ [Alert no_terms_msg]) p')
    | Some q =>
        if is_some (results p) || search_container p
        then Returns (Some (api_url q)) (searching q p')
        else Throws TypeError p'
    end.

Lemma form_submit_start_run f p : form_submit_start f p = submit_effect f p.
Proof.
  unfold form_submit_start, submit_effect, isbn_rejected, searchQuery, bind, emit, modify.
  cbv zeta.
  destruct (str_truthy (trim (f_isbn f)) && negb (isValidISBN (trim (f_isbn f))));
    [done|].
  destruct (str_truthy (base_query _ _ _)); [|done].
  rewrite searchForTextbook_start_run. cbn [results search_container set_log].
  by destruct (is_some (results p) || search_container p).
Qed.

Lemma form_submit_resume_run r p :
  is_some (results p) = true ->
  form_submit_resume r p =
  Returns tt (let p' := resume_effect r p in set_log (log p' ++ [ScrollIntoView]) p').
Proof.
  intros Hp. unfold form_submit_resume, bind.
  rewrite searchForTextbook_resume_run by done.
  unfold results_exists, gets.
  assert (is_some (results (resume_effect r p)) = true) as ->; [|done].
  unfold resume_effect. destruct (response_items r); [|done].
  destruct (is_empty_result a); [done|]. by destruct (forEach_render a).
Qed.

End search_facts.

(** ** The request as the network sees it *)

(** A request carries the URL up to its fragment: what follows the
    first [#] is not sent. *)
Definition without_fragment (url : jsstring) : jsstring :=
  take_while (fun c => negb (c =? 35)%N) url.

(** ** Theorems *)

Section search_theorems.
Context {host : Host} {env : Env}.

(** C4. When the request fails or its body is not JSON, the listener
    does not throw: the error is logged for the developer and the
    results region shows the fixed error message. *)
Theorem search_failure_shown r p :
  is_some (results p) = true ->
  r = NetworkError \/ r = BadBody ->
  exists e,
    searchForTextbook_resume r p =
    Returns tt (set_results (Some [Markup error_markup])
                  (set_log (log p ++ [ConsoleError error_label e]) p)).
Proof.
  intros Hp Hr. rewrite searchForTextbook_resume_run by done.
  destruct Hr as [-> | ->]; by eexists.
Qed.

(** No response makes [searchForTextbook] throw once its request
    is sent: whatever the response holds, every exception is caught
    and reported. *)
Theorem searchForTextbook_resume_returns r p :
  returned (searchForTextbook_resume r p) = Some tt.
Proof.
  destruct (results p) eqn:E.
  - rewrite searchForTextbook_resume_run; [done|by rewrite E].
  - by destruct (searchForTextbook_resume_no_region r p E) as [e ->].
Qed.

(** A response whose [items] are well-formed is rendered as the
    specification says, replacing the loading message. *)
Theorem search_success_rendered props items rs p :
  is_some (results p) = true ->
  own props (lit "items") = Some (JArr items) ->
  Forall2 represents items rs ->
  searchForTextbook_resume (Json (JObj props)) p =
  Returns tt (set_results (Some (rendering rs)) p).
Proof.
  intros Hp Hitems Hrs. rewrite searchForTextbook_resume_run by done.
  unfold resume_effect. simpl. change (field_name Items) with (lit "items").
  rewrite Hitems, forEach_render_arr, (render_all_represents items rs Hrs).
  by destruct Hrs.
Qed.

(** C37. A response without [items], such as the body the API sends
    with an error status for a bad key or an exhausted quota, is
    rendered as a search that found nothing, not as an error. *)
Theorem search_api_error_as_nothing props p :
  is_some (results p) = true ->
  own props (lit "items") = None ->
  searchForTextbook_resume (Json (JObj props)) p =
  Returns tt (set_results (Some (rendering [])) p).
Proof.
  intros Hp Hitems. rewrite searchForTextbook_resume_run by done.
  unfold resume_effect. simpl. change (field_name Items) with (lit "items").
  by rewrite Hitems.
Qed.

(** The loading message never survives a response: afterwards the
    results region starts with the heading and shows the message that
    nothing was found, the blocks of the items, or the error message. *)
Theorem search_resume_outcomes r p :
  is_some (results p) = true ->
  let shown := results (final_state (searchForTextbook_resume r p)) in
  shown = Some (rendering []) \/
  (exists children, shown = Some [Markup heading; results_container children]) \/
  shown = Some [Markup error_markup].
Proof.
  intros Hp. cbv zeta. rewrite searchForTextbook_resume_run by done.
  unfold resume_effect. destruct (response_items r) as [items|e]; [|by auto].
  destruct (is_empty_result items); [by auto|].
  destruct (forEach_render items); [right; left; by eexists|by auto].
Qed.

(** [searchForTextbook] starts by showing the loading message in
    the results region, which it creates if the page has none, and
    sends exactly one request, for the URL that embeds the query. *)
Theorem searchForTextbook_start_sends query p :
  is_some (results p) || search_container p = true ->
  searchForTextbook_start query p =
  Returns (api_url query)
    (set_log (log p ++ [Fetch (api_url query)])
       (set_results (Some [Markup loading]) p)).
Proof. intros Hp. by rewrite searchForTextbook_start_run, Hp. Qed.

(** C36. On a page with neither a results region nor a search
    container, [searchForTextbook] throws before its [try] block: the
    exception is not caught, no request is sent, and the submit
    listener that awaits the function fails with it. *)
Theorem submit_unhandled f q p :
  results p = None ->
  search_container p = false ->
  isbn_rejected (f_isbn f) = false ->
  searchQuery f = Some q ->
  form_submit_start f p = Throws TypeError (set_log (log p ++ [PreventDefault]) p).
Proof.
  intros Hr Hc Hi Hq. rewrite form_submit_start_run. unfold submit_effect.
  cbv zeta. by rewrite Hi, Hq, Hr, Hc.
Qed.

(** C21. A submission with an ISBN that is not blank and not valid
    alerts the user and stops: no request is sent and the results
    region is untouched. *)
Theorem submit_invalid_isbn f p :
  isbn_rejected (f_isbn f) = true ->
  form_submit_start f p =
  Returns None (set_log (log p ++ [PreventDefault; Alert invalid_isbn_msg]) p).
Proof.
  intros Hi. rewrite form_submit_start_run. unfold submit_effect. cbv zeta.
  rewrite Hi. cbn [log set_log]. by rewrite <- app_assoc.
Qed.

(** C7. A submission with nothing to search for (the three text
    fields blank) prompts the user and never invokes the search. *)
Theorem submit_nothing f p :
  searchQuery f = None ->
  form_submit_start f p =
  Returns None (set_log (log p ++ [PreventDefault; Alert no_terms_msg]) p).
Proof.
  intros Hq. rewrite form_submit_start_run. unfold submit_effect. cbv zeta.
  assert (isbn_rejected (f_isbn f) = false) as ->.
  { apply searchQuery_None in Hq as (Hi & _). unfold isbn_rejected. by rewrite Hi. }
  rewrite Hq. cbn [log set_log]. by rewrite <- app_assoc.
Qed.

(** C20. Any other submission starts the search for the query built
    from the fields: the loading message is shown and the request for
    that query is sent. *)
Theorem submit_searches f q p :
  isbn_rejected (f_isbn f) = false ->
  searchQuery f = Some q ->
  is_some (results p) || search_container p = true ->
  form_submit_start f p =
  Returns (Some (api_url q))
    (set_log (log p ++ [PreventDefault; Fetch (api_url q)])
       (set_results (Some [Markup loading]) p)).
Proof.
  intros Hi Hq Hp. rewrite form_submit_start_run. unfold submit_effect, searching.
  cbv zeta. rewrite Hi, Hq, Hp. cbn [log set_log]. by rewrite <- app_assoc.
Qed.

(** The validation while typing and the test at submission agree:
    the field carries a validity message after an input exactly when a
    submission with that value would be refused for its ISBN. *)
Theorem input_agrees_with_submit value p :
  isbn_validity (final_state (isbnInput_input value p)) =
  if isbn_rejected value then invalid_isbn_msg else [].
Proof. rewrite isbnInput_input_run. by destruct (isbn_rejected value). Qed.

(** C9. Resetting the form empties the results region, if there is
    one, logs the reset, and does not throw. *)
Theorem form_reset_clears p :
  form_reset p =
  Returns tt
    (set_log (log p ++ [ConsoleLog reset_label])
       (set_results (if is_some (results p) then Some [] else None) p)).
Proof.
  rewrite form_reset_run. cbv zeta. destruct (results p) eqn:E; cbn [is_some]; [done|].
  by rewrite <- E, set_results_same.
Qed.

(** The query is put into the URL as it stands, without
    [encodeURIComponent]: where it contains a [#], the URL the request
    carries ends there, and neither the file-type filter nor the key
    nor the search-engine identifier is sent. *)
Theorem api_url_fragment a b :
  forallb (fun c => negb (c =? 35)%N) a = true ->
  without_fragment (api_url (a ++ lit "#" ++ b)) =
  lit "https://www.googleapis.com/customsearch/v1?q=" ++ a.
Proof.
  intros Ha. unfold without_fragment, api_url.
  rewrite <- !(app_assoc a), app_assoc. apply take_while_app_stop; [|done].
  rewrite forallb_app. apply andb_true_iff. by split.
Qed.

(** A query without [#] is sent whole, when the key and the identifier
    of the search engine have none either. *)
Theorem api_url_whole q :
  forallb (fun c => negb (c =? 35)%N)
    (q ++ env_text VITE_GOOGLE_API_KEY ++ env_text VITE_SEARCH_ENGINE_ID) = true ->
  without_fragment (api_url q) = api_url q.
Proof.
  rewrite !forallb_app, !andb_true_iff. intros (Hq & Hk & Hc).
  apply take_while_id. unfold api_url. rewrite !forallb_app, Hq, Hk, Hc. done.
Qed.

End search_theorems.

(** ** Witnesses: the theorems at a concrete page, build and response *)

Definition demo_env : Env :=
  {| VITE_GOOGLE_API_KEY := Some (lit "KEY"); VITE_SEARCH_ENGINE_ID := Some (lit "CX") |}.

(** A page on which a search is in flight. *)
Definition loading_page : Page := set_results (Some [Markup loading]) blank_page.

(** A page without a search container. *)
Definition bare_page : Page := mkPage [] [] [] false None [].

Definition effective_java : ResultItem :=
  mkItem (lit "Effective Java") (Some (lit "3rd edition")) (lit "https://a/b.pdf").
Definition java_puzzlers : ResultItem :=
  mkItem (lit "Java Puzzlers") None (lit "https://c/d.pdf").

Section search_witnesses.
#[local] Existing Instance v8_host.
#[local] Existing Instance demo_env.

Lemma search_failure_shown_witness :
  exists e,
    searchForTextbook_resume NetworkError loading_page =
    Returns tt (set_results (Some [Markup error_markup])
                  (set_log (log loading_page ++ [ConsoleError error_label e])
                     loading_page)).
Proof. apply search_failure_shown; [reflexivity|by left]. Defined.

Lemma search_success_rendered_witness :
  searchForTextbook_resume
    (Json (JObj [(lit "kind", JStr (lit "customsearch#search"));
                 (lit "items", JArr [item_json effective_java; item_json java_puzzlers])]))
    loading_page =
  Returns tt (set_results (Some (rendering [effective_java; java_puzzlers])) loading_page).
Proof.
  apply (search_success_rendered _ [item_json effective_java; item_json java_puzzlers]);
    [reflexivity..|].
  repeat constructor; apply item_json_represents.
Defined.

Lemma search_api_error_as_nothing_witness :
  searchForTextbook_resume
    (Json (JObj [(lit "error", JObj [(lit "code", JNum (lit "403"))])])) loading_page =
  Returns tt (set_results (Some (rendering [])) loading_page).
Proof. apply search_api_error_as_nothing; reflexivity. Defined.

Lemma search_resume_outcomes_witness :
  let shown := results (final_state (searchForTextbook_resume BadBody loading_page)) in
  shown = Some (rendering []) \/
  (exists children, shown = Some [Markup heading; results_container children]) \/
  shown = Some [Markup error_markup].
Proof. apply search_resume_outcomes. reflexivity. Defined.

Lemma searchForTextbook_start_sends_witness :
  searchForTextbook_start (lit "Effective Bloch textbook pdf") blank_page =
  Returns (api_url (lit "Effective Bloch textbook pdf"))
    (set_log (log blank_page ++ [Fetch (api_url (lit "Effective Bloch textbook pdf"))])
       (set_results (Some [Markup loading]) blank_page)).
Proof. apply searchForTextbook_start_sends. reflexivity. Defined.

Lemma submit_unhandled_witness :
  form_submit_start (mkFields [] (lit "Effective") (lit "Bloch") english) bare_page =
  Throws TypeError (set_log (log bare_page ++ [PreventDefault]) bare_page).
Proof.
  apply (submit_unhandled _ (lit "Effective Bloch textbook pdf")); reflexivity.
Defined.

Lemma submit_invalid_isbn_witness :
  form_submit_start (mkFields (lit "12345") (lit "Effective") [] english) blank_page =
  Returns None
    (set_log (log blank_page ++ [PreventDefault; Alert invalid_isbn_msg]) blank_page).
Proof. apply submit_invalid_isbn. reflexivity. Defined.

Lemma submit_nothing_witness :
  form_submit_start (mkFields [] [] [] english) blank_page =
  Returns None
    (set_log (log blank_page ++ [PreventDefault; Alert no_terms_msg]) blank_page).
Proof. apply submit_nothing. reflexivity. Defined.

Lemma submit_searches_witness :
  form_submit_start (mkFields [] (lit "Effective") (lit "Bloch") (lit "spanish")) blank_page =
  Returns (Some (api_url (lit "Effective Bloch textbook pdf spanish")))
    (set_log (log blank_page ++
              [PreventDefault; Fetch (api_url (lit "Effective Bloch textbook pdf spanish"))])
       (set_results (Some [Markup loading]) blank_page)).
Proof. apply submit_searches; reflexivity. Defined.

Lemma api_url_whole_witness :
  without_fragment (api_url (lit "Effective Bloch textbook pdf")) =
  api_url (lit "Effective Bloch textbook pdf").
Proof. apply api_url_whole. reflexivity. Defined.

Lemma api_url_fragment_witness :
  without_fragment (api_url (lit "C" ++ lit "#" ++ lit "  textbook pdf")) =
  lit "https://www.googleapis.com/customsearch/v1?q=" ++ lit "C".
Proof. apply api_url_fragment. reflexivity. Defined.

(** The request for a book on C#, as the listener builds it and as the
    network carries it. *)
Example search_for_c_sharp :
  searchQuery (mkFields [] (lit "C#") [] english) = Some (lit "C#  textbook pdf") /\
  api_url (lit "C#  textbook pdf") =
    lit "https://www.googleapis.com/customsearch/v1?q=C#  textbook pdf+filetype:pdf&key=KEY&cx=CX" /\
  without_fragment (api_url (lit "C#  textbook pdf")) =
    lit "https://www.googleapis.com/customsearch/v1?q=C".
Proof. by split_and!. Qed.

End search_witnesses.

(** ** The controller as the rest of the program sees it *)

Section search_side.
Context {host : Host} {env : Env}.

Lemma resume_effect_region r p : is_some (results (resume_effect r p)) = true.
Proof.
  unfold resume_effect. destruct (response_items r) as [items|]; [|done].
  destruct (is_empty_result items); [done|]. by destruct (forEach_render items).
Qed.

Lemma resume_effect_views r p :
  modal_view (resume_effect r p) = modal_view p /\
  search_container (resume_effect r p) = search_container p /\
  isbn_validity (resume_effect r p) = isbn_validity p /\
  exists l, log (resume_effect r p) = log p ++ l.
Proof.
  unfold resume_effect. destruct (response_items r) as [items|];
    [|split_and!; solve_side].
  destruct (is_empty_result items); [split_and!; solve_side|].
  destruct (forEach_render items); split_and!; solve_side.
Qed.

(** Handling a response sends no request and does not scroll. *)
Lemma resume_effect_traffic r p :
  sent (log (resume_effect r p)) = sent (log p) /\
  answered (log (resume_effect r p)) = answered (log p).
Proof.
  unfold resume_effect, failed, rendered.
  destruct (response_items r) as [items|]; [|count_traffic].
  destruct (is_empty_result items); [done|].
  destruct (forEach_render items); [done|count_traffic].
Qed.

(** Stating that an outcome depends on the search controller's side
    of the page only, once both outcomes are explicit. *)
Ltac solve_local Hv :=
  unfold search_view in *; injection Hv as ? ? ?; cbn;
  repeat split; congruence.

#[export] Instance isbnInput_input_side value : SearchSide (isbnInput_input value).
Proof.
  split; [intros p..|intros p q Hv]; rewrite !isbnInput_input_run; simpl;
    destruct (isbn_rejected value); first [solve_side|solve_local Hv].
Qed.

#[export] Instance form_reset_side : SearchSide form_reset.
Proof.
  split; [intros p..|intros p q Hv]; rewrite !form_reset_run; simpl.
  1-4: destruct (is_some (results p)); solve_side.
  replace (results q) with (results p) by (by injection Hv).
  destruct (is_some (results p)); solve_local Hv.
Qed.

#[export] Instance form_submit_start_side f : SearchSide (form_submit_start f).
Proof.
  split; [intros p..|intros p q Hv]; rewrite !form_submit_start_run;
    unfold submit_effect; cbv zeta.
  1-4: destruct (isbn_rejected (f_isbn f)); simpl;
    try destruct (searchQuery f); simpl;
    try destruct (is_some (results p) || search_container p); simpl;
    solve_side.
  replace (results q) with (results p) by (by injection Hv).
  replace (search_container q) with (search_container p) by (by injection Hv).
  destruct (isbn_rejected (f_isbn f)); [solve_local Hv|].
  destruct (searchQuery f); [|solve_local Hv].
  destruct (is_some (results p) || search_container p); solve_local Hv.
Qed.

(** Were the results region gone when the listener resumes, it would
    log the error and not scroll. *)
Lemma form_submit_resume_no_region r p :
  results p = None ->
  exists e, form_submit_resume r p =
            Returns tt (set_log (log p ++ [ConsoleError error_label e]) p).
Proof.
  intros E. destruct (searchForTextbook_resume_no_region r p E) as [e He].
  exists e. unfold form_submit_resume, bind, results_exists, gets. rewrite He.
  cbn [results set_log]. by rewrite E.
Qed.

(** The page after the listener resumed, with or without a results
    region. *)
Lemma form_submit_resume_final r p :
  final_state (form_submit_resume r p) =
  (let p' := resume_effect r p in set_log (log p' ++ [ScrollIntoView]) p') \/
  results p = None /\
  exists e, final_state (form_submit_resume r p) =
            set_log (log p ++ [ConsoleError error_label e]) p.
Proof.
  destruct (results p) eqn:E.
  - left. rewrite form_submit_resume_run; [done|by rewrite E].
  - right. split; [done|].
    destruct (form_submit_resume_no_region r p E) as [e ->]. by exists e.
Qed.

Lemma resume_effect_local r p q :
  search_view p = search_view q ->
  search_view (resume_effect r p) = search_view (resume_effect r q).
Proof.
  intros Hv. unfold resume_effect, failed, rendered.
  destruct (response_items r) as [items|]; [|solve_local Hv].
  destruct (is_empty_result items); [solve_local Hv|].
  destruct (forEach_render items); solve_local Hv.
Qed.

Lemma form_submit_resume_local r p q :
  search_view p = search_view q ->
  search_view (final_state (form_submit_resume r p)) =
  search_view (final_state (form_submit_resume r q)) /\
  returned (form_submit_resume r p) = returned (form_submit_resume r q) /\
  thrown (form_submit_resume r p) = thrown (form_submit_resume r q).
Proof.
  intros Hv. assert (results q = results p) as Hr by (by injection Hv).
  destruct (results p) eqn:E.
  - rewrite !form_submit_resume_run by (by rewrite ?Hr, ?E). cbv zeta.
    split_and!; [|done|done]. apply (resume_effect_local r p q Hv).
  - destruct (form_submit_resume_no_region r p E) as [e ->].
    destruct (form_submit_resume_no_region r q ltac:(congruence)) as [e' ->].
    solve_local Hv.
Qed.

#[export] Instance form_submit_resume_side r : SearchSide (form_submit_resume r).
Proof.
  split; [intros p..|apply form_submit_resume_local];
    destruct (form_submit_resume_final r p) as [-> | [Hnone [e ->]]];
    destruct (resume_effect_views r p) as (Hm & Hc & _ & l & Hl);
    cbv zeta; cbn [log set_log]; try done.
  - intros _. apply resume_effect_region.
  - exists (l ++ [ScrollIntoView]). by rewrite Hl, app_assoc.
  - by eexists.
Qed.

End search_side.

(** ** What a response shows *)

Section response_view.
Context {host : Host} {env : Env}.

(** The content of the results region once a response was handled: it
    depends on the response alone. *)
Definition response_view (r : response) : list node :=
  match response_items r with
  | Raise _ => [Markup error_markup]
  | Ok items =>
      if is_empty_result items then rendering []
      else match forEach_render items with
           | Ok children => [Markup heading; results_container children]
           | Raise _ => [Markup error_markup]
           end
  end.

Lemma resume_effect_results r p :
  results (resume_effect r p) = Some (response_view r).
Proof.
  unfold resume_effect, response_view. destruct (response_items r) as [items|]; [|done].
  destruct (is_empty_result items); [done|]. by destruct (forEach_render items).
Qed.

Lemma form_submit_resume_results r p :
  is_some (results p) = true ->
  results (final_state (form_submit_resume r p)) = Some (response_view r).
Proof.
  intros Hp. rewrite form_submit_resume_run by done. apply resume_effect_results.
Qed.

Lemma form_submit_resume_returns r p : thrown (form_submit_resume r p) = None.
Proof.
  destruct (results p) eqn:E.
  - rewrite form_submit_resume_run; [done|by rewrite E].
  - by destruct (form_submit_resume_no_region r p E) as [e ->].
Qed.

End response_view.
