(* ===== verification/Url.v ===== *)
(** * The request as the server reads it

    [searchForTextbook] puts the query into the URL as it stands (line
    148).  A URL is read back by its delimiters: the fragment after
    [#] is not sent, the query string after [?] is cut at every [&],
    each piece at its first [=].  This file reads the URL of a search
    the way its receiver does, and shows which queries arrive as the
    [q] parameter the script meant and what becomes of the others. *)

From Stdlib Require Import String.
From S2P Require Import Prelude JsString JsValue Dom Query Search.

(** ** Reading a URL *)

(** The pieces of a string between the occurrences of a separator. *)
Fixpoint split_on (sep : code_unit) (s : jsstring) : list jsstring :=
  match s with
  | [] => [[]]
  | c :: s' =>
      if (c =? sep)%N then [] :: split_on sep s'
      else match split_on sep s' with
           | w :: ws => (c :: w) :: ws
           | [] => [[c]]
           end
  end.

(** The query string of a URL: what follows the first [?], in what is
    sent. *)
Definition url_search (url : jsstring) : jsstring :=
  drop 1 (drop_while (is_not 63) (without_fragment url)).

(** One parameter: its name, and its value after the first [=]. *)
Definition parameter (s : jsstring) : jsstring * jsstring :=
  (take_while (is_not 61) s, drop 1 (drop_while (is_not 61) s)).

(** The parameters of a URL, in their order. *)
Definition query_params (url : jsstring) : list (jsstring * jsstring) :=
  map parameter (split_on 38 (url_search url)).

(** A string that holds neither [#] nor [&]. *)
Definition plain (s : jsstring) : bool :=
  forallb (fun c => is_not 35 c && is_not 38 c) s.

(** Pieces joined by [&]. *)
Definition join_amp (pieces : list jsstring) (last : jsstring) : jsstring :=
  fold_right (fun piece rest => piece ++ 38%N :: rest) last pieces.

(** The address the script calls. *)
Definition endpoint : jsstring := lit "https://www.googleapis.com/customsearch/v1".

(** ** Lemmas on the pieces *)

Lemma split_on_free sep s : forallb (is_not sep) s = true -> split_on sep s = [s].
Proof.
  induction s as [|c s IH]; [done|]. simpl. unfold is_not at 1.
  intros [Hc Hs]%andb_true_iff. apply negb_true_iff in Hc. by rewrite Hc, IH.
Qed.

Lemma split_on_app sep a b :
  forallb (is_not sep) a = true ->
  split_on sep (a ++ sep :: b) = a :: split_on sep b.
Proof.
  induction a as [|c a IH]; simpl; [by rewrite N.eqb_refl|]. unfold is_not at 1.
  intros [Hc Ha]%andb_true_iff. apply negb_true_iff in Hc. by rewrite Hc, IH.
Qed.

Lemma parameter_named name value :
  forallb (is_not 61) name = true -> parameter (name ++ 61%N :: value) = (name, value).
Proof.
  intros Hn. unfold parameter.
  rewrite take_while_app_stop, drop_while_app_stop by done.
  by rewrite (proj2 (drop_while_nil _ _) Hn).
Qed.

Lemma plain_app a b : plain (a ++ b) = plain a && plain b.
Proof. apply forallb_app. Qed.

Lemma plain_no_hash s : plain s = true -> forallb (is_not 35) s = true.
Proof.
  unfold plain. rewrite !forallb_forall. intros H c Hc.
  by destruct (andb_prop _ _ (H c Hc)).
Qed.

Lemma plain_no_amp s : plain s = true -> forallb (is_not 38) s = true.
Proof.
  unfold plain. rewrite !forallb_forall. intros H c Hc.
  by destruct (andb_prop _ _ (H c Hc)).
Qed.

(** The query string of a URL whose address holds no [?] and which
    holds no [#] at all. *)
Lemma url_search_app base s :
  forallb (is_not 63) base = true ->
  forallb (is_not 35) (base ++ 63%N :: s) = true ->
  url_search (base ++ 63%N :: s) = s.
Proof.
  intros Hb Hs. unfold url_search, without_fragment.
  rewrite (take_while_id (is_not 35)) by done.
  rewrite drop_while_app_stop by done.
  by rewrite (proj2 (drop_while_nil _ _) Hb).
Qed.

Lemma join_amp_cons piece pieces last :
  join_amp (piece :: pieces) last = piece ++ 38%N :: join_amp pieces last.
Proof. reflexivity. Qed.

Lemma split_on_pieces pieces last :
  forallb (forallb (is_not 38)) pieces = true -> forallb (is_not 38) last = true ->
  split_on 38 (join_amp pieces last) = pieces ++ [last].
Proof.
  intros Hp Hl. induction pieces as [|piece pieces IH];
    rewrite ?join_amp_cons; cbn [forallb app] in *.
  - by apply split_on_free.
  - apply andb_true_iff in Hp as [Hpiece Hp]. by rewrite split_on_app, IH.
Qed.

Lemma split_on_join pieces last :
  forallb plain pieces = true -> plain last = true ->
  split_on 38 (join_amp pieces last) = pieces ++ [last].
Proof.
  intros Hp Hl. apply split_on_pieces; [|by apply plain_no_amp].
  revert Hp. apply forallb_weaken, plain_no_amp.
Qed.

Lemma join_amp_no_hash pieces last :
  forallb plain pieces = true -> plain last = true ->
  forallb (is_not 35) (join_amp pieces last) = true.
Proof.
  intros Hp Hl. induction pieces as [|piece pieces IH];
    rewrite ?join_amp_cons; cbn [forallb] in *.
  - by apply plain_no_hash.
  - apply andb_true_iff in Hp as [Hpiece Hp].
    rewrite forallb_app, (plain_no_hash _ Hpiece). cbn [forallb andb is_not].
    by apply IH.
Qed.

(** The parameters of a URL made of an address, [?] and pieces joined
    by [&]: the pieces, when none of them holds a delimiter. *)
Lemma query_params_join base pieces last :
  forallb (is_not 63) base = true -> plain base = true ->
  forallb plain pieces = true -> plain last = true ->
  query_params (base ++ 63%N :: join_amp pieces last) = map parameter (pieces ++ [last]).
Proof.
  intros Hb Hb' Hp Hl. unfold query_params. rewrite url_search_app; [|done|].
  - by rewrite split_on_join.
  - rewrite forallb_app, (plain_no_hash _ Hb'). cbn [forallb andb].
    by apply join_amp_no_hash.
Qed.

(** ** The URL of a search *)

Section url.
Context {host : Host} {env : Env}.

(** The template literal of line 148 by its delimiters. *)
Lemma api_url_shape q :
  api_url q =
  endpoint ++ 63%N ::
    join_amp [lit "q" ++ 61%N :: q ++ lit "+filetype:pdf";
              lit "key" ++ 61%N :: env_text VITE_GOOGLE_API_KEY]
             (lit "cx" ++ 61%N :: env_text VITE_SEARCH_ENGINE_ID).
Proof.
  unfold api_url, join_amp.
  change (lit "https://www.googleapis.com/customsearch/v1?q=")
    with (endpoint ++ 63%N :: lit "q" ++ [61%N]).
  change (lit "+filetype:pdf&key=") with (lit "+filetype:pdf" ++ 38%N :: lit "key" ++ [61%N]).
  change (lit "&cx=") with (38%N :: lit "cx" ++ [61%N]).
  repeat (rewrite <- ?app_assoc; simpl). done.
Qed.


Lemma plain_named name value : plain name = true -> plain value = true ->
  plain (name ++ 61%N :: value) = true.
Proof. intros Hn Hv. rewrite plain_app, Hn. simpl. by rewrite Hv. Qed.

(** ** Theorems *)

(** A query without [#] and [&] arrives whole: the request has the
    three parameters the script meant, [q] with the query and the
    file-type filter, the key and the identifier of the search
    engine. *)
Theorem api_url_params q :
  plain q = true ->
  plain (env_text VITE_GOOGLE_API_KEY) = true ->
  plain (env_text VITE_SEARCH_ENGINE_ID) = true ->
  query_params (api_url q) =
  [(lit "q", q ++ lit "+filetype:pdf");
   (lit "key", env_text VITE_GOOGLE_API_KEY);
   (lit "cx", env_text VITE_SEARCH_ENGINE_ID)].
Proof.
  intros Hq Hk Hc. rewrite api_url_shape, query_params_join; cbn [map app forallb];
    [by rewrite !parameter_named|done|done| |by apply plain_named].
  rewrite !plain_named; try done. by rewrite plain_app, Hq.
Qed.

(** The query is not encoded: an [&] in it ends the [q] parameter.
    What follows the [&] arrives as a parameter of its own, and the
    file-type filter goes with it. *)
Theorem api_url_ampersand a b :
  plain a = true -> plain b = true ->
  plain (env_text VITE_GOOGLE_API_KEY) = true ->
  plain (env_text VITE_SEARCH_ENGINE_ID) = true ->
  query_params (api_url (a ++ lit "&" ++ b)) =
  [(lit "q", a);
   parameter (b ++ lit "+filetype:pdf");
   (lit "key", env_text VITE_GOOGLE_API_KEY);
   (lit "cx", env_text VITE_SEARCH_ENGINE_ID)].
Proof.
  intros Ha Hb Hk Hc. rewrite api_url_shape.
  change (lit "&" ++ b) with (38%N :: b).
  rewrite join_amp_cons.
  replace ((lit "q" ++ 61%N :: (a ++ 38%N :: b) ++ lit "+filetype:pdf") ++ 38%N ::
           join_amp [lit "key" ++ 61%N :: env_text VITE_GOOGLE_API_KEY]
             (lit "cx" ++ 61%N :: env_text VITE_SEARCH_ENGINE_ID))
    with (join_amp [lit "q" ++ 61%N :: a; b ++ lit "+filetype:pdf";
                    lit "key" ++ 61%N :: env_text VITE_GOOGLE_API_KEY]
            (lit "cx" ++ 61%N :: env_text VITE_SEARCH_ENGINE_ID))
    by (rewrite !join_amp_cons; repeat (rewrite <- ?app_assoc; simpl); done).
  rewrite query_params_join; cbn [map app forallb];
    [by rewrite !parameter_named|done|done| |by apply plain_named].
  rewrite !plain_named; try done. by rewrite plain_app, Hb.
Qed.

End url.

(** ** Witnesses *)

Section url_witnesses.
#[local] Existing Instance v8_host.
#[local] Existing Instance demo_env.

Lemma api_url_params_witness :
  query_params (api_url (lit "Effective Bloch textbook pdf")) =
  [(lit "q", lit "Effective Bloch textbook pdf" ++ lit "+filetype:pdf");
   (lit "key", lit "KEY"); (lit "cx", lit "CX")].
Proof. apply (api_url_params (env:=demo_env)); reflexivity. Defined.

Lemma api_url_ampersand_witness :
  query_params (api_url (lit "Command " ++ lit "&" ++ lit " Conquer  textbook pdf")) =
  [(lit "q", lit "Command ");
   parameter (lit " Conquer  textbook pdf" ++ lit "+filetype:pdf");
   (lit "key", lit "KEY"); (lit "cx", lit "CX")].
Proof. apply (api_url_ampersand (env:=demo_env)); reflexivity. Defined.

(** A title with an ampersand: the search is for the words before it,
    without the file-type filter. *)
Example ampersand_title :
  option_map (fun q => query_params (api_url q))
    (searchQuery (mkFields [] (lit "Command & Conquer") [] english)) =
  Some [(lit "q", lit "Command ");
        (lit " Conquer  textbook pdf+filetype:pdf", []);
        (lit "key", lit "KEY"); (lit "cx", lit "CX")].
Proof. reflexivity. Qed.

(** A title that names a parameter: the request carries a second key. *)
Example key_in_title :
  option_map (fun q => query_params (api_url q))
    (searchQuery (mkFields [] (lit "x&key=mine") [] english)) =
  Some [(lit "q", lit "x");
        (lit "key", lit "mine  textbook pdf+filetype:pdf");
        (lit "key", lit "KEY"); (lit "cx", lit "CX")].
Proof. reflexivity. Qed.

End url_witnesses.
