(* ===== verification/Encoding.v ===== *)
(** * Encoding: UTF-8, percent escapes and their decoding

    What the platform does to a string on its way into a URL and out
    of one: the UTF-8 bytes of a string of UTF-16 code units, with
    U+FFFD for a surrogate without its partner; percent-encoding of
    the bytes a test does not keep; [encodeURIComponent]; and the
    decoding a receiver of a query string applies, [+] for a space and
    [%XX] for a byte.  Code units and bytes are numbers; a string of
    bytes below 128 is the ASCII text it spells.

    The lemmas say what the encoders keep (a character that is not in
    the string is not in its bytes, unless it is [%] or a hexadecimal
    digit), that decoding undoes encoding, and where decoding what was
    never encoded goes wrong: at a [+] and at a [%] followed by two
    hexadecimal digits. *)

From Stdlib Require Import String.
From S2P Require Import Prelude JsString.

Local Open Scope N_scope.

(** ** Hexadecimal digits *)

Definition is_hex (c : N) : bool :=
  in_range 48 57 c || in_range 65 70 c || in_range 97 102 c.

(** The value of a hexadecimal digit. *)
Definition unhex (c : N) : N :=
  if c <=? 57 then c - 48 else if c <=? 70 then c - 55 else c - 87.

(** The digit of a value below sixteen, in upper case. *)
Definition hex_digit (n : N) : N := if n <? 10 then 48 + n else 55 + n.

(** [%XX] for a byte. *)
Definition percent (b : N) : list N := [37; hex_digit (b / 16); hex_digit (b mod 16)].

(** ** UTF-8 *)

Definition is_high (c : code_unit) : bool := in_range 55296 56319 c.
Definition is_low (c : code_unit) : bool := in_range 56320 57343 c.

(** U+FFFD, which stands for a surrogate without its partner. *)
Definition replacement : list N := [239; 191; 189].

(** The bytes of a code point below 65536. *)
Definition utf8_unit (c : code_unit) : list N :=
  if c <? 128 then [c]
  else if c <? 2048 then [192 + (c / 64) mod 32; 128 + c mod 64]
  else [224 + (c / 4096) mod 16; 128 + (c / 64) mod 64; 128 + c mod 64].

(** The bytes of the code point of a surrogate pair. *)
Definition utf8_pair (hi lo : code_unit) : list N :=
  let cp := 65536 + (hi - 55296) * 1024 + (lo - 56320) in
  [240 + (cp / 262144) mod 8; 128 + (cp / 4096) mod 64;
   128 + (cp / 64) mod 64; 128 + cp mod 64].

(** The UTF-8 bytes of a string, as a URL parser takes them. *)
Fixpoint utf8 (s : jsstring) : list N :=
  match s with
  | [] => []
  | c :: tl =>
      if is_high c then
        match tl with
        | d :: rest => if is_low d then utf8_pair c d ++ utf8 rest
                       else replacement ++ utf8 tl
        | [] => replacement
        end
      else if is_low c then replacement ++ utf8 tl
      else utf8_unit c ++ utf8 tl
  end.

(** Has the string no surrogate without its partner? *)
Fixpoint well_formed (s : jsstring) : bool :=
  match s with
  | [] => true
  | c :: tl =>
      if is_high c then
        match tl with
        | d :: rest => is_low d && well_formed rest
        | [] => false
        end
      else negb (is_low c) && well_formed tl
  end.

(** ** Percent-encoding *)

(** The bytes a test keeps stay; the others become [%XX]. *)
Definition percent_encode (keep : N -> bool) (bytes : list N) : list N :=
  flat_map (fun b => if keep b then [b] else percent b) bytes.

(** The characters [encodeURIComponent] leaves alone: letters,
    digits, hyphen, underscore, full stop, exclamation mark, tilde,
    asterisk, apostrophe and the round brackets. *)
Definition unreserved (c : N) : bool :=
  in_range 48 57 c || in_range 65 90 c || in_range 97 122 c
  || (c =? 45) || (c =? 95) || (c =? 46) || (c =? 33) || (c =? 126)
  || (c =? 42) || (c =? 39) || (c =? 40) || (c =? 41).

(** [encodeURIComponent(s)]: [None] stands for the [URIError] thrown
    for a surrogate without its partner. *)
Definition encodeURIComponent (s : jsstring) : option jsstring :=
  if well_formed s then Some (percent_encode unreserved (utf8 s)) else None.

(** ** Decoding *)

(** Percent-decoding: [%] and two hexadecimal digits are one byte; a
    [%] without them stands for itself. *)
Fixpoint percent_decode (s : list N) : list N :=
  match s with
  | [] => []
  | c :: tl =>
      match tl with
      | h :: l :: rest =>
          if (c =? 37) && is_hex h && is_hex l
          then (16 * unhex h + unhex l) :: percent_decode rest
          else c :: percent_decode tl
      | _ => c :: percent_decode tl
      end
  end.

Definition plus_to_space (c : N) : N := if c =? 43 then 32 else c.

(** A name or a value of a query string, as the receiver reads it. *)
Definition form_decode (s : list N) : list N := percent_decode (map plus_to_space s).

(** ** Strings that hold no percent escape *)

Definition head_hex (l : list N) : bool :=
  match l with h :: _ => is_hex h | [] => false end.

Definition starts_hex2 (l : list N) : bool :=
  match l with h :: tl => is_hex h && head_hex tl | [] => false end.

(** No [%] of the string is followed by two hexadecimal digits. *)
Fixpoint no_escape (l : list N) : bool :=
  match l with
  | [] => true
  | c :: tl => negb ((c =? 37) && starts_hex2 tl) && no_escape tl
  end.

(** What the receiver reads for a byte of the sender: a [+] that was
    sent as it is arrives as a space. *)
Definition received (keep : N -> bool) (b : N) : N :=
  if keep b then plus_to_space b else b.

(** Does the string start with the second half of a surrogate pair? *)
Definition head_low (s : jsstring) : bool :=
  match s with d :: _ => is_low d | [] => false end.

(** ** Hexadecimal digits and bytes *)

Lemma hex_digit_is_hex n : n < 16 -> is_hex (hex_digit n) = true.
Proof.
  intros Hn. unfold hex_digit, is_hex, in_range.
  destruct (N.ltb_spec n 10); lia.
Qed.

Lemma unhex_hex_digit n : n < 16 -> unhex (hex_digit n) = n.
Proof.
  intros Hn. unfold hex_digit, unhex.
  destruct (N.ltb_spec n 10).
  - rewrite (proj2 (N.leb_le (48 + n) 57)) by lia. lia.
  - rewrite (proj2 (N.leb_gt (55 + n) 57)) by lia.
    rewrite (proj2 (N.leb_le (55 + n) 70)) by lia. lia.
Qed.

(** The two digits of a byte give the byte back. *)
Lemma byte_digits b :
  b < 256 ->
  b / 16 < 16 /\ b mod 16 < 16 /\ 16 * (b / 16) + b mod 16 = b.
Proof.
  intros Hb. split_and!.
  - by apply N.Div0.div_lt_upper_bound.
  - by apply N.mod_lt.
  - symmetry. apply N.Div0.div_mod.
Qed.

Lemma percent_digits b :
  b < 256 ->
  exists h l, percent b = [37; h; l] /\ is_hex h = true /\ is_hex l = true /\
              16 * unhex h + unhex l = b.
Proof.
  intros Hb. destruct (byte_digits b Hb) as (Hh & Hl & Hv).
  exists (hex_digit (b / 16)), (hex_digit (b mod 16)).
  by rewrite !hex_digit_is_hex, !unhex_hex_digit.
Qed.

(** ** Decoding, step by step *)

Lemma percent_decode_literal c tl :
  (c =? 37) && starts_hex2 tl = false ->
  percent_decode (c :: tl) = c :: percent_decode tl.
Proof.
  destruct tl as [|h [|l rest]]; try done. cbn [percent_decode starts_hex2 head_hex].
  rewrite <- andb_assoc. by intros ->.
Qed.

Lemma percent_decode_escape h l rest :
  is_hex h = true -> is_hex l = true ->
  percent_decode (37 :: h :: l :: rest) = (16 * unhex h + unhex l) :: percent_decode rest.
Proof. intros Hh Hl. cbn [percent_decode]. by rewrite Hh, Hl. Qed.

Lemma is_hex_plus_to_space c : is_hex (plus_to_space c) = is_hex c.
Proof.
  unfold plus_to_space. destruct (N.eqb_spec c 43) as [->|]; done.
Qed.

Lemma plus_to_space_hex c : is_hex c = true -> plus_to_space c = c.
Proof.
  unfold plus_to_space. destruct (N.eqb_spec c 43) as [->|]; done.
Qed.

Lemma plus_to_space_percent c : plus_to_space c = 37 <-> c = 37.
Proof. unfold plus_to_space. destruct (N.eqb_spec c 43) as [->|]; done. Qed.

Lemma percent_encode_cons keep b bs :
  percent_encode keep (b :: bs) =
  (if keep b then [b] else percent b) ++ percent_encode keep bs.
Proof. done. Qed.

Section encode_decode.
Context (keep : N -> bool).
Context (keep_hex : forall c, is_hex c = true -> keep c = true).

(** Whether an encoded string starts with a hexadecimal digit, or
    with two, can be told from the string it encodes. *)
Lemma head_hex_encode l t :
  head_hex (map plus_to_space (percent_encode keep l ++ t)) = head_hex (l ++ t).
Proof.
  destruct l as [|a l]; simpl.
  - destruct t; simpl; [done|apply is_hex_plus_to_space].
  - destruct (keep a) eqn:Ha; simpl; [apply is_hex_plus_to_space|].
    destruct (is_hex a) eqn:Hx; [|done]. by rewrite keep_hex in Ha.
Qed.

Lemma starts_hex2_encode l t :
  starts_hex2 (map plus_to_space (percent_encode keep l ++ t)) = starts_hex2 (l ++ t).
Proof.
  destruct l as [|a l].
  - destruct t as [|c t]; simpl; [done|]. rewrite is_hex_plus_to_space. f_equal.
    apply (head_hex_encode [] t).
  - rewrite percent_encode_cons.
    destruct (keep a) eqn:Ha; simpl.
    + by rewrite is_hex_plus_to_space, head_hex_encode.
    + destruct (is_hex a) eqn:Hx; [|done]. by rewrite keep_hex in Ha.
Qed.

(** Decoding what was encoded gives the bytes back, but for a [+]
    that was sent as it is; the bytes that are sent as they are must
    not form an escape of their own. *)
Lemma form_decode_encode bs t :
  forallb (fun b => b <? 256) bs = true ->
  (keep 37 = true -> no_escape (bs ++ t) = true) ->
  form_decode (percent_encode keep bs ++ t) = map (received keep) bs ++ form_decode t.
Proof.
  unfold form_decode. induction bs as [|b bs IH]; [done|].
  cbn [forallb]. intros [Hb Hbs]%andb_true_iff Hesc.
  assert (keep 37 = true -> no_escape (bs ++ t) = true) as Hesc'.
  { intros H. specialize (Hesc H). simpl in Hesc. by apply andb_true_iff in Hesc as [_ ?]. }
  rewrite percent_encode_cons.
  cbn [map app]. unfold received at 1. destruct (keep b) eqn:Hk.
  - cbn [map app]. rewrite percent_decode_literal; [by rewrite IH|].
    rewrite starts_hex2_encode.
    destruct (N.eqb_spec (plus_to_space b) 37) as [H37|]; [|done].
    apply plus_to_space_percent in H37 as ->. specialize (Hesc Hk).
    simpl in Hesc. by destruct (starts_hex2 (bs ++ t)).
  - destruct (percent_digits b) as (h & l & -> & Hh & Hl & <-); [lia|].
    cbn [map app]. rewrite (plus_to_space_hex h), (plus_to_space_hex l) by done.
    change (plus_to_space 37) with 37.
    by rewrite percent_decode_escape, IH.
Qed.

End encode_decode.

(** What holds of [%], of the hexadecimal digits and of the bytes
    kept holds of the encoding. *)
Lemma percent_encode_forall keep (P : N -> bool) bs :
  P 37 = true -> (forall c, is_hex c = true -> P c = true) ->
  forallb (fun b => b <? 256) bs = true ->
  forallb (fun b => negb (keep b) || P b) bs = true ->
  forallb P (percent_encode keep bs) = true.
Proof.
  intros H37 Hx. induction bs as [|b bs IH]; [done|]. cbn [forallb].
  intros [Hb Hbs]%andb_true_iff [Hc Hcs]%andb_true_iff.
  rewrite percent_encode_cons, forallb_app. apply andb_true_iff. split; [|by apply IH].
  destruct (keep b); [simpl in *; by rewrite Hc|].
  pose proof (byte_digits b) as (Hh & Hl & _); [lia|].
  cbn [percent forallb]. by rewrite H37, !Hx by by apply hex_digit_is_hex.
Qed.

Lemma percent_encode_app keep a b :
  percent_encode keep (a ++ b) = percent_encode keep a ++ percent_encode keep b.
Proof. apply flat_map_app. Qed.

Lemma percent_encode_kept keep l :
  forallb keep l = true -> percent_encode keep l = l.
Proof.
  induction l as [|c l IH]; [done|]. simpl. intros [-> Hl]%andb_true_iff.
  simpl. by rewrite IH.
Qed.

(** Encoding what is encoded already changes only the characters the
    second encoder does not keep. *)
Lemma percent_encode_twice k1 k2 bs :
  k2 37 = true -> (forall c, is_hex c = true -> k2 c = true) ->
  forallb (fun b => b <? 256) bs = true ->
  percent_encode k2 (percent_encode k1 bs) = percent_encode (fun b => k1 b && k2 b) bs.
Proof.
  intros H37 Hhex. induction bs as [|b bs IH]; [done|]. cbn [forallb].
  intros [Hb Hbs]%andb_true_iff.
  rewrite !percent_encode_cons, percent_encode_app, IH by done.
  f_equal. destruct (k1 b); simpl; [by rewrite app_nil_r|].
  pose proof (byte_digits b) as (Hh & Hl & _); [lia|].
  by rewrite H37, !Hhex by by apply hex_digit_is_hex.
Qed.

(** ** UTF-8, case by case *)

Lemma byte_of k m x :
  128 <= k -> k + m <= 256 -> m <> 0 ->
  (128 <=? k + x mod m) && (k + x mod m <? 256) = true.
Proof.
  intros Hk Hm H0. pose proof (N.mod_lt x m H0) as H.
  revert H. generalize (x mod m). intros r Hr.
  apply andb_true_iff. split; [apply N.leb_le|apply N.ltb_lt]; lia.
Qed.

Lemma utf8_unit_high c :
  128 <= c -> forallb (fun b => (128 <=? b) && (b <? 256)) (utf8_unit c) = true.
Proof.
  intros Hc. unfold utf8_unit. rewrite (proj2 (N.ltb_ge c 128)) by done.
  destruct (c <? 2048); cbn [forallb]; by rewrite !byte_of.
Qed.

Lemma utf8_pair_high hi lo :
  forallb (fun b => (128 <=? b) && (b <? 256)) (utf8_pair hi lo) = true.
Proof. unfold utf8_pair. cbv zeta. cbn [forallb]. by rewrite !byte_of. Qed.

Lemma utf8_unit_ascii c : c < 128 -> utf8_unit c = [c].
Proof. intros Hc. unfold utf8_unit. by rewrite (proj2 (N.ltb_lt c 128)). Qed.

Lemma ascii_not_surrogate c : c < 128 -> is_high c = false /\ is_low c = false.
Proof. unfold is_high, is_low, in_range. lia. Qed.

Lemma utf8_ascii_cons c tl : c < 128 -> utf8 (c :: tl) = c :: utf8 tl.
Proof.
  intros Hc. destruct (ascii_not_surrogate c Hc) as [Hh Hl].
  cbn [utf8]. by rewrite Hh, Hl, utf8_unit_ascii.
Qed.

Lemma utf8_eq c tl :
  utf8 (c :: tl) =
  if is_high c then
    match tl with
    | d :: rest => if is_low d then utf8_pair c d ++ utf8 rest else replacement ++ utf8 tl
    | [] => replacement
    end
  else if is_low c then replacement ++ utf8 tl
  else utf8_unit c ++ utf8 tl.
Proof. done. Qed.

(** The three ways the encoder reads the head of a string: a unit
    that is no surrogate, a surrogate without its partner, a pair. *)
Lemma utf8_ind (P : jsstring -> Prop) :
  P [] ->
  (forall c tl, is_high c = false -> is_low c = false -> P tl -> P (c :: tl)) ->
  (forall c tl, is_high c || is_low c = true -> (is_high c = true -> head_low tl = false) ->
     P tl -> P (c :: tl)) ->
  (forall hi lo tl, is_high hi = true -> is_low lo = true -> P tl -> P (hi :: lo :: tl)) ->
  forall s, P s.
Proof.
  intros Hnil Hunit Hlone Hpair.
  induction s as [| c | c d l IHl IHdl] using list_pair_ind; [done|..].
  - destruct (is_high c) eqn:Hh; [by apply Hlone; rewrite ?Hh|].
    destruct (is_low c) eqn:Hl; [by apply Hlone; rewrite ?Hh, ?Hl|by apply Hunit].
  - destruct (is_high c) eqn:Hh.
    + destruct (is_low d) eqn:Hl; [by apply Hpair|by apply Hlone; rewrite ?Hh].
    + destruct (is_low c) eqn:Hl; [by apply Hlone; rewrite ?Hh, ?Hl|by apply Hunit].
Qed.

Lemma utf8_unit_cons c tl :
  is_high c = false -> is_low c = false -> utf8 (c :: tl) = utf8_unit c ++ utf8 tl.
Proof. intros Hh Hl. by rewrite utf8_eq, Hh, Hl. Qed.

Lemma utf8_pair_cons hi lo tl :
  is_high hi = true -> is_low lo = true -> utf8 (hi :: lo :: tl) = utf8_pair hi lo ++ utf8 tl.
Proof. intros Hh Hl. by rewrite utf8_eq, Hh, Hl. Qed.

Lemma utf8_lone c tl :
  is_high c || is_low c = true -> (is_high c = true -> head_low tl = false) ->
  utf8 (c :: tl) = replacement ++ utf8 tl.
Proof.
  intros Hc Htl. rewrite utf8_eq. destruct (is_high c) eqn:Hh; [|cbn [orb] in Hc; by rewrite Hc].
  specialize (Htl eq_refl). destruct tl as [|d rest]; [done|]. cbn [head_low] in Htl.
  by rewrite Htl.
Qed.

Lemma well_formed_lone c tl :
  is_high c || is_low c = true -> (is_high c = true -> head_low tl = false) ->
  well_formed (c :: tl) = false.
Proof.
  intros Hc Htl. cbn [well_formed].
  destruct (is_high c) eqn:Hh; [|cbn [orb] in Hc; by rewrite Hc].
  specialize (Htl eq_refl). destruct tl as [|d rest]; [done|]. cbn [head_low] in Htl.
  by rewrite Htl.
Qed.

(** The encoder reads an ASCII unit as itself, and anything else as
    bytes above the ASCII range. *)
Lemma utf8_cases (P : jsstring -> list N -> Prop) :
  P [] [] ->
  (forall c tl, c < 128 -> P tl (utf8 tl) -> P (c :: tl) (c :: utf8 tl)) ->
  (forall c u b hb tl,
     forallb (fun c => 128 <=? c) (c :: u) = true ->
     forallb (fun b => (128 <=? b) && (b <? 256)) (b :: hb) = true ->
     P tl (utf8 tl) -> P ((c :: u) ++ tl) ((b :: hb) ++ utf8 tl)) ->
  forall s, P s (utf8 s).
Proof.
  intros Hnil Hascii Hhigh.
  induction s as [|c tl Hh Hl IH|c tl Hc Htl IH|hi lo tl Hh Hl IH] using utf8_ind; [done|..].
  - rewrite utf8_unit_cons by done. destruct (N.lt_ge_cases c 128) as [Hc|Hc].
    + rewrite utf8_unit_ascii by done. by apply Hascii.
    + pose proof (utf8_unit_high c Hc) as Hb.
      destruct (utf8_unit c) as [|b hb] eqn:E; [by unfold utf8_unit in E; repeat case_match|].
      apply (Hhigh c [] b hb tl); [cbn [forallb]; lia|done|done].
  - rewrite utf8_lone by done. apply (Hhigh c [] 239 [191; 189] tl); [|done|done].
    cbn [forallb]. unfold is_high, is_low, in_range in Hc. lia.
  - rewrite utf8_pair_cons by done. pose proof (utf8_pair_high hi lo) as Hb.
    destruct (utf8_pair hi lo) as [|b hb] eqn:E; [done|].
    apply (Hhigh hi [lo] b hb tl); [|done|done].
    cbn [forallb]. unfold is_high, is_low, in_range in *. lia.
Qed.

(** ** What UTF-8 keeps *)

Lemma is_hex_ascii c : is_hex c = true -> c < 128.
Proof. unfold is_hex, in_range. lia. Qed.

Lemma utf8_bytes s : forallb (fun b => b <? 256) (utf8 s) = true.
Proof.
  apply (utf8_cases (fun _ bs => forallb (fun b => b <? 256) bs = true)); [done|..].
  - intros c tl Hc Htl. cbn [forallb]. rewrite Htl. lia.
  - intros c u b hb tl _ Hb Htl. rewrite forallb_app, Htl, andb_true_r.
    revert Hb. apply forallb_weaken. lia.
Qed.

(** An ASCII character that is not in the string is not in its bytes. *)
Lemma utf8_free c s :
  c < 128 -> forallb (is_not c) s = true -> forallb (is_not c) (utf8 s) = true.
Proof.
  intros Hc. revert s.
  apply (utf8_cases (fun s bs => forallb (is_not c) s = true ->
                                 forallb (is_not c) bs = true)); [done|..].
  - intros d tl _ IH. cbn [forallb]. intros [-> Htl]%andb_true_iff. by apply IH.
  - intros d u b hb tl _ Hb IH. rewrite !forallb_app.
    intros [_ Htl]%andb_true_iff. apply andb_true_iff. split; [|by apply IH].
    revert Hb. apply forallb_weaken. unfold is_not. lia.
Qed.

Lemma utf8_ascii s : forallb (fun c => c <? 128) s = true -> utf8 s = s.
Proof.
  induction s as [|c s IH]; [done|]. cbn [forallb].
  intros [Hc Hs]%andb_true_iff. rewrite utf8_ascii_cons, IH by lia. done.
Qed.

Lemma utf8_ascii_app a s :
  forallb (fun c => c <? 128) a = true -> utf8 (a ++ s) = a ++ utf8 s.
Proof.
  induction a as [|c a IH]; [done|]. cbn [forallb].
  intros [Hc Ha]%andb_true_iff. simpl app. rewrite utf8_ascii_cons, IH by lia. done.
Qed.

(** The bytes of what precedes do not depend on what follows, unless
    a pair of surrogates is cut at the seam. *)
Lemma utf8_app s r : head_low r = false -> utf8 (s ++ r) = utf8 s ++ utf8 r.
Proof.
  intros Hr. induction s as [| c | c d l IHl IHdl] using list_pair_ind; [done|..].
  - change ([c] ++ r) with (c :: r). rewrite (utf8_eq c r), (utf8_eq c []). cbv iota.
    change (utf8 []) with (@nil N). rewrite !app_nil_r.
    destruct (is_high c); [|by destruct (is_low c)].
    destruct r as [|e r]; [done|]. simpl in Hr. by rewrite Hr.
  - change ((c :: d :: l) ++ r) with (c :: d :: (l ++ r)).
    rewrite (utf8_eq c (d :: l ++ r)), (utf8_eq c (d :: l)). cbv iota.
    change (d :: l ++ r) with ((d :: l) ++ r). rewrite IHl, IHdl.
    by repeat case_match; rewrite <- ?app_assoc.
Qed.

(** ** Percent escapes in a string and in its bytes *)

Lemma head_hex_stop l c t : is_hex c = false -> head_hex (l ++ c :: t) = head_hex l.
Proof. by destruct l. Qed.

Lemma starts_hex2_stop l c t :
  is_hex c = false -> starts_hex2 (l ++ c :: t) = starts_hex2 l.
Proof.
  intros Hc. destruct l as [|x l]; simpl; [by rewrite Hc|].
  by rewrite head_hex_stop.
Qed.

Lemma no_escape_stop l c t :
  is_hex c = false -> no_escape (l ++ c :: t) = no_escape l && no_escape (c :: t).
Proof.
  intros Hc. induction l as [|x l IH]; [done|]. simpl app. cbn [no_escape].
  by rewrite starts_hex2_stop, IH, andb_assoc.
Qed.

Lemma no_escape_skip u r :
  forallb (is_not 37) u = true -> no_escape (u ++ r) = no_escape r.
Proof.
  induction u as [|x u IH]; [done|]. cbn [forallb]. unfold is_not at 1.
  intros [Hx Hu]%andb_true_iff. simpl app. cbn [no_escape].
  apply negb_true_iff in Hx. by rewrite Hx, IH.
Qed.

Lemma no_percent_no_escape l : forallb (is_not 37) l = true -> no_escape l = true.
Proof. intros H. by rewrite <- (app_nil_r l), no_escape_skip. Qed.

Lemma escapes_utf8 s t :
  head_hex (utf8 s ++ t) = head_hex (s ++ t) /\
  starts_hex2 (utf8 s ++ t) = starts_hex2 (s ++ t) /\
  no_escape (utf8 s ++ t) = no_escape (s ++ t).
Proof.
  apply (utf8_cases (fun s bs =>
    head_hex (bs ++ t) = head_hex (s ++ t) /\
    starts_hex2 (bs ++ t) = starts_hex2 (s ++ t) /\
    no_escape (bs ++ t) = no_escape (s ++ t))); [done|..].
  - intros c tl _ (Hh & Hs & Hn). simpl. by rewrite Hh, Hs, Hn.
  - intros c u b hb tl Hu Hb (Hh & Hs & Hn).
    assert (forall x l, forallb (fun c => 128 <=? c) (x :: l) = true ->
              is_hex x = false /\ forallb (is_not 37) (x :: l) = true) as Hhigh.
    { intros x l Hx. split.
      - cbn [forallb] in Hx. destruct (is_hex x) eqn:E; [|done].
        apply is_hex_ascii in E. lia.
      - revert Hx. apply forallb_weaken. unfold is_not. lia. }
    destruct (Hhigh c u Hu) as [Hc Hu'].
    destruct (Hhigh b hb) as [Hb0 Hb']; [revert Hb; apply forallb_weaken; lia|].
    rewrite <- !app_assoc, (no_escape_skip (c :: u)), (no_escape_skip (b :: hb)), Hn
      by done.
    simpl. by rewrite Hc, Hb0.
Qed.

Lemma no_escape_utf8 s : no_escape (utf8 s) = no_escape s.
Proof. pose proof (escapes_utf8 s []) as (_ & _ & H). by rewrite !app_nil_r in H. Qed.

Lemma ascii_head_low s : forallb (fun c => c <? 128) s = true -> head_low s = false.
Proof.
  destruct s as [|c s]; [done|]. cbn [forallb head_low].
  intros [Hc _]%andb_true_iff. apply ascii_not_surrogate. lia.
Qed.

Lemma utf8_between a s b :
  forallb (fun c => c <? 128) a = true -> forallb (fun c => c <? 128) b = true ->
  utf8 (a ++ s ++ b) = a ++ utf8 s ++ b.
Proof.
  intros Ha Hb. by rewrite utf8_ascii_app, utf8_app, (utf8_ascii b)
    by (by try apply ascii_head_low).
Qed.

(** A string without [+] and without escapes is decoded to itself. *)
Lemma form_decode_literal l :
  forallb (fun b => b <? 256) l = true -> no_escape l = true ->
  form_decode l = map plus_to_space l.
Proof.
  intros Hl He.
  pose proof (form_decode_encode (fun _ => true) (fun _ _ => eq_refl) l [] Hl) as H.
  rewrite percent_encode_kept, !app_nil_r in H by by apply forallb_forall.
  by rewrite H.
Qed.

Lemma plus_to_space_id l : forallb (is_not 43) l = true -> map plus_to_space l = l.
Proof.
  induction l as [|c l IH]; [done|]. cbn [forallb map]. unfold is_not at 1.
  intros [Hc Hl]%andb_true_iff. rewrite IH by done. unfold plus_to_space.
  apply negb_true_iff in Hc. by rewrite Hc.
Qed.

(** ** [encodeURIComponent] *)

Lemma unreserved_char c :
  unreserved c = true ->
  32 < c < 127 /\ c <> 35 /\ c <> 37 /\ c <> 38 /\ c <> 43.
Proof. unfold unreserved, in_range. lia. Qed.

(** What holds of [%] and of the unreserved characters holds of what
    [encodeURIComponent] returns. *)
Lemma encoded_forall (P : N -> bool) q :
  P 37 = true -> (forall c, unreserved c = true -> P c = true) ->
  forallb P (percent_encode unreserved (utf8 q)) = true.
Proof.
  intros H37 Hu. apply percent_encode_forall; [done| |apply utf8_bytes|].
  - intros c Hc. apply Hu. unfold is_hex, unreserved, in_range in *. lia.
  - apply forallb_always. intros c. specialize (Hu c). by destruct (unreserved c); auto.
Qed.

(** [encodeURIComponent] and the receiver agree on every string: what
    is decoded is the UTF-8 of what was encoded. *)
Lemma encodeURIComponent_decode s :
  option_map form_decode (encodeURIComponent s) =
  if well_formed s then Some (utf8 s) else None.
Proof.
  unfold encodeURIComponent. destruct (well_formed s); [|done]. cbn [option_map]. f_equal.
  rewrite <- (app_nil_r (percent_encode _ _)), (form_decode_encode unreserved).
  - rewrite app_nil_r, (map_ext _ id), map_id; [done|]. intros b. unfold received.
    destruct (unreserved b) eqn:E; [|done]. apply unreserved_char in E.
    unfold plus_to_space. by destruct (N.eqb_spec b 43); [lia|].
  - intros c Hc. unfold is_hex, unreserved, in_range in *. lia.
  - apply utf8_bytes.
  - done.
Qed.

(** ** Examples *)

(** The encoder on the sign of the euro, on a letter with an accent
    and on a character outside the basic plane. *)
Example utf8_samples :
  utf8 [233] = [195; 169] /\ utf8 [8364] = [226; 130; 172] /\
  utf8 [55357; 56832] = [240; 159; 152; 128].
Proof. by repeat split. Qed.

Example encodeURIComponent_samples :
  encodeURIComponent (lit "a b&c+d") = Some (lit "a%20b%26c%2Bd") /\
  encodeURIComponent [8364] = Some (lit "%E2%82%AC") /\
  encodeURIComponent [56832; 55357] = None.
Proof. by repeat split. Qed.
