(* ===== verification/Utf8.v ===== *)
(** * UTF-8 on the side of the receiver

    [Encoding] gives the bytes a URL parser sends for a string of code
    units.  This file gives the way back: the decoder of UTF-8, which
    accepts exactly the shortest encoding of each scalar value, and the
    code units of the text decoded.  What was sent is what is read:
    the bytes of a string decode to the string itself, with U+FFFD in
    place of each surrogate that has no partner, which is the string
    [toWellFormed] returns.

    Code points, like code units and bytes, are numbers. *)

From Stdlib Require Import String.
From S2P Require Import Prelude JsString Encoding.

Local Open Scope N_scope.

(** ** Scalar values *)

(** A code point that is no surrogate. *)
Definition is_scalar (cp : N) : bool :=
  (cp <? 55296) || (57344 <=? cp) && (cp <? 1114112).

(** The code point of a surrogate pair. *)
Definition code_point (hi lo : code_unit) : N :=
  65536 + (hi - 55296) * 1024 + (lo - 56320).

(** The scalar values of a string: the code point of each pair, U+FFFD
    for a surrogate without its partner, every other unit as it is. *)
Fixpoint scalar_values (s : jsstring) : list N :=
  match s with
  | [] => []
  | c :: tl =>
      if is_high c then
        match tl with
        | d :: rest => if is_low d then code_point c d :: scalar_values rest
                       else 65533 :: scalar_values tl
        | [] => [65533]
        end
      else if is_low c then 65533 :: scalar_values tl
      else c :: scalar_values tl
  end.

(** [s.toWellFormed()]: the string with U+FFFD for each surrogate
    without its partner. *)
Fixpoint toWellFormed (s : jsstring) : jsstring :=
  match s with
  | [] => []
  | c :: tl =>
      if is_high c then
        match tl with
        | d :: rest => if is_low d then c :: d :: toWellFormed rest
                       else 65533 :: toWellFormed tl
        | [] => [65533]
        end
      else if is_low c then 65533 :: toWellFormed tl
      else c :: toWellFormed tl
  end.

(** Every element is a code unit: a number below 65536. *)
Definition code_units (s : jsstring) : bool := forallb (fun c => c <? 65536) s.

(** ** Encoding scalar values *)

(** The bytes of a scalar value: one to four, the shortest form. *)
Definition utf8_point (cp : N) : list N :=
  if cp <? 128 then [cp]
  else if cp <? 2048 then [192 + cp / 64; 128 + cp mod 64]
  else if cp <? 65536 then [224 + cp / 4096; 128 + (cp / 64) mod 64; 128 + cp mod 64]
  else [240 + cp / 262144; 128 + (cp / 4096) mod 64; 128 + (cp / 64) mod 64; 128 + cp mod 64].

Definition utf8_encode (cps : list N) : list N := flat_map utf8_point cps.

(** The code units of a scalar value: one, or a surrogate pair. *)
Definition utf16_point (cp : N) : jsstring :=
  if cp <? 65536 then [cp]
  else [55296 + (cp - 65536) / 1024; 56320 + (cp - 65536) mod 1024].

Definition utf16 (cps : list N) : jsstring := flat_map utf16_point cps.

(** ** Decoding *)

(** A continuation byte. *)
Definition is_cont (b : N) : bool := in_range 128 191 b.

(** The scalar values a string of bytes stands for; [None] when the
    bytes are not UTF-8: a continuation byte out of place, a sequence
    cut short, a form longer than needed, a surrogate, a code point
    above U+10FFFF. *)
Fixpoint utf8_decode (bytes : list N) : option (list N) :=
  match bytes with
  | [] => Some []
  | b0 :: tl =>
      if b0 <? 128 then cons b0 <$> utf8_decode tl
      else if b0 <? 224 then
        match tl with
        | b1 :: rest =>
            if (194 <=? b0) && is_cont b1
            then cons ((b0 - 192) * 64 + (b1 - 128)) <$> utf8_decode rest
            else None
        | _ => None
        end
      else if b0 <? 240 then
        match tl with
        | b1 :: b2 :: rest =>
            let cp := (b0 - 224) * 4096 + (b1 - 128) * 64 + (b2 - 128) in
            if is_cont b1 && is_cont b2 && (2048 <=? cp) && is_scalar cp
            then cons cp <$> utf8_decode rest
            else None
        | _ => None
        end
      else
        match tl with
        | b1 :: b2 :: b3 :: rest =>
            let cp := (b0 - 240) * 262144 + (b1 - 128) * 4096 + (b2 - 128) * 64 + (b3 - 128) in
            if is_cont b1 && is_cont b2 && is_cont b3 && (65536 <=? cp) && is_scalar cp
            then cons cp <$> utf8_decode rest
            else None
        | _ => None
        end
  end.

(** The string a receiver holds for the bytes it was sent. *)
Definition text_of (bytes : list N) : option jsstring := utf16 <$> utf8_decode bytes.

(** A string that UTF-8 carries as it is: code units, and no surrogate
    without its partner. *)
Definition sendable (s : jsstring) : bool := code_units s && well_formed s.

(** The string is empty or starts with an ASCII character. *)
Definition starts_ascii (s : jsstring) : bool :=
  match s with c :: _ => c <? 128 | [] => true end.

(** ** The bytes of one scalar value *)

(** The bytes of a code point of each width are in range and give the
    code point back. *)
Lemma point2 cp :
  128 <= cp < 2048 ->
  194 <= 192 + cp / 64 < 224 /\ 128 <= 128 + cp mod 64 <= 191 /\
  (192 + cp / 64 - 192) * 64 + (128 + cp mod 64 - 128) = cp.
Proof. intros. divide. Qed.

Lemma point3 cp :
  2048 <= cp < 65536 ->
  224 <= 224 + cp / 4096 < 240 /\ 128 <= 128 + (cp / 64) mod 64 <= 191 /\
  128 <= 128 + cp mod 64 <= 191 /\
  (224 + cp / 4096 - 224) * 4096 + (128 + (cp / 64) mod 64 - 128) * 64 +
  (128 + cp mod 64 - 128) = cp.
Proof. intros. divide. Qed.

Lemma point4 cp :
  65536 <= cp < 1114112 ->
  240 <= 240 + cp / 262144 < 245 /\ 128 <= 128 + (cp / 4096) mod 64 <= 191 /\
  128 <= 128 + (cp / 64) mod 64 <= 191 /\ 128 <= 128 + cp mod 64 <= 191 /\
  (240 + cp / 262144 - 240) * 262144 + (128 + (cp / 4096) mod 64 - 128) * 4096 +
  (128 + (cp / 64) mod 64 - 128) * 64 + (128 + cp mod 64 - 128) = cp.
Proof. intros. divide. Qed.

(** The code point that bytes in range give has these bytes. *)
Lemma unpoint2 b0 b1 :
  194 <= b0 < 224 -> 128 <= b1 <= 191 ->
  utf8_point ((b0 - 192) * 64 + (b1 - 128)) = [b0; b1] /\
  is_scalar ((b0 - 192) * 64 + (b1 - 128)) = true.
Proof.
  intros H0 H1. set (cp := (b0 - 192) * 64 + (b1 - 128)).
  assert (128 <= cp < 2048 /\ 192 + cp / 64 = b0 /\ 128 + cp mod 64 = b1) as (? & E0 & E1)
    by (subst cp; divide).
  unfold utf8_point, is_scalar. tests. by rewrite E0, E1.
Qed.

Lemma unpoint3 b0 b1 b2 :
  224 <= b0 < 240 -> 128 <= b1 <= 191 -> 128 <= b2 <= 191 ->
  2048 <= (b0 - 224) * 4096 + (b1 - 128) * 64 + (b2 - 128) ->
  utf8_point ((b0 - 224) * 4096 + (b1 - 128) * 64 + (b2 - 128)) = [b0; b1; b2].
Proof.
  intros H0 H1 H2. set (cp := (b0 - 224) * 4096 + (b1 - 128) * 64 + (b2 - 128)). intros Hcp.
  assert (cp < 65536 /\ 224 + cp / 4096 = b0 /\ 128 + (cp / 64) mod 64 = b1 /\
          128 + cp mod 64 = b2) as (? & E0 & E1 & E2) by (subst cp; divide).
  unfold utf8_point. tests. by rewrite E0, E1, E2.
Qed.

Lemma unpoint4 b0 b1 b2 b3 :
  240 <= b0 -> 128 <= b1 <= 191 -> 128 <= b2 <= 191 -> 128 <= b3 <= 191 ->
  65536 <= (b0 - 240) * 262144 + (b1 - 128) * 4096 + (b2 - 128) * 64 + (b3 - 128) ->
  utf8_point ((b0 - 240) * 262144 + (b1 - 128) * 4096 + (b2 - 128) * 64 + (b3 - 128)) =
  [b0; b1; b2; b3].
Proof.
  intros H0 H1 H2 H3.
  set (cp := (b0 - 240) * 262144 + (b1 - 128) * 4096 + (b2 - 128) * 64 + (b3 - 128)). intros Hcp.
  assert (240 + cp / 262144 = b0 /\ 128 + (cp / 4096) mod 64 = b1 /\
          128 + (cp / 64) mod 64 = b2 /\ 128 + cp mod 64 = b3) as (E0 & E1 & E2 & E3)
    by (subst cp; divide).
  unfold utf8_point. tests. by rewrite E0, E1, E2, E3.
Qed.

Lemma is_cont_range b : is_cont b = true -> 128 <= b <= 191.
Proof. unfold is_cont, in_range. lia. Qed.

Lemma utf8_point_length cp : (1 <= length (utf8_point cp))%nat.
Proof. unfold utf8_point. repeat case_match; simpl; lia. Qed.

(** ** Decoding what was encoded *)

(** The decoder reads the bytes of a scalar value as that value. *)
Lemma utf8_decode_point cp rest :
  is_scalar cp = true ->
  utf8_decode (utf8_point cp ++ rest) = cons cp <$> utf8_decode rest.
Proof.
  intros Hcp. unfold utf8_point.
  destruct (N.ltb_spec cp 128) as [H1|H1]; [cbn [app utf8_decode]; by tests|].
  destruct (N.ltb_spec cp 2048) as [H2|H2];
    [destruct (point2 cp) as (? & ? & Heq); [lia|]
    |destruct (N.ltb_spec cp 65536) as [H3|H3];
       [destruct (point3 cp) as (? & ? & ? & Heq); [lia|]
       |destruct (point4 cp) as (? & ? & ? & ? & Heq); [unfold is_scalar in Hcp; lia|]]];
    cbn [app utf8_decode]; cbv zeta; rewrite Heq, ?Hcp; unfold is_cont, in_range; by tests.
Qed.

Lemma utf8_decode_encode cps :
  forallb is_scalar cps = true -> utf8_decode (utf8_encode cps) = Some cps.
Proof.
  induction cps as [|cp cps IH]; [done|]. intros [Hcp Hcps]%andb_true_iff.
  unfold utf8_encode in *. cbn [flat_map]. by rewrite utf8_decode_point, IH.
Qed.

(** ** Encoding what was decoded *)

(** The decoder reads one code point at a time: the bytes it accepts
    start with the bytes of a scalar value. *)
Lemma utf8_decode_step b0 tl cps :
  utf8_decode (b0 :: tl) = Some cps ->
  exists cp rest cps',
    b0 :: tl = utf8_point cp ++ rest /\ is_scalar cp = true /\
    utf8_decode rest = Some cps' /\ cps = cp :: cps'.
Proof.
  cbn [utf8_decode].
  destruct (N.ltb_spec b0 128) as [H1|H1].
  { intros (cps' & ? & ->)%fmap_Some. exists b0, tl, cps'.
    unfold utf8_point, is_scalar. by tests. }
  destruct (N.ltb_spec b0 224) as [H2|H2].
  { destruct tl as [|b1 rest]; [done|]. case_match eqn:Ht; [|done].
    apply andb_true_iff in Ht as [Hb0%N.leb_le Hb1%is_cont_range].
    intros (cps' & ? & ->)%fmap_Some. destruct (unpoint2 b0 b1) as [E Hs]; [lia..|].
    eexists _, rest, cps'. by rewrite E. }
  destruct (N.ltb_spec b0 240) as [H3|H3].
  { destruct tl as [|b1 [|b2 rest]]; [done..|]. cbv zeta. case_match eqn:Ht; [|done].
    apply andb_true_iff in Ht as [Ht Hs]. apply andb_true_iff in Ht as [Ht Hcp%N.leb_le].
    apply andb_true_iff in Ht as [Hb1%is_cont_range Hb2%is_cont_range].
    intros (cps' & ? & ->)%fmap_Some. eexists _, rest, cps'.
    by rewrite (unpoint3 b0 b1 b2). }
  destruct tl as [|b1 [|b2 [|b3 rest]]]; [done..|]. cbv zeta. case_match eqn:Ht; [|done].
  apply andb_true_iff in Ht as [Ht Hs]. apply andb_true_iff in Ht as [Ht Hcp%N.leb_le].
  apply andb_true_iff in Ht as [Ht Hb3%is_cont_range].
  apply andb_true_iff in Ht as [Hb1%is_cont_range Hb2%is_cont_range].
  intros (cps' & ? & ->)%fmap_Some. eexists _, rest, cps'.
  by rewrite (unpoint4 b0 b1 b2 b3).
Qed.

(** ** Strings and their scalar values *)

Lemma scalar_values_lone c tl :
  is_high c || is_low c = true -> (is_high c = true -> head_low tl = false) ->
  scalar_values (c :: tl) = 65533 :: scalar_values tl.
Proof.
  intros Hc Htl. cbn [scalar_values].
  destruct (is_high c) eqn:Hh; [|cbn [orb] in Hc; by rewrite Hc].
  specialize (Htl eq_refl). destruct tl as [|d rest]; [done|]. cbn [head_low] in Htl. by rewrite Htl.
Qed.

Lemma toWellFormed_lone c tl :
  is_high c || is_low c = true -> (is_high c = true -> head_low tl = false) ->
  toWellFormed (c :: tl) = 65533 :: toWellFormed tl.
Proof.
  intros Hc Htl. cbn [toWellFormed].
  destruct (is_high c) eqn:Hh; [|cbn [orb] in Hc; by rewrite Hc].
  specialize (Htl eq_refl). destruct tl as [|d rest]; [done|]. cbn [head_low] in Htl. by rewrite Htl.
Qed.

Lemma utf8_unit_point c : c < 65536 -> utf8_unit c = utf8_point c.
Proof.
  intros Hc. unfold utf8_unit, utf8_point. tests. repeat case_match; repeat f_equal; divide.
Qed.

Lemma utf8_pair_point hi lo :
  is_high hi = true -> is_low lo = true ->
  utf8_pair hi lo = utf8_point (code_point hi lo) /\ is_scalar (code_point hi lo) = true.
Proof.
  unfold is_high, is_low, in_range, utf8_pair, utf8_point, is_scalar. cbv zeta.
  fold (code_point hi lo). intros Hh Hl.
  assert (65536 <= code_point hi lo < 1114112) by (unfold code_point; lia).
  tests. split; [|done]. repeat f_equal. divide.
Qed.

Lemma unit_scalar c :
  c < 65536 -> is_high c = false -> is_low c = false -> is_scalar c = true.
Proof. unfold is_high, is_low, in_range, is_scalar. lia. Qed.

Lemma utf16_pair hi lo :
  is_high hi = true -> is_low lo = true -> utf16_point (code_point hi lo) = [hi; lo].
Proof.
  unfold is_high, is_low, in_range, utf16_point. intros Hh Hl.
  assert (65536 <= code_point hi lo /\
          55296 + (code_point hi lo - 65536) / 1024 = hi /\
          56320 + (code_point hi lo - 65536) mod 1024 = lo) as (? & -> & ->)
    by (unfold code_point; divide).
  by tests.
Qed.

(** The encoder of strings is the encoder of code points, run on the
    scalar values of the string. *)
Lemma utf8_scalar_values s :
  code_units s = true ->
  utf8 s = utf8_encode (scalar_values s) /\ forallb is_scalar (scalar_values s) = true.
Proof.
  unfold code_units, utf8_encode.
  induction s as [|c tl Hh Hl IH|c tl Hc Htl IH|hi lo tl Hh Hl IH] using utf8_ind; [done|..];
    cbn [forallb]; rewrite ?andb_true_iff.
  - intros [Hc%N.ltb_lt [E ?]%IH]. rewrite utf8_unit_cons, E by done. cbn [scalar_values].
    rewrite Hh, Hl. cbn [flat_map forallb]. by rewrite utf8_unit_point, unit_scalar.
  - intros [_ [E ?]%IH]. by rewrite utf8_lone, scalar_values_lone, E.
  - intros (_ & _ & [E ?]%IH). rewrite utf8_pair_cons, E by done. cbn [scalar_values].
    rewrite Hh, Hl. cbn [flat_map forallb]. by destruct (utf8_pair_point hi lo Hh Hl) as [-> ->].
Qed.

(** The code units of the scalar values of a string are the string
    made well formed. *)
Lemma utf16_scalar_values s :
  code_units s = true -> utf16 (scalar_values s) = toWellFormed s.
Proof.
  unfold code_units, utf16.
  induction s as [|c tl Hh Hl IH|c tl Hc Htl IH|hi lo tl Hh Hl IH] using utf8_ind; [done|..];
    cbn [forallb]; rewrite ?andb_true_iff.
  - cbn [toWellFormed scalar_values]. rewrite Hh, Hl. intros [Hc%N.ltb_lt ?].
    cbn [flat_map]. rewrite IH by done. unfold utf16_point. by tests.
  - intros [_ ?]. rewrite scalar_values_lone, toWellFormed_lone by done.
    cbn [flat_map]. by rewrite IH.
  - cbn [toWellFormed scalar_values]. rewrite Hh, Hl. intros (_ & _ & ?).
    cbn [flat_map]. by rewrite IH, utf16_pair.
Qed.

(** A string is well formed when making it so changes nothing. *)
Lemma toWellFormed_id s : well_formed s = true -> toWellFormed s = s.
Proof.
  induction s as [|c tl Hh Hl IH|c tl Hc Htl IH|hi lo tl Hh Hl IH] using utf8_ind; [done|..].
  - cbn [well_formed toWellFormed]. rewrite Hh, Hl. intros ?. by rewrite IH.
  - intros Hw. by rewrite (well_formed_lone c tl) in Hw.
  - cbn [well_formed toWellFormed]. rewrite Hh, Hl. intros ?. by rewrite IH.
Qed.

(** The decoder accepts the shortest encoding of scalar values and
    nothing else: what it reads, encoded again, is what it read from. *)
Theorem utf8_encode_decode bytes cps :
  utf8_decode bytes = Some cps ->
  utf8_encode cps = bytes /\ forallb is_scalar cps = true.
Proof.
  revert cps. induction bytes as [bytes IH] using list_length_ind. intros cps.
  destruct bytes as [|b0 tl]; [by intros [= <-]|].
  intros (cp & rest & cps' & E & Hs & Hrest & ->)%utf8_decode_step.
  destruct (IH rest) with (cps := cps') as [IH1 IH2]; [|done|].
  { rewrite E, length_app. pose proof (utf8_point_length cp). lia. }
  unfold utf8_encode in *. cbn [flat_map forallb]. by rewrite IH1, E, Hs.
Qed.

(** ** Bytes in pieces *)

Lemma code_units_app a b : code_units (a ++ b) = code_units a && code_units b.
Proof. apply forallb_app. Qed.

Lemma ascii_code_units s : forallb (fun c => c <? 128) s = true -> code_units s = true.
Proof. apply forallb_weaken. intros c. lia. Qed.

Lemma ascii_well_formed s : forallb (fun c => c <? 128) s = true -> well_formed s = true.
Proof.
  induction s as [|c s IH]; [done|]. cbn [forallb well_formed].
  intros [Hc%N.ltb_lt Hs]%andb_true_iff.
  destruct (ascii_not_surrogate c Hc) as [-> ->]. by rewrite IH.
Qed.

(** The decoder reads what follows a code point on its own. *)
Lemma utf8_decode_app a b ca cb :
  utf8_decode a = Some ca -> utf8_decode b = Some cb ->
  utf8_decode (a ++ b) = Some (ca ++ cb).
Proof.
  intros [<- Ha]%utf8_encode_decode [<- Hb]%utf8_encode_decode.
  unfold utf8_encode. rewrite <- flat_map_app. apply utf8_decode_encode.
  by rewrite forallb_app, Ha, Hb.
Qed.

Lemma text_of_app a b x y :
  text_of a = Some x -> text_of b = Some y -> text_of (a ++ b) = Some (x ++ y).
Proof.
  unfold text_of. intros (ca & Ha & ->)%fmap_Some (cb & Hb & ->)%fmap_Some.
  rewrite (utf8_decode_app a b ca cb Ha Hb). cbn [fmap option_fmap option_map].
  unfold utf16. by rewrite flat_map_app.
Qed.

(** ** Theorems *)

(** Decoding is one to one: two strings of bytes that decode to the
    same code points are the same bytes. *)
Theorem utf8_decode_inj bytes bytes' cps :
  utf8_decode bytes = Some cps -> utf8_decode bytes' = Some cps -> bytes = bytes'.
Proof. by intros [<- _]%utf8_encode_decode [<- _]%utf8_encode_decode. Qed.

(** The bytes a URL parser sends for a string decode to the scalar
    values of the string. *)
Theorem utf8_decode_utf8 s :
  code_units s = true -> utf8_decode (utf8 s) = Some (scalar_values s).
Proof. intros [-> ?]%utf8_scalar_values. by apply utf8_decode_encode. Qed.

(** What is read is what was sent: the bytes of a string decode to the
    string made well formed, and to the string itself when it has no
    surrogate without its partner. *)
Theorem text_of_utf8 s :
  code_units s = true -> text_of (utf8 s) = Some (toWellFormed s).
Proof.
  intros Hs. unfold text_of. rewrite utf8_decode_utf8 by done.
  cbn [fmap option_fmap option_map]. by rewrite utf16_scalar_values.
Qed.

Theorem text_of_utf8_well_formed s :
  code_units s = true -> well_formed s = true -> text_of (utf8 s) = Some s.
Proof. intros Hs Hw. by rewrite text_of_utf8, toWellFormed_id. Qed.

(** ASCII text is its own bytes. *)
Theorem text_of_ascii s : forallb (fun c => c <? 128) s = true -> text_of s = Some s.
Proof.
  intros Hs. rewrite <- (utf8_ascii s Hs) at 1.
  by apply text_of_utf8_well_formed; [apply ascii_code_units|apply ascii_well_formed].
Qed.

(** ** Strings that arrive as they were sent *)

Lemma well_formed_app a b :
  well_formed a = true -> well_formed b = true -> well_formed (a ++ b) = true.
Proof.
  intros Ha Hb. induction a as [|c tl Hh Hl IH|c tl Hc Htl IH|hi lo tl Hh Hl IH] using utf8_ind.
  - done.
  - cbn [well_formed app] in *. rewrite Hh, Hl in *. by apply IH.
  - by rewrite (well_formed_lone c tl) in Ha.
  - cbn [well_formed app] in *. rewrite Hh, Hl in *. by apply IH.
Qed.

Lemma sendable_app a b : sendable a = true -> sendable b = true -> sendable (a ++ b) = true.
Proof.
  unfold sendable. intros [Ha Ha']%andb_true_iff [Hb Hb']%andb_true_iff.
  by rewrite code_units_app, Ha, Hb, well_formed_app.
Qed.

Lemma sendable_ascii s : forallb (fun c => c <? 128) s = true -> sendable s = true.
Proof. intros Hs. unfold sendable. by rewrite ascii_code_units, ascii_well_formed. Qed.

Lemma sendable_cons c s : c < 128 -> sendable s = true -> sendable (c :: s) = true.
Proof. intros Hc Hs. apply (sendable_app [c] s); [|done]. apply sendable_ascii. cbn. lia. Qed.

Lemma sendable_flat_map {A} (f : A -> jsstring) l :
  Forall (fun x => sendable (f x) = true) l -> sendable (flat_map f l) = true.
Proof. induction 1; [done|]. cbn [flat_map]. by apply sendable_app. Qed.

(** The bytes of such a string are read as the string. *)
Lemma text_of_sendable s : sendable s = true -> text_of (utf8 s) = Some s.
Proof. intros [Hs Hw]%andb_true_iff. by apply text_of_utf8_well_formed. Qed.

(** ** Witnesses and examples *)

Lemma utf8_encode_decode_witness :
  utf8_encode [233; 8364; 128218] = [195; 169; 226; 130; 172; 240; 159; 147; 154] /\
  forallb is_scalar [233; 8364; 128218] = true.
Proof. by apply (utf8_encode_decode [195; 169; 226; 130; 172; 240; 159; 147; 154]). Defined.

Lemma utf8_decode_inj_witness : [195; 169] = [195; 169].
Proof. by apply (utf8_decode_inj [195; 169] [195; 169] [233]). Defined.

Lemma utf8_decode_utf8_witness :
  utf8_decode (utf8 [233; 55357; 56538]) = Some (scalar_values [233; 55357; 56538]).
Proof. by apply (utf8_decode_utf8 [233; 55357; 56538]). Defined.

Lemma text_of_utf8_witness :
  text_of (utf8 [55357; 65; 56538]) = Some (toWellFormed [55357; 65; 56538]).
Proof. by apply (text_of_utf8 [55357; 65; 56538]). Defined.

Lemma text_of_utf8_well_formed_witness :
  text_of (utf8 (lit "caf" ++ [233; 55357; 56538])) = Some (lit "caf" ++ [233; 55357; 56538]).
Proof. by apply (text_of_utf8_well_formed (lit "caf" ++ [233; 55357; 56538])). Defined.

Lemma text_of_ascii_witness : text_of (lit "q") = Some (lit "q").
Proof. by apply (text_of_ascii (lit "q")). Defined.

(** What the decoder refuses: a form longer than needed (the slash as
    two bytes), a surrogate, a sequence cut short, a continuation byte
    at the start, a code point above U+10FFFF. *)
Example utf8_decode_refuses :
  utf8_decode [192; 175] = None /\ utf8_decode [237; 160; 128] = None /\
  utf8_decode [226; 130] = None /\ utf8_decode [128] = None /\
  utf8_decode [244; 144; 128; 128] = None.
Proof. by split_and!. Qed.

(** A surrogate without its partner arrives as U+FFFD. *)
Example lone_surrogate_text :
  text_of (utf8 [55357; 65]) = Some [65533; 65].
Proof. reflexivity. Qed.
