(* ===== verification/Decode.v ===== *)
(** * The UTF-8 decoder of the platform

    [response.json()] decodes the body with the decoder of the Encoding
    Standard, which never fails: bytes that are no UTF-8 are read as
    U+FFFD and decoding goes on.  The decoder is a state machine over
    the bytes: it is at the start of a character, or inside one, with
    the code point read so far, the number of bytes still to come and
    the range the next byte must lie in.  On the bytes the strict
    decoder of [Utf8] accepts, the two agree. *)

From Stdlib Require Import String.
From S2P Require Import Prelude JsString Encoding Utf8.

Local Open Scope N_scope.

(** ** The decoder *)

Inductive dec_state : Type :=
| Start
| Cont (cp : N) (remaining : nat) (lower upper : N).

(** A byte at the start of a character. *)
Definition dec_start (b : N) : dec_state * list N :=
  if b <? 128 then (Start, [b])
  else if in_range 194 223 b then (Cont (b mod 32) 0 128 191, [])
  else if in_range 224 239 b then
    (Cont (b mod 16) 1 (if b =? 224 then 160 else 128) (if b =? 237 then 159 else 191), [])
  else if in_range 240 244 b then
    (Cont (b mod 8) 2 (if b =? 240 then 144 else 128) (if b =? 244 then 143 else 191), [])
  else (Start, [65533]).

(** One byte: inside a character a byte out of range ends the
    character with U+FFFD and is read again as the start of the next. *)
Definition dec_step (st : dec_state) (b : N) : dec_state * list N :=
  match st with
  | Start => dec_start b
  | Cont cp remaining lower upper =>
      if in_range lower upper b then
        match remaining with
        | O => (Start, [cp * 64 + b mod 64])
        | S r => (Cont (cp * 64 + b mod 64) r 128 191, [])
        end
      else (fst (dec_start b), 65533 :: snd (dec_start b))
  end.

(** The end of the bytes inside a character. *)
Definition dec_end (st : dec_state) : list N :=
  match st with Start => [] | Cont _ _ _ _ => [65533] end.

Fixpoint utf8_lossy (st : dec_state) (bytes : list N) : list N :=
  match bytes with
  | [] => dec_end st
  | b :: tl => snd (dec_step st b) ++ utf8_lossy (fst (dec_step st b)) tl
  end.

(** The text of bytes, whatever they are. *)
Definition text_lossy (bytes : list N) : jsstring := utf16 (utf8_lossy Start bytes).

(** ** Sequences of two, three and four bytes *)

Local Ltac decode :=
  repeat (progress (cbn [utf8_lossy dec_step fst snd app andb]; unfold dec_start, in_range; tests));
  try reflexivity.

Lemma lossy1 b rest : b < 128 -> utf8_lossy Start (b :: rest) = b :: utf8_lossy Start rest.
Proof. intros Hb. decode. Qed.

Lemma lossy2 b0 b1 rest :
  194 <= b0 < 224 -> 128 <= b1 <= 191 ->
  utf8_lossy Start (b0 :: b1 :: rest) = b0 mod 32 * 64 + b1 mod 64 :: utf8_lossy Start rest.
Proof. intros H0 H1. decode. Qed.

Lemma lossy3 b0 b1 b2 rest :
  224 <= b0 < 240 -> 128 <= b1 <= 191 -> 128 <= b2 <= 191 ->
  (b0 = 224 -> 160 <= b1) -> (b0 = 237 -> b1 <= 159) ->
  utf8_lossy Start (b0 :: b1 :: b2 :: rest) =
  (b0 mod 16 * 64 + b1 mod 64) * 64 + b2 mod 64 :: utf8_lossy Start rest.
Proof.
  intros H0 H1 H2 Hl Hu.
  destruct (N.eqb_spec b0 224); destruct (N.eqb_spec b0 237); try lia; decode.
Qed.

Lemma lossy4 b0 b1 b2 b3 rest :
  240 <= b0 < 245 -> 128 <= b1 <= 191 -> 128 <= b2 <= 191 -> 128 <= b3 <= 191 ->
  (b0 = 240 -> 144 <= b1) -> (b0 = 244 -> b1 <= 143) ->
  utf8_lossy Start (b0 :: b1 :: b2 :: b3 :: rest) =
  ((b0 mod 8 * 64 + b1 mod 64) * 64 + b2 mod 64) * 64 + b3 mod 64 :: utf8_lossy Start rest.
Proof.
  intros H0 H1 H2 H3 Hl Hu.
  destruct (N.eqb_spec b0 240); destruct (N.eqb_spec b0 244); try lia; decode.
Qed.

(** ** The two decoders *)

Lemma lossy_point cp rest :
  is_scalar cp = true ->
  utf8_lossy Start (utf8_point cp ++ rest) = cp :: utf8_lossy Start rest.
Proof.
  intros Hcp. unfold utf8_point, is_scalar in *.
  destruct (N.ltb_spec cp 128); [by apply lossy1|].
  destruct (N.ltb_spec cp 2048); [cbn [app]; rewrite lossy2; try f_equal; divide|].
  destruct (N.ltb_spec cp 65536); cbn [app]; [rewrite lossy3|rewrite lossy4]; try f_equal; divide.
Qed.

Lemma lossy_encode cps :
  forallb is_scalar cps = true -> utf8_lossy Start (utf8_encode cps) = cps.
Proof.
  induction cps as [|cp cps IH]; [done|]. intros [Hcp Hcps]%andb_true_iff.
  unfold utf8_encode in *. cbn [flat_map]. by rewrite lossy_point, IH.
Qed.

(** On bytes that are UTF-8 the decoder of the platform reads what
    the strict decoder reads. *)
Theorem utf8_lossy_decode bytes cps :
  utf8_decode bytes = Some cps -> utf8_lossy Start bytes = cps.
Proof. intros [<- Hs]%utf8_encode_decode. by apply lossy_encode. Qed.

Theorem text_lossy_text_of bytes s : text_of bytes = Some s -> text_lossy bytes = s.
Proof.
  unfold text_of, text_lossy. intros (cps & H & ->)%fmap_Some. by rewrite (utf8_lossy_decode _ cps).
Qed.

(** ** What the decoder gives is text *)

(** Every value from [lo] to [hi] is a scalar value. *)
Definition all_scalar (lo hi : N) : bool :=
  ((hi <? 55296) || (57344 <=? lo)) && (hi <? 1114112).

(** The invariant of the decoder: whatever bytes in range follow, the
    code point they complete is a scalar value. *)
Definition dec_ok (st : dec_state) : bool :=
  match st with
  | Start => true
  | Cont cp r l u =>
      (128 <=? l) && (u <=? 191) &&
      match r with
      | 0%nat => all_scalar (cp * 64 + (l - 128)) (cp * 64 + (u - 128))
      | 1%nat => all_scalar ((cp * 64 + (l - 128)) * 64) ((cp * 64 + (u - 128)) * 64 + 63)
      | 2%nat => all_scalar ((cp * 64 + (l - 128)) * 4096) ((cp * 64 + (u - 128)) * 4096 + 4095)
      | _ => false
      end
  end.

Lemma dec_start_ok b :
  dec_ok (fst (dec_start b)) = true /\ forallb is_scalar (snd (dec_start b)) = true.
Proof.
  unfold dec_start, in_range. destruct (N.ltb_spec b 128); [unfold is_scalar; cbn; lia|].
  destruct (N.leb_spec 194 b); destruct (N.leb_spec b 223); cbn [andb fst snd];
    [split; [|done]; unfold dec_ok, all_scalar; divide|..].
  all: destruct (N.leb_spec 224 b); destruct (N.leb_spec b 239); cbn [andb fst snd]; try lia.
  all: try (split; [|done]; unfold dec_ok, all_scalar;
            destruct (N.eqb_spec b 224); destruct (N.eqb_spec b 237); divide).
  all: destruct (N.leb_spec 240 b); destruct (N.leb_spec b 244); cbn [andb fst snd]; try done.
  all: split; [|done]; unfold dec_ok, all_scalar.
  all: destruct (N.eqb_spec b 240); destruct (N.eqb_spec b 244); divide.
Qed.

Lemma dec_step_ok st b :
  dec_ok st = true ->
  dec_ok (fst (dec_step st b)) = true /\ forallb is_scalar (snd (dec_step st b)) = true.
Proof.
  destruct st as [|cp r l u]; [intros _; apply dec_start_ok|]. cbn [dec_step]. unfold in_range.
  destruct (N.leb_spec l b); destruct (N.leb_spec b u); cbn [andb fst snd];
    try (intros _; destruct (dec_start_ok b) as [H1 H2]; split; [done|];
         cbn [forallb]; by rewrite H2).
  destruct r as [|[|[|r]]]; cbn [dec_ok fst snd forallb]; unfold all_scalar, is_scalar;
    try done; intros Hok; split; divide.
Qed.

Lemma utf8_lossy_ok bytes :
  forall st, dec_ok st = true -> forallb is_scalar (utf8_lossy st bytes) = true.
Proof.
  induction bytes as [|b tl IH]; intros st Hst; [by destruct st|].
  cbn [utf8_lossy]. destruct (dec_step_ok st b Hst) as [Hok Hout].
  by rewrite forallb_app, Hout, IH.
Qed.

(** The decoder gives scalar values, whatever the bytes. *)
Theorem utf8_lossy_scalar bytes : forallb is_scalar (utf8_lossy Start bytes) = true.
Proof. by apply utf8_lossy_ok. Qed.

Lemma utf16_point_sendable cp : is_scalar cp = true -> sendable (utf16_point cp) = true.
Proof.
  unfold is_scalar, utf16_point, sendable, code_units. intros Hcp.
  destruct (N.ltb_spec cp 65536) as [Hs|Hs].
  - cbn [forallb well_formed]. unfold is_high, is_low, in_range.
    destruct (N.ltb_spec cp 55296); by tests.
  - assert (55296 <= 55296 + (cp - 65536) / 1024 <= 56319 /\
            56320 <= 56320 + (cp - 65536) mod 1024 <= 57343) as [Hh Hl] by divide.
    revert Hh Hl. generalize (55296 + (cp - 65536) / 1024) (56320 + (cp - 65536) mod 1024).
    intros hi lo Hh Hl. cbn [forallb well_formed]. unfold is_high, is_low, in_range. by tests.
Qed.

Lemma utf16_sendable cps : forallb is_scalar cps = true -> sendable (utf16 cps) = true.
Proof.
  intros H. apply sendable_flat_map. induction cps as [|cp cps IH]; [done|].
  cbn [forallb] in H. apply andb_true_iff in H as [Hcp H].
  constructor; [by apply utf16_point_sendable|by apply IH].
Qed.

(** The text of a body holds code units and no surrogate without its
    partner, whatever the bytes. *)
Theorem text_lossy_sendable bytes : sendable (text_lossy bytes) = true.
Proof. apply utf16_sendable, utf8_lossy_scalar. Qed.

(** ** Examples *)

(** Bytes that are no UTF-8: a byte that starts nothing, a sequence
    cut short by an ASCII character, a form longer than needed, a
    surrogate, the end inside a character. *)
Example utf8_lossy_replaces :
  utf8_lossy Start [97; 255; 98] = [97; 65533; 98] /\
  utf8_lossy Start [226; 130; 97] = [65533; 97] /\
  utf8_lossy Start [192; 175] = [65533; 65533] /\
  utf8_lossy Start [237; 160; 128] = [65533; 65533; 65533] /\
  utf8_lossy Start [240; 159; 152] = [65533].
Proof. by vm_compute. Qed.

Lemma utf8_lossy_decode_witness :
  utf8_lossy Start [226; 130; 172; 240; 159; 152; 128] = [8364; 128512].
Proof. apply utf8_lossy_decode. reflexivity. Defined.
