(* ===== verification/JsonLex.v ===== *)
(** * JSON texts as tokens

    The first half of [JSON.parse], which [response.json()] on line 154
    of [src/script.js] runs on the body of the response: the lexer, a
    state machine over the code units of the text, with the grammar of
    number literals and the escapes of strings.  The way back, the
    text of a token as [JSON.stringify] writes it, gives the theorem of
    the file: a text that is a sequence of tokens with white space
    around them is read as these tokens.

    The lexer recurses on the text: it ends on every input, and
    [None] is the [SyntaxError] of the language. *)

From Stdlib Require Import String.
From S2P Require Import Prelude JsString Encoding Utf8.

Local Open Scope N_scope.

Declare Scope opt_scope.
Delimit Scope opt_scope with opt.
Notation "x <- c ;; k" := (mbind (M:=option) (fun x => k) c)
  (at level 100, c at next level, k at level 200, right associativity) : opt_scope.
Local Open Scope opt_scope.

(** ** Tokens *)

Inductive token : Type :=
| LBrace | RBrace | LBracket | RBracket | Colon | Comma
| TString (s : jsstring)
| TNumber (literal : jsstring)
| TTrue | TFalse | TNull.

#[export] Instance token_eq_dec : EqDecision token.
Proof. solve_decision. Defined.

(** ** Number literals *)

Definition all_digits (s : jsstring) : bool := str_truthy s && forallb is_digit s.

Definition is_exponent (s : jsstring) : bool :=
  match s with
  | [] => true
  | e :: tl =>
      ((e =? 101) || (e =? 69)) &&
      match tl with
      | sign :: ds => if (sign =? 43) || (sign =? 45) then all_digits ds else all_digits tl
      | [] => false
      end
  end.

Definition is_fraction (s : jsstring) : bool :=
  match s with
  | [] => true
  | c :: tl =>
      if c =? 46 then str_truthy (take_while is_digit tl) && is_exponent (drop_while is_digit tl)
      else is_exponent s
  end.

Definition is_unsigned (s : jsstring) : bool :=
  match s with
  | [] => false
  | c :: tl =>
      if c =? 48 then is_fraction tl
      else in_range 49 57 c && is_fraction (drop_while is_digit tl)
  end.

Definition is_number (s : jsstring) : bool :=
  match s with
  | [] => false
  | c :: tl => if c =? 45 then is_unsigned tl else is_unsigned s
  end.

(** ** The lexer *)

Definition is_ws (c : N) : bool := (c =? 9) || (c =? 10) || (c =? 13) || (c =? 32).

Definition is_number_char (c : N) : bool :=
  is_digit c || (c =? 45) || (c =? 43) || (c =? 46) || (c =? 101) || (c =? 69).

Inductive lex_state : Type :=
| Idle
| InString (acc : jsstring)
| InEscape (acc : jsstring)
| InHex (acc : jsstring) (n : nat) (value : N)
| InNumber (acc : jsstring)
| InWord (rest : jsstring) (t : token).

Definition idle_step (c : N) : option (lex_state * list token) :=
  if is_ws c then Some (Idle, [])
  else if c =? 34 then Some (InString [], [])
  else if c =? 123 then Some (Idle, [LBrace])
  else if c =? 125 then Some (Idle, [RBrace])
  else if c =? 91 then Some (Idle, [LBracket])
  else if c =? 93 then Some (Idle, [RBracket])
  else if c =? 58 then Some (Idle, [Colon])
  else if c =? 44 then Some (Idle, [Comma])
  else if is_number_char c then Some (InNumber [c], [])
  else if c =? 116 then Some (InWord [114; 117; 101] TTrue, [])
  else if c =? 102 then Some (InWord [97; 108; 115; 101] TFalse, [])
  else if c =? 110 then Some (InWord [117; 108; 108] TNull, [])
  else None.

Definition escape_step (acc : jsstring) (c : N) : option lex_state :=
  if c =? 34 then Some (InString (34 :: acc))
  else if c =? 92 then Some (InString (92 :: acc))
  else if c =? 47 then Some (InString (47 :: acc))
  else if c =? 98 then Some (InString (8 :: acc))
  else if c =? 102 then Some (InString (12 :: acc))
  else if c =? 110 then Some (InString (10 :: acc))
  else if c =? 114 then Some (InString (13 :: acc))
  else if c =? 116 then Some (InString (9 :: acc))
  else if c =? 117 then Some (InHex acc 0 0)
  else None.

Definition number_token (acc : jsstring) : option token :=
  if is_number (rev acc) then Some (TNumber (rev acc)) else None.

Definition lex_step (st : lex_state) (c : N) : option (lex_state * list token) :=
  match st with
  | Idle => idle_step c
  | InString acc =>
      if c =? 34 then Some (Idle, [TString (rev acc)])
      else if c =? 92 then Some (InEscape acc, [])
      else if c <? 32 then None
      else Some (InString (c :: acc), [])
  | InEscape acc => st' <- escape_step acc c ;; Some (st', [])
  | InHex acc n value =>
      if is_hex c then
        let value' := 16 * value + unhex c in
        Some (if (n =? 3)%nat then InString (value' :: acc) else InHex acc (S n) value', [])
      else None
  | InNumber acc =>
      if is_number_char c then Some (InNumber (c :: acc), [])
      else
        t <- number_token acc ;;
        next <- idle_step c ;;
        Some (fst next, t :: snd next)
  | InWord rest t =>
      match rest with
      | x :: rest' =>
          if c =? x then Some (match rest' with [] => (Idle, [t]) | _ => (InWord rest' t, []) end)
          else None
      | [] => None
      end
  end.

Definition lex_end (st : lex_state) : option (list token) :=
  match st with
  | Idle => Some []
  | InNumber acc => t <- number_token acc ;; Some [t]
  | _ => None
  end.

Fixpoint lex (st : lex_state) (s : jsstring) : option (list token) :=
  match s with
  | [] => lex_end st
  | c :: tl =>
      next <- lex_step st c ;;
      app (snd next) <$> lex (fst next) tl
  end.

(** ** The text of a token *)

Definition hex_lower (n : N) : N := if n <? 10 then 48 + n else 87 + n.

Definition unicode_escape (c : code_unit) : jsstring :=
  [92; 117; hex_lower (c / 4096); hex_lower ((c / 256) mod 16);
   hex_lower ((c / 16) mod 16); hex_lower (c mod 16)].

Definition quote_unit (c : code_unit) : jsstring :=
  if c =? 8 then [92; 98]
  else if c =? 9 then [92; 116]
  else if c =? 10 then [92; 110]
  else if c =? 12 then [92; 102]
  else if c =? 13 then [92; 114]
  else if c =? 34 then [92; 34]
  else if c =? 92 then [92; 92]
  else if c <? 32 then unicode_escape c
  else [c].

Fixpoint quote_units (s : jsstring) : jsstring :=
  match s with
  | [] => []
  | c :: tl =>
      if is_high c then
        match tl with
        | d :: rest => if is_low d then c :: d :: quote_units rest
                       else unicode_escape c ++ quote_units tl
        | [] => unicode_escape c
        end
      else if is_low c then unicode_escape c ++ quote_units tl
      else quote_unit c ++ quote_units tl
  end.

Definition quote (s : jsstring) : jsstring := 34 :: quote_units s ++ [34].

Definition token_text (t : token) : jsstring :=
  match t with
  | LBrace => [123]
  | RBrace => [125]
  | LBracket => [91]
  | RBracket => [93]
  | Colon => [58]
  | Comma => [44]
  | TString s => quote s
  | TNumber literal => literal
  | TTrue => [116; 114; 117; 101]
  | TFalse => [102; 97; 108; 115; 101]
  | TNull => [110; 117; 108; 108]
  end.

Definition token_ok (t : token) : bool :=
  match t with
  | TString s => code_units s
  | TNumber literal => is_number literal
  | _ => true
  end.

Definition is_number_token (t : token) : bool :=
  match t with TNumber _ => true | _ => false end.

(** A layout: each token with the white space that follows it. *)
Definition layout : Type := list (token * jsstring).

Definition layout_text (l : layout) : jsstring :=
  flat_map (fun tw => token_text (fst tw) ++ snd tw) l.

(** Tokens and white space are what they should be, and a number is
    not followed at once by another. *)
Fixpoint layout_ok (l : layout) : bool :=
  match l with
  | [] => true
  | (t, w) :: l' =>
      token_ok t && forallb is_ws w &&
      negb (is_number_token t && negb (str_truthy w) &&
            match l' with (t', _) :: _ => is_number_token t' | [] => false end) &&
      layout_ok l'
  end.

(** ** Steps *)

Lemma fmap_app_nil {A} (o : option (list A)) : app [] <$> o = o.
Proof. by destruct o. Qed.

Lemma lex_silent st c tl st' :
  lex_step st c = Some (st', []) -> lex st (c :: tl) = lex st' tl.
Proof. intros H. cbn [lex]. rewrite H. cbn. apply fmap_app_nil. Qed.

Lemma lex_emit st c tl st' t :
  lex_step st c = Some (st', [t]) -> lex st (c :: tl) = cons t <$> lex st' tl.
Proof. intros H. cbn [lex]. by rewrite H. Qed.

Lemma lex_ws_cons c tl : is_ws c = true -> lex Idle (c :: tl) = lex Idle tl.
Proof. intros H. apply lex_silent. cbn [lex_step]. unfold idle_step. by rewrite H. Qed.

Lemma lex_ws w tl : forallb is_ws w = true -> lex Idle (w ++ tl) = lex Idle tl.
Proof.
  induction w as [|c w IH]; [done|]. intros [Hc Hw]%andb_true_iff.
  cbn [app]. by rewrite lex_ws_cons, IH.
Qed.

(** ** Strings *)

Lemma hex_lower_is_hex n : n < 16 -> is_hex (hex_lower n) = true /\ unhex (hex_lower n) = n.
Proof.
  intros Hn. unfold hex_lower, is_hex, unhex, in_range.
  destruct (N.ltb_spec n 10); tests; split; lia.
Qed.

Lemma lex_hex_digit acc n v d tl :
  d < 16 ->
  lex (InHex acc n v) (hex_lower d :: tl) =
  lex (if (n =? 3)%nat then InString (16 * v + d :: acc) else InHex acc (S n) (16 * v + d)) tl.
Proof.
  intros [Hh Hu]%hex_lower_is_hex. apply lex_silent. cbn [lex_step]. by rewrite Hh, Hu.
Qed.

Lemma hex_digits c :
  c < 65536 ->
  c / 4096 < 16 /\ (c / 256) mod 16 < 16 /\ (c / 16) mod 16 < 16 /\ c mod 16 < 16 /\
  16 * (16 * (16 * (16 * 0 + c / 4096) + (c / 256) mod 16) + (c / 16) mod 16) + c mod 16 = c.
Proof. intros. divide. Qed.

Lemma lex_unicode_escape c acc rest :
  c < 65536 ->
  lex (InString acc) (unicode_escape c ++ rest) = lex (InString (c :: acc)) rest.
Proof.
  intros (H1 & H2 & H3 & H4 & E)%hex_digits. unfold unicode_escape. cbn [app].
  rewrite (lex_silent (InString acc) 92 _ (InEscape acc)) by done.
  rewrite (lex_silent (InEscape acc) 117 _ (InHex acc 0 0)) by done.
  repeat (rewrite lex_hex_digit by done; cbn [Nat.eqb]). by rewrite E.
Qed.

Lemma lex_literal c acc rest :
  (32 <=? c) && negb (c =? 34) && negb (c =? 92) = true ->
  lex (InString acc) (c :: rest) = lex (InString (c :: acc)) rest.
Proof. intros Hc. apply lex_silent. cbn [lex_step]. tests. by repeat case_match; try lia. Qed.

Lemma lex_quote_unit c acc rest :
  c < 65536 ->
  lex (InString acc) (quote_unit c ++ rest) = lex (InString (c :: acc)) rest.
Proof.
  intros Hc. unfold quote_unit.
  repeat case_match; [..|apply lex_literal; lia]; try by apply lex_unicode_escape.
  all: repeat match goal with H : (_ =? _) = true |- _ => apply N.eqb_eq in H as -> end.
  all: cbn [app]; by do 2 (erewrite lex_silent by done).
Qed.

Lemma surrogate_literal c :
  is_high c || is_low c = true -> (32 <=? c) && negb (c =? 34) && negb (c =? 92) = true.
Proof. unfold is_high, is_low, in_range. lia. Qed.

Lemma quote_units_lone c tl :
  is_high c || is_low c = true -> (is_high c = true -> head_low tl = false) ->
  quote_units (c :: tl) = unicode_escape c ++ quote_units tl.
Proof.
  intros Hc Htl. cbn [quote_units].
  destruct (is_high c) eqn:Hh; [|cbn [orb] in Hc; by rewrite Hc].
  specialize (Htl eq_refl). destruct tl as [|d rest]; [by rewrite app_nil_r|].
  cbn [head_low] in Htl. by rewrite Htl.
Qed.

(** The lexer reads the text of a string as the string. *)
Lemma lex_quote_units s acc rest :
  code_units s = true ->
  lex (InString acc) (quote_units s ++ 34 :: rest) =
  cons (TString (rev acc ++ s)) <$> lex Idle rest.
Proof.
  unfold code_units. revert acc.
  induction s as [|c tl Hh Hl IH|c tl Hc Htl IH|hi lo tl Hh Hl IH] using utf8_ind;
    intros acc; cbn [forallb]; rewrite ?andb_true_iff.
  - intros _. rewrite app_nil_r. by apply lex_emit.
  - intros [Hc%N.ltb_lt Hs]. cbn [quote_units]. rewrite Hh, Hl, <- app_assoc.
    rewrite lex_quote_unit, IH by done. cbn [rev]. by rewrite <- app_assoc.
  - intros [Hc'%N.ltb_lt Hs]. rewrite quote_units_lone, <- app_assoc by done.
    rewrite lex_unicode_escape, IH by done. cbn [rev]. by rewrite <- app_assoc.
  - intros (_ & _ & Hs). cbn [quote_units]. rewrite Hh, Hl. cbn [app].
    rewrite !lex_literal by (apply surrogate_literal; by rewrite ?Hh, ?Hl, ?orb_true_r).
    rewrite IH by done. cbn [rev]. by rewrite <- !app_assoc.
Qed.

Lemma lex_quote s rest :
  code_units s = true -> lex Idle (quote s ++ rest) = cons (TString s) <$> lex Idle rest.
Proof.
  intros Hs. unfold quote. cbn [app]. rewrite (lex_silent Idle 34 _ (InString [])) by done.
  rewrite <- app_assoc. cbn [app]. by rewrite lex_quote_units.
Qed.

(** ** Numbers *)

Lemma digit_number_char c : is_digit c = true -> is_number_char c = true.
Proof. unfold is_number_char. by intros ->. Qed.

Lemma digits_number_chars s : forallb is_digit s = true -> forallb is_number_char s = true.
Proof. apply forallb_weaken, digit_number_char. Qed.

Lemma all_digits_chars s : all_digits s = true -> forallb is_number_char s = true.
Proof. unfold all_digits. intros [_ H]%andb_true_iff. by apply digits_number_chars. Qed.

Lemma is_exponent_chars s : is_exponent s = true -> forallb is_number_char s = true.
Proof.
  destruct s as [|e [|sign ds]]; [done|by cbn; rewrite andb_false_r|]. cbn [is_exponent forallb].
  intros [He H]%andb_true_iff. apply andb_true_iff. split; [unfold is_number_char; lia|].
  destruct ((sign =? 43) || (sign =? 45)) eqn:Hs; [|by apply (all_digits_chars (sign :: ds))].
  rewrite (all_digits_chars ds H). unfold is_number_char. lia.
Qed.

(** Digits, and then what follows them. *)
Lemma after_digits_chars (p : jsstring -> bool) s :
  (forall t, p t = true -> forallb is_number_char t = true) ->
  p (drop_while is_digit s) = true -> forallb is_number_char s = true.
Proof.
  intros Hp H. rewrite <- (take_drop_while is_digit s), forallb_app.
  apply andb_true_iff. split; [apply digits_number_chars, take_while_all|by apply Hp].
Qed.

Lemma is_fraction_chars s : is_fraction s = true -> forallb is_number_char s = true.
Proof.
  destruct s as [|c tl]; [done|]. cbn [is_fraction]. destruct (N.eqb_spec c 46) as [->|Hc].
  - intros [_ H]%andb_true_iff. cbn [forallb]. apply andb_true_iff. split; [done|].
    by apply (after_digits_chars is_exponent tl is_exponent_chars).
  - apply is_exponent_chars.
Qed.

Lemma is_unsigned_chars s : is_unsigned s = true -> forallb is_number_char s = true.
Proof.
  destruct s as [|c tl]; [done|]. cbn [is_unsigned forallb]. destruct (N.eqb_spec c 48) as [->|Hc].
  - intros H. apply andb_true_iff. split; [done|]. by apply is_fraction_chars.
  - intros [Hd H]%andb_true_iff. apply andb_true_iff. split.
    + unfold is_number_char, is_digit, in_range in *. lia.
    + by apply (after_digits_chars is_fraction tl is_fraction_chars).
Qed.

Lemma is_number_chars l : is_number l = true -> forallb is_number_char l = true.
Proof.
  destruct l as [|c tl]; [done|]. cbn [is_number]. destruct (N.eqb_spec c 45) as [->|Hc].
  - intros H. cbn [forallb]. apply andb_true_iff. split; [done|]. by apply is_unsigned_chars.
  - apply is_unsigned_chars.
Qed.

Lemma idle_number_char c :
  is_number_char c = true -> idle_step c = Some (InNumber [c], []).
Proof.
  intros Hc. unfold idle_step. rewrite Hc.
  assert (is_ws c = false) as -> by (unfold is_number_char, is_digit, in_range, is_ws in *; lia).
  unfold is_number_char, is_digit, in_range in Hc. by tests.
Qed.

Lemma lex_number_chars l acc rest :
  forallb is_number_char l = true ->
  lex (InNumber acc) (l ++ rest) = lex (InNumber (rev l ++ acc)) rest.
Proof.
  revert acc. induction l as [|c l IH]; intros acc; [done|]. intros [Hc Hl]%andb_true_iff.
  cbn [app rev].
  rewrite (lex_silent _ _ _ (InNumber (c :: acc))) by (cbn [lex_step]; by rewrite Hc).
  by rewrite IH, <- app_assoc.
Qed.

(** What follows a number ends it. *)
Definition ends_number (rest : jsstring) : bool :=
  match rest with c :: _ => negb (is_number_char c) | [] => true end.

Lemma lex_number_end acc rest :
  ends_number rest = true ->
  lex (InNumber acc) rest = (t <- number_token acc ;; cons t <$> lex Idle rest).
Proof.
  destruct rest as [|c rest]; [by cbn; destruct (number_token acc)|].
  cbn [ends_number lex lex_step]. intros Hc%negb_true_iff. rewrite Hc.
  destruct (number_token acc) as [t|]; [|done]. cbn.
  destruct (idle_step c) as [[st ts]|]; [|done]. cbn. by destruct (lex st rest).
Qed.

(** The lexer reads a number literal as it is, when what follows is no
    part of a number. *)
Lemma lex_number l rest :
  is_number l = true -> ends_number rest = true ->
  lex Idle (l ++ rest) = cons (TNumber l) <$> lex Idle rest.
Proof.
  intros Hl Hrest. pose proof (is_number_chars l Hl) as Hc.
  destruct l as [|c l]; [done|]. cbn [forallb] in Hc. apply andb_true_iff in Hc as [Hc Hcs].
  cbn [app]. rewrite (lex_silent Idle c _ (InNumber [c])) by by apply idle_number_char.
  rewrite lex_number_chars, lex_number_end by done. unfold number_token.
  change N with code_unit in *. rewrite rev_app_distr, rev_involutive. cbn [rev app].
  by rewrite Hl.
Qed.

(** ** Tokens and layouts *)

Lemma ws_ends_number w rest :
  forallb is_ws w = true -> str_truthy w = true -> ends_number (w ++ rest) = true.
Proof.
  destruct w as [|c w]; [done|]. cbn [forallb app ends_number]. intros [Hc _]%andb_true_iff _.
  unfold is_ws, is_number_char, is_digit, in_range in *. lia.
Qed.

(** What follows a token is read on its own. *)
Lemma lex_token t rest :
  token_ok t = true -> (is_number_token t = true -> ends_number rest = true) ->
  lex Idle (token_text t ++ rest) = cons t <$> lex Idle rest.
Proof.
  intros Ht Hn. destruct t; cbn [token_text app];
    try (by apply lex_emit); [by apply lex_quote|by apply lex_number; [|apply Hn]|..];
    by repeat (erewrite lex_silent by done); apply lex_emit.
Qed.

(** The text of a token that is no number does not go on a number. *)
Lemma token_ends_number t rest :
  is_number_token t = false -> ends_number (token_text t ++ rest) = true.
Proof. by destruct t. Qed.

Lemma layout_text_cons t w l : layout_text ((t, w) :: l) = token_text t ++ w ++ layout_text l.
Proof. unfold layout_text. cbn [flat_map fst snd]. by rewrite <- app_assoc. Qed.

(** The lexer reads a layout as its tokens. *)
Theorem lex_layout lead l :
  forallb is_ws lead = true -> layout_ok l = true ->
  lex Idle (lead ++ layout_text l) = Some (map fst l).
Proof.
  intros Hlead. rewrite lex_ws by done. clear lead Hlead.
  induction l as [|[t w] l IH]; [done|]. cbn [layout_ok map fst].
  intros [[[Ht Hw]%andb_true_iff Hadj%negb_true_iff]%andb_true_iff Hl]%andb_true_iff.
  rewrite layout_text_cons, lex_token, lex_ws, IH; [done..|].
  intros Hnum. rewrite Hnum in Hadj. cbn [andb] in Hadj.
  destruct (str_truthy w) eqn:Ew; [by apply ws_ends_number|].
  destruct w; [|done]. cbn [app negb andb] in *. destruct l as [|[t' w'] l]; [done|].
  rewrite layout_text_cons. by apply token_ends_number.
Qed.


(** ** Tokens that can be written one after the other *)

(** No number is followed at once by a number. *)
Fixpoint separated (ts : list token) : bool :=
  match ts with
  | t :: (t' :: _) as tl => negb (is_number_token t && is_number_token t') && separated tl
  | _ => true
  end.

Lemma separated_cons t t' tl :
  separated (t :: t' :: tl) =
  negb (is_number_token t && is_number_token t') && separated (t' :: tl).
Proof. done. Qed.

Lemma separated_sep t b :
  is_number_token t = false -> separated b = true -> separated (t :: b) = true.
Proof. intros Ht Hb. destruct b as [|t' b]; [done|]. by rewrite separated_cons, Ht, Hb. Qed.

Lemma separated_app_sep a t b :
  separated a = true -> is_number_token t = false -> separated b = true ->
  separated (a ++ t :: b) = true.
Proof.
  intros Ha Ht Hb. induction a as [|x a IH]; [by apply separated_sep|].
  destruct a as [|y a]; cbn [app] in *; rewrite separated_cons in *.
  - rewrite Ht, andb_false_r. by apply separated_sep.
  - apply andb_true_iff in Ha as [-> Ha]. by apply IH.
Qed.

(** Pieces, each after a separator that is no number. *)
Lemma separated_joined {A} (f : A -> list token) sep l a :
  is_number_token sep = false -> Forall (fun x => separated (f x) = true) l ->
  separated a = true -> separated (a ++ flat_map (fun y => sep :: f y) l) = true.
Proof.
  intros Hsep Hl. revert a. induction Hl as [|y l Hy _ IH]; intros a Ha.
  - by rewrite app_nil_r.
  - cbn [flat_map app]. apply separated_app_sep; [done..|]. by apply IH.
Qed.

Lemma forallb_flat_map {A B} (p : B -> bool) (f : A -> list B) l :
  Forall (fun x => forallb p (f x) = true) l -> forallb p (flat_map f l) = true.
Proof.
  induction 1 as [|x l Hx _ IH]; [done|]. cbn [flat_map]. by rewrite forallb_app, Hx, IH.
Qed.

(** The layout without white space. *)
Definition compact (ts : list token) : layout := map (fun t => (t, [])) ts.

Lemma compact_text ts : layout_text (compact ts) = flat_map token_text ts.
Proof.
  unfold layout_text, compact. induction ts as [|t ts IH]; [done|].
  cbn [map flat_map fst snd]. by rewrite app_nil_r, IH.
Qed.

(** A layout of good tokens that are separated, with white space
    between them, is read as its tokens. *)
Lemma layout_ok_intro l :
  forallb token_ok (map fst l) = true -> separated (map fst l) = true ->
  forallb (fun tw => forallb is_ws (snd tw)) l = true -> layout_ok l = true.
Proof.
  induction l as [|[t w] l IH]; [done|]. cbn [map fst snd forallb layout_ok].
  intros [Ht Hts]%andb_true_iff Hsep [Hw Hws]%andb_true_iff. rewrite Ht, Hw. cbn [andb].
  destruct l as [|[t' w'] l]; [by rewrite !andb_false_r|].
  cbn [map fst separated] in Hsep. apply andb_true_iff in Hsep as [Hadj Hsep].
  rewrite IH by done. apply negb_true_iff in Hadj.
  destruct (is_number_token t), (is_number_token t'); try done; by rewrite ?andb_false_r.
Qed.

(** ** The tokens of a container *)

(** The tokens of the elements of a container, with commas between. *)
Definition joined {A} (f : A -> list token) (l : list A) : list token :=
  match l with
  | [] => []
  | x :: l' => f x ++ flat_map (fun y => Comma :: f y) l'
  end.

(** Tokens that are good and can be written one after the other. *)
Definition writable (ts : list token) : Prop :=
  forallb token_ok ts = true /\ separated ts = true.

Lemma writable_joined {A} (f : A -> list token) l :
  Forall (fun x => writable (f x)) l -> writable (joined f l).
Proof.
  destruct 1 as [|x l [Hx1 Hx2] Hl]; [done|]. cbn [joined]. split.
  - rewrite forallb_app, Hx1. apply forallb_flat_map.
    apply (Forall_impl _ _ _ Hl). by intros y [Hy _].
  - apply separated_joined; [done| |done]. apply (Forall_impl _ _ _ Hl). by intros y [_ Hy].
Qed.

Lemma writable_bracketed opening closing ts :
  token_ok opening = true -> is_number_token opening = false ->
  token_ok closing = true -> is_number_token closing = false ->
  writable ts -> writable (opening :: ts ++ [closing]).
Proof.
  intros Ho Hn Hc Hm [H1 H2]. split.
  - cbn [forallb]. by rewrite forallb_app, Ho, H1, (forallb_cons_true token_ok closing []).
  - apply separated_sep; [done|]. by apply separated_app_sep.
Qed.

Lemma writable_member k ts :
  code_units k = true -> writable ts -> writable (TString k :: Colon :: ts).
Proof.
  intros Hk [H1 H2]. split; [cbn [forallb token_ok]; by rewrite Hk, H1|].
  by apply (separated_app_sep [TString k] Colon).
Qed.

(** ** Texts a body carries *)

(** The text of tokens is ASCII but for the characters of strings, and
    holds no surrogate without its partner: [quote] escapes them. *)
Lemma unicode_escape_ascii c :
  c < 65536 -> forallb (fun c => c <? 128) (unicode_escape c) = true.
Proof.
  intros (H1 & H2 & H3 & H4 & _)%hex_digits. unfold unicode_escape, hex_lower. cbn [forallb].
  repeat case_match; lia.
Qed.

Lemma quote_unit_sendable c :
  c < 65536 -> is_high c = false -> is_low c = false -> sendable (quote_unit c) = true.
Proof.
  intros Hc Hh Hl. unfold quote_unit.
  repeat case_match; try done; try (by apply sendable_ascii, unicode_escape_ascii).
  unfold sendable. cbn [code_units forallb well_formed]. rewrite Hh, Hl. cbn. lia.
Qed.

Lemma quote_units_sendable s : code_units s = true -> sendable (quote_units s) = true.
Proof.
  unfold code_units.
  induction s as [|c tl Hh Hl IH|c tl Hc Htl IH|hi lo tl Hh Hl IH] using utf8_ind;
    cbn [forallb]; rewrite ?andb_true_iff.
  - done.
  - intros [Hc%N.ltb_lt Hs]. cbn [quote_units]. rewrite Hh, Hl.
    apply sendable_app; [by apply quote_unit_sendable|by apply IH].
  - intros [Hc'%N.ltb_lt Hs]. rewrite quote_units_lone by done.
    apply sendable_app; [by apply sendable_ascii, unicode_escape_ascii|by apply IH].
  - intros (Hhi & Hlo & Hs). cbn [quote_units]. rewrite Hh, Hl. specialize (IH Hs).
    unfold sendable in *. cbn [code_units forallb well_formed]. rewrite Hh, Hl, Hhi, Hlo. done.
Qed.

Lemma number_char_ascii c : is_number_char c = true -> (c <? 128) = true.
Proof. unfold is_number_char, is_digit, in_range. lia. Qed.

Lemma token_text_sendable t : token_ok t = true -> sendable (token_text t) = true.
Proof.
  destruct t; try done; cbn [token_ok token_text]; intros Ht.
  - unfold quote. apply sendable_cons; [lia|].
    apply sendable_app; [by apply quote_units_sendable|done].
  - apply sendable_ascii, (forallb_weaken is_number_char); [apply number_char_ascii|].
    by apply is_number_chars.
Qed.

Lemma ws_ascii w : forallb is_ws w = true -> forallb (fun c => c <? 128) w = true.
Proof. apply forallb_weaken. intros c. unfold is_ws. lia. Qed.

Lemma layout_text_sendable (l : layout) :
  forallb token_ok (map fst l) = true -> forallb (fun tw => forallb is_ws (snd tw)) l = true ->
  sendable (layout_text l) = true.
Proof.
  intros Hok Hws. apply sendable_flat_map. induction l as [|[t w] l IH]; [done|].
  cbn [map fst snd forallb] in *. apply andb_true_iff in Hok as [Ht Hok], Hws as [Hw Hws].
  constructor; [|by apply IH]. cbn [fst snd].
  apply sendable_app; [by apply token_text_sendable|by apply sendable_ascii, ws_ascii].
Qed.

Lemma token_text_starts t rest : token_ok t = true -> starts_ascii (token_text t ++ rest) = true.
Proof.
  destruct t; try done. cbn [token_ok token_text]. destruct literal as [|c tl]; [done|].
  intros [Hc _]%is_number_chars%andb_true_iff. by apply number_char_ascii.
Qed.

Lemma layout_starts_ascii (lead : jsstring) (l : layout) :
  forallb is_ws lead = true -> forallb token_ok (map fst l) = true ->
  starts_ascii (lead ++ layout_text l) = true.
Proof.
  intros Hlead Hok. destruct lead as [|c lead].
  - destruct l as [|[t w] l]; [done|]. cbn [app]. rewrite layout_text_cons.
    cbn [map fst forallb] in Hok. apply andb_true_iff in Hok as [Ht _].
    by apply token_text_starts.
  - apply ws_ascii in Hlead. cbn [forallb] in Hlead. by apply andb_true_iff in Hlead as [Hc _].
Qed.

(** ** Examples *)

(** Number literals of every form are one token each. *)
Example lex_numbers :
  lex Idle (lit "[0, -0, 12, -1.5, 1e9, 2.5E-3]") =
  Some [LBracket; TNumber (lit "0"); Comma; TNumber (lit "-0"); Comma; TNumber (lit "12"); Comma;
        TNumber (lit "-1.5"); Comma; TNumber (lit "1e9"); Comma; TNumber (lit "2.5E-3"); RBracket].
Proof. by vm_compute. Qed.

(** The escapes of a string, and a string that is not closed. *)
Example lex_escapes :
  lex Idle ([34] ++ lit "a\n\u0041\/" ++ [92; 34; 34]) = Some [TString [97; 10; 65; 47; 34]] /\
  lex Idle ([34] ++ lit "a") = None /\ lex Idle ([34] ++ lit "\x41" ++ [34]) = None.
Proof. by vm_compute. Qed.

(** Two numbers need something between them. *)
Example lex_needs_separation :
  flat_map token_text [TNumber (lit "1"); TNumber (lit "2")] = lit "12" /\
  lex Idle (lit "12") = Some [TNumber (lit "12")] /\
  lex Idle (layout_text [(TNumber (lit "1"), lit " "); (TNumber (lit "2"), [])]) =
  Some [TNumber (lit "1"); TNumber (lit "2")].
Proof. by vm_compute. Qed.
