(* ===== verification/Json.v ===== *)
(** * JSON values from JSON texts

    The second half of [JSON.parse]: a pushdown automaton over the
    tokens of [JsonLex], with the containers that wait for a value on
    its stack, and [json_parse], the whole of it.  The number a literal
    stands for is the platform's ([Numbers]); a key that comes twice
    keeps its place and takes the later value.

    The theorems: every text of a JSON value (its tokens as
    [JSON.stringify] writes them, with any white space around them) is
    parsed as the value; what the parser returns holds no [undefined],
    no function and no key twice; the parser recurses on the tokens and
    so ends on every text. *)

From Stdlib Require Import String.
From S2P Require Import Prelude JsString JsValue Encoding Utf8 JsonLex.

Local Open Scope N_scope.
Local Open Scope opt_scope.

(** ** Numbers *)

(** A decimal integer of at most fifteen digits, written as
    [Number::toString] writes it: no leading zero, no sign on zero. *)
Definition is_integer (l : jsstring) : bool :=
  match l with
  | [] => false
  | c :: tl =>
      if c =? 45 then
        match tl with
        | d :: ds => in_range 49 57 d && forallb is_digit ds && (length tl <=? 15)%nat
        | [] => false
        end
      else if c =? 48 then match tl with [] => true | _ => false end
      else in_range 49 57 c && forallb is_digit tl && (length l <=? 15)%nat
  end.

(** The conversion of the platform from a number literal to the
    number, given by the image of the number: the decimal text is
    rounded to a double, and the double printed by [Number::toString].
    An integer of at most fifteen digits is a double, and is printed as
    it was written. *)
Class Numbers : Type := {
  number_image : jsstring -> jsstring;
  number_image_integer l : is_integer l = true -> number_image l = l
}.

(** ** Objects *)

(** [CreateDataProperty]: the value of a key that is there is
    replaced, a new key comes last. *)
Fixpoint set_member (k : jsstring) (v : jsval) (props : list (jsstring * jsval))
    : list (jsstring * jsval) :=
  match props with
  | [] => [(k, v)]
  | (k', v') :: props' =>
      if str_eqb k' k then (k', v) :: props' else (k', v') :: set_member k v props'
  end.

(** ** The parser *)

(** A container that waits for a value: an array with the elements
    read so far, an object with its members and the key of the next. *)
Inductive frame : Type :=
| FArr (items : list jsval)
| FObj (props : list (jsstring * jsval)) (key : jsstring).

Inductive parse_state : Type :=
| PValue (stack : list frame)                    (* a value is expected *)
| PArr0 (stack : list frame)                     (* after [[]: a value or []] *)
| PArr (items : list jsval) (stack : list frame) (* after an element: [,] or []] *)
| PObj0 (stack : list frame)                     (* after [{]: a key or [}] *)
| PObj (props : list (jsstring * jsval)) (stack : list frame)   (* after a member *)
| PKey (props : list (jsstring * jsval)) (stack : list frame)   (* after [,]: a key *)
| PColon (props : list (jsstring * jsval)) (key : jsstring) (stack : list frame)
| PDone (v : jsval).                             (* the text is read *)

(** A value is complete: it is the value of the text, or goes into the
    container that waits for it. *)
Definition complete (v : jsval) (stack : list frame) : parse_state :=
  match stack with
  | [] => PDone v
  | FArr items :: stack' => PArr (items ++ [v]) stack'
  | FObj props k :: stack' => PObj (set_member k v props) stack'
  end.

Section parser.
Context {numbers : Numbers}.

Definition value_step (stack : list frame) (t : token) : option parse_state :=
  match t with
  | TNull => Some (complete JNull stack)
  | TTrue => Some (complete (JBool true) stack)
  | TFalse => Some (complete (JBool false) stack)
  | TNumber literal => Some (complete (JNum (number_image literal)) stack)
  | TString s => Some (complete (JStr s) stack)
  | LBracket => Some (PArr0 stack)
  | LBrace => Some (PObj0 stack)
  | _ => None
  end.

Definition parse_step (st : parse_state) (t : token) : option parse_state :=
  match st with
  | PValue stack => value_step stack t
  | PArr0 stack =>
      match t with
      | RBracket => Some (complete (JArr []) stack)
      | _ => value_step (FArr [] :: stack) t
      end
  | PArr items stack =>
      match t with
      | Comma => Some (PValue (FArr items :: stack))
      | RBracket => Some (complete (JArr items) stack)
      | _ => None
      end
  | PObj0 stack =>
      match t with
      | RBrace => Some (complete (JObj []) stack)
      | TString k => Some (PColon [] k stack)
      | _ => None
      end
  | PObj props stack =>
      match t with
      | Comma => Some (PKey props stack)
      | RBrace => Some (complete (JObj props) stack)
      | _ => None
      end
  | PKey props stack =>
      match t with
      | TString k => Some (PColon props k stack)
      | _ => None
      end
  | PColon props k stack =>
      match t with
      | Colon => Some (PValue (FObj props k :: stack))
      | _ => None
      end
  | PDone _ => None
  end.

Fixpoint parse (st : parse_state) (ts : list token) : option jsval :=
  match ts with
  | [] => match st with PDone v => Some v | _ => None end
  | t :: ts' => st' <- parse_step st t ;; parse st' ts'
  end.

(** [JSON.parse(text)]; [None] is the [SyntaxError]. *)
Definition json_parse (text : jsstring) : option jsval :=
  ts <- lex Idle text ;; parse (PValue []) ts.

(** ** JSON values and their tokens *)

(** The values that have a JSON text: no [undefined] and no function,
    strings of code units, numbers by an image that is a literal and
    stands for itself, objects without a key twice. *)
Fixpoint is_json (v : jsval) : bool :=
  match v with
  | JUndefined | JBuiltin _ _ => false
  | JNull | JBool _ => true
  | JNum image => is_number image && str_eqb (number_image image) image
  | JStr s => code_units s
  | JArr items => forallb is_json items
  | JObj props =>
      forallb (fun kv => code_units (fst kv) && is_json (snd kv)) props &&
      bool_decide (NoDup (map fst props))
  end.

End parser.

Fixpoint tokens_of (v : jsval) : list token :=
  match v with
  | JUndefined | JBuiltin _ _ | JNull => [TNull]
  | JBool true => [TTrue]
  | JBool false => [TFalse]
  | JNum image => [TNumber image]
  | JStr s => [TString s]
  | JArr items => LBracket :: joined tokens_of items ++ [RBracket]
  | JObj props =>
      LBrace :: joined (fun kv => TString (fst kv) :: Colon :: tokens_of (snd kv)) props ++
      [RBrace]
  end.

(** The text of a value without white space. *)
Definition json_print (v : jsval) : jsstring := flat_map token_text (tokens_of v).

(** The texts of a value: its tokens, with white space before the
    first and after any of them. *)
Definition json_text (v : jsval) (text : jsstring) : Prop :=
  exists (lead : jsstring) (l : layout),
    text = lead ++ layout_text l /\ map fst l = tokens_of v /\
    forallb is_ws lead = true /\ forallb (fun tw => forallb is_ws (snd tw)) l = true.

(** A conversion of numbers for the examples. It is the platform's on
    the integers of the law; another literal it keeps as written, which
    the platform does not ([1.0] is the number [1]): the examples have
    integers only, the theorems hold for every conversion. *)
Definition as_written : Numbers :=
  {| number_image l := l; number_image_integer _ _ := eq_refl |}.

(** ** The shape of values and states *)

(** No [undefined], no function, no key twice in an object. *)
Fixpoint parsed (v : jsval) : bool :=
  match v with
  | JUndefined | JBuiltin _ _ => false
  | JNull | JBool _ | JNum _ | JStr _ => true
  | JArr items => forallb parsed items
  | JObj props =>
      forallb (fun kv => parsed (snd kv)) props && bool_decide (NoDup (map fst props))
  end.

Definition props_ok (props : list (jsstring * jsval)) : bool := parsed (JObj props).

Definition frame_ok (f : frame) : bool :=
  match f with
  | FArr items => forallb parsed items
  | FObj props _ => props_ok props
  end.

Definition state_ok (st : parse_state) : bool :=
  match st with
  | PValue stack | PArr0 stack | PObj0 stack => forallb frame_ok stack
  | PArr items stack => forallb parsed items && forallb frame_ok stack
  | PObj props stack | PKey props stack | PColon props _ stack =>
      props_ok props && forallb frame_ok stack
  | PDone v => parsed v
  end.

(** The first token of a value starts a value. *)
Definition starts_value (t : token) : bool :=
  match t with
  | RBrace | RBracket | Colon | Comma => false
  | _ => true
  end.

(** ** Lemmas *)

Lemma Forall_forallb_mp {A} (p : A -> bool) (P : A -> Prop) l :
  Forall (fun x => p x = true -> P x) l -> forallb p l = true -> Forall P l.
Proof.
  induction 1 as [|x l Hx _ IH]; [done|]. cbn [forallb]. intros [Hp Hl]%andb_true_iff.
  constructor; [by apply Hx|by apply IH].
Qed.

Lemma set_member_new k v props :
  ~ elem_of k (map fst props) -> set_member k v props = props ++ [(k, v)].
Proof.
  induction props as [|[k' v'] props IH]; [done|]. cbn [map fst set_member app].
  intros [Hk Hin]%not_elem_of_cons. unfold str_eqb. rewrite bool_decide_eq_false_2 by done.
  by rewrite IH.
Qed.

Section parser_facts.
Context {numbers : Numbers}.

Lemma parse_cons st t ts st' :
  parse_step st t = Some st' -> parse st (t :: ts) = parse st' ts.
Proof. intros H. cbn [parse]. by rewrite H. Qed.

Lemma tokens_of_start v : exists t ts, tokens_of v = t :: ts /\ starts_value t = true.
Proof. destruct v as [| |[]| | | | |]; cbn [tokens_of]; by eexists _, _. Qed.

(** After [[] a value is read as anywhere else. *)
Lemma parse_first_element stack v rest :
  parse (PArr0 stack) (tokens_of v ++ rest) =
  parse (PValue (FArr [] :: stack)) (tokens_of v ++ rest).
Proof.
  destruct (tokens_of_start v) as (t & ts & -> & Ht). cbn [app parse parse_step].
  by destruct t.
Qed.

(** The elements that follow the first. *)
Lemma parse_elements l done stack rest :
  Forall (fun v => forall stack rest,
            parse (PValue stack) (tokens_of v ++ rest) = parse (complete v stack) rest) l ->
  parse (PArr done stack) (flat_map (fun y => Comma :: tokens_of y) l ++ RBracket :: rest) =
  parse (complete (JArr (done ++ l)) stack) rest.
Proof.
  intros Hl. revert done. induction Hl as [|v l Hv _ IH]; intros done.
  - by rewrite app_nil_r.
  - cbn [flat_map app]. rewrite (parse_cons _ Comma _ (PValue (FArr done :: stack))) by done.
    rewrite <- app_assoc, Hv. cbn [complete]. rewrite IH. by rewrite <- app_assoc.
Qed.

(** The members that follow the first. *)
Lemma parse_members l props stack rest :
  Forall (fun kv => forall stack rest,
            parse (PValue stack) (tokens_of (snd kv) ++ rest) =
            parse (complete (snd kv) stack) rest) l ->
  NoDup (map fst (props ++ l)) ->
  parse (PObj props stack)
    (flat_map (fun kv => Comma :: TString (fst kv) :: Colon :: tokens_of (snd kv)) l ++
     RBrace :: rest) =
  parse (complete (JObj (props ++ l)) stack) rest.
Proof.
  intros Hl. revert props. induction Hl as [|[k v] l Hv _ IH]; intros props Hnd.
  - by rewrite app_nil_r.
  - cbn [flat_map app fst snd] in *.
    rewrite (parse_cons _ Comma _ (PKey props stack)) by done.
    rewrite (parse_cons _ (TString k) _ (PColon props k stack)) by done.
    rewrite (parse_cons _ Colon _ (PValue (FObj props k :: stack))) by done.
    rewrite <- app_assoc, Hv. cbn [complete].
    rewrite map_app in Hnd. cbn [map fst] in Hnd. apply NoDup_app in Hnd as (Hp & Hd & Hl').
    rewrite set_member_new by (intros Hin; apply (Hd _ Hin); by left).
    rewrite IH, <- app_assoc; [done|]. rewrite map_app, map_app. cbn [map fst].
    rewrite <- app_assoc. cbn [app]. apply NoDup_app. split_and!; [done| |done].
    intros x Hx. by apply Hd.
Qed.

Lemma is_json_number image :
  is_json (JNum image) = true -> number_image image = image.
Proof. cbn [is_json]. intros [_ H]%andb_true_iff. by apply bool_decide_eq_true in H. Qed.

(** The parser reads the tokens of a value as the value. *)
Lemma parse_tokens v :
  is_json v = true ->
  forall stack rest, parse (PValue stack) (tokens_of v ++ rest) = parse (complete v stack) rest.
Proof.
  induction v as [| |[]|image|s|items IH|props IH|] using jsval_ind;
    intros Hv stack rest; try done.
  - cbn [tokens_of app]. apply parse_cons. cbn [parse_step value_step].
    by rewrite (is_json_number image Hv).
  - cbn [is_json] in Hv. cbn [tokens_of app].
    rewrite (parse_cons _ LBracket _ (PArr0 stack)) by done.
    destruct items as [|x l]; [by apply parse_cons|]. cbn [joined].
    cbn [forallb] in Hv. apply andb_true_iff in Hv as [Hx Hl].
    apply Forall_cons in IH as [IHx IHl]. rewrite <- !app_assoc, parse_first_element, IHx by done.
    cbn [complete app]. apply (parse_elements l [x]). by apply (Forall_forallb_mp is_json).
  - cbn [is_json] in Hv. apply andb_true_iff in Hv as [Hv Hnd%bool_decide_eq_true].
    cbn [tokens_of app]. rewrite (parse_cons _ LBrace _ (PObj0 stack)) by done.
    destruct props as [|[k x] l]; [by apply parse_cons|]. cbn [joined].
    cbn [forallb fst snd] in Hv. apply andb_true_iff in Hv as [[_ Hx]%andb_true_iff Hl].
    apply Forall_cons in IH as [IHx IHl]. cbn [fst snd app] in *.
    rewrite (parse_cons _ (TString k) _ (PColon [] k stack)) by done.
    rewrite (parse_cons _ Colon _ (PValue (FObj [] k :: stack))) by done.
    rewrite <- !app_assoc, IHx by done. cbn [complete set_member app].
    apply (parse_members l [(k, x)]); [|done].
    apply (Forall_forallb_mp (fun kv => code_units (fst kv) && is_json (snd kv))); [|done].
    apply (Forall_impl _ _ _ IHl). intros kv Hkv [_ ?]%andb_true_iff. by apply Hkv.
Qed.

End parser_facts.

(** ** The tokens of a value *)

Section tokens.
Context {numbers : Numbers}.

Lemma tokens_of_writable v : is_json v = true -> writable (tokens_of v).
Proof.
  induction v as [| |[]|image|s|items IH|props IH|] using jsval_ind; intros Hv; try done.
  - cbn [is_json] in Hv. apply andb_true_iff in Hv as [Hn _]. split; [|done]. cbn. by rewrite Hn.
  - split; [|done]. cbn in *. by rewrite Hv.
  - cbn [is_json tokens_of] in *. apply writable_bracketed; [done..|].
    apply writable_joined. by apply (Forall_forallb_mp is_json).
  - cbn [is_json tokens_of] in *. apply andb_true_iff in Hv as [Hv _].
    apply writable_bracketed; [done..|]. apply writable_joined.
    apply (Forall_forallb_mp (fun kv => code_units (fst kv) && is_json (snd kv))); [|done].
    apply (Forall_impl _ _ _ IH). intros [k v] Hkv [Hk ?]%andb_true_iff.
    apply writable_member; [done|by apply Hkv].
Qed.

End tokens.

(** ** The shape of what the parser returns *)

Lemma set_member_keys k v props :
  map fst (set_member k v props) =
  if bool_decide (elem_of k (map fst props)) then map fst props else map fst props ++ [k].
Proof.
  induction props as [|[k' v'] props IH]; [done|]. cbn [set_member map fst].
  unfold str_eqb. destruct (decide (k' = k)) as [->|Hk].
  - rewrite bool_decide_eq_true_2 by done. rewrite bool_decide_eq_true_2 by by left. done.
  - rewrite bool_decide_eq_false_2 by done. cbn [map fst]. rewrite IH.
    destruct (decide (elem_of k (map fst props))) as [Hin|Hin].
    + rewrite !bool_decide_eq_true_2; [done|by right|done].
    + rewrite !bool_decide_eq_false_2; [done| |done]. by intros [?|?]%elem_of_cons.
Qed.

Lemma set_member_values k v props :
  parsed v = true -> forallb (fun kv => parsed (snd kv)) props = true ->
  forallb (fun kv => parsed (snd kv)) (set_member k v props) = true.
Proof.
  intros Hv. induction props as [|[k' v'] props IH]; [by cbn; rewrite Hv|].
  cbn [set_member forallb snd]. intros [Hv' Hp]%andb_true_iff.
  destruct (str_eqb k' k); cbn [forallb snd]; [by rewrite Hv, Hp|by rewrite Hv', IH].
Qed.

Lemma set_member_ok k v props :
  parsed v = true -> props_ok props = true -> props_ok (set_member k v props) = true.
Proof.
  unfold props_ok. cbn [parsed]. intros Hv [Hp Hnd%bool_decide_eq_true]%andb_true_iff.
  rewrite set_member_values by done. apply bool_decide_eq_true. rewrite set_member_keys.
  case_bool_decide as Hin; [done|]. apply NoDup_app. split_and!; [done| |apply NoDup_singleton].
  by intros x Hx ->%list_elem_of_singleton.
Qed.

Lemma complete_ok v stack :
  parsed v = true -> forallb frame_ok stack = true -> state_ok (complete v stack) = true.
Proof.
  intros Hv. destruct stack as [|[items|props k] stack]; [done|..];
    cbn [forallb frame_ok complete state_ok];
    intros [Hf Hs]%andb_true_iff; rewrite Hs, andb_true_r.
  - by rewrite forallb_app, Hf; cbn; rewrite Hv.
  - by apply set_member_ok.
Qed.

Section parsed_facts.
Context {numbers : Numbers}.

Lemma value_step_ok stack t st' :
  forallb frame_ok stack = true -> value_step stack t = Some st' -> state_ok st' = true.
Proof. intros Hs. destruct t; intros [= <-]; try done; by apply complete_ok. Qed.

Lemma parse_step_ok st t st' :
  state_ok st = true -> parse_step st t = Some st' -> state_ok st' = true.
Proof.
  destruct st as [stack|stack|items stack|stack|props stack|props stack|props k stack|v];
    cbn [state_ok parse_step]; intros Hst.
  - by apply value_step_ok.
  - destruct t; try (by apply (value_step_ok (FArr [] :: stack))).
    intros [= <-]. by apply complete_ok.
  - apply andb_true_iff in Hst as [Hi Hs]. destruct t; intros [= <-]; [|by cbn; rewrite Hi, Hs].
    by apply complete_ok.
  - destruct t; intros [= <-]; [by apply complete_ok|by cbn].
  - apply andb_true_iff in Hst as [Hp Hs].
    destruct t; intros [= <-]; [|by cbn [state_ok]; rewrite Hp, Hs]. by apply complete_ok.
  - destruct t; intros [= <-]. exact Hst.
  - apply andb_true_iff in Hst as [Hp Hs]. destruct t; intros [= <-].
    cbn [state_ok forallb frame_ok].
    by rewrite Hp, Hs.
  - done.
Qed.

Lemma parse_ok st ts v : state_ok st = true -> parse st ts = Some v -> parsed v = true.
Proof.
  revert st. induction ts as [|t ts IH]; intros st Hst; cbn [parse].
  - destruct st; try done. by intros [= <-].
  - destruct (parse_step st t) as [st'|] eqn:E; [|done]. cbn.
    by apply IH, (parse_step_ok st t).
Qed.

End parsed_facts.

(** ** Integers *)

Lemma drop_while_all {A} (p : A -> bool) l : forallb p l = true -> drop_while p l = [].
Proof.
  induction l as [|x l IH]; [done|]. cbn [forallb drop_while].
  intros [-> ?]%andb_true_iff. by apply IH.
Qed.

Lemma positive_is_unsigned c tl :
  in_range 49 57 c = true -> forallb is_digit tl = true -> is_unsigned (c :: tl) = true.
Proof.
  intros Hc Htl. cbn [is_unsigned]. rewrite Hc, drop_while_all by done.
  unfold in_range in Hc. by destruct (N.eqb_spec c 48) as [->|].
Qed.

(** An integer is a number literal. *)
Lemma is_integer_number l : is_integer l = true -> is_number l = true.
Proof.
  destruct l as [|c tl]; [done|]. cbn [is_integer is_number].
  destruct (N.eqb_spec c 45) as [->|_].
  - destruct tl as [|d ds]; [done|]. intros [[Hd Hds]%andb_true_iff _]%andb_true_iff.
    by apply positive_is_unsigned.
  - destruct (N.eqb_spec c 48) as [->|_]; [by destruct tl|].
    intros [[Hd Hds]%andb_true_iff _]%andb_true_iff. by apply positive_is_unsigned.
Qed.

Section results.
Context {numbers : Numbers}.

(** An integer is a JSON value. *)
Lemma integer_is_json l : is_integer l = true -> is_json (JNum l) = true.
Proof.
  intros Hl. cbn [is_json]. rewrite is_integer_number, number_image_integer by done.
  by apply bool_decide_eq_true.
Qed.

(** ** The round trip *)

(** A text that is the tokens of a JSON value, with white space
    before the first token and after any of them, is parsed as the
    value. *)
Lemma json_parse_layout v (lead : jsstring) (l : layout) :
  is_json v = true -> map fst l = tokens_of v ->
  forallb is_ws lead = true -> forallb (fun tw => forallb is_ws (snd tw)) l = true ->
  json_parse (lead ++ layout_text l) = Some v.
Proof.
  intros Hv Hl Hlead Hws. destruct (tokens_of_writable v Hv) as [Hok Hsep].
  unfold json_parse. rewrite <- Hl in Hok, Hsep.
  rewrite lex_layout by (try apply layout_ok_intro; done).
  cbn [mbind option_bind]. rewrite Hl, <- (app_nil_r (tokens_of v)). by rewrite parse_tokens.
Qed.

(** The text of a value without white space is a text of the value. *)
Lemma json_print_text v : json_text v (json_print v).
Proof.
  exists [], (compact (tokens_of v)). unfold json_print, compact.
  rewrite <- compact_text, map_map, map_id. split_and!; try done.
  by induction (tokens_of v).
Qed.

(** Every text of a JSON value is parsed as the value. *)
Theorem json_parse_text v text :
  is_json v = true -> json_text v text -> json_parse text = Some v.
Proof. intros Hv (lead & l & -> & Hl & Hlead & Hws). by apply json_parse_layout. Qed.

(** The text of a JSON value without white space is parsed as the
    value. *)
Theorem json_parse_print v : is_json v = true -> json_parse (json_print v) = Some v.
Proof. intros Hv. apply json_parse_text; [done|apply json_print_text]. Qed.

(** What the parser returns has no [undefined], no function
    and no key twice in an object. *)
Theorem json_parse_parsed text v : json_parse text = Some v -> parsed v = true.
Proof.
  unfold json_parse. destruct (lex Idle text) as [ts|]; [|done]. cbn. by apply parse_ok.
Qed.

(** The empty text is no JSON text. *)
Lemma json_parse_empty : json_parse [] = None.
Proof. reflexivity. Qed.

(** A text whose first character starts no token, as the [<]
    of an HTML error page, is no JSON text. *)
Lemma json_parse_no_token c tl : idle_step c = None -> json_parse (c :: tl) = None.
Proof. intros H. unfold json_parse. cbn [lex lex_step]. by rewrite H. Qed.

(** A text of a JSON value goes through UTF-8 as it is. *)
Lemma json_text_sendable v text :
  is_json v = true -> json_text v text -> sendable text = true /\ starts_ascii text = true.
Proof.
  intros [Hok _]%tokens_of_writable (lead & l & -> & Hl & Hlead & Hws).
  rewrite <- Hl in Hok. split; [|by apply layout_starts_ascii].
  apply sendable_app; [by apply sendable_ascii, ws_ascii|by apply layout_text_sendable].
Qed.

End results.

(** ** Witnesses and examples *)

Section json_witnesses.
#[local] Existing Instance as_written.

(** An answer with one result, as a value. *)
Definition one_result : jsval :=
  JObj [(lit "kind", JStr (lit "customsearch#search"));
        (lit "items", JArr [JObj [(lit "title", JStr (lit "Effective Java"));
                                  (lit "link", JStr (lit "https://a/b.pdf"))]]);
        (lit "total", JNum (lit "1"))].

Lemma json_parse_text_witness :
  json_parse (json_print one_result) = Some one_result.
Proof. apply json_parse_text; [reflexivity|apply json_print_text]. Defined.

Lemma json_parse_print_witness :
  json_parse (json_print (JArr [JNull; JBool true])) = Some (JArr [JNull; JBool true]).
Proof. apply json_parse_print. reflexivity. Defined.

Lemma json_parse_parsed_witness : parsed (JArr [JNum (lit "7")]) = true.
Proof. apply (json_parse_parsed (lit "[7]")). reflexivity. Defined.

Lemma json_parse_no_token_witness : json_parse (lit "<html>") = None.
Proof. apply json_parse_no_token. reflexivity. Defined.

(** The text of a value, and the same value from a text with white
    space and another spelling of a character. *)
Example json_print_example :
  json_print (JObj [(lit "a", JArr [JNum (lit "1"); JStr (lit "b")])]) =
  [123] ++ quote (lit "a") ++ lit ":[1," ++ quote (lit "b") ++ lit "]}" /\
  json_parse (lit " { " ++ quote (lit "a") ++ lit " : [ 1 ," ++ [34] ++ lit "b" ++ [34] ++
              lit " ] } ") =
  Some (JObj [(lit "a", JArr [JNum (lit "1"); JStr (lit "b")])]).
Proof. by vm_compute. Qed.

(** A key that comes twice keeps its place and takes the later
    value. *)
Example json_parse_key_twice :
  json_parse ([123] ++ quote (lit "a") ++ lit ":1," ++ quote (lit "b") ++ lit ":2," ++
              quote (lit "a") ++ lit ":3}") =
  Some (JObj [(lit "a", JNum (lit "3")); (lit "b", JNum (lit "2"))]).
Proof. by vm_compute. Qed.

(** A surrogate pair is kept, a surrogate alone is written as an
    escape and read back. *)
Example json_lone_surrogate :
  json_print (JStr [55357; 56832; 55357]) = [34; 55357; 56832] ++ lit "\ud83d" ++ [34] /\
  json_parse (json_print (JStr [55357; 56832; 55357])) = Some (JStr [55357; 56832; 55357]).
Proof. by vm_compute. Qed.

(** What is no JSON text: a comma before the closing bracket, a
    number with a leading zero, a string in single quotes, a control
    character in a string, a value after the value, a bracket left
    open, a word that is cut short. *)
Example json_parse_refuses :
  json_parse (lit "[1,]") = None /\ json_parse (lit "01") = None /\
  json_parse (lit "'a'") = None /\ json_parse [34; 9; 34] = None /\
  json_parse (lit "1 2") = None /\ json_parse (lit "[[1]") = None /\
  json_parse (lit "nul") = None /\ json_parse (lit "{,}") = None /\
  json_parse (lit "-") = None /\ json_parse (lit "1.") = None /\
  json_parse (lit "1e") = None /\ json_parse (lit "+1") = None.
Proof. by vm_compute. Qed.

End json_witnesses.
