(* ===== verification/JsonGrammar.v ===== *)
(** * The grammar of JSON

    What [JSON.parse] promises, said without the machines of [JsonLex]
    and [Json]: [lexes] derives the tokens of a text, with every way
    to write a string ([chars]), and [reads] derives the value of a
    sequence of tokens; [denotes] is the two in a row.  The lexer and
    the parser implement the grammar: each reads exactly what the
    grammar derives, so that [json_parse] returns [v] for the texts
    that denote [v] and throws for every other text. *)

From Stdlib Require Import String.
From S2P Require Import Prelude JsString JsValue Encoding Utf8 JsonLex Json.

Local Open Scope N_scope.
Local Open Scope opt_scope.

(** ** Tokens from text *)

(** A character that stands for itself in a string. *)
Definition is_plain (c : N) : bool := (32 <=? c) && negb (c =? 34) && negb (c =? 92).

(** The character an escape of two characters stands for. *)
Definition escaped (e : N) : option N :=
  if e =? 34 then Some 34
  else if e =? 92 then Some 92
  else if e =? 47 then Some 47
  else if e =? 98 then Some 8
  else if e =? 102 then Some 12
  else if e =? 110 then Some 10
  else if e =? 114 then Some 13
  else if e =? 116 then Some 9
  else None.

(** The code unit of four hexadecimal digits. *)
Definition hex4 (a b c d : N) : N :=
  16 * (16 * (16 * (16 * 0 + unhex a) + unhex b) + unhex c) + unhex d.

(** [chars text s]: between its quotes, [text] spells the string
    [s]. *)
Inductive chars : jsstring -> jsstring -> Prop :=
| chars_nil : chars [] []
| chars_plain c text s : is_plain c = true -> chars text s -> chars (c :: text) (c :: s)
| chars_escape e c text s :
    escaped e = Some c -> chars text s -> chars (92 :: e :: text) (c :: s)
| chars_unicode a b c d text s :
    forallb is_hex [a; b; c; d] = true -> chars text s ->
    chars (92 :: 117 :: a :: b :: c :: d :: text) (hex4 a b c d :: s).

(** The tokens written in one way. *)
Definition is_fixed (t : token) : bool :=
  match t with TString _ | TNumber _ => false | _ => true end.

(** [spelling t text]: [text] is a way to write the token [t]. *)
Inductive spelling : token -> jsstring -> Prop :=
| spelling_fixed t : is_fixed t = true -> spelling t (token_text t)
| spelling_string text s : chars text s -> spelling (TString s) (34 :: text ++ [34])
| spelling_number l : is_number l = true -> spelling (TNumber l) l.

(** [lexes text ts]: [text] is the tokens [ts], with white space
    before, between and after them at will; what follows a number is
    no character of a number. *)
Inductive lexes : jsstring -> list token -> Prop :=
| lexes_nil : lexes [] []
| lexes_ws c text ts : is_ws c = true -> lexes text ts -> lexes (c :: text) ts
| lexes_token t text rest ts :
    spelling t text -> (is_number_token t = true -> ends_number rest = true) ->
    lexes rest ts -> lexes (text ++ rest) (t :: ts).

(** *** The lexer reads what the grammar derives *)

Lemma lex_escaped e c acc rest :
  escaped e = Some c -> lex (InString acc) (92 :: e :: rest) = lex (InString (c :: acc)) rest.
Proof.
  intros He. rewrite (lex_silent (InString acc) 92 _ (InEscape acc)) by done.
  apply lex_silent. cbn [lex_step]. unfold escaped in He. unfold escape_step.
  repeat case_match; try done; by injection He as <-.
Qed.

Lemma lex_hex acc n v d tl :
  is_hex d = true ->
  lex (InHex acc n v) (d :: tl) =
  lex (if (n =? 3)%nat then InString (16 * v + unhex d :: acc)
       else InHex acc (S n) (16 * v + unhex d)) tl.
Proof. intros Hd. apply lex_silent. cbn [lex_step]. by rewrite Hd. Qed.

Lemma lex_hex4 a b c d acc rest :
  forallb is_hex [a; b; c; d] = true ->
  lex (InString acc) (92 :: 117 :: a :: b :: c :: d :: rest) =
  lex (InString (hex4 a b c d :: acc)) rest.
Proof.
  cbn [forallb]. rewrite !andb_true_iff. intros (Ha & Hb & Hc & Hd & _).
  rewrite (lex_silent (InString acc) 92 _ (InEscape acc)) by done.
  rewrite (lex_silent (InEscape acc) 117 _ (InHex acc 0 0)) by done.
  by repeat (rewrite lex_hex by done; cbn [Nat.eqb]).
Qed.

Lemma lex_chars text s :
  chars text s -> forall acc rest,
  lex (InString acc) (text ++ 34 :: rest) = cons (TString (rev acc ++ s)) <$> lex Idle rest.
Proof.
  induction 1 as [|c text s Hc _ IH|e c text s He _ IH|a b c d text s Hh _ IH]; intros acc rest.
  - rewrite app_nil_r. by apply lex_emit.
  - cbn [app]. rewrite lex_literal, IH by done. cbn [rev]. by rewrite <- app_assoc.
  - cbn [app]. rewrite (lex_escaped e c), IH by done. cbn [rev]. by rewrite <- app_assoc.
  - cbn [app]. rewrite lex_hex4, IH by done. cbn [rev]. by rewrite <- app_assoc.
Qed.

Lemma lex_spelling t text rest :
  spelling t text -> (is_number_token t = true -> ends_number rest = true) ->
  lex Idle (text ++ rest) = cons t <$> lex Idle rest.
Proof.
  intros [t' Ht|body s Hs|l Hl] Hn.
  - apply (lex_token t'); [by destruct t'|done].
  - cbn [app]. rewrite (lex_silent Idle 34 _ (InString [])), <- app_assoc by done.
    cbn [app]. by rewrite (lex_chars body s).
  - by apply (lex_token (TNumber l)).
Qed.

Lemma lexes_sound text ts : lexes text ts -> lex Idle text = Some ts.
Proof.
  induction 1 as [|c text ts Hc _ IH|t text rest ts Ht Hn _ IH]; [done|by rewrite lex_ws_cons|].
  by rewrite (lex_spelling t text rest), IH.
Qed.

(** *** The grammar derives what the lexer reads *)

(** A tail of the text is shorter than the text. *)
Local Ltac shorter := cbn in *; rewrite ?length_app; cbn; change code_unit with N in *; lia.

Lemma lex_cons_inv st c tl ts :
  lex st (c :: tl) = Some ts ->
  exists st' out ts', lex_step st c = Some (st', out) /\ lex st' tl = Some ts' /\ ts = out ++ ts'.
Proof.
  cbn [lex]. destruct (lex_step st c) as [[st' out]|]; [|done]. cbn.
  intros (ts' & H & ->)%fmap_Some. by exists st', out, ts'.
Qed.

Lemma escape_step_inv acc e st :
  escape_step acc e = Some st ->
  (exists c, escaped e = Some c /\ st = InString (c :: acc)) \/ (e = 117 /\ st = InHex acc 0 0).
Proof.
  unfold escape_step, escaped. repeat case_match; intros [= <-]; try (left; by eexists).
  right. split; [lia|done].
Qed.

Lemma lex_hex_inv acc n v text ts :
  lex (InHex acc n v) text = Some ts ->
  exists d tl, text = d :: tl /\ is_hex d = true /\
    lex (if (n =? 3)%nat then InString (16 * v + unhex d :: acc)
         else InHex acc (S n) (16 * v + unhex d)) tl = Some ts.
Proof.
  destruct text as [|d tl]; [done|]. intros (st' & out & ts' & Hst & H & ->)%lex_cons_inv.
  cbn [lex_step] in Hst. destruct (is_hex d) eqn:Hd; [|done]. injection Hst as <- <-.
  by exists d, tl.
Qed.

Lemma lex_hex4_inv acc text ts :
  lex (InHex acc 0 0) text = Some ts ->
  exists a b c d tl, text = a :: b :: c :: d :: tl /\ forallb is_hex [a; b; c; d] = true /\
    lex (InString (hex4 a b c d :: acc)) tl = Some ts.
Proof.
  intros (a & t1 & -> & Ha & H)%lex_hex_inv. cbn [Nat.eqb] in H.
  apply lex_hex_inv in H as (b & t2 & -> & Hb & H). cbn [Nat.eqb] in H.
  apply lex_hex_inv in H as (c & t3 & -> & Hc & H). cbn [Nat.eqb] in H.
  apply lex_hex_inv in H as (d & t4 & -> & Hd & H). cbn [Nat.eqb] in H.
  exists a, b, c, d, t4. cbn [forallb]. by rewrite Ha, Hb, Hc, Hd.
Qed.

(** What a string that was read is made of. *)
Definition string_inv (text : jsstring) : Prop :=
  forall acc ts, lex (InString acc) text = Some ts ->
  exists body s rest ts',
    text = body ++ 34 :: rest /\ chars body s /\
    ts = TString (rev acc ++ s) :: ts' /\ lex Idle rest = Some ts'.

Lemma escape_inv text :
  (forall text', (length text' < S (length text))%nat -> string_inv text') ->
  forall acc ts, lex (InEscape acc) text = Some ts ->
  exists body s rest ts',
    92 :: text = body ++ 34 :: rest /\ chars body s /\
    ts = TString (rev acc ++ s) :: ts' /\ lex Idle rest = Some ts'.
Proof.
  intros IH acc ts H. destruct text as [|e tl]; [done|].
  apply lex_cons_inv in H as (st' & out & ts' & Hst & H & ->). cbn [lex_step] in Hst.
  destruct (escape_step acc e) as [st|] eqn:He; [|done]. injection Hst as <- <-.
  apply escape_step_inv in He as [(c & He & ->)| [-> ->]].
  - apply IH in H as (body & s & rest & ts & -> & Hs & -> & H); [|shorter].
    exists (92 :: e :: body), (c :: s), rest, ts. cbn [rev] in *.
    rewrite <- app_assoc. by split_and!; [|constructor|..].
  - apply lex_hex4_inv in H as (a & b & c & d & tl' & -> & Hh & H).
    apply IH in H as (body & s & rest & ts & -> & Hs & -> & H); [|shorter].
    exists (92 :: 117 :: a :: b :: c :: d :: body), (hex4 a b c d :: s), rest, ts. cbn [rev] in *.
    rewrite <- app_assoc. by split_and!; [|constructor|..].
Qed.

Lemma string_inv_all text : string_inv text.
Proof.
  induction text as [text IH] using list_length_ind. intros acc ts H.
  destruct text as [|c tl]; [done|].
  pose proof H as (st' & out & ts' & Hst & H' & ->)%lex_cons_inv. cbn [lex_step] in Hst.
  destruct (N.eqb_spec c 34) as [->|Hq].
  { injection Hst as <- <-. exists [], [], tl, ts'. rewrite app_nil_r.
    by split_and!; [|constructor|..]. }
  destruct (N.eqb_spec c 92) as [->|Hb].
  { injection Hst as <- <-. apply (escape_inv tl); [|done]. intros text' Hl. apply IH. shorter. }
  destruct (N.ltb_spec c 32) as [|Hc]; [done|]. injection Hst as <- <-.
  apply IH in H' as (body & s & rest & ts & -> & Hs & -> & H'); [|shorter].
  exists (c :: body), (c :: s), rest, ts. cbn [rev] in *. rewrite <- app_assoc.
  split_and!; [done|constructor; [unfold is_plain; lia|done]|done..].
Qed.

(** What a number that was read is made of. *)
Lemma number_inv text :
  forall acc ts, lex (InNumber acc) text = Some ts ->
  exists digits rest ts',
    text = digits ++ rest /\ ends_number rest = true /\ is_number (rev acc ++ digits) = true /\
    ts = TNumber (rev acc ++ digits) :: ts' /\ lex Idle rest = Some ts'.
Proof.
  induction text as [|c tl IH]; intros acc ts H.
  - cbn [lex lex_end] in H. unfold number_token in H. destruct (is_number (rev acc)) eqn:E; [|done].
    cbn [mbind option_bind] in H. injection H as <-. exists [], [], [].
    by split_and!; rewrite ?app_nil_r.
  - destruct (is_number_char c) eqn:Hc.
    + rewrite (lex_silent _ _ _ (InNumber (c :: acc))) in H by (cbn [lex_step]; by rewrite Hc).
      apply IH in H as (digits & rest & ts' & -> & Hr & Hn & -> & H). cbn [rev] in *.
      rewrite <- app_assoc in *. exists (c :: digits), rest, ts'. by split_and!.
    + rewrite lex_number_end in H by (cbn; by rewrite Hc). unfold number_token in H.
      destruct (is_number (rev acc)) eqn:E; [|done]. cbn [mbind option_bind] in H.
      apply fmap_Some in H as (ts' & H & ->). exists [], (c :: tl), ts'.
      split_and!; rewrite ?app_nil_r; try done. cbn. by rewrite Hc.
Qed.

(** What a word that was read is made of. *)
Lemma word_inv w :
  forall c text t ts, lex (InWord (c :: w) t) text = Some ts ->
  exists rest ts', text = c :: w ++ rest /\ ts = t :: ts' /\ lex Idle rest = Some ts'.
Proof.
  induction w as [|d w IH]; intros c text t ts H; (destruct text as [|x tl]; [done|]);
    apply lex_cons_inv in H as (st' & out & ts' & Hst & H & ->); cbn [lex_step] in Hst;
    (destruct (N.eqb_spec x c) as [->|]; [|done]); injection Hst as <- <-.
  - by exists tl, ts'.
  - apply IH in H as (rest & ts & -> & -> & H). by exists rest, ts.
Qed.

(** How a token starts. *)
Inductive start : N -> lex_state -> list token -> Prop :=
| start_ws c : is_ws c = true -> start c Idle []
| start_string : start 34 (InString []) []
| start_fixed t c : is_fixed t = true -> token_text t = [c] -> start c Idle [t]
| start_number c : is_number_char c = true -> start c (InNumber [c]) []
| start_word t c d w :
    is_fixed t = true -> token_text t = c :: d :: w -> start c (InWord (d :: w) t) [].

Lemma idle_step_inv c st out : idle_step c = Some (st, out) -> start c st out.
Proof.
  unfold idle_step. destruct (is_ws c) eqn:Hw; [intros [= <- <-]; by constructor|].
  destruct (is_number_char c) eqn:Hn.
  - repeat case_match; intros [= <- <-]; try (by constructor);
      unfold is_number_char, is_digit, in_range in Hn; lia.
  - repeat case_match; try done; intros [= <- <-];
      repeat match goal with H : (_ =? _) = true |- _ => apply N.eqb_eq in H as -> end;
      try (by constructor); by econstructor.
Qed.

Lemma fixed_no_number t : is_fixed t = true -> is_number_token t = false.
Proof. by destruct t. Qed.

Lemma lexes_fixed t text rest ts :
  is_fixed t = true -> token_text t = text -> lexes rest ts -> lexes (text ++ rest) (t :: ts).
Proof.
  intros Ht <- Hr. apply lexes_token; [by constructor| |done]. by rewrite fixed_no_number.
Qed.

Lemma lexes_complete text : forall ts, lex Idle text = Some ts -> lexes text ts.
Proof.
  induction text as [text IH] using list_length_ind. intros ts H.
  destruct text as [|c tl]; [injection H as <-; constructor|].
  apply lex_cons_inv in H as (st' & out & ts' & Hst%idle_step_inv & H & ->).
  destruct Hst as [c Hc| |t c Ht Htext|c Hc|t c d w Ht Htext]; cbn [app].
  - apply lexes_ws; [done|]. apply IH; [shorter|done].
  - apply string_inv_all in H as (body & s & rest & ts & -> & Hs & -> & H).
    assert (lexes rest ts) as Hr by (apply IH; [shorter|done]).
    apply (lexes_token (TString s) (34 :: body ++ [34]) rest) in Hr; [|by constructor|done].
    cbn [app] in Hr. by rewrite <- app_assoc in Hr.
  - apply (lexes_fixed t [c] tl); [done..|]. apply IH; [shorter|done].
  - apply number_inv in H as (digits & rest & ts & -> & Hr & Hn & -> & H).
    apply (lexes_token (TNumber (c :: digits)) (c :: digits) rest); [by constructor|done|].
    apply IH; [shorter|done].
  - apply word_inv in H as (rest & ts & -> & -> & H).
    apply (lexes_fixed t (c :: d :: w) rest); [done..|]. apply IH; [shorter|done].
Qed.

(** The lexer reads a text as tokens exactly when the grammar derives
    them. *)
Theorem lex_lexes text ts : lex Idle text = Some ts <-> lexes text ts.
Proof. split; [apply lexes_complete|apply lexes_sound]. Qed.

(** ** Values from tokens *)

(** The members of an object in the order of the text become its
    properties one by one. *)
Definition object_of (props kvs : list (jsstring * jsval)) : list (jsstring * jsval) :=
  fold_left (fun props kv => set_member (fst kv) (snd kv) props) kvs props.

Section grammar.
Context {numbers : Numbers}.

Inductive reads : list token -> jsval -> Prop :=
| reads_null : reads [TNull] JNull
| reads_true : reads [TTrue] (JBool true)
| reads_false : reads [TFalse] (JBool false)
| reads_number l : reads [TNumber l] (JNum (number_image l))
| reads_string s : reads [TString s] (JStr s)
| reads_empty_array : reads [LBracket; RBracket] (JArr [])
| reads_array ts vs : elements ts vs -> reads (LBracket :: ts ++ [RBracket]) (JArr vs)
| reads_empty_object : reads [LBrace; RBrace] (JObj [])
| reads_object ts kvs :
    members ts kvs -> reads (LBrace :: ts ++ [RBrace]) (JObj (object_of [] kvs))
with elements : list token -> list jsval -> Prop :=
| elements_last ts v : reads ts v -> elements ts [v]
| elements_cons ts v ts' vs :
    reads ts v -> elements ts' vs -> elements (ts ++ Comma :: ts') (v :: vs)
with members : list token -> list (jsstring * jsval) -> Prop :=
| members_last k ts v : reads ts v -> members (TString k :: Colon :: ts) [(k, v)]
| members_cons k ts v ts' kvs :
    reads ts v -> members ts' kvs ->
    members (TString k :: Colon :: ts ++ Comma :: ts') ((k, v) :: kvs).

Scheme reads_mut := Minimality for reads Sort Prop
  with elements_mut := Minimality for elements Sort Prop
  with members_mut := Minimality for members Sort Prop.
Combined Scheme grammar_ind from reads_mut, elements_mut, members_mut.

(** ** The automaton reads what the grammar derives *)

Lemma reads_start ts v : reads ts v -> exists t ts', ts = t :: ts' /\ starts_value t = true.
Proof. destruct 1; by eexists _, _. Qed.

Lemma elements_start ts vs :
  elements ts vs -> exists t ts', ts = t :: ts' /\ starts_value t = true.
Proof.
  destruct 1 as [ts v (t & ts1 & -> & Ht)%reads_start|ts v ts' vs (t & ts1 & -> & Ht)%reads_start _];
    by eexists _, _.
Qed.

Lemma members_start ts kvs : members ts kvs -> exists k ts', ts = TString k :: ts'.
Proof. destruct 1; by eexists _, _. Qed.

Lemma parse_first stack t ts :
  starts_value t = true ->
  parse (PArr0 stack) (t :: ts) = parse (PValue (FArr [] :: stack)) (t :: ts).
Proof. intros Ht. cbn [parse parse_step]. by destruct t. Qed.

Lemma parse_first_key stack k ts :
  parse (PObj0 stack) (TString k :: ts) = parse (PKey [] stack) (TString k :: ts).
Proof. done. Qed.

Lemma grammar_sound :
  (forall ts v, reads ts v -> forall stack rest,
     parse (PValue stack) (ts ++ rest) = parse (complete v stack) rest) /\
  (forall ts vs, elements ts vs -> forall done stack rest,
     parse (PValue (FArr done :: stack)) (ts ++ RBracket :: rest) =
     parse (complete (JArr (done ++ vs)) stack) rest) /\
  (forall ts kvs, members ts kvs -> forall props stack rest,
     parse (PKey props stack) (ts ++ RBrace :: rest) =
     parse (complete (JObj (object_of props kvs)) stack) rest).
Proof.
  apply grammar_ind; try done.
  - intros ts vs Hel IH stack rest. cbn [app].
    rewrite (parse_cons _ LBracket _ (PArr0 stack)), <- app_assoc by done.
    specialize (IH [] stack rest). destruct (elements_start _ _ Hel) as (t & ts' & -> & Ht).
    cbn [app] in *. by rewrite parse_first.
  - intros ts kvs Hm IH stack rest. cbn [app].
    rewrite (parse_cons _ LBrace _ (PObj0 stack)), <- app_assoc by done.
    specialize (IH [] stack rest). by destruct (members_start _ _ Hm) as (k & ts' & ->).
  - intros ts v ts' vs _ IHv _ IH done stack rest. rewrite <- app_assoc, IHv. cbn [complete app].
    rewrite (parse_cons _ Comma _ (PValue (FArr (done ++ [v]) :: stack))) by done.
    by rewrite IH, <- app_assoc.
  - intros k ts v _ IH props stack rest. cbn [app].
    rewrite (parse_cons _ (TString k) _ (PColon props k stack)) by done.
    rewrite (parse_cons _ Colon _ (PValue (FObj props k :: stack))) by done.
    rewrite IH. cbn [complete]. by apply parse_cons.
  - intros k ts v ts' kvs _ IHv _ IH props stack rest. cbn [app].
    rewrite (parse_cons _ (TString k) _ (PColon props k stack)) by done.
    rewrite (parse_cons _ Colon _ (PValue (FObj props k :: stack))) by done.
    rewrite <- app_assoc, IHv. cbn [complete app].
    rewrite (parse_cons _ Comma _ (PKey (set_member k v props) stack)) by done.
    by rewrite IH.
Qed.

(** ** The grammar derives what the automaton reads *)

(** What a run to a value [vf] has read, in the three states in which
    a derivation starts: a value, the elements of an array, the members
    of an object. *)
Definition value_inv (ts : list token) : Prop :=
  forall stack vf, parse (PValue stack) ts = Some vf ->
  exists ts1 v rest,
    ts = ts1 ++ rest /\ reads ts1 v /\ parse (complete v stack) rest = Some vf.

Definition elements_inv (ts : list token) : Prop :=
  forall done stack vf, parse (PValue (FArr done :: stack)) ts = Some vf ->
  exists ts1 vs rest,
    ts = ts1 ++ RBracket :: rest /\ elements ts1 vs /\
    parse (complete (JArr (done ++ vs)) stack) rest = Some vf.

Definition members_inv (ts : list token) : Prop :=
  forall props stack vf, parse (PKey props stack) ts = Some vf ->
  exists ts1 kvs rest,
    ts = ts1 ++ RBrace :: rest /\ members ts1 kvs /\
    parse (complete (JObj (object_of props kvs)) stack) rest = Some vf.

Lemma array_inv ts :
  elements_inv ts ->
  forall stack vf, parse (PArr0 stack) ts = Some vf ->
  exists ts1 v rest,
    LBracket :: ts = ts1 ++ rest /\ reads ts1 v /\ parse (complete v stack) rest = Some vf.
Proof.
  intros IH stack vf H. destruct ts as [|t ts]; [done|].
  destruct (decide (t = RBracket)) as [->|Ht].
  - exists [LBracket; RBracket], (JArr []), ts. by split_and!; [|constructor|].
  - assert (parse (PValue (FArr [] :: stack)) (t :: ts) = Some vf) as Hv by (by destruct t).
    apply IH in Hv as (ts1 & vs & rest & -> & Hel & Hp).
    exists (LBracket :: ts1 ++ [RBracket]), (JArr vs), rest.
    split_and!; [|by constructor|done]. cbn [app]. by rewrite <- app_assoc.
Qed.

Lemma object_inv ts :
  members_inv ts ->
  forall stack vf, parse (PObj0 stack) ts = Some vf ->
  exists ts1 v rest,
    LBrace :: ts = ts1 ++ rest /\ reads ts1 v /\ parse (complete v stack) rest = Some vf.
Proof.
  intros IH stack vf H. destruct ts as [|t ts]; [done|]. destruct t; try done.
  - exists [LBrace; RBrace], (JObj []), ts. by split_and!; [|constructor|].
  - rewrite parse_first_key in H. apply IH in H as (ts1 & kvs & rest & -> & Hm & Hp).
    exists (LBrace :: ts1 ++ [RBrace]), (JObj (object_of [] kvs)), rest.
    split_and!; [|by constructor|done]. cbn [app]. by rewrite <- app_assoc.
Qed.

Lemma value_inv_step ts :
  (forall ts', (length ts' < length ts)%nat -> elements_inv ts' /\ members_inv ts') ->
  value_inv ts.
Proof.
  intros IH stack vf H. destruct ts as [|t ts]; [done|].
  destruct (IH ts) as [IHe IHm]; [cbn; lia|].
  destruct t; try done;
    try (by eexists [_], _, ts; split_and!; [done|constructor|done]).
  - by apply object_inv.
  - by apply array_inv.
Qed.

Lemma elements_inv_step ts :
  value_inv ts -> (forall ts', (length ts' < length ts)%nat -> elements_inv ts') ->
  elements_inv ts.
Proof.
  intros Hv IH done stack vf H. apply Hv in H as (ts1 & v & rest & -> & Hr & H).
  cbn [complete] in H. destruct rest as [|t rest]; [done|]. destruct t; try done.
  - exists ts1, [v], rest. by split_and!; [|constructor|].
  - apply IH in H as (ts2 & vs & rest' & -> & Hel & H); [|rewrite length_app; cbn; lia].
    exists (ts1 ++ Comma :: ts2), (v :: vs), rest'.
    split_and!; [by rewrite <- app_assoc|by constructor|by rewrite <- app_assoc in H].
Qed.

Lemma members_inv_step ts :
  (forall ts', (length ts' < length ts)%nat -> value_inv ts' /\ members_inv ts') ->
  members_inv ts.
Proof.
  intros IH props stack vf H. destruct ts as [|t [|t' ts]]; [done|by destruct t|].
  destruct t as [| | | | |  |k| | | |]; try done. destruct t'; try done.
  destruct (IH ts) as [IHv _]; [cbn; lia|].
  apply IHv in H as (ts1 & v & rest & -> & Hr & H).
  cbn [complete] in H. destruct rest as [|t rest]; [done|]. destruct t; try done.
  - exists (TString k :: Colon :: ts1), [(k, v)], rest. by split_and!; [|constructor|].
  - destruct (IH rest) as [_ IHm]; [cbn; rewrite length_app; cbn; lia|].
    apply IHm in H as (ts2 & kvs & rest' & -> & Hm & H).
    exists (TString k :: Colon :: ts1 ++ Comma :: ts2), ((k, v) :: kvs), rest'.
    split_and!; [by cbn [app]; rewrite <- app_assoc|by constructor|done].
Qed.

Lemma parse_inv ts : value_inv ts /\ elements_inv ts /\ members_inv ts.
Proof.
  induction ts as [ts IH] using list_length_ind.
  assert (value_inv ts) as Hv by (apply value_inv_step; intros ts' Hts'; by apply IH).
  split_and!; [done| |].
  - apply elements_inv_step; [done|]. intros ts' Hts'. by apply IH.
  - apply members_inv_step. intros ts' Hts'. split; by apply IH.
Qed.

(** ** The automaton and the grammar agree *)

(** The tokens the parser reads as [v] are those the grammar derives
    for [v]. *)
Theorem parse_reads ts v : parse (PValue []) ts = Some v <-> reads ts v.
Proof.
  split.
  - intros H. destruct (parse_inv ts) as [Hv _].
    apply Hv in H as (ts1 & v' & rest & -> & Hr & H). cbn [complete] in H.
    destruct rest; [|done]. cbn [parse] in H. injection H as <-. by rewrite app_nil_r.
  - intros H. destruct grammar_sound as [Hs _].
    rewrite <- (app_nil_r ts). by rewrite (Hs ts v H).
Qed.

(** ** JSON texts *)

(** [denotes text v]: [text] is a JSON text of the value [v]. *)
Definition denotes (text : jsstring) (v : jsval) : Prop :=
  exists ts, lexes text ts /\ reads ts v.

(** [JSON.parse] implements the grammar: it returns [v] exactly for
    the texts that denote [v]. *)
Theorem json_parse_denotes text v : json_parse text = Some v <-> denotes text v.
Proof.
  unfold json_parse, denotes. split.
  - destruct (lex Idle text) as [ts|] eqn:E; [|done]. cbn [mbind option_bind].
    intros H. exists ts. by split; [apply lex_lexes|apply parse_reads].
  - intros (ts & ->%lex_lexes & H%parse_reads). done.
Qed.

(** A text denotes at most one value. *)
Theorem denotes_functional text v v' : denotes text v -> denotes text v' -> v = v'.
Proof. intros H%json_parse_denotes H'%json_parse_denotes. congruence. Qed.

(** It throws exactly for the texts that denote nothing. *)
Theorem json_parse_throws text : json_parse text = None <-> forall v, ~ denotes text v.
Proof.
  split.
  - intros H v Hv%json_parse_denotes. congruence.
  - intros H. destruct (json_parse text) as [v|] eqn:E; [|done].
    by apply json_parse_denotes, H in E.
Qed.

(** Whether a text is a JSON text can be decided. *)
#[export] Instance denotes_dec text : Decision (exists v, denotes text v).
Proof.
  destruct (json_parse text) as [v|] eqn:E.
  - left. exists v. by apply json_parse_denotes.
  - right. intros [v Hv]. by apply (proj1 (json_parse_throws text) E v).
Defined.

(** The texts [JSON.stringify] writes for a value, with white space
    added, denote the value. *)
Lemma json_text_denotes v text : is_json v = true -> json_text v text -> denotes text v.
Proof. intros Hv Ht. by apply json_parse_denotes, json_parse_text. Qed.

End grammar.

(** ** Witnesses and examples *)

Section grammar_witnesses.
#[local] Existing Instance as_written.

Lemma lex_lexes_witness :
  lexes (lit " [ 1 , 2 ] ") [LBracket; TNumber (lit "1"); Comma; TNumber (lit "2"); RBracket].
Proof. apply lex_lexes. reflexivity. Defined.

Lemma parse_reads_witness :
  reads [LBracket; TNull; Comma; TTrue; RBracket] (JArr [JNull; JBool true]).
Proof. apply parse_reads. reflexivity. Defined.

Lemma json_parse_denotes_witness : denotes (lit "[null, true]") (JArr [JNull; JBool true]).
Proof. apply json_parse_denotes. reflexivity. Defined.

Lemma json_parse_throws_witness : forall v, ~ denotes (lit "[1,]") v.
Proof. apply json_parse_throws. reflexivity. Defined.

Lemma denotes_functional_witness v : denotes (lit "[7]") v -> JArr [JNum (lit "7")] = v.
Proof. apply denotes_functional, json_parse_denotes. reflexivity. Defined.

(** A string can be written in more than one way: with the escapes
    of two characters, or with the code unit of any character. *)
Example denotes_escapes :
  denotes ([34] ++ lit "a\nA\/<" ++ [34]) (JStr [97; 10; 65; 47; 60]) /\
  denotes ([34] ++ lit "a\u000AA/<" ++ [34]) (JStr [97; 10; 65; 47; 60]).
Proof. split; by apply json_parse_denotes. Qed.

(** A derivation, step by step. *)
Example reads_object_example :
  reads [LBrace; TString (lit "a"); Colon; TNumber (lit "1"); Comma;
         TString (lit "a"); Colon; TNull; RBrace]
        (JObj [(lit "a", JNull)]).
Proof.
  apply (reads_object [TString (lit "a"); Colon; TNumber (lit "1"); Comma;
                       TString (lit "a"); Colon; TNull]
           [(lit "a", JNum (lit "1")); (lit "a", JNull)]).
  apply (members_cons (lit "a") [TNumber (lit "1")] (JNum (lit "1"))
           [TString (lit "a"); Colon; TNull] [(lit "a", JNull)]).
  - exact (reads_number (lit "1")).
  - apply members_last, reads_null.
Qed.

(** Whether a text is a JSON text is computed. *)
Example denotes_decided :
  bool_decide (exists v, denotes (lit "{}") v) = true /\
  bool_decide (exists v, denotes (lit "{") v) = false.
Proof. by vm_compute. Qed.

End grammar_witnesses.
