(* ===== verification/Body.v ===== *)
(** * The body of the response

    [response.json()] on line 154 of [src/script.js], by what it does
    to the bytes of the body: a byte order mark is dropped, the bytes
    are decoded as UTF-8, with U+FFFD for what is no UTF-8, and the
    text is parsed as JSON.  The file composes the decoder of
    [Decode] and the parser of [Json] with [searchForTextbook_resume]
    of [Search]: what the page shows is stated of the bytes the server
    sent, not of a value that is assumed to have been read from them. *)

From Stdlib Require Import String.
From S2P Require Import Prelude JsString JsValue Dom Render Search.
From S2P Require Import Encoding Utf8 Decode JsonLex Json JsonGrammar.

Local Open Scope N_scope.

(** ** Definitions *)

(** The byte order mark of UTF-8, which the decoder of a body drops. *)
Definition strip_bom (bytes : list N) : list N :=
  match bytes with
  | a :: b :: c :: tl => if (a =? 239) && (b =? 187) && (c =? 191) then tl else bytes
  | _ => bytes
  end.

(** The text of a body. *)
Definition body_text (bytes : list N) : jsstring := text_lossy (strip_bom bytes).

Section body.
Context {numbers : Numbers} {host : Host} {env : Env}.

(** How the request ends when the body has arrived as [text]. *)
Definition body_response (text : jsstring) : response :=
  match json_parse text with
  | Some data => Json data
  | None => BadBody
  end.

(** The same of the bytes of the body. *)
Definition bytes_response (bytes : list N) : response := body_response (body_text bytes).

(** The handler of the response on the page [p], when the body has
    arrived as [bytes]. *)
Definition body_arrives (bytes : list N) (p : Page) : outcome Page exn unit :=
  searchForTextbook_resume (bytes_response bytes) p.

(** The items of a result can be sent: their strings are of code
    units. *)
Definition item_ok (r : ResultItem) : bool :=
  code_units (ri_title r) && from_option code_units true (ri_snippet r) &&
  code_units (ri_link r).

(** The answer of the service for the results [rs], by the field the
    script reads. *)
Definition answer (rs : list ResultItem) : jsval :=
  JObj [(lit "items", JArr (map item_json rs))].

(** ** Lemmas *)

(** A text that denotes a value is read as the value, a text that
    denotes nothing is a bad body. *)
Lemma body_response_text v text : denotes text v -> body_response text = Json v.
Proof. intros Ht%json_parse_denotes. unfold body_response. by rewrite Ht. Qed.

Lemma body_response_bad text : (forall v, ~ denotes text v) -> body_response text = BadBody.
Proof. intros H%json_parse_throws. unfold body_response. by rewrite H. Qed.

(** What was read from a body is a value the parser returns. *)
Lemma body_response_parsed text data : body_response text = Json data -> parsed data = true.
Proof.
  unfold body_response. destruct (json_parse text) as [v|] eqn:E; [|done].
  intros [= <-]. by apply (json_parse_parsed text).
Qed.

(** A text that starts with an ASCII character has no byte order
    mark. *)
Lemma strip_bom_ascii s : starts_ascii s = true -> strip_bom (utf8 s) = utf8 s.
Proof.
  destruct s as [|c tl]; [done|]. cbn [starts_ascii]. intros Hc%N.ltb_lt.
  rewrite utf8_ascii_cons by done. unfold strip_bom. repeat case_match; try done. lia.
Qed.

(** The mark is dropped. *)
Lemma body_text_bom bytes : body_text (239 :: 187 :: 191 :: bytes) = text_lossy bytes.
Proof. reflexivity. Qed.

(** The bytes of a text that UTF-8 carries are read as the text, with
    or without the mark. *)
Lemma body_text_utf8 s :
  sendable s = true -> starts_ascii s = true ->
  body_text (utf8 s) = s /\ body_text (239 :: 187 :: 191 :: utf8 s) = s.
Proof.
  intros Hs%text_of_sendable%text_lossy_text_of Ha. rewrite body_text_bom.
  unfold body_text. by rewrite strip_bom_ascii.
Qed.

(** The value of an item is a JSON value. *)
Lemma item_json_is_json r : item_ok r = true -> is_json (item_json r) = true.
Proof.
  destruct r as [title snippet link]. unfold item_ok, item_json.
  cbn [ri_title ri_snippet ri_link]. intros [[Ht Hs]%andb_true_iff Hl]%andb_true_iff.
  destruct snippet as [snippet|]; cbn [from_option] in Hs;
    cbn [is_json app forallb fst snd]; rewrite ?Ht, ?Hs, ?Hl; by vm_compute.
Qed.

Lemma items_are_json rs :
  forallb item_ok rs = true -> forallb is_json (map item_json rs) = true.
Proof.
  induction rs as [|r rs IH]; [done|]. cbn [forallb map].
  intros [Hr Hrs]%andb_true_iff. by rewrite item_json_is_json, IH.
Qed.

Lemma answer_is_json rs : forallb item_ok rs = true -> is_json (answer rs) = true.
Proof.
  intros Hrs. unfold answer. cbn [is_json forallb fst snd]. rewrite items_are_json by done.
  by vm_compute.
Qed.

Lemma answer_represents rs : Forall2 represents (map item_json rs) rs.
Proof. induction rs; constructor; [apply item_json_represents|done]. Qed.

(** The bytes of the text [JSON.stringify] writes for an answer are
    read as this text. *)
Lemma answer_text rs :
  forallb item_ok rs = true ->
  body_text (utf8 (json_print (answer rs))) = json_print (answer rs) /\
  body_text (239 :: 187 :: 191 :: utf8 (json_print (answer rs))) = json_print (answer rs).
Proof.
  intros Hrs%answer_is_json.
  destruct (json_text_sendable _ _ Hrs (json_print_text (answer rs))) as [Hs Ha].
  by apply body_text_utf8.
Qed.

(** ** Theorems *)

(** A body whose text denotes an object whose [items] are well-formed
    results replaces the loading message by the rendering of the
    results. *)
Theorem body_rendered props items rs text p :
  denotes text (JObj props) ->
  own props (lit "items") = Some (JArr items) -> Forall2 represents items rs ->
  is_some (results p) = true ->
  searchForTextbook_resume (body_response text) p =
  Returns tt (set_results (Some (rendering rs)) p).
Proof.
  intros Ht Hitems Hrs Hp. rewrite (body_response_text (JObj props)) by done.
  by apply (search_success_rendered props items).
Qed.

(** C15. From the bytes of the body to the page: when the text of the
    bytes is a JSON text, however its strings are written and wherever
    it has white space, of an object whose [items] are well-formed
    results, the handler of the response replaces the loading message
    by the rendering of the results. *)
Theorem served_rendered bytes props items rs p :
  denotes (body_text bytes) (JObj props) ->
  own props (lit "items") = Some (JArr items) -> Forall2 represents items rs ->
  is_some (results p) = true ->
  body_arrives bytes p = Returns tt (set_results (Some (rendering rs)) p).
Proof.
  intros Ht Hitems Hrs Hp. unfold body_arrives, bytes_response.
  rewrite (body_response_text (JObj props)) by done.
  by apply (search_success_rendered props items rs).
Qed.

(** From the results to the page: the answer for results whose
    strings are of code units, sent as UTF-8 with or without a byte
    order mark, is rendered as these results. *)
Theorem answer_rendered rs p :
  forallb item_ok rs = true -> is_some (results p) = true ->
  body_arrives (utf8 (json_print (answer rs))) p =
  Returns tt (set_results (Some (rendering rs)) p) /\
  body_arrives (239 :: 187 :: 191 :: utf8 (json_print (answer rs))) p =
  Returns tt (set_results (Some (rendering rs)) p).
Proof.
  intros Hrs Hp. destruct (answer_text rs Hrs) as [Hb Hb'].
  unfold body_arrives, bytes_response. rewrite Hb, Hb'.
  rewrite (body_response_text (answer rs))
    by (apply json_text_denotes; [by apply answer_is_json|apply json_print_text]).
  unfold answer.
  by rewrite (search_success_rendered _ (map item_json rs) rs); [|done..|apply answer_represents].
Qed.

(** A body that is no JSON text makes the search fail with a
    [SyntaxError]: it is logged and the error message is shown. *)
Theorem body_not_json_fails bytes p :
  (forall v, ~ denotes (body_text bytes) v) -> is_some (results p) = true ->
  body_arrives bytes p = Returns tt (failed SyntaxError p).
Proof.
  intros Ht Hp. unfold body_arrives, bytes_response.
  by rewrite body_response_bad, searchForTextbook_resume_run.
Qed.

(** Whatever bytes arrive, the handler of the response returns, and
    the results region shows a view of the response. *)
Theorem body_shown bytes p :
  is_some (results p) = true ->
  exists p', body_arrives bytes p = Returns tt p' /\
             results p' = Some (response_view (bytes_response bytes)).
Proof.
  intros Hp. eexists. split; [by apply searchForTextbook_resume_run|].
  apply resume_effect_results.
Qed.

End body.

(** ** Witnesses and examples *)

Section body_witnesses.
#[local] Existing Instance as_written.
#[local] Existing Instance v8_host.
#[local] Existing Instance demo_env.

(** The answer of the service with two results. *)
Definition two_results : list (jsstring * jsval) :=
  [(lit "kind", JStr (lit "customsearch#search"));
   (lit "items", JArr [item_json effective_java; item_json java_puzzlers])].

Lemma body_rendered_witness :
  searchForTextbook_resume (body_response (json_print (JObj two_results))) loading_page =
  Returns tt (set_results (Some (rendering [effective_java; java_puzzlers])) loading_page).
Proof.
  apply (body_rendered two_results [item_json effective_java; item_json java_puzzlers]);
    [by apply json_parse_denotes|reflexivity| |reflexivity].
  repeat constructor; apply item_json_represents.
Defined.

(** A body with a byte order mark, white space and characters
    written as escapes. *)
Definition served_bytes : list N :=
  [239; 187; 191] ++ lit "{ " ++ quote (lit "items") ++ lit " : [ { " ++
  quote (lit "title") ++ lit " : " ++ [34] ++ lit "Java Puzzlers" ++ [34] ++ lit ", " ++
  quote (lit "link") ++ lit " : " ++ [34] ++ lit "https:\/\/c\/d.pdf" ++ [34] ++ lit " } ] }".

Lemma served_rendered_witness :
  body_arrives served_bytes loading_page =
  Returns tt (set_results (Some (rendering [java_puzzlers])) loading_page).
Proof.
  apply (served_rendered served_bytes
           [(lit "items", JArr [item_json java_puzzlers])] [item_json java_puzzlers]);
    [by apply json_parse_denotes|reflexivity| |reflexivity].
  repeat constructor; apply item_json_represents.
Defined.

Lemma answer_rendered_witness :
  body_arrives (utf8 (json_print (answer [effective_java; java_puzzlers]))) loading_page =
  Returns tt (set_results (Some (rendering [effective_java; java_puzzlers])) loading_page) /\
  body_arrives (239 :: 187 :: 191 :: utf8 (json_print (answer [effective_java; java_puzzlers])))
    loading_page =
  Returns tt (set_results (Some (rendering [effective_java; java_puzzlers])) loading_page).
Proof. apply answer_rendered; reflexivity. Defined.

Lemma body_not_json_fails_witness :
  body_arrives (lit "<html><body>Bad Gateway</body></html>") loading_page =
  Returns tt (failed SyntaxError loading_page).
Proof. apply body_not_json_fails; [by apply json_parse_throws|reflexivity]. Defined.

Lemma body_shown_witness :
  exists p', body_arrives (lit "[]") loading_page = Returns tt p' /\
             results p' = Some (response_view (bytes_response (lit "[]"))).
Proof. apply body_shown. reflexivity. Defined.

(** The body the service sends with an error status, an object
    without [items], is shown as a search that found nothing. *)
Example body_api_error :
  body_arrives
    (lit "{ " ++ quote (lit "error") ++ lit ": { " ++ quote (lit "code") ++ lit ": 403, " ++
     quote (lit "message") ++ lit ": " ++ quote (lit "The request is missing a valid API key.") ++
     lit " } }")
    loading_page =
  Returns tt (set_results (Some (rendering [])) loading_page).
Proof. by vm_compute. Qed.

(** An empty body and the body [null] show the error message, the
    first for a [SyntaxError], the second for the [TypeError] of
    [data.items]; a body that is a number or a string shows that
    nothing was found. *)
Example body_without_object :
  body_arrives [] loading_page = Returns tt (failed SyntaxError loading_page) /\
  body_arrives (lit "null") loading_page = Returns tt (failed TypeError loading_page) /\
  body_arrives (lit "7") loading_page =
  Returns tt (set_results (Some (rendering [])) loading_page) /\
  body_arrives (quote (lit "items")) loading_page =
  Returns tt (set_results (Some (rendering [])) loading_page).
Proof. by vm_compute. Qed.

(** Bytes that are no UTF-8 are read as U+FFFD: between tokens the
    text is no JSON text, inside a string the character is part of the
    string. *)
Example body_not_utf8 :
  body_text [123; 255; 125] = [123; 65533; 125] /\
  bytes_response [123; 255; 125] = BadBody /\
  bytes_response [91; 34; 97; 255; 34; 93] = Json (JArr [JStr [97; 65533]]).
Proof. by vm_compute. Qed.

End body_witnesses.
