(* ===== verification/Async.v ===== *)
(** * The asynchronous functions in one piece

    [Search] gives each [async] function as two definitions, the part
    before the request is sent and the part after it has ended.  This
    file writes [searchForTextbook] (lines 127 to 164) and the submit
    listener (lines 67 to 113) as the source does, each as one
    definition with its [await]s in place, over a monad of computations
    that may be suspended; the two parts of [Search] are then theorems:
    the function runs as its first part until it is suspended and as
    its second part when the request has ended.

    A suspended computation holds the page as it was left and the rest
    of the function, which is given the page as it is found: other
    listeners run while a function waits.  [searchForTextbook] waits
    twice, for the response and for its body; between the two it
    neither reads nor writes the page, which is why one suspension
    stands for both elsewhere. *)

From Stdlib Require Import String.
From S2P Require Import Prelude JsString JsValue Dom Isbn Query Render Search.

(** ** Promises *)

(** What [fetch] resolves to.  The script only calls [json()] on it. *)
Inductive Response : Type := the_response.

(** The promises the script awaits, each with the type of the value it
    is fulfilled with: [fetch(url)] (line 152) and [response.json()]
    (line 154). *)
Inductive promise : Type -> Type :=
| Fetching (url : jsstring) : promise Response
| Reading (response : Response) : promise jsval.

(** How a promise ends. *)
Inductive settled (X : Type) : Type :=
| Fulfilled (x : X)
| Rejected.
Arguments Fulfilled {X} x.
Arguments Rejected {X}.

(** What a promise is rejected with: [fetch] rejects with a
    [TypeError] when the request fails, [json()] with a [SyntaxError]
    when the body is not JSON. *)
Definition rejection {X} (w : promise X) : exn :=
  match w with
  | Fetching _ => TypeError
  | Reading _ => SyntaxError
  end.

(** ** Computations that may be suspended *)

(** A computation has come to its end, with a value or an exception,
    or it awaits a promise: [k] is the rest of the function, run on the
    page as it is when the promise is settled. *)
Inductive task (A : Type) : Type :=
| Done (o : outcome Page exn A)
| Waiting {X : Type} (w : promise X) (p : Page) (k : settled X -> Page -> task A).
Arguments Done {A} o.
Arguments Waiting {A X} w p k.

Definition Async (A : Type) : Type := Page -> task A.

(** The rest of a computation after [r]. *)
Fixpoint task_bind {A B} (r : task A) (f : A -> Async B) : task B :=
  match r with
  | Done (Returns a p) => f a p
  | Done (Throws e p) => Done (Throws e p)
  | Waiting w p k => Waiting w p (fun s p' => task_bind (k s p') f)
  end.

(** [try { r } catch (e) { h e }]: the handler stays in force while
    the block is suspended. *)
Fixpoint task_catch {A} (r : task A) (h : exn -> Async A) : task A :=
  match r with
  | Done (Returns a p) => Done (Returns a p)
  | Done (Throws e p) => h e p
  | Waiting w p k => Waiting w p (fun s p' => task_catch (k s p') h)
  end.

Definition abind {A B} (c : Async A) (f : A -> Async B) : Async B :=
  fun p => task_bind (c p) f.

Definition acatch {A} (c : Async A) (h : exn -> Async A) : Async A :=
  fun p => task_catch (c p) h.

(** Statements that do not wait. *)
Definition now {A} (c : D A) : Async A := fun p => Done (c p).

(** [await w]: the function is suspended; it goes on with the value
    of the promise, or throws what the promise was rejected with. *)
Definition await {X} (w : promise X) : Async X :=
  fun p => Waiting w p (fun s p' =>
    match s with
    | Fulfilled x => Done (Returns x p')
    | Rejected => Done (Throws (rejection w) p')
    end).

Declare Scope async_scope.
Delimit Scope async_scope with async.
Notation "x <- c ;; k" := (abind c (fun x => k))
  (at level 100, c at next level, k at level 200, right associativity) : async_scope.
Notation "c ;; k" := (abind c (fun _ => k))
  (at level 100, k at level 200, right associativity) : async_scope.

(** ** Running a task *)

(** How a promise is settled for a request that ends as [r]. *)
Definition settle {X} (w : promise X) (r : response) : settled X :=
  match w in promise X return settled X with
  | Fetching _ => match r with NetworkError => Rejected | _ => Fulfilled the_response end
  | Reading _ => match r with Json data => Fulfilled data | _ => Rejected end
  end.

(** One turn of a suspended computation: its promise is settled and it
    runs, on the page [p] it finds, to its end or to its next
    [await]. *)
Definition turn {A} (r : response) (p : Page) (w : task A) : task A :=
  match w with
  | Done o => Done o
  | Waiting w0 _ k => k (settle w0 r) p
  end.

(** A computation run to its end: each time it waits, the page it
    finds is the next of [pages], or the page it left if none is
    given. *)
Fixpoint finish {A} (r : response) (pages : list Page) (w : task A) : outcome Page exn A :=
  match w with
  | Done o => o
  | Waiting w p k =>
      match pages with
      | p' :: pages' => finish r pages' (k (settle w r) p')
      | [] => finish r [] (k (settle w r) p)
      end
  end.

(** The URL of the request a computation waits for, if it waits for
    one. *)
Definition requested {A} (w : task A) : option jsstring :=
  match w with
  | Waiting (Fetching url) _ _ => Some url
  | _ => None
  end.

(** A task as the caller of the listener sees it until the listener is
    suspended or returns: the URL requested, if it awaits a request. *)
Definition until_await {A} (w : task A) : outcome Page exn (option jsstring) :=
  match w with
  | Done (Returns _ p) => Returns None p
  | Done (Throws e p) => Throws e p
  | Waiting _ p _ => Returns (requested w) p
  end.

(** The page a computation left when it ended or was suspended. *)
Definition left_by {A} (w : task A) : Page :=
  match w with
  | Done o => final_state o
  | Waiting _ p _ => p
  end.

(** The number of times a computation waits, when no other listener
    runs meanwhile. *)
Fixpoint waits {A} (r : response) (w : task A) : nat :=
  match w with
  | Done _ => 0
  | Waiting w p k => S (waits r (k (settle w r) p))
  end.

(** The page the last turn of a search finds: the request that fails
    takes one turn, every other one takes two. *)
Definition last_turn (r : response) (p1 p2 : Page) : Page :=
  match r with NetworkError => p1 | _ => p2 end.

(** ** A function made of two parts *)

(** A function that has the response and awaits its body: it runs
    [resume] on what the body is. *)
Definition reading (answer : Response) (p : Page) (resume : response -> D unit) : task unit :=
  Waiting (Reading answer) p (fun s p' =>
    match s with
    | Rejected => Done (resume BadBody p')
    | Fulfilled data => Done (resume (Json data) p')
    end).

(** A function that has sent a request and left the page [p]: it
    awaits the response and then its body, touching nothing between the
    two, and runs [resume] on how the request ended. *)
Definition suspended (url : jsstring) (p : Page) (resume : response -> D unit) : task unit :=
  Waiting (Fetching url) p (fun s p' =>
    match s with
    | Rejected => Done (resume NetworkError p')
    | Fulfilled answer => reading answer p' resume
    end).

(** The function that runs [start] and is suspended if that sent a
    request. *)
Definition split (start : D (option jsstring)) (resume : response -> D unit) : Async unit :=
  fun p =>
    match start p with
    | Throws e p' => Done (Throws e p')
    | Returns None p' => Done (Returns tt p')
    | Returns (Some url) p' => suspended url p' resume
    end.

(** How a function made of two parts ends. *)
Definition split_outcome (start : outcome Page exn (option jsstring))
    (resume : response -> D unit) (r : response) (p1 p2 : Page) : outcome Page exn unit :=
  match start with
  | Throws e p' => Throws e p'
  | Returns None p' => Returns tt p'
  | Returns (Some _) _ => resume r (last_turn r p1 p2)
  end.

(** Tasks that differ only in how their continuations are written:
    they end alike, or wait for the same promise on the same page and
    go on alike however it is settled. *)
Fixpoint task_eq {A} (w w' : task A) : Prop :=
  match w with
  | Done o => w' = Done o
  | Waiting w0 p k =>
      exists k', w' = Waiting w0 p k' /\ forall s p', task_eq (k s p') (k' s p')
  end.

Section async.
Context {host : Host} {env : Env}.
Local Open Scope async_scope.

(** ** The two functions *)

(** [fetch(url)] and the [await] on it, line 152. *)
Definition fetch (url : jsstring) : Async Response :=
  now (emit (Fetch url)) ;;
  await (Fetching url).

(** Lines 127 to 164. *)
Definition searchForTextbook (query : jsstring) : Async unit :=
  now (found <- results_exists ;;
       (if found then ret tt else create_results) ;;
       set_resultsDiv_innerHTML loading)%js ;;
  let url := api_url query in
  acatch
    (response <- fetch url ;;
     data <- await (Reading response) ;;
     now (items <- lift (get data Items) ;;
          displayResults items)%js)
    (fun error => now (report_error error)).

(** The submit listener, lines 67 to 113. *)
Definition form_submit (f : Fields) : Async unit :=
  now (emit PreventDefault) ;;
  let isbn := trim (f_isbn f) in
  let title := trim (f_title f) in
  let author := trim (f_author f) in
  let language := f_language f in
  if str_truthy isbn && negb (isValidISBN isbn) then
    now (emit (Alert invalid_isbn_msg))
  else
    let searchQuery := base_query isbn title author in
    if str_truthy searchQuery then
      searchForTextbook (add_language searchQuery language) ;;
      now (found <- results_exists ;;
           if found then emit ScrollIntoView else ret tt)%js
    else
      now (emit (Alert no_terms_msg)).

End async.

(** ** Equality of tasks *)

Section task_eq.
Context {A : Type}.

Lemma task_eq_refl (w : task A) : task_eq w w.
Proof. induction w as [o|X w p k IH]; [done|]. by exists k. Qed.

Lemma task_eq_sym (w w' : task A) : task_eq w w' -> task_eq w' w.
Proof.
  revert w'. induction w as [o|X w p k IH]; intros w'; cbn [task_eq].
  - by intros ->.
  - intros (k' & -> & Hk). exists k. split; [done|]. intros s p'. apply IH, Hk.
Qed.

Lemma task_eq_trans (w1 w2 w3 : task A) : task_eq w1 w2 -> task_eq w2 w3 -> task_eq w1 w3.
Proof.
  revert w2 w3. induction w1 as [o|X w p k IH]; intros w2 w3; cbn [task_eq].
  - by intros ->.
  - intros (k2 & -> & H2) (k3 & -> & H3). exists k3. split; [done|].
    intros s p'. by apply (IH s p' (k2 s p')).
Qed.

#[export] Instance task_eq_equivalence : Equivalence (@task_eq A).
Proof. split; [exact task_eq_refl|exact task_eq_sym|exact task_eq_trans]. Qed.

(** What is observed of a task does not depend on how its continuations
    are written. *)
#[export] Instance finish_proper r pages : Proper (task_eq ==> eq) (@finish A r pages).
Proof.
  intros w w' H. revert pages w' H. induction w as [o|X w p k IH]; intros pages w'; cbn [task_eq].
  - by intros ->.
  - intros (k' & -> & Hk). destruct pages as [|p' pages]; cbn [finish]; apply IH, Hk.
Qed.

#[export] Instance turn_proper r p : Proper (task_eq ==> task_eq) (@turn A r p).
Proof.
  intros w w'. destruct w as [o|X w p0 k]; cbn [task_eq]; [by intros ->|].
  intros (k' & -> & Hk). apply Hk.
Qed.

#[export] Instance left_by_proper : Proper (task_eq ==> eq) (@left_by A).
Proof.
  intros w w'. destruct w as [o|X w p k]; cbn [task_eq]; [by intros ->|].
  by intros (k' & -> & _).
Qed.

#[export] Instance requested_proper : Proper (task_eq ==> eq) (@requested A).
Proof.
  intros w w'. destruct w as [o|X w p k]; cbn [task_eq]; [by intros ->|].
  by intros (k' & -> & _).
Qed.

#[export] Instance until_await_proper : Proper (task_eq ==> eq) (@until_await A).
Proof.
  intros w w'. destruct w as [o|X w p k]; cbn [task_eq]; [by intros ->|].
  by intros (k' & -> & _).
Qed.

#[export] Instance waits_proper r : Proper (task_eq ==> eq) (@waits A r).
Proof.
  intros w w' H. revert w' H. induction w as [o|X w p k IH]; intros w'; cbn [task_eq].
  - by intros ->.
  - intros (k' & -> & Hk). cbn [waits]. f_equal. apply IH, Hk.
Qed.

End task_eq.

(** ** The laws of the monad *)

Section laws.
Context {A B C : Type}.

Lemma task_bind_proper (w w' : task A) (f f' : A -> Async B) :
  task_eq w w' -> (forall a p, task_eq (f a p) (f' a p)) ->
  task_eq (task_bind w f) (task_bind w' f').
Proof.
  intros H Hf. revert w' H. induction w as [[a p|e p]|X w p k IH]; intros w'; cbn [task_eq].
  - intros ->. apply Hf.
  - by intros ->.
  - intros (k' & -> & Hk). cbn [task_bind task_eq]. eexists. split; [done|].
    intros s p'. apply IH, Hk.
Qed.

Lemma task_catch_proper (w w' : task A) (h h' : exn -> Async A) :
  task_eq w w' -> (forall e p, task_eq (h e p) (h' e p)) ->
  task_eq (task_catch w h) (task_catch w' h').
Proof.
  intros H Hh. revert w' H. induction w as [[a p|e p]|X w p k IH]; intros w'; cbn [task_eq].
  - by intros ->.
  - intros ->. apply Hh.
  - intros (k' & -> & Hk). cbn [task_catch task_eq]. eexists. split; [done|].
    intros s p'. apply IH, Hk.
Qed.

Lemma task_bind_ret (w : task A) : task_eq (task_bind w (fun a => now (ret a))) w.
Proof.
  induction w as [[a p|e p]|X w p k IH]; [done|done|].
  cbn [task_bind task_eq]. eexists. split; [done|]. intros s p'. apply IH.
Qed.

Lemma task_bind_assoc (w : task A) (f : A -> Async B) (g : B -> Async C) :
  task_eq (task_bind (task_bind w f) g) (task_bind w (fun a p => task_bind (f a p) g)).
Proof.
  induction w as [[a p|e p]|X w p k IH]; [apply task_eq_refl|done|].
  cbn [task_bind task_eq]. eexists. split; [done|]. intros s p'. apply IH.
Qed.

(** Statements that do not wait run as in the monad of the
    listeners. *)
Lemma task_bind_now (c : D A) (f : A -> D B) p :
  task_bind (now c p) (fun a => now (f a)) = now (bind c f) p.
Proof. unfold now, bind. by destruct (c p). Qed.

Lemma task_catch_now (c : D A) (h : exn -> D A) p :
  task_catch (now c p) (fun e => now (h e)) = now (try_catch c h) p.
Proof. unfold now, try_catch. by destruct (c p). Qed.

(** A computation followed by statements that do not wait ends as the
    computation does, and the statements run on the page it leaves. *)
Lemma finish_bind_now r (w : task A) (c : A -> D B) pages :
  finish r pages (task_bind w (fun a => now (c a))) =
  match finish r pages w with
  | Returns a p => c a p
  | Throws e p => Throws e p
  end.
Proof.
  revert pages. induction w as [[a p|e p]|X w p k IH]; intros pages; [done|done|].
  destruct pages as [|p' pages]; cbn [task_bind finish]; apply IH.
Qed.

End laws.

(** ** Functions made of two parts *)

Lemma until_await_split start resume p : until_await (split start resume p) = start p.
Proof. unfold split. by destruct (start p) as [[url|] p'|e p']. Qed.

Lemma finish_split start resume p r p1 p2 :
  finish r [p1; p2] (split start resume p) = split_outcome (start p) resume r p1 p2.
Proof. unfold split. by destruct (start p) as [[url|] p'|e p'], r. Qed.

Lemma waits_split start resume p r :
  waits r (split start resume p) =
  match start p with
  | Returns (Some _) _ => match r with NetworkError => 1 | _ => 2 end
  | _ => 0
  end.
Proof. unfold split. by destruct (start p) as [[url|] p'|e p'], r. Qed.

Lemma suspended_bind_now url p resume (c : D unit) :
  task_eq (task_bind (suspended url p resume) (fun _ => now c))
         (suspended url p (fun r => resume r ;; c)%js).
Proof.
  assert (forall r p', task_eq (task_bind (Done (resume r p')) (fun _ => now c))
                         (Done ((resume r ;; c)%js p'))) as Hdone.
  { intros r p'. unfold now, bind. by destruct (resume r p'). }
  unfold suspended, reading. cbn [task_bind task_eq]. eexists. split; [done|].
  intros [response|] p1; [|apply Hdone].
  cbn [task_bind task_eq]. eexists. split; [done|].
  intros [data|] p2; apply Hdone.
Qed.

Section parts.
Context {host : Host} {env : Env}.

(** Lines 134 to 144: the results region is found or created and shows
    the loading message. *)
Lemma prepare_run p :
  (found <- results_exists ;;
   (if found then ret tt else create_results) ;;
   set_resultsDiv_innerHTML loading)%js p =
  if is_some (results p) || search_container p
  then Returns tt (set_results (Some [Markup loading]) p)
  else Throws TypeError p.
Proof.
  unfold results_exists, create_results. unfold_monad.
  destruct (results p) eqn:E; cbn [is_some orb]; cbn beta iota.
  - by rewrite set_resultsDiv_innerHTML_run, E.
  - destruct (search_container p); [|done]. by rewrite set_resultsDiv_innerHTML_run.
Qed.

(** The [try] block once the request is sent, and its handler. *)
Lemma try_block_parts url p :
  task_eq
    (acatch
       (response <- fetch url ;;
        data <- await (Reading response) ;;
        now (items <- lift (get data Items) ;; displayResults items)%js)%async
       (fun error => now (report_error error)) p)
    (suspended url (set_log (log p ++ [Fetch url]) p) searchForTextbook_resume).
Proof.
  unfold acatch, abind, fetch, abind, now, await, emit, modify.
  unfold suspended, reading. cbn [task_bind task_catch task_eq]. eexists. split; [done|].
  intros [response|] p1; cbn [task_bind task_catch task_eq]; [|done].
  eexists. split; [done|].
  intros [data|] p2; cbn [task_bind task_catch rejection]; [|done].
  unfold searchForTextbook_resume, await_json, try_catch, bind, ret.
  by destruct (lift (get data Items) p2) as [items p3|e p3];
    [destruct (displayResults items p3)|].
Qed.

(** [searchForTextbook] is its two parts. *)
Lemma searchForTextbook_parts query p :
  task_eq (searchForTextbook query p)
    (match searchForTextbook_start query p with
     | Returns url p' => suspended url p' searchForTextbook_resume
     | Throws e p' => Done (Throws e p')
     end).
Proof.
  rewrite searchForTextbook_start_run. unfold searchForTextbook, abind at 1, now at 1.
  rewrite prepare_run. destruct (is_some (results p) || search_container p); [|done].
  cbn [task_bind]. cbv zeta. apply try_block_parts.
Qed.

(** The submit listener is its two parts. *)
Lemma form_submit_parts f p :
  task_eq (form_submit f p) (split (form_submit_start f) form_submit_resume p).
Proof.
  unfold split. rewrite form_submit_start_run.
  unfold submit_effect, isbn_rejected, searchQuery. cbv zeta.
  unfold form_submit, abind at 1, now at 1, emit at 1, modify. cbn [task_bind]. cbv zeta.
  destruct (str_truthy (trim (f_isbn f)) && negb (isValidISBN (trim (f_isbn f)))); [done|].
  destruct (str_truthy (base_query _ _ _)); [|done]. unfold abind.
  eapply task_eq_trans; [eapply task_bind_proper;
    [apply searchForTextbook_parts|intros; apply task_eq_refl]|].
  rewrite searchForTextbook_start_run. cbn [results search_container set_log].
  destruct (is_some (results p) || search_container p); [|done].
  apply suspended_bind_now.
Qed.

End parts.

(** ** Theorems *)

Section async_theorems.
Context {host : Host} {env : Env}.

(** C12. The submit listener, written in one piece as in the source,
    runs as [form_submit_start] until it returns or is suspended, and
    ends as [form_submit_resume] does on the page found when the
    request has ended, whatever the pages found before. *)
Theorem form_submit_split f p r p1 p2 :
  until_await (form_submit f p) = form_submit_start f p /\
  finish r [p1; p2] (form_submit f p) =
  split_outcome (form_submit_start f p) form_submit_resume r p1 p2.
Proof. by rewrite form_submit_parts, until_await_split, finish_split. Qed.

(** The same for [searchForTextbook]: it throws before its first
    [await] or is suspended with the request sent, and what it does
    then is [searchForTextbook_resume]. *)
Theorem searchForTextbook_split query p r p1 p2 :
  until_await (searchForTextbook query p) =
  (url <- searchForTextbook_start query ;; ret (Some url))%js p /\
  finish r [p1; p2] (searchForTextbook query p) =
  match searchForTextbook_start query p with
  | Returns _ _ => searchForTextbook_resume r (last_turn r p1 p2)
  | Throws e p' => Throws e p'
  end.
Proof.
  rewrite searchForTextbook_parts. unfold bind.
  by destruct (searchForTextbook_start query p), r.
Qed.

(** A submission waits at most twice, for the response and for its
    body; it waits once when the request fails and not at all when no
    request is sent. *)
Theorem form_submit_waits f p r :
  waits r (form_submit f p) =
  match form_submit_start f p with
  | Returns (Some _) _ => match r with NetworkError => 1 | _ => 2 end
  | _ => 0
  end.
Proof. by rewrite form_submit_parts, waits_split. Qed.

(** What a submission does when the request has ended does not depend
    on what was submitted: the rest of the listener holds no value of
    the form. *)
Theorem form_submit_forgets f f' p p' r p1 p2 :
  is_some (requested (form_submit f p)) = true ->
  is_some (requested (form_submit f' p')) = true ->
  finish r [p1; p2] (form_submit f p) = finish r [p1; p2] (form_submit f' p').
Proof.
  assert (forall f p, requested (form_submit f p) =
                      default None (returned (form_submit_start f p))) as Hreq.
  { intros g q. rewrite <- (until_await_split (form_submit_start g) form_submit_resume).
    rewrite <- form_submit_parts. by destruct (form_submit g q) as [[[] ?|? ?]|X w ? ?]. }
  rewrite !Hreq, !form_submit_parts, !finish_split. unfold split_outcome.
  by destruct (form_submit_start f p) as [[?|] ?|? ?],
              (form_submit_start f' p') as [[?|] ?|? ?].
Qed.

End async_theorems.

(** ** Examples *)

Section async_examples.
#[local] Existing Instance v8_host.
#[local] Existing Instance demo_env.

Definition effective : Fields := mkFields [] (lit "Effective") (lit "Bloch") english.

Lemma form_submit_forgets_witness :
  finish BadBody [blank_page; loading_page] (form_submit effective blank_page) =
  finish BadBody [blank_page; loading_page]
    (form_submit (mkFields (lit "0-13-468599-7") [] [] english) loading_page).
Proof. apply (form_submit_forgets (env:=demo_env)); reflexivity. Defined.

(** The user resets the form while the request is under way: the
    answer is rendered into the region the reset has emptied, and the
    log shows the order of what happened. *)
Example reset_while_waiting :
  let w := form_submit effective blank_page in
  let reset := final_state (form_reset (left_by w)) in
  let after := final_state (finish (Json (JObj [])) [left_by w; reset] w) in
  results reset = Some [] /\
  results after = Some (rendering []) /\
  log after =
  [PreventDefault; Fetch (api_url (lit "Effective Bloch textbook pdf"));
   ConsoleLog reset_label; ScrollIntoView].
Proof. by repeat split. Qed.

(** A submission that sends nothing does not wait. *)
Example nothing_to_await :
  waits BadBody (form_submit (mkFields [] [] [] english) blank_page) = 0 /\
  waits NetworkError (form_submit effective blank_page) = 1 /\
  waits BadBody (form_submit effective blank_page) = 2.
Proof. by repeat split. Qed.

End async_examples.
