(* ===== verification/Wire.v ===== *)
(** * The request on the wire

    Line 147 of [src/script.js] says that [encodeURIComponent] makes the
    query fit for a URL; line 148 puts the query into the URL as it is.
    What the search API receives is decided by two parties the script
    only calls: the URL parser behind [fetch], which removes tabs and
    line breaks, cuts the fragment and percent-encodes the UTF-8 bytes
    of the code points a query string may not hold; and the receiver,
    which cuts the query string at [&] and [=], reads [+] as a space and
    decodes the percent escapes.

    This file models both over the encoders of [Encoding], and
    compares the request of line 148 with the request the comment
    describes.  They are the same request for a query without [#],
    [&], [+], tab, line break and percent escape; a [+] in the query
    arrives as a space.  A search for an ISBN that passed the test of
    the listener holds none of these characters.  With the decoder of
    [Utf8] the parameters are read as text: a query without the four
    characters arrives as the string it is, whatever its script. *)

From Stdlib Require Import String.
From S2P Require Import Prelude JsString Regex Isbn JsValue Dom Query Search Url Encoding Utf8.

Local Open Scope N_scope.

(** ** The URL parser *)

(** What the parser keeps in the query string of an [https] URL: the
    controls, the space, the bytes above [~], the two quotes, the hash
    sign and the angle brackets are encoded, every other byte stays. *)
Definition query_keeps (c : N) : bool :=
  negb ((c <=? 32) || (c =? 34) || (c =? 35) || (c =? 39) || (c =? 60)
        || (c =? 62) || (126 <? c)).

Definition is_tab_or_newline (c : code_unit) : bool :=
  (c =? 9) || (c =? 10) || (c =? 13).

Definition is_c0_or_space (c : code_unit) : bool := c <=? 32.

(** A string without its tabs and line breaks. *)
Definition without_tabs (s : jsstring) : jsstring :=
  List.filter (fun c => negb (is_tab_or_newline c)) s.

(** What the parser does to the URL before it reads it: leading and
    trailing controls and spaces are stripped, tabs and line breaks are
    removed wherever they stand. *)
Definition url_input (url : jsstring) : jsstring :=
  without_tabs (strip is_c0_or_space url).

(** The query string of the request that [fetch(url)] sends. *)
Definition request_query (url : jsstring) : list N :=
  percent_encode query_keeps (utf8 (url_search (url_input url))).

(** ** The receiver *)

(** One parameter: a piece cut at its first [=], name and value
    decoded. *)
Definition form_param (piece : list N) : list N * list N :=
  (form_decode (fst (parameter piece)), form_decode (snd (parameter piece))).

(** The parameters of a query string: the pieces between [&] that are
    not empty. *)
Definition form_params (q : list N) : list (list N * list N) :=
  map form_param (List.filter str_truthy (split_on 38 q)).

(** The parameters the receiver reads from the request for a URL. *)
Definition wire_params (url : jsstring) : list (list N * list N) :=
  form_params (request_query url).

(** The parameters as text: names and values decoded from UTF-8,
    [None] for one that is not UTF-8. *)
Definition wire_text (url : jsstring) : list (option jsstring * option jsstring) :=
  map (fun nv => (text_of (fst nv), text_of (snd nv))) (wire_params url).

(** ** The strings of the comparison *)

(** The characters that pass the parser and the receiver as they are:
    those a query string holds, except the percent sign, the ampersand
    and the plus sign. *)
Definition verbatim (c : N) : bool :=
  query_keeps c && is_not 37 c && is_not 38 c && is_not 43 c.

(** The URL the comment of line 147 describes: the template of line
    148 around the encoded query.  [None] is the [URIError] of
    [encodeURIComponent]. *)
Definition api_url_encoded `{Host, Env} (query : jsstring) : option jsstring :=
  option_map api_url (encodeURIComponent query).

(** A string that holds none of the characters the template of line
    148 or the receiver gives a meaning to: [#], [%], [&] and [+]. *)
Definition safe (s : jsstring) : bool :=
  forallb (fun c => is_not 35 c && is_not 37 c && is_not 38 c && is_not 43 c) s.

(** What follows the [?] in the template of line 148, around a query
    and the two values of the build. *)
Definition query_string (query key cx : list N) : list N :=
  lit "q=" ++ query ++ lit "+filetype:pdf&key=" ++ key ++ lit "&cx=" ++ cx.

(** ** Characters that pass as they are *)

Lemma verbatim_char c :
  verbatim c = true ->
  32 < c < 127 /\ query_keeps c = true /\ c <> 35 /\ c <> 37 /\ c <> 38 /\ c <> 43.
Proof. unfold verbatim, query_keeps, is_not. lia. Qed.

Ltac by_char H :=
  revert H; apply forallb_weaken; intros ? ?%verbatim_char;
  unfold is_not, is_tab_or_newline, is_c0_or_space; lia.

Section verbatim.
Context (v : list N) (Hv : forallb verbatim v = true).

Lemma verbatim_ascii : forallb (fun c => c <? 128) v = true.
Proof using Hv. by_char Hv. Qed.

Lemma verbatim_kept : forallb query_keeps v = true.
Proof using Hv. by_char Hv. Qed.

Lemma verbatim_plain : plain v = true.
Proof using Hv. unfold plain. by_char Hv. Qed.

Lemma verbatim_no_amp : forallb (is_not 38) v = true.
Proof using Hv. by_char Hv. Qed.

Lemma verbatim_no_tab : forallb (fun c => negb (is_tab_or_newline c)) v = true.
Proof using Hv. by_char Hv. Qed.

Lemma verbatim_no_space : forallb (fun c => negb (is_c0_or_space c)) v = true.
Proof using Hv. by_char Hv. Qed.

Lemma verbatim_decode : form_decode v = v.
Proof using Hv.
  rewrite form_decode_literal, plus_to_space_id; [done|by_char Hv|by_char Hv|].
  apply no_percent_no_escape. by_char Hv.
Qed.

End verbatim.

(** ** The query string of a search, from the parser to the receiver *)

Lemma str_truthy_app_cons (a : jsstring) c b : str_truthy (a ++ c :: b) = true.
Proof. by destruct a. Qed.

Lemma no_amp_named name value :
  forallb (is_not 38) name = true -> forallb (is_not 38) value = true ->
  forallb (is_not 38) (name ++ 61 :: value) = true.
Proof. intros Hn Hv. rewrite forallb_app, Hn. cbn [forallb andb]. by rewrite Hv. Qed.

Lemma query_string_pieces qs key cx :
  query_string qs key cx =
  join_amp [lit "q" ++ 61 :: qs ++ lit "+filetype:pdf"; lit "key" ++ 61 :: key]
           (lit "cx" ++ 61 :: cx).
Proof.
  unfold query_string, join_amp.
  change (lit "q=") with (lit "q" ++ [61]).
  change (lit "+filetype:pdf&key=") with (lit "+filetype:pdf" ++ 38 :: lit "key" ++ [61]).
  change (lit "&cx=") with (38 :: lit "cx" ++ [61]).
  repeat (rewrite <- ?app_assoc; simpl). done.
Qed.

Lemma query_string_utf8 q key cx :
  forallb verbatim key = true -> forallb verbatim cx = true ->
  utf8 (query_string q key cx) = query_string (utf8 q) key cx.
Proof.
  intros Hk Hc. unfold query_string. apply utf8_between; [done|].
  pieces; try done; by apply verbatim_ascii.
Qed.

Lemma query_string_encode bs key cx :
  forallb verbatim key = true -> forallb verbatim cx = true ->
  percent_encode query_keeps (query_string bs key cx) =
  query_string (percent_encode query_keeps bs) key cx.
Proof.
  intros Hk Hc. unfold query_string. rewrite !percent_encode_app.
  by rewrite (percent_encode_kept _ key), (percent_encode_kept _ cx)
    by by apply verbatim_kept.
Qed.

Lemma query_string_ampersand x y key cx :
  query_string (x ++ 38 :: y) key cx =
  join_amp [lit "q" ++ 61 :: x; y ++ lit "+filetype:pdf"; lit "key" ++ 61 :: key]
           (lit "cx" ++ 61 :: cx).
Proof.
  rewrite query_string_pieces. unfold join_amp. cbn [fold_right].
  by repeat (rewrite <- ?app_assoc; cbn [app]).
Qed.

(** ** The receiver, piece by piece *)

Lemma form_params_join pieces last :
  forallb (forallb (is_not 38)) pieces = true -> forallb (is_not 38) last = true ->
  forallb str_truthy pieces = true -> str_truthy last = true ->
  form_params (join_amp pieces last) = map form_param (pieces ++ [last]).
Proof.
  intros Hp Hl Tp Tl. unfold form_params. rewrite split_on_pieces by done.
  rewrite forallb_filter_id; [done|]. pieces; [done|]. by rewrite forallb_cons, Tl.
Qed.

Lemma parameter_unnamed s : forallb (is_not 61) s = true -> parameter s = (s, []).
Proof.
  intros Hs. unfold parameter. by rewrite take_while_id, (proj2 (drop_while_nil _ _)).
Qed.

Lemma form_param_verbatim name v :
  forallb (is_not 61) name = true -> form_decode name = name ->
  forallb verbatim v = true -> form_param (name ++ 61 :: v) = (name, v).
Proof.
  intros Hn Hd Hv. unfold form_param. rewrite parameter_named by done.
  cbn [fst snd]. by rewrite Hd, verbatim_decode.
Qed.

Section receiver.
Context (keep : N -> bool).
Context (keep_hex : forall c, is_hex c = true -> keep c = true).
Context (bs t : list N).
Context (bytes : forallb (fun b => b <? 256) bs = true).
Context (literal : keep 37 = true -> no_escape (bs ++ t) = true).

(** The encoding of [bs] holds a delimiter only if it was kept. *)
Lemma encoded_free c :
  c <> 37 -> is_hex c = false ->
  forallb (fun b => negb (keep b) || is_not c b) bs = true ->
  forallb (is_not c) t = true ->
  forallb (is_not c) (percent_encode keep bs ++ t) = true.
Proof using bytes.
  intros H37 Hx Hb Ht. pieces; [|done]. apply percent_encode_forall; try done.
  - unfold is_not. apply negb_true_iff, N.eqb_neq. congruence.
  - intros d Hd. unfold is_not. apply negb_true_iff, N.eqb_neq. congruence.
Qed.

Lemma form_param_named name :
  forallb (is_not 61) name = true ->
  form_param (name ++ 61 :: percent_encode keep bs ++ t) =
  (form_decode name, map (received keep) bs ++ form_decode t).
Proof using keep_hex bytes literal.
  intros Hn. unfold form_param. rewrite parameter_named by done. cbn [fst snd].
  by rewrite (form_decode_encode keep keep_hex).
Qed.

Lemma form_param_unnamed :
  forallb (fun b => negb (keep b) || is_not 61 b) bs = true ->
  forallb (is_not 61) t = true ->
  form_param (percent_encode keep bs ++ t) = (map (received keep) bs ++ form_decode t, []).
Proof using keep_hex bytes literal.
  intros Hb Ht. unfold form_param. rewrite parameter_unnamed by by apply encoded_free.
  cbn [fst snd]. by rewrite (form_decode_encode keep keep_hex).
Qed.

End receiver.

Lemma no_escape_filetype bs :
  no_escape bs = true -> no_escape (bs ++ lit "+filetype:pdf") = true.
Proof.
  intros H. change (lit "+filetype:pdf") with (43 :: lit "filetype:pdf").
  by rewrite no_escape_stop, H.
Qed.

Section receiver_query.
Context (keep : N -> bool).
Context (keep_hex : forall c, is_hex c = true -> keep c = true).
Context (key cx : list N).
Context (key_verbatim : forallb verbatim key = true).
Context (cx_verbatim : forallb verbatim cx = true).

(** The receiver reads three parameters, and as the value of [q] the
    bytes that were encoded, when no [&] among them was kept and the
    bytes kept form no escape. *)
Lemma form_params_query_string bs :
  forallb (fun b => b <? 256) bs = true ->
  (keep 37 = true -> no_escape bs = true) ->
  forallb (fun b => negb (keep b) || is_not 38 b) bs = true ->
  form_params (query_string (percent_encode keep bs) key cx) =
  [(lit "q", map (received keep) bs ++ lit " filetype:pdf"); (lit "key", key);
   (lit "cx", cx)].
Proof using keep_hex key_verbatim cx_verbatim.
  intros Hb Hesc Hamp. rewrite query_string_pieces, form_params_join; try done.
  - cbn [app map]. rewrite (form_param_named keep keep_hex), !form_param_verbatim; try done.
    intros H. by apply no_escape_filetype, Hesc.
  - each; apply no_amp_named; [done|by apply encoded_free|done|by apply verbatim_no_amp].
  - apply no_amp_named; [done|by apply verbatim_no_amp].
Qed.

(** The same when an [&] stands between two parts of the query: the
    second part is a parameter of its own, and has no value unless it
    holds an [=]. *)
Lemma form_params_ampersand xs ys :
  forallb (fun b => b <? 256) xs = true -> forallb (fun b => b <? 256) ys = true ->
  (keep 37 = true -> no_escape xs = true) -> (keep 37 = true -> no_escape ys = true) ->
  forallb (fun b => negb (keep b) || is_not 38 b) xs = true ->
  forallb (fun b => negb (keep b) || is_not 38 b) ys = true ->
  forallb (fun b => negb (keep b) || is_not 61 b) ys = true ->
  form_params (query_string (percent_encode keep xs ++ 38 :: percent_encode keep ys) key cx) =
  [(lit "q", map (received keep) xs);
   (map (received keep) ys ++ lit " filetype:pdf", []);
   (lit "key", key); (lit "cx", cx)].
Proof using keep_hex key_verbatim cx_verbatim.
  intros Hx Hy Ex Ey Ax Ay1 Ay2.
  rewrite query_string_ampersand, form_params_join; try done.
  - cbn [app map]. rewrite <- (app_nil_r (percent_encode keep xs)).
    rewrite (form_param_named keep keep_hex), (form_param_unnamed keep keep_hex),
      !form_param_verbatim, ?app_nil_r; try done.
    + intros H. by apply no_escape_filetype, Ey.
    + intros H. rewrite app_nil_r. by apply Ex.
  - rewrite <- (app_nil_r (percent_encode keep xs)).
    each; [apply no_amp_named; [done|by apply encoded_free]
          |by apply encoded_free
          |apply no_amp_named; [done|by apply verbatim_no_amp]].
  - apply no_amp_named; [done|by apply verbatim_no_amp].
  - each; [done| |done]. change (lit "+filetype:pdf") with (43 :: lit "filetype:pdf").
    apply str_truthy_app_cons.
Qed.

(** The same for a query string that ends with the query. *)
Lemma form_params_query bs :
  forallb (fun b => b <? 256) bs = true ->
  (keep 37 = true -> no_escape bs = true) ->
  forallb (fun b => negb (keep b) || is_not 38 b) bs = true ->
  form_params (lit "q=" ++ percent_encode keep bs) = [(lit "q", map (received keep) bs)].
Proof using keep_hex.
  intros Hb Hesc Hamp.
  change (lit "q=" ++ percent_encode keep bs)
    with (join_amp [] (lit "q" ++ 61 :: percent_encode keep bs)).
  rewrite <- (app_nil_r (percent_encode keep bs)), form_params_join; try done.
  - cbn [app map]. rewrite (form_param_named keep keep_hex), ?app_nil_r; try done.
    by rewrite app_nil_r.
  - apply no_amp_named; [done|by apply encoded_free].
Qed.

End receiver_query.

(** ** The URL of a search, read by the parser *)

Lemma query_keeps_hex c : is_hex c = true -> query_keeps c = true.
Proof. unfold is_hex, in_range, query_keeps. lia. Qed.

Lemma received_query_keeps b : received query_keeps b = plus_to_space b.
Proof.
  unfold received, plus_to_space. destruct (query_keeps b) eqn:E; [done|].
  by destruct (N.eqb_spec b 43) as [->|].
Qed.

(** The bytes of a part of the query that holds a delimiter neither
    before nor after the parser encoded it. *)
Lemma sent_free c q :
  c < 128 -> forallb (is_not c) q = true ->
  forallb (fun b => negb (query_keeps b) || is_not c b) (utf8 (without_tabs q)) = true.
Proof.
  intros Hc Hq. apply (forallb_weaken (is_not c)); [intros d ->; apply orb_true_r|].
  by apply utf8_free, forallb_filter_keep.
Qed.

Lemma without_tabs_app a b : without_tabs (a ++ b) = without_tabs a ++ without_tabs b.
Proof. apply List.filter_app. Qed.

Lemma without_tabs_id s :
  forallb (fun c => negb (is_tab_or_newline c)) s = true -> without_tabs s = s.
Proof. apply forallb_filter_id. Qed.

(** ** Safe strings and the queries made of them *)

Lemma safe_app a b : safe (a ++ b) = safe a && safe b.
Proof. apply forallb_app. Qed.

Lemma safe_trim s : safe s = true -> safe (trim s) = true.
Proof. apply forallb_strip. Qed.

Lemma safe_plain s : safe s = true -> plain s = true.
Proof. apply forallb_weaken. intros c. lia. Qed.

Lemma safe_no_plus s : safe s = true -> forallb (is_not 43) s = true.
Proof. apply forallb_weaken. intros c. lia. Qed.

Lemma safe_no_percent s : safe s = true -> forallb (is_not 37) s = true.
Proof. apply forallb_weaken. intros c. lia. Qed.

Lemma add_language_safe q language :
  safe q = true -> safe language = true -> safe (add_language q language) = true.
Proof.
  intros Hq Hl. unfold add_language. destruct (negb _); [|done].
  by rewrite !safe_app, Hq, Hl.
Qed.

Lemma isbn_query_safe isbn :
  safe isbn = true -> safe (dquote ++ isbn ++ dquote ++ textbook_pdf) = true.
Proof. intros H. by rewrite !safe_app, H. Qed.

Lemma searchQuery_safe f q :
  safe (trim (f_isbn f)) = true -> safe (trim (f_title f)) = true ->
  safe (trim (f_author f)) = true -> safe (f_language f) = true ->
  searchQuery f = Some q -> safe q = true.
Proof.
  intros Hi Ht Ha Hl. unfold searchQuery. cbv zeta.
  destruct (str_truthy (base_query _ _ _)); [|done]. intros [= <-].
  apply add_language_safe; [|done]. unfold base_query.
  destruct (str_truthy (trim (f_isbn f))); [by apply isbn_query_safe|].
  destruct (_ || _); [|done]. by rewrite !safe_app, Ht, Ha.
Qed.




Section request.
Context {host : Host} {env : Env}.
Context (key_verbatim : forallb verbatim (env_text VITE_GOOGLE_API_KEY) = true).
Context (cx_verbatim : forallb verbatim (env_text VITE_SEARCH_ENGINE_ID) = true).

Lemma api_url_query_string q :
  api_url q =
  endpoint ++ 63 :: query_string q (env_text VITE_GOOGLE_API_KEY)
                      (env_text VITE_SEARCH_ENGINE_ID).
Proof.
  unfold api_url, query_string.
  change (lit "https://www.googleapis.com/customsearch/v1?q=")
    with (endpoint ++ 63 :: lit "q=").
  by rewrite <- app_assoc.
Qed.

(** The URL starts with a letter and ends with a character of the
    identifier, or with [=]: nothing is stripped. *)
Lemma strip_api_url q : strip is_c0_or_space (api_url q) = api_url q.
Proof using cx_verbatim.
  assert (api_url q =
          104 :: (lit "ttps://www.googleapis.com/customsearch/v1?q=" ++ q ++
                  lit "+filetype:pdf&key=" ++ env_text VITE_GOOGLE_API_KEY ++ lit "&cx") ++
          61 :: env_text VITE_SEARCH_ENGINE_ID) as ->.
  { unfold api_url.
    change (lit "https://www.googleapis.com/customsearch/v1?q=")
      with (104 :: lit "ttps://www.googleapis.com/customsearch/v1?q=").
    change (lit "&cx=") with (lit "&cx" ++ [61]).
    by rewrite <- !app_assoc. }
  apply strip_between; [done|done|]. rewrite forallb_cons.
  by rewrite verbatim_no_space.
Qed.

Lemma without_tabs_api_url q : without_tabs (api_url q) = api_url (without_tabs q).
Proof using key_verbatim cx_verbatim.
  unfold api_url. rewrite !without_tabs_app.
  by rewrite (without_tabs_id (env_text VITE_GOOGLE_API_KEY)),
    (without_tabs_id (env_text VITE_SEARCH_ENGINE_ID)) by by apply verbatim_no_tab.
Qed.

Lemma url_input_api_url q : url_input (api_url q) = api_url (without_tabs q).
Proof using key_verbatim cx_verbatim.
  transitivity (without_tabs (api_url q)); [|apply without_tabs_api_url].
  apply (f_equal without_tabs), strip_api_url.
Qed.

Lemma url_search_api_url q :
  forallb (is_not 35) q = true ->
  url_search (api_url q) =
  query_string q (env_text VITE_GOOGLE_API_KEY) (env_text VITE_SEARCH_ENGINE_ID).
Proof using key_verbatim cx_verbatim.
  intros Hq. rewrite api_url_query_string. apply url_search_app; [done|].
  rewrite forallb_app, forallb_cons. unfold query_string.
  pieces; try done; by apply plain_no_hash, verbatim_plain.
Qed.

(** The query string of the request: the template around the bytes of
    the query, encoded by the parser. *)
Lemma request_query_api_url q :
  forallb (is_not 35) q = true ->
  request_query (api_url q) =
  query_string (percent_encode query_keeps (utf8 (without_tabs q)))
    (env_text VITE_GOOGLE_API_KEY) (env_text VITE_SEARCH_ENGINE_ID).
Proof using key_verbatim cx_verbatim.
  intros Hq. unfold request_query.
  rewrite url_input_api_url, url_search_api_url, query_string_utf8, query_string_encode;
    try done.
  by apply forallb_filter_keep.
Qed.

Lemma sent_params q :
  plain q = true -> no_escape (without_tabs q) = true ->
  form_params (request_query (api_url q)) =
  [(lit "q", map plus_to_space (utf8 (without_tabs q)) ++ lit " filetype:pdf");
   (lit "key", env_text VITE_GOOGLE_API_KEY);
   (lit "cx", env_text VITE_SEARCH_ENGINE_ID)].
Proof using key_verbatim cx_verbatim.
  intros Hq He. rewrite request_query_api_url by by apply plain_no_hash.
  rewrite (form_params_query_string query_keeps query_keeps_hex); try done.
  - by rewrite (map_ext _ _ received_query_keeps).
  - apply utf8_bytes.
  - by rewrite no_escape_utf8.
  - by apply sent_free, plain_no_amp.
Qed.

Lemma sent_params_ampersand a b :
  plain a = true -> plain b = true -> forallb (is_not 61) b = true ->
  no_escape (without_tabs a) = true -> no_escape (without_tabs b) = true ->
  form_params (request_query (api_url (a ++ 38 :: b))) =
  [(lit "q", map plus_to_space (utf8 (without_tabs a)));
   (map plus_to_space (utf8 (without_tabs b)) ++ lit " filetype:pdf", []);
   (lit "key", env_text VITE_GOOGLE_API_KEY);
   (lit "cx", env_text VITE_SEARCH_ENGINE_ID)].
Proof using key_verbatim cx_verbatim.
  intros Ha Hb Heq Ea Eb. rewrite request_query_api_url.
  - rewrite without_tabs_app. change (without_tabs (38 :: b)) with (38 :: without_tabs b).
    rewrite utf8_app, utf8_ascii_cons, percent_encode_app, percent_encode_cons by done.
    change (query_keeps 38) with true. cbn [app].
    rewrite (form_params_ampersand query_keeps query_keeps_hex);
      rewrite ?no_escape_utf8;
      try first [done | apply utf8_bytes
                | apply sent_free; [done|]; first [done | by apply plain_no_amp]].
    by rewrite !(map_ext _ _ received_query_keeps).
  - pieces; [by apply plain_no_hash|]. rewrite forallb_cons. by rewrite plain_no_hash.
Qed.

(** A query without [#], [%], [&] and [+] arrives as it is. *)
Lemma sent_params_safe q :
  safe q = true ->
  form_params (request_query (api_url q)) =
  [(lit "q", utf8 (without_tabs q) ++ lit " filetype:pdf");
   (lit "key", env_text VITE_GOOGLE_API_KEY);
   (lit "cx", env_text VITE_SEARCH_ENGINE_ID)].
Proof using key_verbatim cx_verbatim.
  intros Hq. rewrite sent_params, plus_to_space_id; [done| |by apply safe_plain|].
  - apply utf8_free, forallb_filter_keep; [done|]. by apply safe_no_plus.
  - apply no_percent_no_escape, forallb_filter_keep. by apply safe_no_percent.
Qed.

(** The query string of a search whose query holds a [#]. *)
Lemma url_search_fragment a b :
  forallb (is_not 35) a = true ->
  url_search (api_url (a ++ 35 :: b)) = lit "q=" ++ a.
Proof.
  intros Ha. rewrite api_url_query_string. unfold url_search, without_fragment, query_string.
  replace (endpoint ++ 63 :: lit "q=" ++ (a ++ 35 :: b) ++
           lit "+filetype:pdf&key=" ++ env_text VITE_GOOGLE_API_KEY ++
           lit "&cx=" ++ env_text VITE_SEARCH_ENGINE_ID)
    with ((endpoint ++ 63 :: lit "q=" ++ a) ++ 35 ::
          b ++ lit "+filetype:pdf&key=" ++ env_text VITE_GOOGLE_API_KEY ++
          lit "&cx=" ++ env_text VITE_SEARCH_ENGINE_ID)
    by (by rewrite <- !app_assoc).
  rewrite take_while_app_stop; [|by pieces|done].
  by rewrite drop_while_app_stop, (proj2 (drop_while_nil _ _)).
Qed.

Lemma sent_params_fragment a b :
  plain a = true -> no_escape (without_tabs a) = true ->
  form_params (request_query (api_url (a ++ 35 :: b))) =
  [(lit "q", map plus_to_space (utf8 (without_tabs a)))].
Proof using key_verbatim cx_verbatim.
  intros Ha He. unfold request_query.
  rewrite url_input_api_url, without_tabs_app.
  change (without_tabs (35 :: b)) with (35 :: without_tabs b).
  rewrite url_search_fragment by by apply forallb_filter_keep, plain_no_hash.
  rewrite utf8_ascii_app, percent_encode_app by done.
  change (percent_encode query_keeps (lit "q=")) with (lit "q=").
  rewrite (form_params_query query_keeps query_keeps_hex).
  - by rewrite (map_ext _ _ received_query_keeps).
  - apply utf8_bytes.
  - by rewrite no_escape_utf8.
  - by apply sent_free, plain_no_amp.
Qed.

(** ** The URL the comment describes *)

Lemma encoded_plain q : plain (percent_encode unreserved (utf8 q)) = true.
Proof.
  apply encoded_forall; [done|]. intros c Hc%unreserved_char. unfold is_not. lia.
Qed.

Lemma encoded_no_tab q :
  without_tabs (percent_encode unreserved (utf8 q)) = percent_encode unreserved (utf8 q).
Proof.
  apply without_tabs_id, encoded_forall; [done|].
  intros c Hc%unreserved_char. unfold is_tab_or_newline. lia.
Qed.

Lemma encoded_ascii q :
  utf8 (percent_encode unreserved (utf8 q)) = percent_encode unreserved (utf8 q).
Proof. apply utf8_ascii, encoded_forall; [done|]. intros c Hc%unreserved_char. lia. Qed.

(** The parser encodes nothing twice, and one character more: the
    apostrophe. *)
Lemma encoded_request q :
  request_query (api_url (percent_encode unreserved (utf8 q))) =
  query_string (percent_encode (fun b => unreserved b && query_keeps b) (utf8 q))
    (env_text VITE_GOOGLE_API_KEY) (env_text VITE_SEARCH_ENGINE_ID).
Proof using key_verbatim cx_verbatim.
  rewrite request_query_api_url by apply plain_no_hash, encoded_plain.
  rewrite encoded_no_tab, encoded_ascii.
  by rewrite percent_encode_twice;
    [|done|apply query_keeps_hex|apply utf8_bytes].
Qed.

Lemma encoded_params q :
  form_params (request_query (api_url (percent_encode unreserved (utf8 q)))) =
  [(lit "q", utf8 q ++ lit " filetype:pdf");
   (lit "key", env_text VITE_GOOGLE_API_KEY);
   (lit "cx", env_text VITE_SEARCH_ENGINE_ID)].
Proof using key_verbatim cx_verbatim.
  rewrite encoded_request.
  rewrite (form_params_query_string (fun b => unreserved b && query_keeps b)); try done.
  - rewrite (map_ext _ id), map_id; [done|]. intros b. unfold received.
    destruct (unreserved b) eqn:E; [|done]. apply unreserved_char in E.
    destruct (query_keeps b); [|done]. unfold plus_to_space.
    by destruct (N.eqb_spec b 43); [lia|].
  - intros c Hc. rewrite query_keeps_hex, andb_true_r by done.
    unfold is_hex, unreserved, in_range in *. lia.
  - apply utf8_bytes.
  - apply forallb_always. intros b. destruct (unreserved b) eqn:E; [|done].
    apply unreserved_char in E. unfold is_not. destruct (query_keeps b); simpl; lia.
Qed.

(** ** Theorems *)

(** C29. What the search API receives for the URL of line 148, when
    the query holds no [#], no [&] and, tabs and line breaks apart, no
    percent escape, and the two values of the build pass as they are:
    three parameters, of which [q] is the UTF-8 of the query without
    its tabs and line breaks, every [+] of it read as a space, followed
    by a space and the file-type filter. *)
Theorem wire_params_api_url q :
  plain q = true -> no_escape (without_tabs q) = true ->
  wire_params (api_url q) =
  [(lit "q", map plus_to_space (utf8 (without_tabs q)) ++ lit " filetype:pdf");
   (lit "key", env_text VITE_GOOGLE_API_KEY);
   (lit "cx", env_text VITE_SEARCH_ENGINE_ID)].
Proof using key_verbatim cx_verbatim. apply sent_params. Qed.

(** With [encodeURIComponent], as the comment of line 147 has it,
    the search API receives the query itself, whatever characters it
    holds, provided it holds no lone surrogate; the call throws
    otherwise. *)
Theorem wire_params_encoded q :
  option_map wire_params (api_url_encoded q) =
  if well_formed q
  then Some [(lit "q", utf8 q ++ lit " filetype:pdf");
             (lit "key", env_text VITE_GOOGLE_API_KEY);
             (lit "cx", env_text VITE_SEARCH_ENGINE_ID)]
  else None.
Proof using key_verbatim cx_verbatim.
  unfold api_url_encoded, encodeURIComponent. destruct (well_formed q); [|done].
  cbn [option_map]. f_equal. apply encoded_params.
Qed.

(** The request of line 148 is the request the comment of line
    147 describes for every query without [#], [&], [+], tab, line
    break, percent escape and lone surrogate. *)
Theorem api_url_as_commented q :
  plain q = true ->
  forallb (fun c => negb (is_tab_or_newline c) && is_not 43 c) q = true ->
  no_escape q = true -> well_formed q = true ->
  option_map wire_params (api_url_encoded q) = Some (wire_params (api_url q)).
Proof using key_verbatim cx_verbatim.
  intros Hp Hq He Hw. unfold api_url_encoded, encodeURIComponent, wire_params.
  rewrite Hw. cbn [option_map]. f_equal.
  assert (without_tabs q = q) as Ht.
  { apply without_tabs_id. revert Hq. apply forallb_weaken. intros c. lia. }
  rewrite encoded_params, sent_params, Ht by (by rewrite ?Ht).
  rewrite plus_to_space_id; [done|]. apply utf8_free; [done|].
  revert Hq. apply forallb_weaken. intros c. lia.
Qed.

(** C38. A [#] in the query ends the request: the search API receives
    what precedes it as [q], without the file-type filter, and neither
    the key nor the identifier of the search engine. *)
Theorem wire_params_fragment a b :
  plain a = true -> no_escape (without_tabs a) = true ->
  wire_params (api_url (a ++ lit "#" ++ b)) =
  [(lit "q", map plus_to_space (utf8 (without_tabs a)))].
Proof using key_verbatim cx_verbatim. apply sent_params_fragment. Qed.

(** C35. An [&] in the query ends the [q] parameter: the search API
    receives what precedes it as [q] and what follows it, with the
    file-type filter, as the name of a parameter of its own. *)
Theorem wire_params_ampersand a b :
  plain a = true -> plain b = true -> forallb (is_not 61) b = true ->
  no_escape (without_tabs a) = true -> no_escape (without_tabs b) = true ->
  wire_params (api_url (a ++ lit "&" ++ b)) =
  [(lit "q", map plus_to_space (utf8 (without_tabs a)));
   (map plus_to_space (utf8 (without_tabs b)) ++ lit " filetype:pdf", []);
   (lit "key", env_text VITE_GOOGLE_API_KEY);
   (lit "cx", env_text VITE_SEARCH_ENGINE_ID)].
Proof using key_verbatim cx_verbatim. apply sent_params_ampersand. Qed.

(** From the form to the search API: when no field holds [#],
    [%], [&] or [+], the API is asked for the query the listener
    built, in UTF-8 and without its tabs and line breaks, and the
    file-type filter. *)
Theorem search_arrives f q :
  safe (f_isbn f) = true -> safe (f_title f) = true -> safe (f_author f) = true ->
  safe (f_language f) = true -> searchQuery f = Some q ->
  wire_params (api_url q) =
  [(lit "q", utf8 (without_tabs q) ++ lit " filetype:pdf");
   (lit "key", env_text VITE_GOOGLE_API_KEY);
   (lit "cx", env_text VITE_SEARCH_ENGINE_ID)].
Proof using key_verbatim cx_verbatim.
  intros Hi Ht Ha Hl Hq. apply sent_params_safe.
  by apply (searchQuery_safe f); rewrite ?safe_trim.
Qed.


(** The text of the query that arrives: the string without its tabs
    and line breaks, with U+FFFD for a surrogate without its partner,
    and the file-type filter. *)
Lemma text_of_query q :
  code_units q = true ->
  text_of (utf8 (without_tabs q) ++ lit " filetype:pdf") =
  Some (toWellFormed (without_tabs q) ++ lit " filetype:pdf").
Proof.
  intros Hq. apply text_of_app; [|by apply text_of_ascii].
  apply text_of_utf8. by apply forallb_filter_keep.
Qed.

(** The parameters as text, for a query without [#], [%], [&] and
    [+]. *)
Lemma sent_text_safe q :
  safe q = true -> code_units q = true ->
  wire_text (api_url q) =
  [(Some (lit "q"), Some (toWellFormed (without_tabs q) ++ lit " filetype:pdf"));
   (Some (lit "key"), Some (env_text VITE_GOOGLE_API_KEY));
   (Some (lit "cx"), Some (env_text VITE_SEARCH_ENGINE_ID))].
Proof using key_verbatim cx_verbatim.
  intros Hs Hq. unfold wire_text, wire_params. rewrite sent_params_safe by done.
  cbn [map fst snd].
  by rewrite text_of_query, !text_of_ascii by (done || by apply verbatim_ascii).
Qed.

(** C30. What the search API reads, as text, for a query without [#],
    [%], [&] and [+]: the query in whatever script it is written, less
    its tabs and line breaks, and the file-type filter. *)
Theorem query_text_arrives q :
  safe q = true -> code_units q = true ->
  wire_text (api_url q) =
  [(Some (lit "q"), Some (toWellFormed (without_tabs q) ++ lit " filetype:pdf"));
   (Some (lit "key"), Some (env_text VITE_GOOGLE_API_KEY));
   (Some (lit "cx"), Some (env_text VITE_SEARCH_ENGINE_ID))].
Proof using key_verbatim cx_verbatim. apply sent_text_safe. Qed.

(** A well-formed query without these characters, tabs and line
    breaks is read by the search API as it was built. *)
Theorem query_text_as_built q :
  safe q = true -> code_units q = true -> well_formed q = true ->
  forallb (fun c => negb (is_tab_or_newline c)) q = true ->
  wire_text (api_url q) =
  [(Some (lit "q"), Some (q ++ lit " filetype:pdf"));
   (Some (lit "key"), Some (env_text VITE_GOOGLE_API_KEY));
   (Some (lit "cx"), Some (env_text VITE_SEARCH_ENGINE_ID))].
Proof using key_verbatim cx_verbatim.
  intros Hs Hq Hw Ht. by rewrite sent_text_safe, without_tabs_id, toWellFormed_id.
Qed.

End request.

(** ** Witnesses and examples *)

Section wire_witnesses.
#[local] Existing Instance v8_host.
#[local] Existing Instance demo_env.

Lemma wire_params_api_url_witness :
  wire_params (api_url (lit "C++ Primer  textbook pdf")) =
  [(lit "q", lit "C   Primer  textbook pdf filetype:pdf");
   (lit "key", lit "KEY"); (lit "cx", lit "CX")].
Proof. apply (wire_params_api_url (env:=demo_env)); reflexivity. Defined.

Lemma wire_params_encoded_witness :
  option_map wire_params (api_url_encoded (lit "C++ & C#: 100%")) =
  Some [(lit "q", lit "C++ & C#: 100% filetype:pdf");
        (lit "key", lit "KEY"); (lit "cx", lit "CX")].
Proof.
  apply (wire_params_encoded (env:=demo_env) eq_refl eq_refl (lit "C++ & C#: 100%")).
Defined.

Lemma api_url_as_commented_witness :
  option_map wire_params (api_url_encoded (lit "Effective Java Bloch textbook pdf")) =
  Some (wire_params (api_url (lit "Effective Java Bloch textbook pdf"))).
Proof. apply (api_url_as_commented (env:=demo_env)); reflexivity. Defined.

Lemma wire_params_fragment_witness :
  wire_params (api_url (lit "C" ++ lit "#" ++ lit " in Depth  textbook pdf")) =
  [(lit "q", lit "C")].
Proof. apply (wire_params_fragment (env:=demo_env)); reflexivity. Defined.

Lemma wire_params_ampersand_witness :
  wire_params (api_url (lit "AT" ++ lit "&" ++ lit "T manual  textbook pdf")) =
  [(lit "q", lit "AT"); (lit "T manual  textbook pdf filetype:pdf", []);
   (lit "key", lit "KEY"); (lit "cx", lit "CX")].
Proof. apply (wire_params_ampersand (env:=demo_env)); reflexivity. Defined.

Lemma search_arrives_witness :
  wire_params (api_url (lit "Effective Java Bloch textbook pdf spanish")) =
  [(lit "q", lit "Effective Java Bloch textbook pdf spanish filetype:pdf");
   (lit "key", lit "KEY"); (lit "cx", lit "CX")].
Proof.
  apply (search_arrives (env:=demo_env) eq_refl eq_refl
           (mkFields [] (lit " Effective Java") (lit "Bloch ") (lit "spanish")));
    reflexivity.
Defined.


Lemma query_text_arrives_witness :
  wire_text (api_url ([1050; 1085; 1080; 1075; 1072; 9] ++ lit " textbook pdf")) =
  [(Some (lit "q"), Some ([1050; 1085; 1080; 1075; 1072] ++ lit " textbook pdf filetype:pdf"));
   (Some (lit "key"), Some (lit "KEY")); (Some (lit "cx"), Some (lit "CX"))].
Proof.
  apply (query_text_arrives (env:=demo_env) eq_refl eq_refl
           ([1050; 1085; 1080; 1075; 1072; 9] ++ lit " textbook pdf")); reflexivity.
Defined.

Lemma query_text_as_built_witness :
  wire_text (api_url (lit "Les Mis" ++ [233] ++ lit "rables textbook pdf")) =
  [(Some (lit "q"), Some ((lit "Les Mis" ++ [233] ++ lit "rables textbook pdf") ++
                          lit " filetype:pdf"));
   (Some (lit "key"), Some (lit "KEY")); (Some (lit "cx"), Some (lit "CX"))].
Proof.
  apply (query_text_as_built (env:=demo_env) eq_refl eq_refl
           (lit "Les Mis" ++ [233] ++ lit "rables textbook pdf")); reflexivity.
Defined.

(** A percent escape in a title may leave bytes that are no text. *)
Example escape_is_no_text :
  wire_text (api_url (lit "100%E9 textbook pdf")) =
  [(Some (lit "q"), None); (Some (lit "key"), Some (lit "KEY"));
   (Some (lit "cx"), Some (lit "CX"))].
Proof. reflexivity. Qed.

(** A search for an ISBN, as the search API reads it. *)
Example isbn_request :
  option_map (fun q => wire_params (api_url q))
    (searchQuery (mkFields (lit "978-0-13-468599-1") [] [] english)) =
  Some [(lit "q", [34] ++ lit "978-0-13-468599-1" ++ [34] ++ lit " textbook pdf filetype:pdf");
        (lit "key", lit "KEY"); (lit "cx", lit "CX")].
Proof. reflexivity. Qed.

(** A title with a [+]: the search is for other words. *)
Example plus_in_title :
  option_map (fun q => wire_params (api_url q))
    (searchQuery (mkFields [] (lit "C++ Primer") [] english)) =
  Some [(lit "q", lit "C   Primer  textbook pdf filetype:pdf");
        (lit "key", lit "KEY"); (lit "cx", lit "CX")].
Proof. reflexivity. Qed.

(** A percent sign before two hexadecimal digits is read as an
    escape. *)
Example escape_in_title :
  option_map (fun q => wire_params (api_url q))
    (searchQuery (mkFields [] (lit "Save 20%CAD") [] english)) =
  Some [(lit "q", lit "Save 20" ++ [202] ++ lit "D  textbook pdf filetype:pdf");
        (lit "key", lit "KEY"); (lit "cx", lit "CX")].
Proof. reflexivity. Qed.

(** A title that is not ASCII arrives as its UTF-8: the parser
    encodes what the script did not. *)
Example accent_in_title :
  option_map (fun q => wire_params (api_url q))
    (searchQuery (mkFields [] (lit "Alg" ++ [232] ++ lit "bre") [] english)) =
  Some [(lit "q", lit "Alg" ++ [195; 168] ++ lit "bre  textbook pdf filetype:pdf");
        (lit "key", lit "KEY"); (lit "cx", lit "CX")].
Proof. reflexivity. Qed.

(** A lone surrogate: [encodeURIComponent] throws, the parser sends
    the replacement character. *)
Example lone_surrogate :
  api_url_encoded [55357] = None /\
  wire_params (api_url [55357]) =
  [(lit "q", [239; 191; 189] ++ lit " filetype:pdf");
   (lit "key", lit "KEY"); (lit "cx", lit "CX")].
Proof. by split. Qed.

End wire_witnesses.
