(* ===== verification/Wiring.v ===== *)
(** * Start-up: the listener of [DOMContentLoaded]

    The outermost function of [src/script.js] (lines 3 to 114) looks up
    the elements of the page and registers the seven listeners, one
    statement after the other.  A lookup that finds nothing gives
    [null], and the next use of that [null] throws: the statements after
    it never run.  This file models which listeners are registered, as
    a function of the elements the page has, and shows that the search
    form is wired only on a page that also has the elements of the
    about dialog. *)

From Stdlib Require Import String.
From S2P Require Import Prelude JsString JsValue.

(** ** The page's elements and the script's listeners *)

(** The elements the script looks up, by the selector it uses. *)
Inductive element : Type :=
| El_aboutModal      (* getElementById('aboutModal') *)
| El_aboutLink       (* getElementById('aboutLink') *)
| El_close           (* modal.querySelector('.close') *)
| El_search_form     (* document.querySelector('.search-form') *)
| El_reset_button    (* form.querySelector('button[type="reset"]') *)
| El_isbn.           (* form.querySelector('#isbn') *)

#[export] Instance element_eq_dec : EqDecision element.
Proof. solve_decision. Defined.

(** Which of them the page has. *)
Definition Doc : Type := element -> bool.

(** The listeners, in the order of their registration. *)
Inductive listener : Type :=
| On_aboutLink_click
| On_closeBtn_click
| On_window_click
| On_document_keydown
| On_isbnInput_input
| On_form_reset
| On_form_submit.

#[export] Instance listener_eq_dec : EqDecision listener.
Proof. solve_decision. Defined.

Definition all_listeners : list listener :=
  [On_aboutLink_click; On_closeBtn_click; On_window_click; On_document_keydown;
   On_isbnInput_input; On_form_reset; On_form_submit].

(** ** The function *)

(** The state of the start-up is the list of listeners registered so
    far. *)
Definition W (A : Type) : Type := M (list listener) exn A.

Local Open Scope js_scope.

(** [document.getElementById] and [document.querySelector]: the
    element, or [null]. *)
Definition getElementById (d : Doc) (e : element) : option element :=
  if d e then Some e else None.

(** [parent.querySelector(...)]: a [TypeError] when [parent] is
    [null]. *)
Definition querySelector (d : Doc) (parent : option element) (e : element)
    : W (option element) :=
  match parent with
  | None => throw TypeError
  | Some _ => ret (getElementById d e)
  end.

(** [target.addEventListener(...)]: a [TypeError] when [target] is
    [null]. *)
Definition addEventListener (target : option element) (l : listener) : W unit :=
  match target with
  | None => throw TypeError
  | Some _ => modify (fun ls => ls ++ [l])
  end.

(** [window.addEventListener] and [document.addEventListener]: the
    target always exists. *)
Definition global_addEventListener (l : listener) : W unit :=
  modify (fun ls => ls ++ [l]).

Definition DOMContentLoaded (d : Doc) : W unit :=
  let modal := getElementById d El_aboutModal in
  let aboutLink := getElementById d El_aboutLink in
  closeBtn <- querySelector d modal El_close ;;
  addEventListener aboutLink On_aboutLink_click ;;
  addEventListener closeBtn On_closeBtn_click ;;
  global_addEventListener On_window_click ;;
  global_addEventListener On_document_keydown ;;
  let form := getElementById d El_search_form in
  resetButton <- querySelector d form El_reset_button ;;
  isbnInput <- querySelector d form El_isbn ;;
  addEventListener isbnInput On_isbnInput_input ;;
  addEventListener form On_form_reset ;;
  addEventListener form On_form_submit.

(** The listeners registered when the document is loaded. *)
Definition registered (d : Doc) : list listener :=
  final_state (DOMContentLoaded d []).

(** ** What the page needs *)

(** The elements of the about dialog, and those of the form. *)
Definition has_modal (d : Doc) : bool :=
  d El_aboutModal && d El_aboutLink && d El_close.

Definition has_form (d : Doc) : bool := d El_search_form && d El_isbn.

(** A document with all the elements, and one without an element. *)
Definition full_doc : Doc := fun _ => true.

Definition without (e : element) (d : Doc) : Doc :=
  fun e' => if decide (e' = e) then false else d e'.

(** ** Theorems *)

(** The start-up has four outcomes: without the dialog or its link
    nothing is registered; without its close control only the listener
    of the link; without the form or its ISBN field the four listeners
    of the dialog; otherwise all seven. *)
Lemma DOMContentLoaded_run d :
  DOMContentLoaded d [] =
  if negb (d El_aboutModal && d El_aboutLink) then Throws TypeError []
  else if negb (d El_close) then Throws TypeError [On_aboutLink_click]
  else if negb (has_form d) then Throws TypeError (take 4 all_listeners)
  else Returns tt all_listeners.
Proof.
  unfold DOMContentLoaded, has_form, querySelector, addEventListener,
    global_addEventListener, getElementById. unfold_monad.
  destruct (d El_aboutModal), (d El_aboutLink), (d El_close),
    (d El_search_form), (d El_isbn); reflexivity.
Qed.

Lemma registered_cases d :
  registered d =
  if negb (d El_aboutModal && d El_aboutLink) then []
  else if negb (d El_close) then [On_aboutLink_click]
  else if negb (has_form d) then take 4 all_listeners
  else all_listeners.
Proof.
  unfold registered. rewrite DOMContentLoaded_run.
  by repeat match goal with |- context [if ?b then _ else _] => destruct b end.
Qed.

(** The start-up returns exactly on a page that has the elements of the
    dialog and those of the form; all seven listeners are registered
    then, and otherwise it throws a [TypeError]. *)
Theorem DOMContentLoaded_returns d :
  DOMContentLoaded d [] = Returns tt all_listeners <->
  has_modal d = true /\ has_form d = true.
Proof.
  rewrite DOMContentLoaded_run. unfold has_modal, has_form.
  destruct (d El_aboutModal), (d El_aboutLink), (d El_close),
    (d El_search_form), (d El_isbn); simpl; intuition congruence.
Qed.

Theorem DOMContentLoaded_throws d :
  has_modal d && has_form d = false ->
  thrown (DOMContentLoaded d []) = Some TypeError.
Proof.
  rewrite DOMContentLoaded_run. unfold has_modal, has_form.
  by destruct (d El_aboutModal), (d El_aboutLink), (d El_close),
    (d El_search_form), (d El_isbn).
Qed.

Lemma DOMContentLoaded_throws_witness :
  thrown (DOMContentLoaded (without El_close full_doc) []) = Some TypeError.
Proof. apply DOMContentLoaded_throws. reflexivity. Defined.

(** Listeners are registered in the order of the source, so what is
    registered is always an initial part of the seven. *)
Theorem registered_prefix d : registered d `prefix_of` all_listeners.
Proof.
  rewrite registered_cases.
  repeat match goal with |- context [if ?b then _ else _] => destruct b end;
    [by exists all_listeners|by eexists|by eexists|by exists []].
Qed.

(** The form is wired only if the dialog is: the submissions of a page
    without the about dialog, its link or its close control are not
    handled by the script at all. *)
Theorem search_needs_modal d :
  In On_form_submit (registered d) <-> has_modal d = true /\ has_form d = true.
Proof.
  rewrite registered_cases. unfold has_modal, has_form.
  destruct (d El_aboutModal), (d El_aboutLink), (d El_close),
    (d El_search_form), (d El_isbn); simpl; intuition congruence.
Qed.

(** The dialog does not need the form: its four listeners are
    registered whenever its three elements are there. *)
Theorem modal_wired d :
  has_modal d = true -> take 4 all_listeners `prefix_of` registered d.
Proof.
  rewrite registered_cases. unfold has_modal.
  destruct (d El_aboutModal), (d El_aboutLink), (d El_close); try done.
  simpl. intros _. destruct (has_form d); simpl; [by eexists|by exists []].
Qed.

Lemma modal_wired_witness :
  take 4 all_listeners `prefix_of` registered (without El_isbn full_doc).
Proof. apply modal_wired. reflexivity. Defined.

(** The reset button is looked up (line 41) and never used: whether
    the page has one makes no difference. *)
Theorem reset_button_unused d :
  DOMContentLoaded (without El_reset_button d) [] = DOMContentLoaded d [].
Proof. by rewrite !DOMContentLoaded_run. Qed.

(** A dialog that can be opened and not dismissed: without the close
    control the listener of the link is the only one registered, so
    neither the backdrop nor the Escape key closes the dialog. *)
Example registered_without_close :
  registered (without El_close full_doc) = [On_aboutLink_click].
Proof. reflexivity. Qed.

Example registered_full : registered full_doc = all_listeners.
Proof. reflexivity. Qed.
