(* ===== verification/App.v ===== *)
(** * The page as a whole: events, requests in flight, interleavings

    After [DOMContentLoaded] the script only reacts: to clicks and key
    presses (the modal controller), to input in the ISBN field, to the
    reset and the submission of the form, and to the end of a request
    it sent.  [app_step] runs the listener of one event; a state holds
    the page, the requests in flight and the exceptions no listener
    caught.  Responses arrive in any order, so a trace is any sequence
    of events in which a delivery names a request in flight.

    [app_step] is the page on which the start-up registered every
    listener; the general case is in [Dispatch]. *)

From Stdlib Require Import String Wf_nat.
From S2P Require Import Prelude JsString JsValue Dom Modal Query Render Search.

(** ** States and events *)

Inductive event : Type :=
| Ui (ev : modal_event)            (* a click or a key press *)
| Input (value : jsstring)         (* input in the ISBN field, with its value *)
| Reset                            (* the form is reset *)
| Submit (f : Fields)              (* the form is submitted, with its fields *)
| Deliver (i : nat) (r : response). (* the i-th request in flight ends with r *)

Record App : Type := mkApp {
  page : Page;
  inflight : list jsstring;   (* the URLs of the requests awaited, oldest first *)
  unhandled : list exn        (* the exceptions that escaped a listener *)
}.

Section app.
Context {host : Host} {env : Env}.

(** ** One event *)

(** A listener that runs to its end: an exception it does not catch
    is reported by the browser and the page stays as the listener left
    it. *)
Definition run_listener (c : D unit) (a : App) : App :=
  match c (page a) with
  | Returns _ p' => mkApp p' (inflight a) (unhandled a)
  | Throws e p' => mkApp p' (inflight a) (unhandled a ++ [e])
  end.

(** The submit listener up to its suspension: a request it sent joins
    the requests in flight. *)
Definition submit (f : Fields) (a : App) : App :=
  match form_submit_start f (page a) with
  | Returns (Some url) p' => mkApp p' (inflight a ++ [url]) (unhandled a)
  | Returns None p' => mkApp p' (inflight a) (unhandled a)
  | Throws e p' => mkApp p' (inflight a) (unhandled a ++ [e])
  end.

(** The end of the [i]-th request in flight: the submit listener that
    awaits it resumes. *)
Definition deliver (i : nat) (r : response) (a : App) : App :=
  match inflight a !! i with
  | Some _ =>
      run_listener (form_submit_resume r)
        (mkApp (page a) (delete i (inflight a)) (unhandled a))
  | None => a
  end.

Definition app_step (ev : event) (a : App) : App :=
  match ev with
  | Ui m => run_listener (modal_handle m) a
  | Input value => run_listener (isbnInput_input value) a
  | Reset => run_listener form_reset a
  | Submit f => submit f a
  | Deliver i r => deliver i r a
  end.

(** ** Traces *)

(** Every event can occur at any time, except that only a request in
    flight can end. *)
Definition enabled (ev : event) (a : App) : Prop :=
  match ev with
  | Deliver i _ => i < length (inflight a)
  | _ => True
  end.

#[export] Instance enabled_dec ev a : Decision (enabled ev a).
Proof. destruct ev; simpl; apply _. Defined.

Inductive step : App -> event -> App -> Prop :=
| step_event a ev : enabled ev a -> step a ev (app_step ev a).

Inductive steps : App -> list event -> App -> Prop :=
| steps_nil a : steps a [] a
| steps_cons a ev a' evs a'' :
    step a ev a' -> steps a' evs a'' -> steps a (ev :: evs) a''.

(** Running a list of events. *)
Definition run (evs : list event) (a : App) : App :=
  fold_left (fun a ev => app_step ev a) evs a.

(** The events that need no user: a request ends. *)
Definition is_delivery (ev : event) : bool :=
  match ev with Deliver _ _ => true | _ => false end.

Definition is_submission (ev : event) : bool :=
  match ev with Submit _ => true | _ => false end.

(** How many events of a list are submissions, and how many end a
    request. *)
Definition submissions (evs : list event) : nat :=
  length (List.filter is_submission evs).

Definition deliveries (evs : list event) : nat :=
  length (List.filter is_delivery evs).

(** Are the events of a list enabled one after the other? *)
Fixpoint all_enabled (evs : list event) (a : App) : bool :=
  match evs with
  | [] => true
  | ev :: evs' => bool_decide (enabled ev a) && all_enabled evs' (app_step ev a)
  end.

End app.

(** The state when the document is loaded, for a page. *)
Definition start (p : Page) : App := mkApp p [] [].

(** ** One step, field by field *)

Section app_facts.
Context {host : Host} {env : Env}.

Lemma run_listener_page c a : page (run_listener c a) = final_state (c (page a)).
Proof. unfold run_listener. by destruct (c (page a)). Qed.

Lemma run_listener_inflight c a : inflight (run_listener c a) = inflight a.
Proof. unfold run_listener. by destruct (c (page a)). Qed.

Lemma run_listener_unhandled c a :
  unhandled (run_listener c a) =
  unhandled a ++ match thrown (c (page a)) with Some e => [e] | None => [] end.
Proof. unfold run_listener. destruct (c (page a)); simpl; by rewrite ?app_nil_r. Qed.

Lemma submit_page f a : page (submit f a) = final_state (form_submit_start f (page a)).
Proof. unfold submit. by destruct (form_submit_start f (page a)) as [[url|] ?|? ?]. Qed.

Lemma submit_inflight f a :
  inflight (submit f a) =
  inflight a ++ match returned (form_submit_start f (page a)) with
                | Some (Some url) => [url]
                | _ => []
                end.
Proof.
  unfold submit. destruct (form_submit_start f (page a)) as [[url|] ?|? ?];
    simpl; by rewrite ?app_nil_r.
Qed.

Lemma submit_unhandled_list f a :
  unhandled (submit f a) =
  unhandled a ++ match thrown (form_submit_start f (page a)) with
                 | Some e => [e]
                 | None => []
                 end.
Proof.
  unfold submit. destruct (form_submit_start f (page a)) as [[url|] ?|? ?];
    simpl; by rewrite ?app_nil_r.
Qed.

Lemma deliver_enabled i r a :
  i < length (inflight a) ->
  deliver i r a =
  run_listener (form_submit_resume r)
    (mkApp (page a) (delete i (inflight a)) (unhandled a)).
Proof.
  intros Hi. unfold deliver. by destruct (lookup_lt_is_Some_2 _ _ Hi) as [url ->].
Qed.

Lemma deliver_disabled i r a : length (inflight a) <= i -> deliver i r a = a.
Proof. intros Hi. unfold deliver. by rewrite lookup_ge_None_2. Qed.

(** Every step runs a computation of one of the two controllers on the
    page, or leaves the page as it is. *)
Lemma app_step_sides ev a :
  (exists c : D unit, ModalSide c /\ page (app_step ev a) = final_state (c (page a))) \/
  (exists A (c : D A), SearchSide c /\ page (app_step ev a) = final_state (c (page a))) \/
  page (app_step ev a) = page a.
Proof.
  destruct ev as [m|value| |f|i r]; simpl.
  - left. exists (modal_handle m). split; [apply _|apply run_listener_page].
  - right; left. exists unit, (isbnInput_input value).
    split; [apply _|apply run_listener_page].
  - right; left. exists unit, form_reset. split; [apply _|apply run_listener_page].
  - right; left. exists _, (form_submit_start f). split; [apply _|apply submit_page].
  - destruct (decide (i < length (inflight a))) as [Hi|Hi].
    + right; left. exists unit, (form_submit_resume r). split; [apply _|].
      by rewrite deliver_enabled, run_listener_page.
    + right; right. rewrite deliver_disabled; [done|lia].
Qed.

(** ** Traces are runs *)

Lemma steps_run evs a a' :
  steps a evs a' <-> all_enabled evs a = true /\ a' = run evs a.
Proof.
  split.
  - induction 1 as [|? ? ? ? ? Hstep _ [IH1 IH2]]; [done|].
    destruct Hstep as [? ? Hen]. simpl. split; [|done].
    by rewrite bool_decide_eq_true_2.
  - revert a. induction evs as [|ev evs IH]; intros a [Hen ->]; [constructor|].
    simpl in *. apply andb_true_iff in Hen as [Hev Hen].
    apply bool_decide_eq_true in Hev.
    econstructor; [by constructor|by apply IH].
Qed.

Lemma steps_app a evs a' evs' a'' :
  steps a evs a' -> steps a' evs' a'' -> steps a (evs ++ evs') a''.
Proof.
  induction 1 as [|? ? ? ? ? Hstep _ IH]; [done|]. intros Hrest.
  simpl. econstructor; [done|by apply IH].
Qed.

(** A property kept by every enabled step holds along every trace. *)
Lemma steps_invariant (I : App -> Prop) evs a a' :
  (forall a ev, I a -> enabled ev a -> I (app_step ev a)) ->
  I a -> steps a evs a' -> I a'.
Proof.
  intros Hstep Ha Hsteps. induction Hsteps as [|? ? ? ? ? [? ? Hen] _ IH];
    [done|]. apply IH. by apply Hstep.
Qed.

(** ** Invariants of a step *)

Lemma app_step_consistent ev a :
  modal_consistent (page a) -> modal_consistent (page (app_step ev a)).
Proof.
  intros Ha.
  destruct (app_step_sides ev a) as [(c & Hc & ->)|[(A & c & Hc & ->)| ->]];
    [by apply modal_side_consistent| |done].
  eapply modal_consistent_view; [|done]. symmetry. apply search_side_frame.
Qed.

(** The search container stays, and so does the results region once
    it exists. *)
Lemma app_step_container ev a :
  search_container (page (app_step ev a)) = search_container (page a).
Proof.
  destruct (app_step_sides ev a) as [(c & Hc & ->)|[(A & c & Hc & ->)| ->]];
    [|apply search_side_container|done].
  pose proof (modal_side_frame (page a)) as H. by injection H.
Qed.

Lemma app_step_region ev a :
  is_some (results (page a)) = true ->
  is_some (results (page (app_step ev a))) = true.
Proof.
  destruct (app_step_sides ev a) as [(c & Hc & ->)|[(A & c & Hc & ->)| ->]];
    [|apply search_side_region|done].
  pose proof (modal_side_frame (page a)) as H. injection H as _ _ ->. done.
Qed.

Lemma app_step_log ev a :
  exists l, log (page (app_step ev a)) = log (page a) ++ l.
Proof.
  destruct (app_step_sides ev a) as [(c & Hc & ->)|[(A & c & Hc & ->)| ->]];
    [apply modal_side_log|apply search_side_log|done].
Qed.

(** ** A page that can show results *)

(** The state is healthy when no exception has escaped, the page has a
    place for the results (a results region, or a search container to
    create it in), and a results region exists while a request is in
    flight. *)
Definition healthy (a : App) : Prop :=
  unhandled a = [] /\
  is_some (results (page a)) || search_container (page a) = true /\
  (inflight a = [] \/ is_some (results (page a)) = true).

Lemma healthy_place ev a :
  is_some (results (page a)) || search_container (page a) = true ->
  is_some (results (page (app_step ev a))) || search_container (page (app_step ev a)) = true.
Proof.
  rewrite app_step_container. intros [H|H]%orb_true_iff; [|by rewrite H, orb_true_r].
  by rewrite (app_step_region ev a H).
Qed.

Lemma submit_healthy f a : healthy a -> healthy (submit f a).
Proof.
  intros (Hu & Hp & Hi). pose proof (healthy_place (Submit f) a Hp) as Hp'.
  split_and!; [|done|].
  - rewrite submit_unhandled_list, Hu, form_submit_start_run. unfold submit_effect.
    cbv zeta. rewrite Hp. destruct (isbn_rejected (f_isbn f)); [done|].
    by destruct (searchQuery f).
  - rewrite submit_inflight, submit_page, form_submit_start_run. unfold submit_effect.
    cbv zeta. rewrite Hp. destruct (isbn_rejected (f_isbn f)); simpl.
    { rewrite app_nil_r. destruct Hi as [Hi|Hi]; auto. }
    destruct (searchQuery f); simpl; [by right|].
    rewrite app_nil_r. destruct Hi as [Hi|Hi]; auto.
Qed.

Lemma deliver_healthy i r a : healthy a -> i < length (inflight a) -> healthy (deliver i r a).
Proof.
  intros (Hu & Hp & Hi) Hen.
  assert (is_some (results (page a)) = true) as Hr.
  { destruct Hi as [Hi|Hi]; [|done]. rewrite Hi in Hen. simpl in Hen. lia. }
  rewrite deliver_enabled by done. split_and!.
  - rewrite run_listener_unhandled. simpl. by rewrite form_submit_resume_returns, Hu.
  - rewrite run_listener_page. simpl. by rewrite form_submit_resume_results.
  - right. rewrite run_listener_page. simpl. by rewrite form_submit_resume_results.
Qed.

Lemma run_listener_healthy c a :
  (forall p, thrown (c p) = None) ->
  (forall p, is_some (results p) = true -> is_some (results (final_state (c p))) = true) ->
  (forall p, search_container (final_state (c p)) = search_container p) ->
  healthy a -> healthy (run_listener c a).
Proof.
  intros Hret Hreg Hcont (Hu & Hp & Hi).
  unfold healthy. rewrite run_listener_unhandled, run_listener_page,
    run_listener_inflight, Hret, Hu, Hcont. split_and!; [done| |].
  - apply orb_true_iff in Hp as [H|H]; [|by rewrite H, orb_true_r].
    by rewrite (Hreg _ H).
  - destruct Hi as [Hi|Hi]; auto.
Qed.

Lemma app_step_healthy ev a : healthy a -> enabled ev a -> healthy (app_step ev a).
Proof.
  intros Ha Hen. destruct ev as [m|value| |f|i r]; simpl in *.
  - apply run_listener_healthy; [apply modal_side_returns| | |done];
      intros p; pose proof (modal_side_frame (c:=modal_handle m) p) as H;
      injection H as _ Hc Hr; by rewrite ?Hr, ?Hc.
  - apply run_listener_healthy; try done;
      [intros p; by rewrite isbnInput_input_run
      |apply search_side_region|apply search_side_container].
  - apply run_listener_healthy; try done;
      [intros p; by rewrite form_reset_run
      |apply search_side_region|apply search_side_container].
  - by apply submit_healthy.
  - by apply deliver_healthy.
Qed.

End app_facts.

(** ** Theorems *)

Section app_theorems.
Context {host : Host} {env : Env}.

(** The page after a submission that started a search. *)
Definition submitted (q : jsstring) (p : Page) : Page :=
  searching q (set_log (log p ++ [PreventDefault]) p).

Lemma submit_searching f q a :
  isbn_rejected (f_isbn f) = false ->
  searchQuery f = Some q ->
  is_some (results (page a)) || search_container (page a) = true ->
  submit f a = mkApp (submitted q (page a)) (inflight a ++ [api_url q]) (unhandled a).
Proof.
  intros Hi Hq Hp. unfold submit. rewrite form_submit_start_run. unfold submit_effect.
  cbv zeta. by rewrite Hi, Hq, Hp.
Qed.

(** Along every trace of the page (clicks, key presses, input,
    resets, submissions and responses in any order) the scroll lock
    and the visibility of the dialog stay in agreement. *)
Theorem app_modal_consistent evs a a' :
  steps a evs a' -> modal_consistent (page a) -> modal_consistent (page a').
Proof.
  intros Hsteps Ha.
  apply (steps_invariant (fun a => modal_consistent (page a)) evs a a'); try done.
  intros b ev Hb _. by apply app_step_consistent.
Qed.

(** C17. On a page that has a results region or a search container, no
    listener ever fails with an exception it does not catch, whatever
    the user does and whatever the network answers. *)
Theorem app_no_unhandled evs p a' :
  is_some (results p) || search_container p = true ->
  steps (start p) evs a' -> unhandled a' = [].
Proof.
  intros Hp Hsteps.
  apply (steps_invariant healthy evs (start p) a'); try done.
  - intros b ev. apply app_step_healthy.
  - split_and!; [done|done|by left].
Qed.

Lemma deliver_results i r a :
  i < length (inflight a) ->
  is_some (results (page a)) = true ->
  results (page (deliver i r a)) = Some (response_view r) /\
  inflight (deliver i r a) = delete i (inflight a).
Proof.
  intros Hi Hr. rewrite deliver_enabled by done.
  rewrite run_listener_page, run_listener_inflight. simpl.
  by rewrite form_submit_resume_results.
Qed.

(** C10. When a request ends, the results region shows what that
    response holds, whichever request it answers and whatever the
    region showed before, and the request is no longer in flight. *)
Theorem deliver_shows_response i r a :
  i < length (inflight a) ->
  is_some (results (page a)) = true ->
  results (page (deliver i r a)) = Some (response_view r) /\
  inflight (deliver i r a) = delete i (inflight a).
Proof. apply deliver_results. Qed.

(** C18. Two searches in flight race: if the response to the second
    one arrives first, the page ends up showing the response to the
    first, older query. *)
Theorem stale_response_overwrites f1 q1 f2 q2 r1 r2 p :
  is_some (results p) || search_container p = true ->
  isbn_rejected (f_isbn f1) = false -> searchQuery f1 = Some q1 ->
  isbn_rejected (f_isbn f2) = false -> searchQuery f2 = Some q2 ->
  let a := run [Submit f1; Submit f2] (start p) in
  inflight a = [api_url q1; api_url q2] /\
  all_enabled [Deliver 1 r2; Deliver 0 r1] a = true /\
  results (page (run [Deliver 1 r2; Deliver 0 r1] a)) = Some (response_view r1).
Proof.
  intros Hp Hi1 Hq1 Hi2 Hq2. cbv zeta.
  assert (run [Submit f1; Submit f2] (start p) =
          mkApp (submitted q2 (submitted q1 p)) [api_url q1; api_url q2] []) as ->.
  { unfold run, start. cbn [fold_left app_step].
    rewrite (submit_searching f1 q1) by done.
    by rewrite (submit_searching f2 q2). }
  destruct (deliver_results 1 r2
              (mkApp (submitted q2 (submitted q1 p)) [api_url q1; api_url q2] []))
    as [Hr Hin]; [simpl; lia|done|].
  split_and!; [done| |].
  - cbn [all_enabled]. rewrite !bool_decide_eq_true_2; [done| |simpl; lia].
    cbn [app_step enabled]. rewrite Hin. simpl. lia.
  - unfold run. cbn [fold_left app_step].
    apply deliver_results; [rewrite Hin; simpl; lia|by rewrite Hr].
Qed.

(** Delivering the oldest request of a healthy state. *)
Lemma deliver_oldest r a url rest :
  healthy a -> inflight a = url :: rest ->
  enabled (Deliver 0 r) a /\
  healthy (deliver 0 r a) /\
  inflight (deliver 0 r a) = rest /\
  results (page (deliver 0 r a)) = Some (response_view r).
Proof.
  intros Ha E.
  assert (0 < length (inflight a)) as Hen by (rewrite E; simpl; lia).
  assert (is_some (results (page a)) = true) as Hr.
  { destruct Ha as (_ & _ & [Hi|Hi]); [congruence|done]. }
  destruct (deliver_results 0 r a) as [Hres Hin]; [done..|].
  split_and!; [done|by apply deliver_healthy|by rewrite Hin, E|done].
Qed.

(** C32. Every request in flight can end, and when all of them have
    ended none is left; the page is then healthy and shows the response
    delivered last. *)
Theorem pending_requests_drain rs r a :
  healthy a ->
  length (rs ++ [r]) = length (inflight a) ->
  let a' := run (map (Deliver 0) (rs ++ [r])) a in
  all_enabled (map (Deliver 0) (rs ++ [r])) a = true /\
  inflight a' = [] /\ healthy a' /\
  results (page a') = Some (response_view r).
Proof.
  cbv zeta. revert a. induction rs as [|r0 rs IH]; intros a Ha Hlen;
    destruct (inflight a) as [|url rest] eqn:E; try done;
    cbn [app map all_enabled run fold_left app_step].
  - destruct (deliver_oldest r a url rest Ha E) as (Hen & Hh & Hi & Hv).
    rewrite bool_decide_eq_true_2 by done.
    split_and!; try done. rewrite Hi. by destruct rest.
  - destruct (deliver_oldest r0 a url rest Ha E) as (Hen & Hh & Hi & Hv).
    destruct (IH (deliver 0 r0 a) Hh) as (He' & Hi' & Hh' & Hv').
    { rewrite Hi. simpl in Hlen. lia. }
    rewrite bool_decide_eq_true_2 by done. by split_and!.
Qed.

(** Resetting the form does not cancel a search in flight: the
    region the reset emptied is filled when the response arrives. *)
Theorem reset_does_not_cancel r a :
  0 < length (inflight a) ->
  is_some (results (page a)) = true ->
  results (page (app_step Reset a)) = Some [] /\
  results (page (run [Reset; Deliver 0 r] a)) = Some (response_view r).
Proof.
  intros Hi Hr. unfold run. cbn [fold_left app_step].
  assert (results (page (run_listener form_reset a)) = Some []) as Hreset.
  { rewrite run_listener_page, form_reset_run. cbv zeta. by rewrite Hr. }
  split; [done|].
  apply deliver_results; [by rewrite run_listener_inflight|by rewrite Hreset].
Qed.

(** The log only grows: along every trace, the effects recorded
    before are a prefix of the effects recorded after. *)
Theorem app_log_grows evs a a' :
  steps a evs a' -> exists l, log (page a') = log (page a) ++ l.
Proof.
  induction 1 as [|? ? ? ? ? [b ev Hen] _ [l IH]]; [by exists []; rewrite app_nil_r|].
  destruct (app_step_log ev b) as [l' Hl']. exists (l' ++ l).
  by rewrite IH, Hl', app_assoc.
Qed.

(** The dialog stays responsive while a search is in flight: a
    click or a key press has the effect it has on an idle page, and
    leaves the requests in flight and the results region alone. *)
Theorem modal_responsive_in_flight m a :
  page (app_step (Ui m) a) = modal_effect m (page a) /\
  inflight (app_step (Ui m) a) = inflight a /\
  unhandled (app_step (Ui m) a) = unhandled a /\
  search_view (page (app_step (Ui m) a)) = search_view (page a).
Proof.
  simpl. rewrite run_listener_page, run_listener_inflight, run_listener_unhandled,
    modal_handle_run. simpl. rewrite app_nil_r. split_and!; try done.
  apply modal_effect_search_view.
Qed.

End app_theorems.

(** ** Left alone, the page comes to rest *)

Section quiescence.
Context {host : Host} {env : Env}.


(** What the page still waits for. *)
Definition pending (a : App) : nat := length (inflight a).

Lemma deliver_pending i r a :
  i < pending a -> S (pending (deliver i r a)) = pending a.
Proof.
  unfold pending. intros Hi. rewrite deliver_enabled, run_listener_inflight by done.
  cbn [inflight]. rewrite length_delete by (by apply lookup_lt_is_Some_2). lia.
Qed.



(** A sequence of responses is as long as the number of requests it
    takes out of flight: at most as long as the number of requests in
    flight at its start, and exactly so when it leaves none. *)
Theorem deliveries_counted evs a a' :
  steps a evs a' -> forallb is_delivery evs = true ->
  length evs + pending a' = pending a.
Proof.
  induction 1 as [|? ? ? ? ? [b ev Hen] _ IH]; [done|]. simpl.
  intros [Hev Hevs]%andb_true_iff. destruct ev as [| | | |i r]; try done.
  specialize (IH Hevs). pose proof (deliver_pending i r b Hen). simpl in IH. lia.
Qed.

End quiescence.

(** ** Witnesses: the theorems along a concrete session *)

Section app_witnesses.
#[local] Existing Instance v8_host.
#[local] Existing Instance demo_env.

Definition bloch : Fields := mkFields [] (lit "Effective") (lit "Bloch") english.
Definition isbn13 : Fields := mkFields (lit "978-0-13-468599-1") [] [] (lit "spanish").

Definition ok_response : response :=
  Json (JObj [(lit "items", JArr [item_json effective_java; item_json java_puzzlers])]).

(** A session: the dialog is opened, a search is sent, the dialog is
    dismissed, a second search is sent, its response arrives, the form
    is reset, the response to the first search arrives. *)
Definition session : list event :=
  [Ui (Click AboutLink); Submit bloch; Ui (KeyDown Escape); Submit isbn13;
   Deliver 1 ok_response; Reset; Deliver 0 NetworkError].

Lemma session_steps : steps (start blank_page) session (run session (start blank_page)).
Proof. apply steps_run. split; reflexivity. Qed.

Lemma app_modal_consistent_witness :
  modal_consistent (page (run session (start blank_page))).
Proof.
  apply (app_modal_consistent session (start blank_page)); [apply session_steps|reflexivity].
Defined.

Lemma app_no_unhandled_witness : unhandled (run session (start blank_page)) = [].
Proof.
  apply (app_no_unhandled session blank_page); [reflexivity|apply session_steps].
Defined.

Lemma deliver_shows_response_witness :
  let a := run [Submit bloch; Submit isbn13] (start blank_page) in
  results (page (deliver 1 ok_response a)) = Some (response_view ok_response) /\
  inflight (deliver 1 ok_response a) = delete 1 (inflight a).
Proof. cbv zeta. apply deliver_shows_response; [vm_compute; lia|reflexivity]. Defined.

Lemma stale_response_overwrites_witness :
  let a := run [Submit bloch; Submit isbn13] (start blank_page) in
  inflight a = [api_url (lit "Effective Bloch textbook pdf");
                api_url (dquote ++ lit "978-0-13-468599-1" ++ dquote
                         ++ lit " textbook pdf spanish")] /\
  all_enabled [Deliver 1 ok_response; Deliver 0 NetworkError] a = true /\
  results (page (run [Deliver 1 ok_response; Deliver 0 NetworkError] a)) =
    Some (response_view NetworkError).
Proof.
  apply (stale_response_overwrites bloch _ isbn13 _ NetworkError ok_response blank_page);
    reflexivity.
Defined.

Lemma pending_requests_drain_witness :
  let a := run [Submit bloch; Submit isbn13] (start blank_page) in
  let a' := run (map (Deliver 0) ([ok_response] ++ [BadBody])) a in
  all_enabled (map (Deliver 0) ([ok_response] ++ [BadBody])) a = true /\
  inflight a' = [] /\ healthy a' /\
  results (page a') = Some (response_view BadBody).
Proof.
  cbv zeta. apply pending_requests_drain; [|reflexivity].
  split_and!; [reflexivity|reflexivity|by right].
Defined.

Lemma reset_does_not_cancel_witness :
  let a := run [Submit bloch] (start blank_page) in
  results (page (app_step Reset a)) = Some [] /\
  results (page (run [Reset; Deliver 0 ok_response] a)) = Some (response_view ok_response).
Proof. cbv zeta. apply reset_does_not_cancel; [vm_compute; lia|reflexivity]. Defined.

Lemma deliveries_counted_witness :
  let a := run [Submit bloch; Submit isbn13] (start blank_page) in
  length [Deliver 1 BadBody; Deliver 0 ok_response] +
    pending (run [Deliver 1 BadBody; Deliver 0 ok_response] a) = pending a.
Proof.
  cbv zeta. apply deliveries_counted; [|reflexivity]. apply steps_run. split; reflexivity.
Defined.

Lemma app_log_grows_witness :
  exists l, log (page (run session (start blank_page))) = log (page (start blank_page)) ++ l.
Proof. apply (app_log_grows session). apply session_steps. Defined.

(** What the session logs, and what the page shows at its end: the
    error of the first search, delivered last. *)
Example session_log :
  log (page (run session (start blank_page))) =
  [PreventDefault;
   PreventDefault; Fetch (api_url (lit "Effective Bloch textbook pdf"));
   PreventDefault;
   Fetch (api_url (dquote ++ lit "978-0-13-468599-1" ++ dquote ++ lit " textbook pdf spanish"));
   ScrollIntoView;
   ConsoleLog reset_label;
   ConsoleError error_label TypeError; ScrollIntoView].
Proof. reflexivity. Qed.

Example session_shows :
  results (page (run session (start blank_page))) = Some [Markup error_markup].
Proof. reflexivity. Qed.

End app_witnesses.
