(* ===== verification/Loop.v ===== *)
(** * The event loop with the suspended listeners themselves

    [App] keeps, for a submit listener that waits, the URL it asked
    for, and ends the wait with one event, [Deliver].  The listener of
    the source waits twice, for the response and for its body, and
    any event may be handled between the two.  This file keeps the
    suspended listeners themselves, as the tasks of [Async], and settles
    one promise at a time; [App] simulates it: a response that has
    arrived is no event for [App], since the listener touches nothing
    before it waits again, and the body that has been read, or the
    request that has failed, is the delivery.  Conversely the loop
    does all that [App] does, with the body read as soon as the
    response is there, so the two reach the same pages; and the
    promises that are settled are at most two for each submission. *)

From Stdlib Require Import String.
From S2P Require Import Prelude JsString JsValue Dom Modal Query Render Search Async App.

(** ** States *)

(** The page, the listeners that wait, each with the URL it asked for,
    oldest first, and the exceptions no listener caught. *)
Record Loop : Type := mkLoop {
  doc : Page;
  listeners : list (jsstring * task unit);
  uncaught : list exn
}.

Section loop.
Context {host : Host} {env : Env}.

(** ** One event *)

(** A listener that does not wait. *)
Definition sync (c : D unit) (l : Loop) : Loop :=
  match c (doc l) with
  | Returns _ p => mkLoop p (listeners l) (uncaught l)
  | Throws e p => mkLoop p (listeners l) (uncaught l ++ [e])
  end.

(** A submission: the listener runs until it returns, throws or is
    suspended; a suspended listener joins those that wait. *)
Definition started (f : Fields) (l : Loop) : Loop :=
  match form_submit f (doc l) with
  | Done (Returns _ p) => mkLoop p (listeners l) (uncaught l)
  | Done (Throws e p) => mkLoop p (listeners l) (uncaught l ++ [e])
  | Waiting _ p _ as w =>
      mkLoop p (listeners l ++ [(default [] (requested w), w)]) (uncaught l)
  end.

(** The promise the [i]-th listener awaits is settled: the listener
    takes a turn on the page as it is, and leaves the listeners that
    wait unless it waits again. *)
Definition resumed (i : nat) (r : response) (l : Loop) : Loop :=
  match listeners l !! i with
  | Some (url, w) =>
      match turn r (doc l) w with
      | Done (Returns _ p) => mkLoop p (delete i (listeners l)) (uncaught l)
      | Done (Throws e p) => mkLoop p (delete i (listeners l)) (uncaught l ++ [e])
      | Waiting _ p _ as w' => mkLoop p (<[i := (url, w')]> (listeners l)) (uncaught l)
      end
  | None => l
  end.

Definition loop_step (ev : event) (l : Loop) : Loop :=
  match ev with
  | Ui m => sync (modal_handle m) l
  | Input value => sync (isbnInput_input value) l
  | Reset => sync form_reset l
  | Submit f => started f l
  | Deliver i r => resumed i r l
  end.

Definition loop_run (evs : list event) (l : Loop) : Loop :=
  fold_left (fun l ev => loop_step ev l) evs l.

(** Only the promise of a listener that waits can be settled. *)
Definition loop_enabled (ev : event) (l : Loop) : Prop :=
  match ev with
  | Deliver i _ => i < length (listeners l)
  | _ => True
  end.

#[export] Instance loop_enabled_dec ev l : Decision (loop_enabled ev l).
Proof. destruct ev; simpl; apply _. Defined.

(** Are the events of a list enabled one after the other? *)
Fixpoint loop_all_enabled (evs : list event) (l : Loop) : bool :=
  match evs with
  | [] => true
  | ev :: evs' => bool_decide (loop_enabled ev l) && loop_all_enabled evs' (loop_step ev l)
  end.

Inductive loop_steps : Loop -> list event -> Loop -> Prop :=
| loop_steps_nil l : loop_steps l [] l
| loop_steps_cons l ev evs l' :
    loop_enabled ev l -> loop_steps (loop_step ev l) evs l' ->
    loop_steps l (ev :: evs) l'.

(** ** The state of [App] a state stands for *)

Definition app_of (l : Loop) : App :=
  mkApp (doc l) (fst <$> listeners l) (uncaught l).

(** What [r] says of the body of a response that has arrived. *)
Definition body_of (r : response) : response :=
  match r with Json data => Json data | _ => BadBody end.

(** The event of [App] an event stands for: none when a response
    arrives, the delivery when a request fails or a body was read. *)
Definition app_event (l : Loop) (ev : event) : option event :=
  match ev with
  | Deliver i r =>
      match listeners l !! i with
      | Some (_, w) =>
          if is_some (requested w)
          then match r with NetworkError => Some ev | _ => None end
          else Some (Deliver i (body_of r))
      | None => Some ev
      end
  | _ => Some ev
  end.

Fixpoint app_trace (evs : list event) (l : Loop) : list event :=
  match evs with
  | [] => []
  | ev :: evs' =>
      match app_event l ev with Some ev' => [ev'] | None => [] end ++
      app_trace evs' (loop_step ev l)
  end.

(** ** The listeners that wait *)

(** A listener that waits is the submit listener, suspended at its
    first or at its second [await], with the URL it asked for. *)
Definition staged (entry : jsstring * task unit) : Prop :=
  exists p,
    task_eq (snd entry) (suspended (fst entry) p form_submit_resume) \/
    exists answer, task_eq (snd entry) (reading answer p form_submit_resume).

Definition loop_inv (l : Loop) : Prop := Forall staged (listeners l).

(** A listener that waits for the response to its request. *)
Definition awaits_response (entry : jsstring * task unit) : Prop :=
  exists p, task_eq (snd entry) (suspended (fst entry) p form_submit_resume).

(** No response has arrived whose body was not read: every listener
    that waits waits for the response. *)
Definition loop_fresh (l : Loop) : Prop := Forall awaits_response (listeners l).

(** ** The promises still to settle *)

(** The promises a listener that waits has still to see settled, at
    most: the response and its body, or the body. *)
Definition settlements_left (entry : jsstring * task unit) : nat :=
  if is_some (requested (snd entry)) then 2 else 1.

Definition loop_weight (l : Loop) : nat := sum_list_with settlements_left (listeners l).

(** One promise of a listener that waits is settled. *)
Definition settlement (l l' : Loop) : Prop :=
  loop_inv l /\ exists i r, i < length (listeners l) /\ l' = resumed i r l.

End loop.

(** ** The trace of the loop for a trace of [App] *)

#[export] Instance network_error_dec r : Decision (r = NetworkError).
Proof. destruct r; [by left|by right..]. Defined.

(** The events of the loop for an event of [App]: a request fails, or
    its response arrives and the body is read at once. *)
Definition loop_events (ev : event) : list event :=
  match ev with
  | Deliver _ NetworkError => [ev]
  | Deliver _ _ => [ev; ev]
  | _ => [ev]
  end.

Definition loop_trace (evs : list event) : list event := flat_map loop_events evs.

(** The state when the document is loaded. *)
Definition loop_start (p : Page) : Loop := mkLoop p [] [].

(** ** Lemmas *)

Lemma fst_replace {A B} i a (b b' : B) (l : list (A * B)) :
  l !! i = Some (a, b) -> fst <$> <[i := (a, b')]> l = fst <$> l.
Proof.
  intros H. rewrite list_fmap_insert. apply list_insert_id.
  by rewrite list_lookup_fmap, H.
Qed.

(** A task that equals one that has ended has ended. *)
Lemma task_eq_done {A} (w : task A) o : task_eq w (Done o) -> w = Done o.
Proof. intros H. by apply task_eq_sym in H. Qed.

(** A task that equals one that waits waits for the same promise on
    the same page. *)
Lemma task_eq_waiting {A X} (w : task A) (w0 : promise X) p k :
  task_eq w (Waiting w0 p k) ->
  exists k', w = Waiting w0 p k' /\ forall s p', task_eq (k' s p') (k s p').
Proof.
  intros H. apply task_eq_sym in H as (k' & -> & Hk). exists k'. split; [done|].
  intros s p'. apply task_eq_sym, Hk.
Qed.

Section loop_facts.
Context {host : Host} {env : Env}.

Lemma sync_app c l : app_of (sync c l) = run_listener c (app_of l).
Proof. unfold sync, run_listener, app_of. cbn [page]. by destruct (c (doc l)). Qed.

Lemma sync_listeners c l : listeners (sync c l) = listeners l.
Proof. unfold sync. by destruct (c (doc l)). Qed.

Lemma sync_inv c l : loop_inv l -> loop_inv (sync c l).
Proof. unfold loop_inv. by rewrite sync_listeners. Qed.

Lemma sync_fresh c l : loop_fresh l -> loop_fresh (sync c l).
Proof. unfold loop_fresh. by rewrite sync_listeners. Qed.

Lemma loop_steps_run evs l :
  loop_all_enabled evs l = true -> loop_steps l evs (loop_run evs l).
Proof.
  revert l. induction evs as [|ev evs IH]; intros l; [constructor|].
  cbn [loop_all_enabled]. intros [Hev Hevs]%andb_true_iff.
  apply bool_decide_eq_true in Hev. constructor; [done|by apply IH].
Qed.

(** A submission. *)
Lemma started_app f l : app_of (started f l) = submit f (app_of l).
Proof.
  unfold started, submit, app_of. cbn [page inflight unhandled].
  pose proof (form_submit_parts f (doc l)) as H. unfold split in H.
  destruct (form_submit_start f (doc l)) as [[url|] p|e p].
  - apply task_eq_waiting in H as (k & -> & _). cbn [requested default doc listeners uncaught].
    by rewrite fmap_app.
  - by rewrite (task_eq_done _ _ H).
  - by rewrite (task_eq_done _ _ H).
Qed.

Lemma awaits_response_staged entry : awaits_response entry -> staged entry.
Proof. intros [p H]. exists p. by left. Qed.

Lemma loop_fresh_inv l : loop_fresh l -> loop_inv l.
Proof. intros H. apply (Forall_impl _ _ _ H), awaits_response_staged. Qed.

(** A submission adds one listener at most, which waits for the
    response. *)
Lemma started_listeners f l :
  exists new, listeners (started f l) = listeners l ++ new /\
    length new <= 1 /\ Forall awaits_response new /\
    Forall (fun entry => settlements_left entry = 2) new.
Proof.
  unfold started. pose proof (form_submit_parts f (doc l)) as H. unfold split in H.
  destruct (form_submit_start f (doc l)) as [[url|] p|e p].
  - pose proof H as (k & E & _)%task_eq_waiting. rewrite E in *.
    eexists [_]. split_and!; [done|simpl; lia|apply Forall_singleton..]; [by exists p|reflexivity].
  - rewrite (task_eq_done _ _ H). exists []. rewrite app_nil_r. by split_and!; [|simpl; lia|..].
  - rewrite (task_eq_done _ _ H). exists []. rewrite app_nil_r. by split_and!; [|simpl; lia|..].
Qed.

Lemma started_fresh f l : loop_fresh l -> loop_fresh (started f l).
Proof.
  unfold loop_fresh. destruct (started_listeners f l) as (new & -> & _ & Hnew & _).
  intros Hl. by apply Forall_app.
Qed.

Lemma started_inv f l : loop_inv l -> loop_inv (started f l).
Proof.
  unfold loop_inv. destruct (started_listeners f l) as (new & -> & _ & Hnew & _).
  intros Hl. apply Forall_app. split; [done|].
  apply (Forall_impl _ _ _ Hnew), awaits_response_staged.
Qed.

(** A turn of a listener that waits for the response. *)
Lemma turn_suspended r url p p' (w : task unit) :
  task_eq w (suspended url p form_submit_resume) ->
  requested w = Some url /\
  task_eq (turn r p' w)
    (match r with
     | NetworkError => Done (form_submit_resume NetworkError p')
     | _ => reading the_response p' form_submit_resume
     end).
Proof.
  intros H. split; [by rewrite H|]. rewrite H. by destruct r.
Qed.

(** A turn of a listener that waits for the body. *)
Lemma turn_reading r answer p p' (w : task unit) :
  task_eq w (reading answer p form_submit_resume) ->
  requested w = None /\ turn r p' w = Done (form_submit_resume (body_of r) p').
Proof.
  intros H. split; [by rewrite H|]. apply task_eq_done. rewrite H. by destruct r.
Qed.

(** A turn that ends the listener is the delivery of [App]. *)
Lemma resumed_done i url w r r' l :
  listeners l !! i = Some (url, w) ->
  turn r (doc l) w = Done (form_submit_resume r' (doc l)) ->
  app_of (resumed i r l) = deliver i r' (app_of l) /\
  (loop_inv l -> loop_inv (resumed i r l)).
Proof.
  intros E Ht. unfold resumed, deliver, run_listener, app_of, loop_inv.
  cbn [page inflight unhandled]. rewrite E, Ht, list_lookup_fmap, E. cbn [fmap option_fmap option_map].
  destruct (form_submit_resume r' (doc l)) as [[] p|e p]; cbn [doc listeners uncaught];
    rewrite list_fmap_delete; (split; [done|apply Forall_delete]).
Qed.

(** A response that arrives leaves the listener waiting for the body. *)
Lemma turn_arrival r url p p' (w : task unit) :
  task_eq w (suspended url p form_submit_resume) -> r <> NetworkError ->
  task_eq (turn r p' w) (reading the_response p' form_submit_resume).
Proof. intros H Hr. destruct (turn_suspended r url p p' w H) as [_ Ht]. by destruct r. Qed.

(** The state after such a turn: the page is as it was. *)
Lemma resumed_arrival i url w r l :
  listeners l !! i = Some (url, w) ->
  task_eq (turn r (doc l) w) (reading the_response (doc l) form_submit_resume) ->
  exists w', task_eq w' (reading the_response (doc l) form_submit_resume) /\
    resumed i r l = mkLoop (doc l) (<[i := (url, w')]> (listeners l)) (uncaught l).
Proof.
  intros E Ht. pose proof Ht as (k & Ek & _)%task_eq_waiting.
  unfold resumed. rewrite E, Ek. eexists. split; [|done]. by rewrite <- Ek.
Qed.

(** A turn after which the listener waits for the body is no event of
    [App]. *)
Lemma resumed_reading i url w r l :
  listeners l !! i = Some (url, w) ->
  task_eq (turn r (doc l) w) (reading the_response (doc l) form_submit_resume) ->
  app_of (resumed i r l) = app_of l /\
  (loop_inv l -> loop_inv (resumed i r l)).
Proof.
  intros E Ht. destruct (resumed_arrival i url w r l E Ht) as (w' & Hw' & ->).
  unfold app_of, loop_inv. cbn [doc listeners uncaught]. split.
  - by rewrite (fst_replace _ _ _ _ _ E).
  - intros Hl. apply Forall_insert; [done|]. exists (doc l). right. by exists the_response.
Qed.

(** A turn that ends the listener takes it from those that wait. *)
Lemma resumed_done_listeners i url w r o l :
  listeners l !! i = Some (url, w) -> turn r (doc l) w = Done o ->
  listeners (resumed i r l) = delete i (listeners l).
Proof. intros E Ht. unfold resumed. rewrite E, Ht. by destruct o as [[] ?|? ?]. Qed.

Lemma resumed_app i r l :
  loop_inv l ->
  app_of (resumed i r l) =
  from_option (fun ev => app_step ev (app_of l)) (app_of l) (app_event l (Deliver i r)) /\
  loop_inv (resumed i r l).
Proof.
  intros Hl. unfold app_event. destruct (listeners l !! i) as [[url w]|] eqn:E.
  - destruct (Forall_lookup_1 _ _ _ _ Hl E) as (p & [H|(answer & H)]); cbn [fst snd] in H.
    + destruct (turn_suspended r url p (doc l) w H) as [-> Ht]. cbn [is_some].
      destruct r; cbn [from_option app_step];
        [destruct (resumed_done i url w NetworkError NetworkError l E) as [-> ?];
           [by apply task_eq_done|by auto]
        |destruct (resumed_reading i url w _ l E Ht); by auto..].
    + destruct (turn_reading r answer p (doc l) w H) as [-> Ht]. cbn [is_some from_option app_step].
      destruct (resumed_done i url w r (body_of r) l E Ht) as [-> ?]. by auto.
  - cbn [from_option app_step]. unfold resumed, deliver, app_of. cbn [inflight].
    by rewrite E, list_lookup_fmap, E.
Qed.

(** One event of the loop is one event of [App], or none. *)
Lemma loop_step_app ev l :
  loop_inv l ->
  app_of (loop_step ev l) =
  from_option (fun ev' => app_step ev' (app_of l)) (app_of l) (app_event l ev) /\
  loop_inv (loop_step ev l).
Proof.
  intros Hl. destruct ev as [m|value| |f|i r]; cbn [loop_step app_event from_option app_step];
    [split; [apply sync_app|by apply sync_inv]..| |by apply resumed_app].
  split; [apply started_app|by apply started_inv].
Qed.

(** An event that is enabled stands for one that is. *)
Lemma app_event_enabled ev ev' l :
  loop_enabled ev l -> app_event l ev = Some ev' -> enabled ev' (app_of l).
Proof.
  assert (length (inflight (app_of l)) = length (listeners l)) as Hlen
    by (unfold app_of; cbn [inflight]; apply length_fmap).
  destruct ev as [m|value| |f|i r]; cbn [app_event loop_enabled];
    try by intros _ [= <-].
  intros Hi. assert (forall r', enabled (Deliver i r') (app_of l)) as Hen
    by (intros r'; cbn [enabled]; by rewrite Hlen).
  destruct (listeners l !! i) as [[url w]|]; [|by intros [= <-]].
  by destruct (is_some (requested w)); [destruct r|]; intros [= <-].
Qed.

Lemma loop_steps_app l evs l' :
  loop_steps l evs l' -> loop_inv l ->
  steps (app_of l) (app_trace evs l) (app_of l') /\ loop_inv l'.
Proof.
  induction 1 as [l|l ev evs l' Hen _ IH]; intros Hl; [by split; [constructor|]|].
  destruct (loop_step_app ev l Hl) as [Hs Hl']. destruct (IH Hl') as [IHs ?].
  split; [|done]. cbn [app_trace].
  destruct (app_event l ev) as [ev'|] eqn:E; cbn [from_option] in Hs.
  - econstructor; [|by rewrite Hs in IHs].
    constructor. by apply (app_event_enabled ev).
  - by rewrite Hs in IHs.
Qed.

End loop_facts.

(** ** The promises settled *)

Section loop_weight.
Context {host : Host} {env : Env}.

(** What a settlement does to the listeners that wait: one leaves, or
    one that waited for the response waits for the body. *)
Lemma resumed_listeners i r l entry :
  loop_inv l -> listeners l !! i = Some entry ->
  listeners (resumed i r l) = delete i (listeners l) \/
  settlements_left entry = 2 /\
  exists w, task_eq w (reading the_response (doc l) form_submit_resume) /\
    listeners (resumed i r l) = <[i := (fst entry, w)]> (listeners l).
Proof.
  intros Hl E. destruct entry as [url w].
  destruct (Forall_lookup_1 _ _ _ _ Hl E) as (p & [H|(answer & H)]); cbn [fst snd] in H.
  - destruct (turn_suspended r url p (doc l) w H) as [Hr Ht].
    destruct (decide (r = NetworkError)) as [->|Hne].
    + left. apply task_eq_done in Ht. by apply (resumed_done_listeners i url w _ _ l E Ht).
    + right. unfold settlements_left. cbn [snd fst]. rewrite Hr. split; [done|].
      destruct (resumed_arrival i url w r l E (turn_arrival r url p _ w H Hne)) as (w' & ? & ->).
      by exists w'.
  - destruct (turn_reading r answer p (doc l) w H) as [_ Ht].
    left. by apply (resumed_done_listeners i url w _ _ l E Ht).
Qed.

Lemma settlements_left_reading url w answer p :
  task_eq w (reading answer p form_submit_resume) -> settlements_left (url, w) = 1.
Proof. intros H. unfold settlements_left. cbn [snd]. by rewrite H. Qed.

Lemma settlements_left_pos entry : 1 <= settlements_left entry.
Proof. unfold settlements_left. destruct (is_some _); lia. Qed.

(** Every settlement leaves less to settle. *)
Lemma resumed_weight i r l :
  loop_inv l -> i < length (listeners l) ->
  loop_weight (resumed i r l) < loop_weight l.
Proof.
  intros Hl [entry E]%lookup_lt_is_Some_2. unfold loop_weight.
  destruct (resumed_listeners i r l entry Hl E) as [->|(H2 & w & Hw & ->)].
  - pose proof (sum_list_with_delete settlements_left _ _ _ E).
    pose proof (settlements_left_pos entry). lia.
  - pose proof (sum_list_with_insert settlements_left _ _ (entry.1, w) _ E) as H.
    rewrite (settlements_left_reading _ _ _ _ Hw) in H. lia.
Qed.

Lemma sync_weight c l : loop_weight (sync c l) = loop_weight l.
Proof. unfold loop_weight. by rewrite sync_listeners. Qed.

Lemma started_weight f l : loop_weight (started f l) <= loop_weight l + 2.
Proof.
  unfold loop_weight. destruct (started_listeners f l) as (new & -> & Hlen & _ & H2).
  rewrite sum_list_with_app.
  destruct new as [|entry [|? ?]]; cbn [length sum_list_with] in *; [lia| |lia].
  apply Forall_inv in H2. lia.
Qed.

(** What one event does to the settlements that are left. *)
Lemma loop_step_weight ev l :
  loop_inv l -> loop_enabled ev l ->
  (if is_delivery ev then 1 else 0) + loop_weight (loop_step ev l) <=
  loop_weight l + (if is_submission ev then 2 else 0).
Proof.
  intros Hl Hen. destruct ev as [m|value| |f|i r]; cbn [loop_step is_delivery is_submission];
    rewrite ?sync_weight; [lia..| |].
  - pose proof (started_weight f l). lia.
  - pose proof (resumed_weight i r l Hl Hen). lia.
Qed.

End loop_weight.

(** ** The loop does all that [App] does *)

Section loop_complete.
Context {host : Host} {env : Env}.

Lemma loop_run_app evs evs' l : loop_run (evs ++ evs') l = loop_run evs' (loop_run evs l).
Proof. apply fold_left_app. Qed.

Lemma loop_all_enabled_app evs evs' l :
  loop_all_enabled (evs ++ evs') l =
  loop_all_enabled evs l && loop_all_enabled evs' (loop_run evs l).
Proof.
  revert l. induction evs as [|ev evs IH]; intros l; [done|].
  cbn [app loop_all_enabled loop_run fold_left]. by rewrite IH, andb_assoc.
Qed.

Lemma app_trace_app evs evs' l :
  app_trace (evs ++ evs') l = app_trace evs l ++ app_trace evs' (loop_run evs l).
Proof.
  revert l. induction evs as [|ev evs IH]; intros l; [done|].
  cbn [app app_trace loop_run fold_left]. by rewrite IH, app_assoc.
Qed.

(** A request that fails, for a listener that waits for the response. *)
Lemma loop_events_failure i url w p l :
  listeners l !! i = Some (url, w) ->
  task_eq w (suspended url p form_submit_resume) ->
  app_of (resumed i NetworkError l) = deliver i NetworkError (app_of l) /\
  listeners (resumed i NetworkError l) = delete i (listeners l) /\
  app_event l (Deliver i NetworkError) = Some (Deliver i NetworkError).
Proof.
  intros E H. destruct (turn_suspended NetworkError url p (doc l) w H) as [Hr Ht].
  apply task_eq_done in Ht. destruct (resumed_done i url w _ _ l E Ht) as [Happ _].
  split_and!; [done|by apply (resumed_done_listeners i url w _ _ l E Ht)|].
  cbn [app_event]. by rewrite E, Hr.
Qed.

(** A response that arrives and whose body is read at once. *)
Lemma loop_events_answer i url w p r l :
  listeners l !! i = Some (url, w) ->
  task_eq w (suspended url p form_submit_resume) -> r <> NetworkError ->
  app_of (resumed i r (resumed i r l)) = deliver i r (app_of l) /\
  listeners (resumed i r (resumed i r l)) = delete i (listeners l) /\
  length (listeners (resumed i r l)) = length (listeners l) /\
  app_trace [Deliver i r; Deliver i r] l = [Deliver i r].
Proof.
  intros E H Hne. destruct (turn_suspended r url p (doc l) w H) as [Hr _].
  destruct (resumed_arrival i url w r l E (turn_arrival r url p _ w H Hne)) as (w' & Hw' & El1).
  assert (listeners (resumed i r l) !! i = Some (url, w')) as E1.
  { rewrite El1. apply list_lookup_insert_eq. by apply lookup_lt_is_Some_1. }
  destruct (turn_reading r the_response (doc l) (doc (resumed i r l)) w' Hw') as [Hr' Ht'].
  destruct (resumed_done i url w' r (body_of r) _ E1 Ht') as [Happ _].
  assert (body_of r = r) as Eb by by destruct r.
  cbn [app_trace app_event loop_step]. rewrite E, Hr, E1, Hr', Happ, Eb. cbn [is_some].
  rewrite (resumed_done_listeners i url w' _ _ _ E1 Ht'), El1.
  cbn [listeners]. rewrite delete_insert_same, length_insert.
  split_and!; [|done|done|by destruct r].
  unfold app_of. cbn [doc listeners uncaught]. by rewrite (fst_replace _ _ _ _ _ E).
Qed.

(** The end of a request while every listener waits for the response. *)
Lemma loop_events_deliver i r l :
  loop_fresh l -> i < length (listeners l) ->
  loop_all_enabled (loop_events (Deliver i r)) l = true /\
  app_of (loop_run (loop_events (Deliver i r)) l) = deliver i r (app_of l) /\
  loop_fresh (loop_run (loop_events (Deliver i r)) l) /\
  app_trace (loop_events (Deliver i r)) l = [Deliver i r].
Proof.
  intros Hl Hi. destruct (lookup_lt_is_Some_2 _ _ Hi) as [[url w] E].
  destruct (Forall_lookup_1 _ _ _ _ Hl E) as [p H]. cbn [fst snd] in H.
  unfold loop_fresh. destruct (decide (r = NetworkError)) as [->|Hne].
  - destruct (loop_events_failure i url w p l E H) as (Happ & Hls & Hev).
    cbn [loop_events loop_all_enabled loop_run fold_left loop_step app_trace].
    rewrite Happ, Hls, Hev, (bool_decide_eq_true_2 _ Hi). by split_and!; [..|apply Forall_delete|].
  - destruct (loop_events_answer i url w p r l E H Hne) as (Happ & Hls & Hlen & Htr).
    assert (loop_events (Deliver i r) = [Deliver i r; Deliver i r]) as -> by by destruct r.
    cbn [loop_all_enabled loop_run fold_left loop_step loop_enabled].
    rewrite Happ, Hls, Htr, !bool_decide_eq_true_2 by (cbn [loop_enabled]; by rewrite ?Hlen).
    by split_and!; [..|apply Forall_delete|].
Qed.

(** One event of [App] is one event of the loop, or two. *)
Lemma loop_events_app ev l :
  loop_fresh l -> enabled ev (app_of l) ->
  loop_all_enabled (loop_events ev) l = true /\
  app_of (loop_run (loop_events ev) l) = app_step ev (app_of l) /\
  loop_fresh (loop_run (loop_events ev) l) /\
  app_trace (loop_events ev) l = [ev].
Proof.
  intros Hl Hen. destruct ev as [m|value| |f|i r];
    [split_and!; [done|apply sync_app|by apply sync_fresh|done]..| |].
  - split_and!; [done|apply started_app|by apply started_fresh|done].
  - apply loop_events_deliver; [done|]. cbn [enabled] in Hen. unfold app_of in Hen.
    cbn [inflight] in Hen. by rewrite length_fmap in Hen.
Qed.

Lemma loop_start_fresh p : loop_fresh (loop_start p).
Proof. apply Forall_nil_2. Qed.

Lemma loop_trace_app evs l :
  loop_fresh l -> all_enabled evs (app_of l) = true ->
  loop_all_enabled (loop_trace evs) l = true /\
  app_of (loop_run (loop_trace evs) l) = run evs (app_of l) /\
  loop_fresh (loop_run (loop_trace evs) l) /\
  app_trace (loop_trace evs) l = evs.
Proof.
  revert l. induction evs as [|ev evs IH]; intros l Hl; [done|].
  cbn [all_enabled]. intros [Hev Hevs]%andb_true_iff. apply bool_decide_eq_true in Hev.
  destruct (loop_events_app ev l Hl Hev) as (Hen & Happ & Hl' & Htr).
  rewrite <- Happ in Hevs. destruct (IH _ Hl' Hevs) as (IHen & IHapp & IHl & IHtr).
  unfold loop_trace in *. cbn [flat_map run fold_left].
  rewrite loop_all_enabled_app, loop_run_app, app_trace_app, Hen, IHen, IHapp, Happ, Htr, IHtr.
  by split_and!.
Qed.

End loop_complete.

(** ** Theorems *)

Section loop_theorems.
Context {host : Host} {env : Env}.

(** C13. The loop in which the two promises of a search are settled
    one at a time, with any events between them, is simulated by
    [App]: along every trace the page, the URLs awaited and the
    uncaught exceptions are those [App] reaches on the trace in which
    a response that has arrived is dropped and the end of the request
    is one delivery. *)
Theorem loop_refines_app l evs l' :
  loop_inv l -> loop_steps l evs l' ->
  steps (app_of l) (app_trace evs l) (app_of l') /\ loop_inv l'.
Proof. intros Hl Hs. by apply loop_steps_app. Qed.

(** No listener of the loop ends with an exception it does not
    catch, on a page with a results region or a search container. *)
Theorem loop_no_uncaught p evs l' :
  is_some (results p) || search_container p = true ->
  loop_steps (loop_start p) evs l' -> uncaught l' = [].
Proof.
  intros Hp Hs. destruct (loop_steps_app _ _ _ Hs) as [Ha _]; [by constructor|].
  change (uncaught l') with (unhandled (app_of l')).
  apply (steps_invariant healthy _ _ _ (fun b ev => app_step_healthy ev b)) in Ha; [apply Ha|].
  split_and!; [done|done|by left].
Qed.

(** Scroll lock and visibility of the dialog agree along every trace
    of the loop. *)
Theorem loop_modal_consistent l evs l' :
  loop_inv l -> loop_steps l evs l' ->
  modal_consistent (doc l) -> modal_consistent (doc l').
Proof.
  intros Hl Hs Hc. destruct (loop_steps_app _ _ _ Hs Hl) as [Ha _].
  by apply (app_modal_consistent _ _ _ Ha).
Qed.

(** The loop does all that [App] does: a trace of [App], from a state
    in which no response has arrived whose body was not read, is the
    trace of the loop in which each response is followed at once by
    its body, and the two end in the same state. *)
Theorem app_refines_loop l evs a' :
  loop_fresh l -> steps (app_of l) evs a' ->
  loop_steps l (loop_trace evs) (loop_run (loop_trace evs) l) /\
  app_of (loop_run (loop_trace evs) l) = a' /\
  app_trace (loop_trace evs) l = evs.
Proof.
  intros Hl [Hen ->]%steps_run.
  destruct (loop_trace_app evs l Hl Hen) as (H1 & H2 & _ & H3).
  split_and!; [by apply loop_steps_run|done..].
Qed.

(** C14. The pages the loop reaches from a loaded document are those
    [App] reaches: that a listener waits twice, and that events come
    between the two waits, shows on no page. *)
Theorem loop_app_same_pages p q :
  (exists evs l', loop_steps (loop_start p) evs l' /\ doc l' = q) <->
  (exists evs a', steps (start p) evs a' /\ page a' = q).
Proof.
  split.
  - intros (evs & l' & Hs & <-). exists (app_trace evs (loop_start p)), (app_of l').
    split; [|done]. by apply (loop_steps_app _ _ _ Hs); constructor.
  - intros (evs & a' & [Hen ->]%steps_run & <-).
    destruct (loop_trace_app evs (loop_start p)) as (H1 & H2 & _);
      [apply loop_start_fresh|done|].
    exists (loop_trace evs), (loop_run (loop_trace evs) (loop_start p)).
    split; [by apply loop_steps_run|].
    by change (doc ?l) with (page (app_of l)); rewrite H2.
Qed.

(** The settlements of promises end: from a state of the loop there is
    no infinite sequence of them without a submission between. *)
Theorem settlements_terminate : well_founded (fun l' l => settlement l l').
Proof.
  apply (well_founded_lt_compat Loop loop_weight). intros l' l (Hl & i & r & Hi & ->).
  by apply resumed_weight.
Qed.

(** Along every trace of the loop the promises settled are at most
    those that were left at its start and two for each submission; what
    is left at its end counts against them. *)
Theorem settlements_bounded l evs l' :
  loop_inv l -> loop_steps l evs l' ->
  deliveries evs + loop_weight l' <= loop_weight l + 2 * submissions evs.
Proof.
  intros Hl Hs. revert Hl. induction Hs as [l|l ev evs l' Hen _ IH]; intros Hl; [simpl; lia|].
  destruct (loop_step_app ev l Hl) as [_ Hl']. specialize (IH Hl').
  pose proof (loop_step_weight ev l Hl Hen).
  unfold deliveries, submissions in *. cbn [List.filter].
  destruct (is_delivery ev), (is_submission ev); cbn [length]; lia.
Qed.

End loop_theorems.

(** ** Witnesses *)

Section loop_witnesses.
#[local] Existing Instance v8_host.
#[local] Existing Instance demo_env.

(** A search during which the form is reset after the response has
    arrived and before its body was read. *)
Definition slow_body : list event :=
  [Submit bloch; Deliver 0 BadBody; Reset; Ui (Click AboutLink); Deliver 0 ok_response].

Lemma slow_body_steps :
  loop_steps (loop_start blank_page) slow_body (loop_run slow_body (loop_start blank_page)).
Proof. by apply loop_steps_run. Qed.

Lemma loop_refines_app_witness :
  steps (app_of (loop_start blank_page)) (app_trace slow_body (loop_start blank_page))
    (app_of (loop_run slow_body (loop_start blank_page))) /\
  loop_inv (loop_run slow_body (loop_start blank_page)).
Proof.
  apply (loop_refines_app (loop_start blank_page) slow_body); [constructor|apply slow_body_steps].
Defined.

Lemma loop_no_uncaught_witness : uncaught (loop_run slow_body (loop_start blank_page)) = [].
Proof. apply (loop_no_uncaught blank_page slow_body); [reflexivity|apply slow_body_steps]. Defined.

Lemma loop_modal_consistent_witness :
  modal_consistent (doc (loop_run slow_body (loop_start blank_page))).
Proof.
  apply (loop_modal_consistent (loop_start blank_page) slow_body);
    [constructor|apply slow_body_steps|reflexivity].
Defined.

(** The trace of [App] for it: the response that arrived is dropped,
    the body that was read is the delivery. *)
Example slow_body_trace :
  app_trace slow_body (loop_start blank_page) =
  [Submit bloch; Reset; Ui (Click AboutLink); Deliver 0 ok_response].
Proof. reflexivity. Qed.

(** While the listener waits for the body it is still among those
    that wait, under the URL it asked for. *)
Example slow_body_still_waits :
  fst <$> listeners (loop_run (take 2 slow_body) (loop_start blank_page)) =
  [api_url (lit "Effective Bloch textbook pdf")].
Proof. reflexivity. Qed.

Lemma app_refines_loop_witness :
  loop_steps (loop_start blank_page) (loop_trace session)
    (loop_run (loop_trace session) (loop_start blank_page)) /\
  app_of (loop_run (loop_trace session) (loop_start blank_page)) = run session (start blank_page) /\
  app_trace (loop_trace session) (loop_start blank_page) = session.
Proof.
  apply (app_refines_loop (loop_start blank_page) session);
    [apply loop_start_fresh|apply session_steps].
Defined.

Lemma settlements_bounded_witness :
  deliveries slow_body + loop_weight (loop_run slow_body (loop_start blank_page)) <=
  loop_weight (loop_start blank_page) + 2 * submissions slow_body.
Proof.
  apply (settlements_bounded (loop_start blank_page) slow_body); [constructor|apply slow_body_steps].
Defined.

(** The session of [App] as the loop runs it: the response that was
    answered takes two events. *)
Example session_loop_trace :
  loop_trace session =
  [Ui (Click AboutLink); Submit bloch; Ui (KeyDown Escape); Submit isbn13;
   Deliver 1 ok_response; Deliver 1 ok_response; Reset; Deliver 0 NetworkError].
Proof. reflexivity. Qed.

(** A request that fails is settled once: the bound is not always
    reached. *)
Example failure_settles_once :
  loop_weight (loop_run [Submit bloch] (loop_start blank_page)) = 2 /\
  listeners (loop_run [Submit bloch; Deliver 0 NetworkError] (loop_start blank_page)) = [].
Proof. split; reflexivity. Qed.

End loop_witnesses.
