(* ===== verification/Equiv.v ===== *)
(** * States up to the log, and the independence of the two controllers

    No listener of [src/script.js] reads what it wrote to the console
    or what it asked the browser to do.  States are therefore compared
    up to the log ([app_equiv]); every operation of the page respects
    the equivalence, and an event of the modal controller commutes with
    an event of the search controller up to it. *)

From Stdlib Require Import String.
From S2P Require Import Prelude JsString JsValue Dom Modal Query Render Search App.

(** Two states are equivalent when they differ in the log only. *)
Definition app_equiv (a b : App) : Prop :=
  page_equiv (page a) (page b) /\ inflight a = inflight b /\ unhandled a = unhandled b.

#[export] Instance app_equiv_equivalence : Equivalence app_equiv.
Proof.
  split.
  - by intros a.
  - intros a b (H1 & H2 & H3). by split_and!.
  - intros a b c (H1 & H2 & H3) (H4 & H5 & H6). split_and!; [by etrans|congruence..].
Qed.

Section equivalence.
Context {host : Host} {env : Env}.

Lemma thrown_list_proper {A} (c : D A) `{!PageProper c} p q :
  page_equiv p q ->
  match thrown (c p) with Some e => [e] | None => [] end =
  match thrown (c q) with Some e => [e] | None => [] end.
Proof. intros H. by destruct (page_proper p q H) as (_ & _ & ->). Qed.

#[export] Instance run_listener_proper (c : D unit) `{!PageProper c} :
  Proper (app_equiv ==> app_equiv) (run_listener c).
Proof.
  intros a b (Hp & Hi & Hu). unfold app_equiv.
  rewrite !run_listener_page, !run_listener_inflight, !run_listener_unhandled.
  rewrite (thrown_list_proper c _ _ Hp), Hu.
  split_and!; [|done|done]. by apply page_proper.
Qed.

#[export] Instance submit_proper f : Proper (app_equiv ==> app_equiv) (submit f).
Proof.
  intros a b (Hp & Hi & Hu). unfold app_equiv.
  rewrite !submit_page, !submit_inflight, !submit_unhandled_list.
  destruct (page_proper (c:=form_submit_start f) _ _ Hp) as (Hv & -> & ->).
  by rewrite Hi, Hu.
Qed.

#[export] Instance deliver_proper i r : Proper (app_equiv ==> app_equiv) (deliver i r).
Proof.
  intros a b Hab. pose proof Hab as (Hp & Hi & Hu). unfold deliver. rewrite <- Hi.
  destruct (inflight a !! i); [|done].
  apply run_listener_proper; [apply _|]. unfold app_equiv. simpl. by rewrite Hi, Hu.
Qed.

#[export] Instance app_step_proper ev : Proper (app_equiv ==> app_equiv) (app_step ev).
Proof. destruct ev; simpl; apply _. Qed.

#[export] Instance run_proper evs : Proper (app_equiv ==> app_equiv) (run evs).
Proof.
  induction evs as [|ev evs IH]; intros a b Hab; simpl; [done|].
  by apply IH, app_step_proper.
Qed.

(** The log is written and never read: what a trace leaves on the
    page, in flight and unhandled does not depend on what was logged
    before it. *)
Theorem log_write_only evs l a :
  app_equiv (run evs (mkApp (set_log l (page a)) (inflight a) (unhandled a)))
            (run evs a).
Proof. apply run_proper. by split_and!. Qed.

(** A computation of the modal controller and one of the search
    controller commute, up to the order of their entries in the log;
    the second ends as it would have ended alone. *)
Lemma sides_commute (c1 : D unit) {A} (c2 : D A) `{!ModalSide c1, !SearchSide c2} p :
  page_equiv (final_state (c2 (final_state (c1 p))))
             (final_state (c1 (final_state (c2 p)))) /\
  returned (c2 (final_state (c1 p))) = returned (c2 p) /\
  thrown (c2 (final_state (c1 p))) = thrown (c2 p).
Proof.
  pose proof (modal_side_frame (c:=c1) p) as Hf.
  destruct (search_side_local (c:=c2) _ _ Hf) as (Hv & Hr & Ht).
  split_and!; [split|done|done].
  - rewrite (search_side_frame (c:=c2)). apply (modal_side_local (c:=c1)).
    symmetry. apply (search_side_frame (c:=c2)).
  - by rewrite (modal_side_frame (c:=c1)).
Qed.

Lemma run_listener_commute (c1 c2 : D unit) `{!ModalSide c1, !SearchSide c2} a :
  app_equiv (run_listener c1 (run_listener c2 a)) (run_listener c2 (run_listener c1 a)).
Proof.
  destruct (sides_commute c1 c2 (page a)) as (Hp & _ & Ht). unfold app_equiv.
  rewrite !run_listener_page, !run_listener_inflight, !run_listener_unhandled,
    !run_listener_page, Ht, !(modal_side_returns (c:=c1)), !app_nil_r.
  split_and!; [by symmetry|done|done].
Qed.

Lemma submit_commute (c1 : D unit) `{!ModalSide c1} f a :
  app_equiv (run_listener c1 (submit f a)) (submit f (run_listener c1 a)).
Proof.
  destruct (sides_commute c1 (form_submit_start f) (page a)) as (Hp & Hr & Ht).
  unfold app_equiv.
  rewrite run_listener_page, run_listener_inflight, run_listener_unhandled,
    !submit_page, !submit_inflight, !submit_unhandled_list,
    !run_listener_page, run_listener_inflight, run_listener_unhandled,
    Hr, Ht, !(modal_side_returns (c:=c1)), !app_nil_r.
  split_and!; [by symmetry|done|done].
Qed.

Lemma deliver_commute (c1 : D unit) `{!ModalSide c1} i r a :
  app_equiv (run_listener c1 (deliver i r a)) (deliver i r (run_listener c1 a)).
Proof.
  unfold deliver. rewrite run_listener_inflight.
  destruct (inflight a !! i); [|done].
  etrans; [apply (run_listener_commute c1 (form_submit_resume r))|].
  apply run_listener_proper; [apply _|]. unfold app_equiv.
  rewrite !run_listener_page, !run_listener_inflight, !run_listener_unhandled.
  done.
Qed.

(** Events of the search controller: all but clicks and key presses. *)
Definition search_event (ev : event) : bool :=
  match ev with Ui _ => false | _ => true end.

(** C22. The two controllers do not interfere: a click or a key press and
    an event of the search controller (input, reset, submission, the
    end of a request) lead to the same state in either order, up to the
    order of the entries in the log. *)
Theorem controllers_commute m ev a :
  search_event ev = true ->
  app_equiv (app_step (Ui m) (app_step ev a)) (app_step ev (app_step (Ui m) a)).
Proof.
  destruct ev as [m'|value| |f|i r]; [done|intros _; simpl..].
  - apply run_listener_commute; apply _.
  - apply run_listener_commute; apply _.
  - apply submit_commute; apply _.
  - apply deliver_commute; apply _.
Qed.

End equivalence.

(** ** Witnesses *)

Section equiv_witnesses.
#[local] Existing Instance v8_host.
#[local] Existing Instance demo_env.

Lemma controllers_commute_witness :
  let a := run [Submit bloch] (start blank_page) in
  app_equiv (app_step (Ui (Click AboutLink)) (app_step (Deliver 0 ok_response) a))
            (app_step (Deliver 0 ok_response) (app_step (Ui (Click AboutLink)) a)).
Proof. cbv zeta. by apply controllers_commute. Defined.

End equiv_witnesses.
