(* ===== verification/Invariants.v ===== *)
(** * Invariants of the search along every trace

    What the listeners of the form leave behind, whatever the user
    does and whatever the network answers: every request sent is in
    flight or was answered once, and no request is sent without a
    submission; the results region holds one of six views, never a
    rendering that failed half way; the validity message of the ISBN
    field is written by the input listener alone, so it survives a
    reset of the form. *)

From Stdlib Require Import String.
From S2P Require Import Prelude JsString JsValue Dom Modal Query Render Search App.

(** ** Requests sent, in flight and answered *)

Section accounting.
Context {host : Host} {env : Env}.

(** Every request the log records as sent is in flight or was
    answered. *)
Definition accounted (a : App) : Prop :=
  sent (log (page a)) = length (inflight a) + answered (log (page a)).

Lemma run_listener_accounted c a :
  (forall p, sent (log (final_state (c p))) = sent (log p) /\
             answered (log (final_state (c p))) = answered (log p)) ->
  accounted a -> accounted (run_listener c a).
Proof.
  intros Hc Ha. unfold accounted in *.
  rewrite run_listener_page, run_listener_inflight.
  destruct (Hc (page a)) as [-> ->]. done.
Qed.

Lemma modal_handle_traffic m p :
  sent (log (final_state (modal_handle m p))) = sent (log p) /\
  answered (log (final_state (modal_handle m p))) = answered (log p).
Proof.
  rewrite modal_handle_run. destruct m as [[]|key]; simpl; try done.
  - count_traffic.
  - by destruct (str_eqb key Escape && shown p).
Qed.

Lemma isbnInput_input_traffic value p :
  sent (log (final_state (isbnInput_input value p))) = sent (log p) /\
  answered (log (final_state (isbnInput_input value p))) = answered (log p).
Proof.
  rewrite isbnInput_input_run. simpl. destruct (isbn_rejected value); [count_traffic|done].
Qed.

Lemma form_reset_traffic p :
  sent (log (final_state (form_reset p))) = sent (log p) /\
  answered (log (final_state (form_reset p))) = answered (log p).
Proof.
  rewrite form_reset_run. simpl. destruct (is_some (results p)); count_traffic.
Qed.

Lemma submit_accounted f a : accounted a -> accounted (submit f a).
Proof.
  unfold accounted. intros Ha.
  rewrite submit_page, submit_inflight, form_submit_start_run.
  unfold submit_effect, searching. cbv zeta.
  destruct (isbn_rejected (f_isbn f)); [|destruct (searchQuery f);
    [destruct (is_some (results (page a)) || search_container (page a))|]];
    cbn [final_state returned]; rewrite ?length_app; count_traffic.
Qed.

Lemma deliver_accounted i r a :
  healthy a -> i < length (inflight a) -> accounted a -> accounted (deliver i r a).
Proof.
  intros (_ & _ & Hi) Hen. unfold accounted. intros Ha.
  assert (is_some (results (page a)) = true) as Hr.
  { destruct Hi as [Hi|Hi]; [|done]. rewrite Hi in Hen. simpl in Hen. lia. }
  rewrite deliver_enabled by done.
  rewrite run_listener_page, run_listener_inflight. cbn [page inflight].
  rewrite form_submit_resume_run by done. cbv zeta.
  destruct (resume_effect_traffic r (page a)) as [Hs Hw].
  rewrite length_delete by (by apply lookup_lt_is_Some_2).
  cbn [final_state log set_log]. rewrite sent_app, answered_app, Hs, Hw.
  change (sent [ScrollIntoView]) with 0. change (answered [ScrollIntoView]) with 1. lia.
Qed.

Lemma app_step_accounted ev a :
  healthy a -> enabled ev a -> accounted a -> accounted (app_step ev a).
Proof.
  intros Hh Hen Ha. destruct ev as [m|value| |f|i r]; simpl.
  - apply run_listener_accounted; [apply modal_handle_traffic|done].
  - apply run_listener_accounted; [apply isbnInput_input_traffic|done].
  - apply run_listener_accounted; [apply form_reset_traffic|done].
  - by apply submit_accounted.
  - by apply deliver_accounted.
Qed.

(** C25. Along every trace of a page that can show results, each
    request sent is in flight or has been answered, and answered once:
    the number of requests in the log is the number of requests in
    flight plus the number of times a listener resumed and scrolled to
    the results. *)
Theorem requests_accounted evs p a' :
  is_some (results p) || search_container p = true ->
  sent (log p) = answered (log p) ->
  steps (start p) evs a' -> accounted a'.
Proof.
  intros Hp Hlog Hsteps.
  apply (steps_invariant (fun a => healthy a /\ accounted a) evs (start p) a');
    [|split; [split_and!; [done|done|by left]|done]|done].
  intros a ev [Hh Ha] Hen. split; [by apply app_step_healthy|by apply app_step_accounted].
Qed.

(** *** No request without a submission *)

Lemma form_submit_start_sent f p :
  sent (log (final_state (form_submit_start f p))) <= S (sent (log p)).
Proof.
  rewrite form_submit_start_run. unfold submit_effect, searching. cbv zeta.
  destruct (isbn_rejected (f_isbn f)); [|destruct (searchQuery f);
    [destruct (is_some (results p) || search_container p)|]];
    cbn [final_state]; count_traffic.
Qed.

Lemma form_submit_resume_sent r p :
  sent (log (final_state (form_submit_resume r p))) = sent (log p).
Proof.
  destruct (form_submit_resume_final r p) as [->|[_ [e ->]]]; cbv zeta;
    [|count_traffic].
  cbn [log set_log]. rewrite sent_app, (proj1 (resume_effect_traffic r p)).
  change (sent [ScrollIntoView]) with 0. lia.
Qed.

(** Only a submission sends. *)
Lemma app_step_sent_other ev a :
  is_submission ev = false ->
  sent (log (page (app_step ev a))) = sent (log (page a)).
Proof.
  destruct ev as [m|value| |f|i r]; simpl; [..|done|]; intros _.
  - by rewrite run_listener_page, (proj1 (modal_handle_traffic m _)).
  - by rewrite run_listener_page, (proj1 (isbnInput_input_traffic value _)).
  - by rewrite run_listener_page, (proj1 (form_reset_traffic _)).
  - destruct (decide (i < length (inflight a))) as [Hi|Hi].
    + rewrite deliver_enabled, run_listener_page by done. cbn [page].
      apply form_submit_resume_sent.
    + rewrite deliver_disabled; [done|lia].
Qed.

Lemma app_step_sent ev a :
  sent (log (page (app_step ev a))) <=
  sent (log (page a)) + (if is_submission ev then 1 else 0).
Proof.
  destruct (is_submission ev) eqn:E; [|rewrite app_step_sent_other by done; lia].
  destruct ev as [| | |f|]; try done. simpl. rewrite submit_page.
  pose proof (form_submit_start_sent f (page a)). lia.
Qed.

(** The script sends a request only in answer to a submission, and
    one at most: whatever the events and the responses, the requests
    sent are no more than the submissions. *)
Theorem requests_bounded evs a :
  sent (log (page (run evs a))) <= sent (log (page a)) + submissions evs.
Proof.
  revert a. induction evs as [|ev evs IH]; intros a; [simpl; lia|].
  unfold submissions in *. cbn [run fold_left List.filter].
  specialize (IH (app_step ev a)). unfold run in IH.
  pose proof (app_step_sent ev a). destruct (is_submission ev); simpl in *; lia.
Qed.

End accounting.

(** ** What the results region can hold *)

Section region.
Context {host : Host} {env : Env}.

(** The views of the results region: none (the page has no region),
    empty, the loading message, the message that nothing was found, the
    error message, or the heading and the container of the blocks. *)
Definition region_wf (r : option (list node)) : Prop :=
  r = None \/ r = Some [] \/ r = Some [Markup loading] \/
  r = Some (rendering []) \/ r = Some [Markup error_markup] \/
  exists children, r = Some [Markup heading; results_container children].

Lemma response_view_wf r : region_wf (Some (response_view r)).
Proof.
  unfold region_wf, response_view. destruct (response_items r) as [items|]; [|tauto].
  destruct (is_empty_result items); [tauto|].
  destruct (forEach_render items); [|tauto]. do 5 right. by eexists.
Qed.

Lemma app_step_region_wf ev a :
  healthy a -> enabled ev a ->
  region_wf (results (page a)) -> region_wf (results (page (app_step ev a))).
Proof.
  intros Hh Hen Hw. destruct ev as [m|value| |f|i r]; simpl in *.
  - rewrite run_listener_page. pose proof (modal_side_frame (c:=modal_handle m) (page a)) as H.
    injection H as _ _ ->. done.
  - rewrite run_listener_page, isbnInput_input_run. simpl.
    by destruct (isbn_rejected value).
  - rewrite run_listener_page, form_reset_run. cbv zeta.
    destruct (results (page a)) eqn:E; cbn; rewrite ?E; unfold region_wf; tauto.
  - rewrite submit_page, form_submit_start_run. unfold submit_effect. cbv zeta.
    destruct (isbn_rejected (f_isbn f)); [done|].
    destruct (searchQuery f); [|done].
    destruct (is_some _ || _); [|done]. unfold region_wf. simpl. tauto.
  - destruct Hh as (_ & _ & [Hi|Hr]); [rewrite Hi in Hen; simpl in Hen; lia|].
    destruct (deliver_results i r a Hen Hr) as [-> _]. apply response_view_wf.
Qed.

(** C24. After every listener, along every trace, the results region holds
    one of its six views: a rendering that failed half way (the heading
    alone) is never left on the page, since the error message replaces
    it. *)
Theorem app_region_wf evs p a' :
  is_some (results p) || search_container p = true ->
  region_wf (results p) ->
  steps (start p) evs a' -> region_wf (results (page a')).
Proof.
  intros Hp Hw Hsteps.
  apply (steps_invariant (fun a => healthy a /\ region_wf (results (page a)))
           evs (start p) a'); [|split; [split_and!; [done|done|by left]|done]|done].
  intros a ev [Hh Ha] Hen. split; [by apply app_step_healthy|by apply app_step_region_wf].
Qed.

End region.

(** ** The validity message survives a reset *)

Section stale_validity.
Context {host : Host} {env : Env}.

(** Would the browser let the user submit the form?  A form that is
    validated is not submitted while one of its fields carries a custom
    validity message. *)
Definition submittable (a : App) : bool :=
  negb (str_truthy (isbn_validity (page a))).

(** Which events change the validity message of the ISBN field: an
    input in that field, and nothing else. *)
Definition is_input (ev : event) : bool :=
  match ev with Input _ => true | _ => false end.

Lemma resume_effect_validity r p :
  isbn_validity (resume_effect r p) = isbn_validity p.
Proof.
  unfold resume_effect, failed, rendered. destruct (response_items r) as [items|]; [|done].
  destruct (is_empty_result items); [done|]. by destruct (forEach_render items).
Qed.

Lemma form_submit_start_validity f p :
  isbn_validity (final_state (form_submit_start f p)) = isbn_validity p.
Proof.
  rewrite form_submit_start_run. unfold submit_effect, searching. cbv zeta.
  destruct (isbn_rejected (f_isbn f)); [done|]. destruct (searchQuery f); [|done].
  by destruct (is_some (results p) || search_container p).
Qed.

Lemma form_submit_resume_validity r p :
  isbn_validity (final_state (form_submit_resume r p)) = isbn_validity p.
Proof.
  destruct (form_submit_resume_final r p) as [->|[_ [e ->]]]; [|done].
  cbv zeta. cbn [isbn_validity set_log]. apply resume_effect_validity.
Qed.

Lemma input_validity value a :
  isbn_validity (page (app_step (Input value) a)) =
  if isbn_rejected value then invalid_isbn_msg else [].
Proof. simpl. rewrite run_listener_page. apply input_agrees_with_submit. Qed.

Lemma app_step_validity ev a :
  is_input ev = false ->
  isbn_validity (page (app_step ev a)) = isbn_validity (page a).
Proof.
  destruct ev as [m|value| |f|i r]; simpl; [|done|..]; intros _.
  - rewrite run_listener_page, modal_handle_run. cbn [final_state].
    destruct m as [[]|key]; simpl; try done.
    by destruct (str_eqb key Escape && shown (page a)).
  - rewrite run_listener_page, form_reset_run. cbv zeta. cbn [final_state].
    by destruct (is_some (results (page a))).
  - rewrite submit_page. apply form_submit_start_validity.
  - destruct (decide (i < length (inflight a))) as [Hi|Hi].
    + rewrite deliver_enabled, run_listener_page by done. cbn [page].
      apply form_submit_resume_validity.
    + rewrite deliver_disabled; [done|lia].
Qed.

(** The reset listener empties the results and leaves the validity
    message of the ISBN field as it is: only the input listener ever
    clears it.  After an invalid ISBN was typed and the form was reset,
    the field is empty and still carries the message, so a browser that
    validates the form refuses to submit it, whatever the user enters
    in the other fields, until the ISBN field is edited again. *)
Theorem reset_keeps_validity value a :
  isbn_rejected value = true ->
  let a' := run [Input value; Reset] a in
  isbn_validity (page a') = invalid_isbn_msg /\ submittable a' = false.
Proof.
  intros Hv. cbv zeta. unfold run, submittable. cbn [fold_left app_step].
  rewrite !run_listener_page, form_reset_run, isbnInput_input_run, Hv. cbv zeta.
  cbn [final_state]. by destruct (is_some _).
Qed.

End stale_validity.

(** ** Witnesses *)

Section invariant_witnesses.
#[local] Existing Instance v8_host.
#[local] Existing Instance demo_env.

Lemma requests_accounted_witness :
  accounted (run [Submit bloch; Submit isbn13; Deliver 1 ok_response] (start blank_page)).
Proof.
  cbv zeta.
  apply (requests_accounted [Submit bloch; Submit isbn13; Deliver 1 ok_response] blank_page);
    [reflexivity|reflexivity|].
  apply steps_run. split; reflexivity.
Defined.

Lemma app_region_wf_witness : region_wf (results (page (run session (start blank_page)))).
Proof.
  apply (app_region_wf session blank_page); [reflexivity|by left|apply session_steps].
Defined.

Lemma reset_keeps_validity_witness :
  let a' := run [Input (lit "12345"); Reset] (start blank_page) in
  isbn_validity (page a') = invalid_isbn_msg /\ submittable a' = false.
Proof. apply reset_keeps_validity. reflexivity. Defined.

End invariant_witnesses.
