(* ===== verification/Machine.v ===== *)
(** * The machine of the specification, and the page as its implementation

    The specification describes the page by what it shows: a dialog
    that is hidden or shown, a field that carries a message or not, a
    results region with one of its views, and searches that have not
    been answered yet.  [machine_step] is that description as a
    function of the event; it says nothing of class lists, styles, the
    log or the listeners.  The theorems show that the listeners of
    [src/script.js], run by [app_step], implement it: the abstraction
    of the page after an event is the machine's state after that
    event, along every trace of a page that has a place for results. *)

From Stdlib Require Import String.
From S2P Require Import Prelude JsString JsValue Dom Modal Query Render Search App.
From S2P Require Import Async Loop Equiv Invariants.

(** ** The machine *)

Record Abs : Type := mkAbs {
  dialog : modal_state;             (* HIDDEN or SHOWN *)
  flagged : bool;                   (* the ISBN field carries the message *)
  region : option (list node);      (* what the results region shows *)
  waiting : nat                     (* searches not answered yet *)
}.

Section machine.
Context {host : Host} {env : Env}.

(** One event, as the specification has it: the dialog follows its
    triggers; input flags the field when the ISBN fails the test; a
    reset empties the region; a submission that passes the two guards
    shows the loading message and waits; an answer replaces what the
    region shows, whatever it showed. *)
Definition machine_step (ev : event) (s : Abs) : Abs :=
  match ev with
  | Ui m => mkAbs (modal_step (trigger_of m) (dialog s)) (flagged s) (region s) (waiting s)
  | Input value => mkAbs (dialog s) (isbn_rejected value) (region s) (waiting s)
  | Reset => mkAbs (dialog s) (flagged s) (option_map (fun _ => []) (region s)) (waiting s)
  | Submit f =>
      if isbn_rejected (f_isbn f) then s
      else match searchQuery f with
           | None => s
           | Some _ => mkAbs (dialog s) (flagged s) (Some [Markup loading]) (S (waiting s))
           end
  | Deliver i r =>
      if decide (i < waiting s)
      then mkAbs (dialog s) (flagged s) (Some (response_view r)) (pred (waiting s))
      else s
  end.

Definition machine_run (evs : list event) (s : Abs) : Abs :=
  fold_left (fun s ev => machine_step ev s) evs s.

(** What the machine sees of a state of the page. *)
Definition abs (a : App) : Abs :=
  mkAbs (modal_abs (page a)) (str_truthy (isbn_validity (page a)))
        (results (page a)) (length (inflight a)).

(** ** One event, observation by observation *)

Lemma modal_abs_view p q : modal_view p = modal_view q -> modal_abs p = modal_abs q.
Proof. unfold modal_abs, shown. by intros [= -> _]. Qed.

Lemma results_view p q : search_view p = search_view q -> results p = results q.
Proof. by intros [= _ _ ->]. Qed.

(** The machine does not see the log: states that differ in the log
    only have the same abstraction. *)
#[export] Instance abs_proper : Proper (app_equiv ==> eq) abs.
Proof.
  intros a b ([Hm Hs] & Hi & _). unfold abs. injection Hs as Hv _ Hr.
  by rewrite (modal_abs_view _ _ Hm), Hv, Hr, Hi.
Qed.

Lemma app_step_dialog ev a :
  modal_abs (page (app_step ev a)) =
  match ev with
  | Ui m => modal_step (trigger_of m) (modal_abs (page a))
  | _ => modal_abs (page a)
  end.
Proof.
  destruct ev as [m|value| |f|i r]; simpl.
  - rewrite run_listener_page, modal_handle_run. apply modal_effect_abs.
  - rewrite run_listener_page. apply modal_abs_view, search_side_frame.
  - rewrite run_listener_page. apply modal_abs_view, search_side_frame.
  - rewrite submit_page. apply modal_abs_view, search_side_frame.
  - destruct (decide (i < length (inflight a))) as [Hi|Hi].
    + rewrite deliver_enabled, run_listener_page by done.
      apply modal_abs_view, (search_side_frame (c:=form_submit_resume r)).
    + rewrite deliver_disabled; [done|lia].
Qed.

Lemma app_step_flagged ev a :
  str_truthy (isbn_validity (page (app_step ev a))) =
  match ev with
  | Input value => isbn_rejected value
  | _ => str_truthy (isbn_validity (page a))
  end.
Proof.
  destruct ev as [m|value| |f|i r];
    try (by rewrite app_step_validity).
  rewrite input_validity. by destruct (isbn_rejected value).
Qed.

Lemma app_step_waiting ev a :
  is_some (results (page a)) || search_container (page a) = true ->
  length (inflight (app_step ev a)) =
  match ev with
  | Submit f =>
      if isbn_rejected (f_isbn f) then length (inflight a)
      else if is_some (searchQuery f) then S (length (inflight a)) else length (inflight a)
  | Deliver i r =>
      if decide (i < length (inflight a)) then pred (length (inflight a))
      else length (inflight a)
  | _ => length (inflight a)
  end.
Proof.
  intros Hp. destruct ev as [m|value| |f|i r]; simpl;
    rewrite ?run_listener_inflight; try done.
  - rewrite submit_inflight, form_submit_start_run. unfold submit_effect. cbv zeta.
    destruct (isbn_rejected (f_isbn f)); [by rewrite app_nil_r|].
    destruct (searchQuery f); [|by rewrite app_nil_r].
    rewrite Hp. cbn [returned]. rewrite length_app. simpl. lia.
  - destruct (decide (i < length (inflight a))) as [Hi|Hi].
    + rewrite deliver_enabled, run_listener_inflight by done. cbn [inflight].
      rewrite length_delete by (by apply lookup_lt_is_Some_2). lia.
    + rewrite deliver_disabled; [done|lia].
Qed.

Lemma app_step_shows ev a :
  healthy a ->
  results (page (app_step ev a)) =
  match ev with
  | Reset => option_map (fun _ => []) (results (page a))
  | Submit f =>
      if isbn_rejected (f_isbn f) then results (page a)
      else if is_some (searchQuery f) then Some [Markup loading] else results (page a)
  | Deliver i r =>
      if decide (i < length (inflight a)) then Some (response_view r)
      else results (page a)
  | _ => results (page a)
  end.
Proof.
  intros (_ & Hp & Hr). destruct ev as [m|value| |f|i r]; simpl.
  - rewrite run_listener_page. apply results_view, (modal_side_frame (c:=modal_handle m)).
  - rewrite run_listener_page, isbnInput_input_run. cbn [final_state].
    by destruct (isbn_rejected value).
  - rewrite run_listener_page, form_reset_run. cbv zeta. cbn [final_state].
    destruct (results (page a)) eqn:E; cbn; by rewrite ?E.
  - rewrite submit_page, form_submit_start_run. unfold submit_effect. cbv zeta.
    destruct (isbn_rejected (f_isbn f)); [done|].
    destruct (searchQuery f); [|done]. by rewrite Hp.
  - destruct (decide (i < length (inflight a))) as [Hi|Hi].
    + destruct Hr as [Hr|Hr]; [rewrite Hr in Hi; simpl in Hi; lia|].
      by destruct (deliver_results i r a Hi Hr) as [-> _].
    + rewrite deliver_disabled; [done|lia].
Qed.

(** ** The simulation *)

Lemma app_step_abs ev a : healthy a -> abs (app_step ev a) = machine_step ev (abs a).
Proof.
  intros Hh. pose proof Hh as (_ & Hp & _). unfold abs.
  rewrite app_step_dialog, app_step_flagged, app_step_shows, app_step_waiting by done.
  destruct ev as [m|value| |f|i r]; simpl; try done.
  - destruct (isbn_rejected (f_isbn f)); [done|]. by destruct (searchQuery f).
  - by destruct (decide (i < length (inflight a))).
Qed.

Lemma steps_abs evs a a' :
  healthy a -> steps a evs a' -> abs a' = machine_run evs (abs a).
Proof.
  intros Hh Hsteps. induction Hsteps as [|? ? ? ? ? [b ev Hen] _ IH]; [done|].
  simpl. rewrite <- app_step_abs by done. by apply IH, app_step_healthy.
Qed.

(** ** Theorems *)

(** C11. The page implements the machine of the specification: along
    every trace of a page with a place for results, what the page
    shows (dialog, flag of the ISBN field, results region, number of
    searches not yet answered) is the state the machine reaches on the
    same events. *)
Theorem app_refines_machine evs p a' :
  is_some (results p) || search_container p = true ->
  steps (start p) evs a' ->
  abs a' = machine_run evs (abs (start p)).
Proof. intros Hp. apply steps_abs. by split_and!; [| |left]. Qed.

(** The loop that settles the response and its body one at a time
    implements the machine as well: the arrival of a response is no
    event of the machine. *)
Theorem loop_refines_machine evs p l' :
  is_some (results p) || search_container p = true ->
  loop_steps (loop_start p) evs l' ->
  abs (app_of l') = machine_run (app_trace evs (loop_start p)) (abs (start p)).
Proof.
  intros Hp Hs. destruct (loop_steps_app _ _ _ Hs) as [Ha _]; [by constructor|].
  apply (steps_abs _ (app_of (loop_start p))); [|done]. by split_and!; [| |left].
Qed.

End machine.

(** ** Witnesses *)

Section machine_witnesses.
#[local] Existing Instance v8_host.
#[local] Existing Instance demo_env.

Lemma app_refines_machine_witness :
  abs (run session (start blank_page)) = machine_run session (abs (start blank_page)).
Proof. apply app_refines_machine; [reflexivity|apply session_steps]. Defined.

(** The machine on the session of [App]: two searches, answered in
    the reverse order, leave the error of the first on the page. *)
Example machine_session :
  machine_run session (abs (start blank_page)) =
  mkAbs HIDDEN false (Some [Markup error_markup]) 0.
Proof. reflexivity. Qed.

Lemma loop_refines_machine_witness :
  abs (app_of (loop_run slow_body (loop_start blank_page))) =
  machine_run (app_trace slow_body (loop_start blank_page)) (abs (start blank_page)).
Proof. apply loop_refines_machine; [reflexivity|apply slow_body_steps]. Defined.

End machine_witnesses.
