(* ===== verification/Form.v ===== *)
(** * The form as the user meets it

    The listeners of [src/script.js] read the controls of the form:
    the input listener the value of the ISBN field, the submit listener
    the values of the four named controls (lines 73 to 76).  In [App] a
    submission carries these values; here they are state, changed by
    the user, and the events are the ones a browser fires for what the
    user does.  A browser that validates the form fires no [submit]
    event while a field carries a custom validity message, and a reset
    restores the values the page gives them; the message is the script's
    to clear.

    The file shows that the user's actions are traces of [App], that the
    test of the ISBN at submission never fails on a form the browser
    validates, and what the message left behind by a reset costs: no
    search can be started until the ISBN field is edited again. *)

From Stdlib Require Import String.
From S2P Require Import Prelude JsString JsValue Isbn Dom Modal Query Render Search.
From S2P Require Import Async App Loop Invariants Machine.

(** ** The controls *)

(** The controls the submit listener reads, by name. *)
Inductive control : Type := C_isbn | C_title | C_author | C_language.

#[export] Instance control_eq_dec : EqDecision control.
Proof. solve_decision. Defined.

(** The value of each control, where the form has a control of that
    name. *)
Definition Controls : Type := control -> option jsstring.

(** Lines 73 to 76: [form.isbn.value], [form.title.value],
    [form.author.value] and [form.language.value].  Without a control
    of one of the names the expression throws. *)
Definition fields_of (cs : Controls) : option Fields :=
  match cs C_isbn, cs C_title, cs C_author, cs C_language with
  | Some isbn, Some title, Some author, Some language =>
      Some (mkFields isbn title author language)
  | _, _, _, _ => None
  end.

(** The user changes the value of a control the form has. *)
Definition edit (c : control) (v : jsstring) (cs : Controls) : Controls :=
  fun c' => if decide (c' = c) then match cs c with Some _ => Some v | None => None end
            else cs c'.

(** A form with all four controls. *)
Definition complete (cs : Controls) : Prop := forall c, is_Some (cs c).

(** ** The user's actions *)

Inductive action : Type :=
| Edit (c : control) (v : jsstring)   (* the user gives a control a new value *)
| Press_reset                         (* the reset button *)
| Press_search                        (* the submit button *)
| Use (m : modal_event)               (* a click or a key press elsewhere *)
| Arrive (i : nat) (r : response).    (* the i-th request in flight ends *)

(** The page and the values of the controls. *)
Record Visit : Type := mkVisit {
  shown_app : App;
  values : Controls
}.

Section form.
Context {host : Host} {env : Env}.

Local Open Scope js_scope.

(** The submit listener on a form with these controls, until it is
    suspended or returns. *)
Definition form_submit_on (cs : Controls) : D (option jsstring) :=
  match fields_of cs with
  | Some f => form_submit_start f
  | None => emit PreventDefault ;; throw TypeError
  end.

(** What the document gives the form: the values of the controls when
    the page is loaded and after a reset, and whether the browser
    validates the form before it submits it (no [novalidate]). *)
Context (defaults : Controls) (validated : bool).

(** The submit listener as a step of the page. *)
Definition submit_on (cs : Controls) (a : App) : App :=
  match form_submit_on cs (page a) with
  | Returns (Some url) p' => mkApp p' (inflight a ++ [url]) (unhandled a)
  | Returns None p' => mkApp p' (inflight a) (unhandled a)
  | Throws e p' => mkApp p' (inflight a) (unhandled a ++ [e])
  end.

(** Does the browser refuse to submit the form?  It does when it
    validates the form and the ISBN field carries a message. *)
Definition blocked (v : Visit) : bool :=
  validated && str_truthy (isbn_validity (page (shown_app v))).

(** One action.  An edit of the ISBN field fires [input] with the new
    value; an edit of another control fires nothing the script listens
    to; a reset fires [reset] and then restores the values; the submit
    button fires [submit] unless the browser refuses. *)
Definition user_step (act : action) (v : Visit) : Visit :=
  match act with
  | Edit c value =>
      match values v c with
      | None => v
      | Some _ =>
          mkVisit (if decide (c = C_isbn) then app_step (Input value) (shown_app v)
                   else shown_app v)
                  (edit c value (values v))
      end
  | Press_reset => mkVisit (app_step Reset (shown_app v)) defaults
  | Press_search =>
      if blocked v then v else mkVisit (submit_on (values v) (shown_app v)) (values v)
  | Use m => mkVisit (app_step (Ui m) (shown_app v)) (values v)
  | Arrive i r => mkVisit (app_step (Deliver i r) (shown_app v)) (values v)
  end.

Definition user_run (acts : list action) (v : Visit) : Visit :=
  fold_left (fun v act => user_step act v) acts v.

(** The visit when the document is loaded. *)
Definition landing (p : Page) : Visit := mkVisit (start p) defaults.

(** The events of [App] an action stands for: one at most. *)
Definition events_of (act : action) (v : Visit) : list event :=
  match act with
  | Edit c value =>
      if decide (c = C_isbn) then
        match values v c with Some _ => [Input value] | None => [] end
      else []
  | Press_reset => [Reset]
  | Press_search =>
      if blocked v then []
      else match fields_of (values v) with Some f => [Submit f] | None => [] end
  | Use m => [Ui m]
  | Arrive i r =>
      if decide (i < length (inflight (shown_app v))) then [Deliver i r] else []
  end.

Fixpoint trace_of (acts : list action) (v : Visit) : list event :=
  match acts with
  | [] => []
  | act :: acts' => events_of act v ++ trace_of acts' (user_step act v)
  end.

(** The message of the ISBN field is right about its value: without a
    message, the value would pass the test at submission. *)
Definition validity_sound (v : Visit) : Prop :=
  isbn_validity (page (shown_app v)) = [] ->
  forall value, values v C_isbn = Some value -> isbn_rejected value = false.

(** The alerts of the test of the ISBN at submission (line 80). *)
Definition is_isbn_alert (e : effect) : bool :=
  match e with Alert msg => str_eqb msg invalid_isbn_msg | _ => false end.

Definition isbn_alerts (l : list effect) : nat := length (List.filter is_isbn_alert l).

(** The actions that edit the ISBN field. *)
Definition edits_isbn (act : action) : bool :=
  match act with Edit C_isbn _ => true | _ => false end.

(** ** The controls along a visit *)

Lemma complete_fields cs :
  complete cs <-> exists f, fields_of cs = Some f.
Proof.
  unfold complete, fields_of. split.
  - intros H. destruct (H C_isbn) as [? ->], (H C_title) as [? ->],
      (H C_author) as [? ->], (H C_language) as [? ->]. by eexists.
  - intros [f Hf] c.
    destruct (cs C_isbn) eqn:?, (cs C_title) eqn:?, (cs C_author) eqn:?,
      (cs C_language) eqn:?; try done. destruct c; by eexists.
Qed.

Lemma edit_complete c v cs : complete cs -> complete (edit c v cs).
Proof.
  intros H c'. unfold edit. destruct (decide (c' = c)); [|done].
  by destruct (H c) as [? ->].
Qed.

Lemma user_step_complete act v :
  complete defaults -> complete (values v) -> complete (values (user_step act v)).
Proof.
  intros Hd Hv. destruct act as [c value| | |m|i r]; simpl; try done.
  - destruct (Hv c) as [? ->]. by apply edit_complete.
  - by destruct (blocked v).
Qed.

(** The value of the ISBN field after an action. *)
Lemma edit_isbn c v cs :
  edit c v cs C_isbn =
  if decide (c = C_isbn) then match cs C_isbn with Some _ => Some v | None => None end
  else cs C_isbn.
Proof.
  unfold edit. destruct (decide (C_isbn = c)) as [<-|Hc]; [by rewrite decide_True|].
  by rewrite decide_False.
Qed.

(** ** The submit listener and its controls *)

Lemma submit_on_fields cs f a : fields_of cs = Some f -> submit_on cs a = submit f a.
Proof. intros Hf. unfold submit_on, form_submit_on, submit. by rewrite Hf. Qed.

Lemma submit_on_missing cs a :
  fields_of cs = None ->
  submit_on cs a =
  mkApp (set_log (log (page a) ++ [PreventDefault]) (page a))
        (inflight a) (unhandled a ++ [TypeError]).
Proof. intros Hf. unfold submit_on, form_submit_on. by rewrite Hf. Qed.

(** ** Actions are events *)

Lemma user_step_events act v :
  complete (values v) ->
  steps (shown_app v) (events_of act v) (shown_app (user_step act v)).
Proof.
  intros Hv. apply steps_run.
  destruct act as [c value| | |m|i r]; simpl; try done.
  - destruct (Hv c) as [? ->]. by destruct (decide (c = C_isbn)).
  - destruct (blocked v); [done|]. apply complete_fields in Hv as [f Hf].
    rewrite Hf. simpl. by rewrite (submit_on_fields _ f).
  - destruct (decide (i < _)) as [Hi|Hi]; simpl.
    + by rewrite bool_decide_eq_true_2.
    + rewrite deliver_disabled; [done|lia].
Qed.

Lemma events_of_short act v : length (events_of act v) <= 1.
Proof.
  destruct act as [c value| | |m|i r]; simpl; try lia.
  - destruct (decide (c = C_isbn)); [|simpl; lia]. destruct (values v c); simpl; lia.
  - destruct (blocked v); [simpl; lia|]. destruct (fields_of (values v)); simpl; lia.
  - destruct (decide (i < _)); simpl; lia.
Qed.

Lemma user_run_trace acts v :
  complete defaults -> complete (values v) ->
  steps (shown_app v) (trace_of acts v) (shown_app (user_run acts v)) /\
  length (trace_of acts v) <= length acts.
Proof.
  intros Hd. revert v. induction acts as [|act acts IH]; intros v Hv; simpl.
  - split; [constructor|done].
  - destruct (IH (user_step act v)) as [Hsteps Hlen]; [by apply user_step_complete|].
    split; [by eapply steps_app; [apply user_step_events|]|].
    rewrite length_app. pose proof (events_of_short act v). lia.
Qed.


(** ** The validity message along a visit *)

Lemma submit_on_page cs a :
  page (submit_on cs a) = final_state (form_submit_on cs (page a)).
Proof. unfold submit_on. by destruct (form_submit_on cs (page a)) as [[url|] ?|? ?]. Qed.

Lemma form_submit_on_validity cs p :
  isbn_validity (final_state (form_submit_on cs p)) = isbn_validity p.
Proof.
  unfold form_submit_on. destruct (fields_of cs); [|done].
  apply form_submit_start_validity.
Qed.

(** What an action does to the message: only an edit of the ISBN
    field changes it. *)
Lemma user_step_validity act v :
  edits_isbn act = false ->
  isbn_validity (page (shown_app (user_step act v))) =
  isbn_validity (page (shown_app v)).
Proof.
  destruct act as [c value| | |m|i r]; simpl; intros Hact.
  - destruct (values v c); [|done]. simpl. destruct c; try done.
  - by apply (app_step_validity Reset).
  - destruct (blocked v); [done|]. simpl. rewrite submit_on_page.
    apply form_submit_on_validity.
  - by apply (app_step_validity (Ui m)).
  - by apply (app_step_validity (Deliver i r)).
Qed.

Lemma user_step_isbn act v :
  edits_isbn act = false ->
  values (user_step act v) C_isbn =
  match act with Press_reset => defaults C_isbn | _ => values v C_isbn end.
Proof.
  destruct act as [c value| | |m|i r]; simpl; intros Hact; try done.
  - destruct (values v c) eqn:E; [|done]. simpl. rewrite edit_isbn.
    by destruct c.
  - by destruct (blocked v).
Qed.

Lemma user_step_validity_sound act v :
  (forall value, defaults C_isbn = Some value -> isbn_rejected value = false) ->
  validity_sound v -> validity_sound (user_step act v).
Proof.
  intros Hd Hv. destruct (edits_isbn act) eqn:Hact.
  - destruct act as [[] value| | | |]; try done. unfold validity_sound, user_step.
    destruct (values v C_isbn) eqn:E; [|done]. cbn [shown_app values].
    rewrite decide_True by done.
    rewrite input_validity, edit_isbn, E. rewrite decide_True by done.
    destruct (isbn_rejected value) eqn:Hr; [done|]. by intros _ ? [= <-].
  - unfold validity_sound. rewrite user_step_validity, user_step_isbn by done.
    destruct act; auto.
Qed.

(** A property every action keeps holds along every visit. *)
Lemma user_run_invariant (I : Visit -> Prop) acts v :
  (forall act v, I v -> I (user_step act v)) -> I v -> I (user_run acts v).
Proof.
  intros Hstep. revert v. induction acts as [|act acts IH]; intros v Hv; [done|].
  apply IH, Hstep, Hv.
Qed.

(** ** The alerts of the test at submission *)

Lemma isbn_alerts_app l l' : isbn_alerts (l ++ l') = isbn_alerts l + isbn_alerts l'.
Proof. unfold isbn_alerts. by rewrite List.filter_app, length_app. Qed.

Lemma isbn_alerts_other e l :
  is_isbn_alert e = false -> isbn_alerts (l ++ [e]) = isbn_alerts l.
Proof. intros He. rewrite isbn_alerts_app. unfold isbn_alerts. simpl. rewrite He. simpl. lia. Qed.

Lemma resume_effect_isbn_alerts r p :
  isbn_alerts (log (resume_effect r p)) = isbn_alerts (log p).
Proof.
  unfold resume_effect, failed, rendered. destruct (response_items r) as [items|];
    [|by apply isbn_alerts_other].
  destruct (is_empty_result items); [done|].
  destruct (forEach_render items); [done|by apply isbn_alerts_other].
Qed.

Lemma form_submit_resume_isbn_alerts r p :
  isbn_alerts (log (final_state (form_submit_resume r p))) = isbn_alerts (log p).
Proof.
  destruct (form_submit_resume_final r p) as [->|[_ [e ->]]]; cbv zeta;
    cbn [log set_log]; rewrite isbn_alerts_other by done; [|done].
  apply resume_effect_isbn_alerts.
Qed.

Lemma form_submit_start_isbn_alerts f p :
  isbn_rejected (f_isbn f) = false ->
  isbn_alerts (log (final_state (form_submit_start f p))) = isbn_alerts (log p).
Proof.
  intros Hf. rewrite form_submit_start_run. unfold submit_effect, searching. cbv zeta.
  rewrite Hf. destruct (searchQuery f);
    [destruct (is_some (results p) || search_container p)|];
    cbn [final_state log set_log set_results]; by rewrite !isbn_alerts_other.
Qed.

(** Of the events of the page only a submission whose ISBN fails the
    test alerts the user to it. *)
Lemma app_step_isbn_alerts ev a :
  match ev with Submit f => isbn_rejected (f_isbn f) = false | _ => True end ->
  isbn_alerts (log (page (app_step ev a))) = isbn_alerts (log (page a)).
Proof.
  destruct ev as [m|value| |f|i r]; simpl; intros Hev.
  - rewrite run_listener_page, modal_handle_run. cbn [final_state].
    destruct m as [[]|key]; simpl; try done; [by apply isbn_alerts_other|].
    by destruct (str_eqb key Escape && shown (page a)).
  - rewrite run_listener_page, isbnInput_input_run. cbn [final_state].
    destruct (isbn_rejected value); [by apply isbn_alerts_other|done].
  - rewrite run_listener_page, form_reset_run. cbv zeta. cbn [final_state].
    destruct (is_some (results (page a))); by apply isbn_alerts_other.
  - rewrite submit_page. by apply form_submit_start_isbn_alerts.
  - destruct (decide (i < length (inflight a))) as [Hi|Hi].
    + rewrite deliver_enabled, run_listener_page by done. cbn [page].
      apply form_submit_resume_isbn_alerts.
    + rewrite deliver_disabled; [done|lia].
Qed.

Lemma fields_of_isbn cs f : fields_of cs = Some f -> cs C_isbn = Some (f_isbn f).
Proof.
  unfold fields_of. destruct (cs C_isbn), (cs C_title), (cs C_author), (cs C_language);
    try done. by intros [= <-].
Qed.

Lemma submit_on_isbn_alerts v :
  blocked v = false -> validated = true -> validity_sound v ->
  isbn_alerts (log (page (submit_on (values v) (shown_app v)))) =
  isbn_alerts (log (page (shown_app v))).
Proof.
  unfold blocked. intros Hb Hval Hv. rewrite Hval in Hb. apply str_truthy_false in Hb.
  destruct (fields_of (values v)) as [f|] eqn:Hf.
  - rewrite (submit_on_fields _ f _ Hf). apply (app_step_isbn_alerts (Submit f)).
    apply (Hv Hb). by apply fields_of_isbn.
  - rewrite submit_on_missing by done. by apply isbn_alerts_other.
Qed.

Lemma user_step_isbn_alerts act v :
  validated = true -> validity_sound v ->
  isbn_alerts (log (page (shown_app (user_step act v)))) =
  isbn_alerts (log (page (shown_app v))).
Proof.
  intros Hval Hv. destruct act as [c value| | |m|i r]; cbn [user_step].
  - destruct (values v c); [|done]. cbn [shown_app].
    destruct (decide (c = C_isbn)); [|done]. by apply (app_step_isbn_alerts (Input value)).
  - by apply (app_step_isbn_alerts Reset).
  - destruct (blocked v) eqn:Hb; [done|]. by apply submit_on_isbn_alerts.
  - by apply (app_step_isbn_alerts (Ui m)).
  - by apply (app_step_isbn_alerts (Deliver i r)).
Qed.

(** ** A form that is blocked *)

Lemma user_step_sent act v :
  edits_isbn act = false ->
  blocked v = true ->
  sent (log (page (shown_app (user_step act v)))) = sent (log (page (shown_app v))).
Proof.
  intros Hact Hb. destruct act as [c value| | |m|i r]; cbn [user_step].
  - destruct (values v c); [|done]. cbn [shown_app]. by destruct c.
  - by apply (app_step_sent_other Reset).
  - by rewrite Hb.
  - by apply (app_step_sent_other (Ui m)).
  - by apply (app_step_sent_other (Deliver i r)).
Qed.

Lemma user_step_blocked act v :
  edits_isbn act = false -> blocked (user_step act v) = blocked v.
Proof. intros Hact. unfold blocked. by rewrite user_step_validity. Qed.

Lemma user_run_blocked acts v :
  forallb (fun act => negb (edits_isbn act)) acts = true ->
  blocked v = true ->
  blocked (user_run acts v) = true /\
  sent (log (page (shown_app (user_run acts v)))) = sent (log (page (shown_app v))).
Proof.
  revert v. induction acts as [|act acts IH]; intros v Hacts Hb; [done|].
  simpl in Hacts. apply andb_true_iff in Hacts as [Hact%negb_true_iff Hacts].
  destruct (IH (user_step act v) Hacts) as [Hb' Hs]; [by rewrite user_step_blocked|].
  split; [done|]. simpl. by rewrite Hs, user_step_sent.
Qed.

Lemma user_run_isbn acts v :
  forallb (fun act => negb (edits_isbn act)) acts = true ->
  values v C_isbn = defaults C_isbn ->
  values (user_run acts v) C_isbn = defaults C_isbn.
Proof.
  revert v. induction acts as [|act acts IH]; intros v Hacts Hv; [done|].
  simpl in Hacts. apply andb_true_iff in Hacts as [Hact%negb_true_iff Hacts].
  apply IH; [done|]. rewrite user_step_isbn by done. by destruct act.
Qed.

(** ** Theorems *)


(** A visit is a run of the machine of the specification: what the
    page shows after the user's actions is the state of the machine
    after the events they stand for. *)
Theorem visit_refines_machine acts p :
  complete defaults ->
  is_some (results p) || search_container p = true ->
  abs (shown_app (user_run acts (landing p))) =
  machine_run (trace_of acts (landing p)) (abs (start p)).
Proof.
  intros Hd Hp. apply steps_abs; [by split_and!; [| |left]|].
  by apply (user_run_trace acts (landing p)).
Qed.

(** A visit is a run of the loop in which a listener waits for the
    response and for its body: the page the user sees is the page of
    that loop after the events the actions stand for, each response
    followed at once by its body. *)
Theorem visit_refines_loop acts p :
  complete defaults ->
  let evs := loop_trace (trace_of acts (landing p)) in
  loop_steps (loop_start p) evs (loop_run evs (loop_start p)) /\
  app_of (loop_run evs (loop_start p)) = shown_app (user_run acts (landing p)).
Proof.
  intros Hd evs.
  destruct (app_refines_loop (loop_start p) (trace_of acts (landing p))
              (shown_app (user_run acts (landing p)))) as (H1 & H2 & _);
    [apply loop_start_fresh|by apply (user_run_trace acts (landing p))|done].
Qed.

(** Where the ISBN field carries no message, its value passes the test
    of the submit listener: the input listener keeps the message
    right about every value the user types, and a reset restores a
    value the page chose. *)
Theorem validity_tracks_value acts p :
  (forall value, defaults C_isbn = Some value -> isbn_rejected value = false) ->
  validity_sound (user_run acts (landing p)).
Proof.
  intros Hd. apply user_run_invariant; [intros; by apply user_step_validity_sound|].
  intros _. apply Hd.
Qed.

(** C33. On a form the browser validates, the test of the ISBN at
    submission (lines 79 to 82) never fails: whatever the user does,
    the alert of line 80 is not raised, since a value that would fail
    the test has put a message on the field, and the browser does not
    submit a form whose field carries one. *)
Theorem submit_alert_unreachable acts p :
  validated = true ->
  (forall value, defaults C_isbn = Some value -> isbn_rejected value = false) ->
  isbn_alerts (log (page (shown_app (user_run acts (landing p))))) = isbn_alerts (log p).
Proof.
  intros Hval Hd.
  apply (user_run_invariant (fun v => validity_sound v /\
           isbn_alerts (log (page (shown_app v))) = isbn_alerts (log p)));
    [|split; [intros _; apply Hd|done]].
  intros act v [Hv Hl]. split; [by apply user_step_validity_sound|].
  by rewrite user_step_isbn_alerts.
Qed.

(** While the ISBN field carries a message, a form the browser
    validates sends nothing: whatever else the user edits, presses or
    resets, no request leaves the page until the ISBN field is edited. *)
Theorem stale_validity_blocks acts v :
  blocked v = true ->
  forallb (fun act => negb (edits_isbn act)) acts = true ->
  blocked (user_run acts v) = true /\
  sent (log (page (shown_app (user_run acts v)))) = sent (log (page (shown_app v))).
Proof. intros Hb Hacts. by apply user_run_blocked. Qed.

(** C27. The reset listener does not clear the message of the ISBN field.
    After an ISBN that fails the test was typed and the form was
    reset, the field shows the value the page gives it and still
    carries the message: on a form the browser validates, a search by
    title and author cannot be started, however often the user presses
    the button, until the ISBN field is edited. *)
Theorem reset_blocks_search value acts v :
  validated = true ->
  is_Some (values v C_isbn) ->
  isbn_rejected value = true ->
  forallb (fun act => negb (edits_isbn act)) acts = true ->
  let v' := user_run (Edit C_isbn value :: Press_reset :: acts) v in
  values v' C_isbn = defaults C_isbn /\
  blocked v' = true /\
  sent (log (page (shown_app v'))) = sent (log (page (shown_app v))).
Proof.
  intros Hval [old Hold] Hr Hacts. cbv zeta. cbn [user_run fold_left].
  fold (user_run acts (user_step Press_reset (user_step (Edit C_isbn value) v))).
  set (v1 := user_step (Edit C_isbn value) v).
  assert (blocked v1 = true /\
          sent (log (page (shown_app v1))) = sent (log (page (shown_app v))))
    as [Hb Hs].
  { unfold v1, blocked. cbn [user_step]. rewrite Hold. cbn [shown_app].
    rewrite decide_True by done. rewrite input_validity, Hr, Hval.
    split; [done|]. by apply (app_step_sent_other (Input value)). }
  destruct (user_run_blocked acts (user_step Press_reset v1) Hacts) as [Hb' Hs'];
    [by rewrite user_step_blocked|].
  split_and!; [by apply user_run_isbn|done|].
  by rewrite Hs', user_step_sent.
Qed.

(** Editing the ISBN field is the way out: after an edit to a value
    that passes the test (the empty value included) the form is not
    blocked. *)
Theorem edit_unblocks value v :
  is_Some (values v C_isbn) ->
  isbn_rejected value = false ->
  blocked (user_step (Edit C_isbn value) v) = false.
Proof.
  intros [old Hold] Hr. unfold blocked. cbn [user_step]. rewrite Hold. cbn [shown_app].
  rewrite decide_True by done. rewrite input_validity, Hr. apply andb_false_r.
Qed.

(** A form that lacks one of the four named controls: the submit
    listener prevents the default, throws a [TypeError] that nothing
    catches, and sends nothing. *)
Theorem search_without_control v :
  fields_of (values v) = None ->
  blocked v = false ->
  shown_app (user_step Press_search v) =
  mkApp (set_log (log (page (shown_app v)) ++ [PreventDefault]) (page (shown_app v)))
        (inflight (shown_app v)) (unhandled (shown_app v) ++ [TypeError]).
Proof. intros Hf Hb. cbn [user_step]. rewrite Hb. by apply submit_on_missing. Qed.

End form.

(** ** Witnesses: a form with its four controls, and one without *)

Section form_witnesses.
#[local] Existing Instance v8_host.
#[local] Existing Instance demo_env.

(** The form of a page whose text fields start empty. *)
Definition empty_form : Controls :=
  fun c => Some (if decide (c = C_language) then english else []).

(** The same form without a control named [author]. *)
Definition no_author : Controls :=
  fun c => if decide (c = C_author) then None else empty_form c.

Lemma empty_form_complete : complete empty_form.
Proof. intros c. by eexists. Qed.

Lemma empty_form_isbn value : empty_form C_isbn = Some value -> isbn_rejected value = false.
Proof. by intros [= <-]. Qed.

(** A search by title, after an ISBN was typed and the form reset. *)
Definition retry : list action :=
  [Edit C_title (lit "Effective Java"); Press_search; Press_search].


Lemma visit_refines_loop_witness :
  let acts := [Edit C_title (lit "Java"); Press_search; Arrive 0 ok_response] in
  let evs := loop_trace (trace_of empty_form true acts (landing empty_form blank_page)) in
  loop_steps (loop_start blank_page) evs (loop_run evs (loop_start blank_page)) /\
  app_of (loop_run evs (loop_start blank_page)) =
  shown_app (user_run empty_form true acts (landing empty_form blank_page)).
Proof. apply visit_refines_loop, empty_form_complete. Defined.

Lemma visit_refines_machine_witness :
  let acts := [Edit C_title (lit "Java"); Press_search; Arrive 0 ok_response] in
  abs (shown_app (user_run empty_form true acts (landing empty_form blank_page))) =
  machine_run (trace_of empty_form true acts (landing empty_form blank_page))
    (abs (start blank_page)).
Proof. apply visit_refines_machine; [apply empty_form_complete|reflexivity]. Defined.

Lemma validity_tracks_value_witness :
  validity_sound
    (user_run empty_form true [Edit C_isbn (lit "12345"); Edit C_isbn (lit "0134685997")]
       (landing empty_form blank_page)).
Proof. apply validity_tracks_value, empty_form_isbn. Defined.

Lemma submit_alert_unreachable_witness :
  isbn_alerts (log (page (shown_app
    (user_run empty_form true [Edit C_isbn (lit "12345"); Press_search]
       (landing empty_form blank_page))))) = isbn_alerts (log blank_page).
Proof. apply submit_alert_unreachable; [reflexivity|apply empty_form_isbn]. Defined.

Lemma stale_validity_blocks_witness :
  let v := user_run empty_form true [Edit C_isbn (lit "12345"); Press_reset]
             (landing empty_form blank_page) in
  blocked true (user_run empty_form true retry v) = true /\
  sent (log (page (shown_app (user_run empty_form true retry v)))) =
  sent (log (page (shown_app v))).
Proof. cbv zeta. apply stale_validity_blocks; reflexivity. Defined.

Lemma reset_blocks_search_witness :
  let v' := user_run empty_form true
              (Edit C_isbn (lit "12345") :: Press_reset :: retry)
              (landing empty_form blank_page) in
  values v' C_isbn = empty_form C_isbn /\
  blocked true v' = true /\
  sent (log (page (shown_app v'))) =
  sent (log (page (shown_app (landing empty_form blank_page)))).
Proof. apply reset_blocks_search; [reflexivity|by eexists|reflexivity|reflexivity]. Defined.

Lemma edit_unblocks_witness :
  let v := user_run empty_form true [Edit C_isbn (lit "12345"); Press_reset]
             (landing empty_form blank_page) in
  blocked true (user_step empty_form true (Edit C_isbn []) v) = false.
Proof. cbv zeta. apply edit_unblocks; [by eexists|reflexivity]. Defined.

Lemma search_without_control_witness :
  let v := landing no_author blank_page in
  shown_app (user_step no_author true Press_search v) =
  mkApp (set_log (log (page (shown_app v)) ++ [PreventDefault]) (page (shown_app v)))
        (inflight (shown_app v)) (unhandled (shown_app v) ++ [TypeError]).
Proof. cbv zeta. apply search_without_control; reflexivity. Defined.

(** Without validation the test at submission is what stops the
    search: the alert is raised. *)
Example submit_alert_without_validation :
  isbn_alerts (log (page (shown_app
    (user_run empty_form false [Edit C_isbn (lit "12345"); Press_search]
       (landing empty_form blank_page))))) = 1.
Proof. reflexivity. Qed.

(** The same search before and after the ISBN field is touched again:
    blocked, then sent. *)
Example retry_after_edit :
  let v := user_run empty_form true [Edit C_isbn (lit "12345"); Press_reset]
             (landing empty_form blank_page) in
  inflight (shown_app (user_run empty_form true retry v)) = [] /\
  inflight (shown_app (user_run empty_form true (Edit C_isbn [] :: retry) v)) =
    [api_url (lit "Effective Java  textbook pdf");
     api_url (lit "Effective Java  textbook pdf")].
Proof. split; reflexivity. Qed.

End form_witnesses.
