(* ===== verification/Dispatch.v ===== *)
(** * Events on a page that is not fully wired

    [app_step] describes the page on which [DOMContentLoaded]
    registered all seven listeners.  Here an event runs those of the
    listeners it reaches that were registered, one after the other, the
    listener of a click's target before the one of the window.  On a
    page with all the elements this is [app_step]; on a page that lacks
    an element of the dialog the form is not wired at all; and the
    invariant of the dialog holds whatever was registered. *)

From Stdlib Require Import String.
From S2P Require Import Prelude JsString JsValue Dom Modal Query Render Search Wiring App.

Section dispatch.
Context {host : Host} {env : Env}.

(** The listeners an event reaches, in the order in which they run: a
    click runs the listener of its target, then bubbles to the
    window. *)
Definition listeners_of (ev : event) : list listener :=
  match ev with
  | Ui (Click AboutLink) => [On_aboutLink_click; On_window_click]
  | Ui (Click CloseBtn) => [On_closeBtn_click; On_window_click]
  | Ui (Click _) => [On_window_click]
  | Ui (KeyDown _) => [On_document_keydown]
  | Input _ => [On_isbnInput_input]
  | Reset => [On_form_reset]
  | Submit _ => [On_form_submit]
  | Deliver _ _ => []
  end.

(** One listener, called with an event. *)
Definition listen (ev : event) (a : App) (l : listener) : App :=
  match l, ev with
  | On_aboutLink_click, Ui (Click _) => run_listener aboutLink_click a
  | On_closeBtn_click, Ui (Click _) => run_listener closeBtn_click a
  | On_window_click, Ui (Click t) => run_listener (window_click t) a
  | On_document_keydown, Ui (KeyDown key) => run_listener (document_keydown key) a
  | On_isbnInput_input, Input value => run_listener (isbnInput_input value) a
  | On_form_reset, Reset => run_listener form_reset a
  | On_form_submit, Submit f => submit f a
  | _, _ => a
  end.

(** An event on a page whose registered listeners are [ls]: the end of
    a request resumes the listener that awaits it; any other event
    calls the registered listeners it reaches, each on its own (an
    exception of one does not keep the next from running). *)
Definition dispatch (ls : list listener) (ev : event) (a : App) : App :=
  match ev with
  | Deliver i r => deliver i r a
  | _ =>
      fold_left (listen ev)
        (List.filter (fun l => bool_decide (elem_of l ls)) (listeners_of ev)) a
  end.

(** Running a list of events on such a page. *)
Definition run_on (ls : list listener) (evs : list event) (a : App) : App :=
  fold_left (fun a ev => dispatch ls ev a) evs a.

End dispatch.

(** ** Pages that are not fully wired *)

Section wiring_facts.
Context {host : Host} {env : Env}.

Lemma run_listener_seq (c1 c2 : D unit) a :
  is_some (returned (c1 (page a))) = true ->
  run_listener (c1 ;; c2)%js a = run_listener c2 (run_listener c1 a).
Proof. unfold run_listener, bind. by destruct (c1 (page a)). Qed.

(** On a page with all its listeners an event does what [app_step]
    says: running the listeners a click reaches one after the other is
    running the click listener of the modal controller. *)
Theorem dispatch_all ev a : dispatch all_listeners ev a = app_step ev a.
Proof.
  destruct ev as [[[]|key]|value| |f|i r]; try reflexivity.
  all: cbn; by rewrite run_listener_seq.
Qed.

(** C34. The form is wired last: on a page that lacks an element of the
    about dialog, or the ISBN field, a submission is not handled. *)
Theorem submit_needs_modal d f a :
  has_modal d && has_form d = false -> dispatch (registered d) (Submit f) a = a.
Proof.
  intros Hd. unfold dispatch. simpl.
  rewrite bool_decide_eq_false_2; [done|].
  rewrite list_elem_of_In, search_needs_modal.
  intros [H1 H2]. by rewrite H1, H2 in Hd.
Qed.

(** Without the close control the dialog opens and stays: no click
    and no key closes it. *)
Theorem modal_stuck_without_close d ev a :
  d El_aboutModal = true -> d El_aboutLink = true -> d El_close = false ->
  shown (page a) = true ->
  shown (page (dispatch (registered d) (Ui ev) a)) = true.
Proof.
  intros Hm Hl Hc Ha. rewrite registered_cases, Hm, Hl, Hc. simpl.
  destruct ev as [[]|key]; simpl; try done.
  apply (shown_opened (set_log _ (page a))).
Qed.

End wiring_facts.

(** ** The invariant of the dialog on any page *)

Section any_wiring.
Context {host : Host} {env : Env}.

(** Each listener keeps lock and visibility in agreement on its own,
    so the invariant does not depend on which listeners the start-up
    managed to register. *)
Lemma listen_consistent ev a l :
  modal_consistent (page a) -> modal_consistent (page (listen ev a l)).
Proof.
  intros Ha. destruct l, ev as [[t|key]|value| |f|i r]; cbn [listen]; try done.
  - rewrite run_listener_page. apply (modal_consistent_opened (set_log _ (page a))).
  - rewrite run_listener_page. apply modal_consistent_closed.
  - rewrite run_listener_page. unfold window_click.
    case_bool_decide; [apply modal_consistent_closed|done].
  - by apply (app_step_consistent (Ui (KeyDown key))).
  - by apply (app_step_consistent (Input value)).
  - by apply (app_step_consistent Reset).
  - by apply (app_step_consistent (Submit f)).
Qed.

(** C16. Along every sequence of events, on a page with any set of
    registered listeners, the scroll lock and the visibility of the
    dialog stay in agreement. *)
Theorem dispatch_consistent ls evs a :
  modal_consistent (page a) -> modal_consistent (page (run_on ls evs a)).
Proof.
  unfold run_on. revert a. induction evs as [|ev evs IH]; intros a Ha; simpl; [done|].
  apply IH. unfold dispatch.
  assert (forall l b, modal_consistent (page b) ->
            modal_consistent (page (fold_left (listen ev) l b))) as Hfold.
  { intros l. induction l as [|x l IHl]; intros b Hb; simpl; [done|].
    by apply IHl, listen_consistent. }
  destruct ev; try by apply Hfold.
  by apply (app_step_consistent (Deliver i r)).
Qed.

End any_wiring.

(** ** Witnesses *)

Section dispatch_witnesses.
#[local] Existing Instance v8_host.
#[local] Existing Instance demo_env.

Lemma dispatch_consistent_witness :
  modal_consistent
    (page (run_on (registered (without El_close full_doc))
             [Ui (Click AboutLink); Ui (KeyDown Escape); Submit bloch] (start blank_page))).
Proof. apply dispatch_consistent. reflexivity. Defined.

Lemma submit_needs_modal_witness :
  dispatch (registered (without El_aboutModal full_doc)) (Submit bloch) (start blank_page) =
  start blank_page.
Proof. apply submit_needs_modal. reflexivity. Defined.

Lemma modal_stuck_without_close_witness :
  let a := dispatch [On_aboutLink_click] (Ui (Click AboutLink)) (start blank_page) in
  shown (page (dispatch (registered (without El_close full_doc)) (Ui (KeyDown Escape)) a)) =
  true.
Proof. cbv zeta. by apply modal_stuck_without_close. Defined.

End dispatch_witnesses.
